(** * ASIMD instruction emitters of the ARM64 code emitter

    A shallow embedding of the vector-instruction emitters (the struct
    [EmitterOps] of namespace [ARMEmitter]): the mnemonic layer, the category
    encoders it delegates to, and the word sink [dc32].

    Conventions.
    - A [uint32_t] is a [Z] kept in [0, 2^32) by [u32]; [size_t] and
      [uint64_t] wrap with [u64], [uint8_t] with [u8].
    - An emitter runs in the monad [Emit]: it threads the instruction stream
      and stops at the first failed assertion, keeping the stream as it was
      at that point.
    - The template parameter [T] of the [IsQOrDRegister] emitters is the tag
      [RegKind]; a register is its index. *)

From Stdlib Require Import ZArith List String Ascii Bool Lia.
Import ListNotations.
Local Open Scope string_scope.
Local Open Scope list_scope.
Local Open Scope Z_scope.

(** ** Machine integers *)

Definition u8 (x : Z) : Z := x mod 2 ^ 8.
Definition u32 (x : Z) : Z := x mod 2 ^ 32.
Definition u64 (x : Z) : Z := x mod 2 ^ 64.

(** [x << n] computed on [uint32_t]. *)
Definition shl32 (x n : Z) : Z := u32 (Z.shiftl x n).

(** Binary literals, written as in the source: [bin "0000'1110'01"] is
    [0b0000'1110'01]; the digit separator is skipped. *)
Fixpoint bin_acc (s : string) (acc : Z) : Z :=
  match s with
  | EmptyString => acc
  | String c rest =>
      if Ascii.eqb c "0"%char then bin_acc rest (2 * acc)
      else if Ascii.eqb c "1"%char then bin_acc rest (2 * acc + 1)
      else bin_acc rest acc
  end.

Definition bin (s : string) : Z := bin_acc s 0.

(** The bit field of [w] that starts at bit [pos] and is [width] bits wide. *)
Definition field (w pos width : Z) : Z := Z.land (Z.shiftr w pos) (Z.ones width).

(** ** The emitter monad *)

(** How a call of an emitter ends. [Done]: it returned; [Abort]: an assertion
    failed, with its message; [Unlisted]: a helper of the emitter's header was
    handed a [SubRegSize] that is not one of its enumerants, for which the
    sources give no result.  Each carries the instruction stream at that
    point. *)
Inductive Outcome (A : Type) : Type :=
| Done (a : A) (code : list Z)
| Abort (msg : string) (code : list Z)
| Unlisted (code : list Z).

Arguments Done {A} a code.
Arguments Abort {A} msg code.
Arguments Unlisted {A} code.

Definition Emit (A : Type) : Type := list Z -> Outcome A.

Definition ret {A : Type} (a : A) : Emit A := fun code => Done a code.

Definition bind {A B : Type} (m : Emit A) (k : A -> Emit B) : Emit B :=
  fun code =>
    match m code with
    | Done a code' => k a code'
    | Abort msg code' => Abort msg code'
    | Unlisted code' => Unlisted code'
    end.

Notation "x <- m ;; k" := (bind m (fun x => k))
  (at level 61, m at next level, right associativity).
Notation "m ;; k" := (bind m (fun _ => k))
  (at level 61, right associativity).
Notation "' pat <- m ;; k" := (bind m (fun x => match x with pat => k end))
  (at level 61, pat pattern, m at next level, right associativity).

(** The output sink: append one 32-bit word to the instruction stream. *)
Definition dc32 (Instr : Z) : Emit unit := fun code => Done tt (code ++ [Instr]).

(** Modelled from the spec: the assertion macro [LOGMAN_THROW_A_FMT], whose
    definition is not part of the sources.  A failed predicate is a contract
    violation: the emitter halts at once with the diagnostic (section 7 of the
    specification). *)
Definition LOGMAN_THROW_A_FMT (pred : bool) (fmt : string) : Emit unit :=
  fun code => if pred then Done tt code else Abort fmt code.

(** Modelled from the spec: [LOGMAN_MSG_A_FMT] followed by [FEX_UNREACHABLE],
    neither defined in the sources: the unconditional contract violation. *)
Definition LOGMAN_MSG_A_FMT {A : Type} (fmt : string) : Emit A :=
  fun code => Abort fmt code.

(** ** Registers and element sizes *)

(** The two register types an [IsQOrDRegister] template is instantiated at. *)
Inductive RegKind : Type := QRegister | DRegister.

(** A vector register; [V()], [Q()] and [D()] change the view, not the index. *)
Record VRegister : Type := VReg { Idx : Z }.

(** [if constexpr (std::is_same_v<DRegister, T>) { ... }] *)
Definition if_DRegister (T : RegKind) (m : Emit unit) : Emit unit :=
  match T with
  | DRegister => m
  | QRegister => ret tt
  end.

(** [std::is_same_v<QRegister, T> ? 1U << 30 : 0] *)
Definition Qbit (T : RegKind) : Z :=
  match T with
  | QRegister => shl32 1 30
  | DRegister => 0
  end.

(** Modelled from the spec: the enumeration [SubRegSize], declared in the
    emitter's header, which is not part of the sources: the element widths
    8, 16, 32, 64 and 128 bits, in this order.  An enumeration value is its
    underlying [uint32_t], so [FEXCore::ToUnderlying] and the cast
    [SubRegSize(...)] are the identity. *)
Definition SubRegSize : Type := Z.
Definition i8Bit : SubRegSize := 0.
Definition i16Bit : SubRegSize := 1.
Definition i32Bit : SubRegSize := 2.
Definition i64Bit : SubRegSize := 3.
Definition i128Bit : SubRegSize := 4.

(** The enumerants, and those an integer vector element can have. *)
Definition SubRegSizes : list SubRegSize := [i8Bit; i16Bit; i32Bit; i64Bit; i128Bit].
Definition ElementSizes : list SubRegSize := [i8Bit; i16Bit; i32Bit; i64Bit].

(** Modelled from the spec: [SubRegSizeInBits], declared in the emitter's
    header: the width in bits of an enumerant.  For a value that is no
    enumerant the sources give no result: [Unlisted]. *)
Definition SubRegSizeInBits (size : SubRegSize) : Emit Z :=
  if size =? i8Bit then ret 8
  else if size =? i16Bit then ret 16
  else if size =? i32Bit then ret 32
  else if size =? i64Bit then ret 64
  else if size =? i128Bit then ret 128
  else fun code => Unlisted code.

(** Modelled from the spec: [IsStandardFloatSize], declared in the emitter's
    header: floating-point element sizes are 16, 32 and 64 bits. *)
Definition IsStandardFloatSize (size : SubRegSize) : bool :=
  (size =? i16Bit) || (size =? i32Bit) || (size =? i64Bit).

(** Modelled from the spec: the register-field helpers [Encode_rd],
    [Encode_rn] and [Encode_rm], declared in the emitter's header: a register
    index is placed at bit 0, 5 and 16, as the encoders that do not use the
    helpers write it ([rd.Idx()], [rn.Idx() << 5], [rm.Idx() << 16]). *)
Definition Encode_rd (rd : VRegister) : Z := u32 (Idx rd).
Definition Encode_rn (rn : VRegister) : Z := shl32 (Idx rn) 5.
Definition Encode_rm (rm : VRegister) : Z := shl32 (Idx rm) 16.

(** ** Category encoders *)

(** Advanced SIMD shift by immediate *)
Definition ASIMDShiftByImm (T : RegKind) (U immh immb opcode : Z)
    (rn rd : VRegister) : Emit unit :=
  let Q := Qbit T in
  LOGMAN_THROW_A_FMT (negb (immh =? 0)) "ImmH needs to not be zero" ;;
  let Instr := shl32 (bin "0000'1111'0000'0000'0000'01") 10 in
  let Instr := Z.lor Instr Q in
  let Instr := Z.lor Instr (shl32 U 29) in
  let Instr := Z.lor Instr (shl32 immh 19) in
  let Instr := Z.lor Instr (shl32 immb 16) in
  let Instr := Z.lor Instr (shl32 opcode 11) in
  let Instr := Z.lor Instr (Encode_rn rn) in
  let Instr := Z.lor Instr (Encode_rd rd) in
  dc32 Instr.

(** Advanced SIMD three same (FP16) *)
Definition ASIMDThreeSameFP16 (T : RegKind) (U a opcode : Z)
    (rm rn rd : VRegister) : Emit unit :=
  let Q := Qbit T in
  let Op := shl32 (bin "0000'1110'0100'0000'0000'01") 10 in
  let Instr := Op in
  let Instr := Z.lor Instr Q in
  let Instr := Z.lor Instr (shl32 U 29) in
  let Instr := Z.lor Instr (shl32 a 23) in
  let Instr := Z.lor Instr (shl32 (Idx rm) 16) in
  let Instr := Z.lor Instr (shl32 opcode 11) in
  let Instr := Z.lor Instr (shl32 (Idx rn) 5) in
  let Instr := Z.lor Instr (u32 (Idx rd)) in
  dc32 Instr.

(** Advanced SIMD three same *)
Definition ASIMD3Same (T : RegKind) (U : Z) (size : SubRegSize) (opcode : Z)
    (rd rn rm : VRegister) : Emit unit :=
  let Q := Qbit T in
  let Instr := shl32 (bin "0000'1110'0010'0000'0000'01") 10 in
  let Instr := Z.lor Instr Q in
  let Instr := Z.lor Instr (shl32 U 29) in
  let Instr := Z.lor Instr (shl32 size 22) in
  let Instr := Z.lor Instr (Encode_rm rm) in
  let Instr := Z.lor Instr (shl32 opcode 11) in
  let Instr := Z.lor Instr (Encode_rn rn) in
  let Instr := Z.lor Instr (Encode_rd rd) in
  dc32 Instr.

(** Advanced SIMD modified immediate *)
Definition ASIMDModifiedImm (T : RegKind) (op cmode o2 imm : Z)
    (rd : VRegister) : Emit unit :=
  let Q := Qbit T in
  let Instr := shl32 (bin "0000'1111'0000'0000'0000'01") 10 in
  let Instr := Z.lor Instr Q in
  let Instr := Z.lor Instr (shl32 op 29) in
  let Instr := Z.lor Instr (shl32 (Z.land (Z.shiftr imm 7) 1) 18) in
  let Instr := Z.lor Instr (shl32 (Z.land (Z.shiftr imm 6) 1) 17) in
  let Instr := Z.lor Instr (shl32 (Z.land (Z.shiftr imm 5) 1) 16) in
  let Instr := Z.lor Instr (shl32 cmode 12) in
  let Instr := Z.lor Instr (shl32 o2 11) in
  let Instr := Z.lor Instr (shl32 (Z.land (Z.shiftr imm 4) 1) 9) in
  let Instr := Z.lor Instr (shl32 (Z.land (Z.shiftr imm 3) 1) 8) in
  let Instr := Z.lor Instr (shl32 (Z.land (Z.shiftr imm 2) 1) 7) in
  let Instr := Z.lor Instr (shl32 (Z.land (Z.shiftr imm 1) 1) 6) in
  let Instr := Z.lor Instr (shl32 (Z.land (Z.shiftr imm 0) 1) 5) in
  let Instr := Z.lor Instr (Encode_rd rd) in
  dc32 Instr.

(** Advanced SIMD vector x indexed element.
    [M] and [Rm] might overlap. It's up to the instruction emitter itself to
    ensure there is no conflict. *)
Definition ASIMDVectorXIndexedElement (T : RegKind) (U L M opcode H : Z)
    (size : SubRegSize) (rm rn rd : VRegister) : Emit unit :=
  let Op := shl32 (bin "0000'1111'0000'0000'0000'00") 10 in
  let Q := Qbit T in
  let Instr := Op in
  let Instr := Z.lor Instr Q in
  let Instr := Z.lor Instr (shl32 U 29) in
  let Instr := Z.lor Instr (shl32 size 22) in
  let Instr := Z.lor Instr (shl32 L 21) in
  let Instr := Z.lor Instr (shl32 M 20) in
  let Instr := Z.lor Instr (shl32 (Idx rm) 16) in
  let Instr := Z.lor Instr (shl32 opcode 12) in
  let Instr := Z.lor Instr (shl32 H 11) in
  let Instr := Z.lor Instr (shl32 (Idx rn) 5) in
  let Instr := Z.lor Instr (u32 (Idx rd)) in
  dc32 Instr.

(** ** Category encoders, continued *)

(** Advanced SIMD two-register miscellaneous (FP16) *)
Definition ASIMDTwoRegMiscFP16 (T : RegKind) (U a opcode : Z)
    (rn rd : VRegister) : Emit unit :=
  let Q := Qbit T in
  let Op := shl32 (bin "0000'1110'0111'1000'0000'10") 10 in
  let Instr := Op in
  let Instr := Z.lor Instr Q in
  let Instr := Z.lor Instr (shl32 U 29) in
  let Instr := Z.lor Instr (shl32 a 23) in
  let Instr := Z.lor Instr (shl32 opcode 12) in
  let Instr := Z.lor Instr (shl32 (Idx rn) 5) in
  let Instr := Z.lor Instr (u32 (Idx rd)) in
  dc32 Instr.

(** Advanced SIMD three-register extension *)
Definition ASIMDThreeRegisterExt (T : RegKind) (U opcode : Z)
    (size : SubRegSize) (rm rn rd : VRegister) : Emit unit :=
  let Q := Qbit T in
  let Op := shl32 (bin "0000'1110'0000'0000'1000'01") 10 in
  let Instr := Op in
  let Instr := Z.lor Instr Q in
  let Instr := Z.lor Instr (shl32 U 29) in
  let Instr := Z.lor Instr (shl32 size 22) in
  let Instr := Z.lor Instr (shl32 (Idx rm) 16) in
  let Instr := Z.lor Instr (shl32 opcode 11) in
  let Instr := Z.lor Instr (shl32 (Idx rn) 5) in
  let Instr := Z.lor Instr (u32 (Idx rd)) in
  dc32 Instr.

(** Cryptographic AES *)
Definition CryptoAES (opcode : Z) (rd rn : VRegister) : Emit unit :=
  let Instr := shl32 (bin "0100'1110'0010'1000'0000'10") 10 in
  let Instr := Z.lor Instr (shl32 opcode 12) in
  let Instr := Z.lor Instr (Encode_rn rn) in
  let Instr := Z.lor Instr (Encode_rd rd) in
  dc32 Instr.

(** Cryptographic three-register SHA *)
Definition Crypto3RegSHA (opcode : Z) (rd rn rm : VRegister) : Emit unit :=
  let Instr := shl32 (bin "0101'1110'0000'0000'0000'00") 10 in
  let Instr := Z.lor Instr (Encode_rm rm) in
  let Instr := Z.lor Instr (shl32 opcode 12) in
  let Instr := Z.lor Instr (Encode_rn rn) in
  let Instr := Z.lor Instr (Encode_rd rd) in
  dc32 Instr.

(** Cryptographic two-register SHA *)
Definition Crypto2RegSHA (opcode : Z) (rd rn : VRegister) : Emit unit :=
  let Instr := shl32 (bin "0101'1110'0010'1000'0000'10") 10 in
  let Instr := Z.lor Instr (shl32 opcode 12) in
  let Instr := Z.lor Instr (Encode_rn rn) in
  let Instr := Z.lor Instr (Encode_rd rd) in
  dc32 Instr.

(** Advanced SIMD table lookup *)
Definition ASIMDTable (Q op2 len op : Z) (rd rn rm : VRegister) : Emit unit :=
  let Instr := shl32 (bin "0000'1110'000") 21 in
  let Instr := Z.lor Instr (shl32 Q 30) in
  let Instr := Z.lor Instr (shl32 op2 22) in
  let Instr := Z.lor Instr (Encode_rm rm) in
  let Instr := Z.lor Instr (shl32 len 13) in
  let Instr := Z.lor Instr (shl32 op 12) in
  let Instr := Z.lor Instr (Encode_rn rn) in
  let Instr := Z.lor Instr (Encode_rd rd) in
  dc32 Instr.

(** Advanced SIMD permute *)
Definition ASIMDPermute (Q : Z) (size : SubRegSize) (opcode : Z)
    (rd rn rm : VRegister) : Emit unit :=
  let Instr := shl32 (bin "0000'1110'0000'0000'0000'10") 10 in
  let Instr := Z.lor Instr (shl32 Q 30) in
  let Instr := Z.lor Instr (shl32 size 22) in
  let Instr := Z.lor Instr (Encode_rm rm) in
  let Instr := Z.lor Instr (shl32 opcode 12) in
  let Instr := Z.lor Instr (Encode_rn rn) in
  let Instr := Z.lor Instr (Encode_rd rd) in
  dc32 Instr.

(** Advanced SIMD extract *)
Definition ASIMDExtract (Q op2 imm4 : Z) (rd rn rm : VRegister) : Emit unit :=
  let Instr := shl32 (bin "0010'1110'000") 21 in
  let Instr := Z.lor Instr (shl32 Q 30) in
  let Instr := Z.lor Instr (shl32 op2 22) in
  let Instr := Z.lor Instr (Encode_rm rm) in
  let Instr := Z.lor Instr (shl32 imm4 11) in
  let Instr := Z.lor Instr (Encode_rn rn) in
  let Instr := Z.lor Instr (Encode_rd rd) in
  dc32 Instr.

(** Advanced SIMD two-register miscellaneous *)
Definition ASIMD2RegMisc (T : RegKind) (U : Z) (size : SubRegSize)
    (opcode : Z) (rd rn : VRegister) : Emit unit :=
  let Q := Qbit T in
  let Instr := shl32 (bin "0000'1110'0010'0000'0000'10") 10 in
  let Instr := Z.lor Instr Q in
  let Instr := Z.lor Instr (shl32 U 29) in
  let Instr := Z.lor Instr (shl32 size 22) in
  let Instr := Z.lor Instr (shl32 opcode 12) in
  let Instr := Z.lor Instr (Encode_rn rn) in
  let Instr := Z.lor Instr (Encode_rd rd) in
  dc32 Instr.

(** Advanced SIMD across lanes *)
Definition ASIMDAcrossLanes (T : RegKind) (U : Z) (size : SubRegSize)
    (opcode : Z) (rd rn : VRegister) : Emit unit :=
  let Q := Qbit T in
  let Instr := shl32 (bin "0000'1110'0011'0000'0000'10") 10 in
  let Instr := Z.lor Instr Q in
  let Instr := Z.lor Instr (shl32 U 29) in
  let Instr := Z.lor Instr (shl32 size 22) in
  let Instr := Z.lor Instr (shl32 opcode 12) in
  let Instr := Z.lor Instr (Encode_rn rn) in
  let Instr := Z.lor Instr (Encode_rd rd) in
  dc32 Instr.

(** Advanced SIMD three different *)
Definition ASIMD3Different (T : RegKind) (U opcode : Z) (size : SubRegSize)
    (rd rn rm : VRegister) : Emit unit :=
  let Q := Qbit T in
  let Instr := shl32 (bin "0000'1110'0010'0000'0000'00") 10 in
  let Instr := Z.lor Instr Q in
  let Instr := Z.lor Instr (shl32 U 29) in
  let Instr := Z.lor Instr (shl32 size 22) in
  let Instr := Z.lor Instr (Encode_rm rm) in
  let Instr := Z.lor Instr (shl32 opcode 12) in
  let Instr := Z.lor Instr (Encode_rn rn) in
  let Instr := Z.lor Instr (Encode_rd rd) in
  dc32 Instr.

(** Crypto3RegImm *)
Definition Crypto3RegImm (index opcode : Z) (rm rn rd : VRegister)
     : Emit unit :=
  LOGMAN_THROW_A_FMT (index <=? 3)
    "index ({}) must be within [0-3]" ;;
  let Instr := bin "1100'1110'0100'0000'1000'0000'0000'0000" in
  let Instr := Z.lor Instr (shl32 (Idx rm) 16) in
  let Instr := Z.lor Instr (shl32 index 12) in
  let Instr := Z.lor Instr (shl32 opcode 10) in
  let Instr := Z.lor Instr (shl32 (Idx rn) 5) in
  let Instr := Z.lor Instr (u32 (Idx rd)) in
  dc32 Instr.

(** Crypto3RegSHA512 *)
Definition Crypto3RegSHA512 (o opcode : Z) (rm rn rd : VRegister) : Emit unit :=
  let Instr := bin "1100'1110'0110'0000'1000'0000'0000'0000" in
  let Instr := Z.lor Instr (shl32 (Idx rm) 16) in
  let Instr := Z.lor Instr (shl32 o 14) in
  let Instr := Z.lor Instr (shl32 opcode 10) in
  let Instr := Z.lor Instr (shl32 (Idx rn) 5) in
  let Instr := Z.lor Instr (u32 (Idx rd)) in
  dc32 Instr.

(** Crypto4Register *)
Definition Crypto4Register (opcode : Z) (rm ra rn rd : VRegister) : Emit unit :=
  let Instr := bin "1100'1110'0000'0000'0000'0000'0000'0000" in
  let Instr := Z.lor Instr (shl32 opcode 21) in
  let Instr := Z.lor Instr (shl32 (Idx rm) 16) in
  let Instr := Z.lor Instr (shl32 (Idx ra) 10) in
  let Instr := Z.lor Instr (shl32 (Idx rn) 5) in
  let Instr := Z.lor Instr (u32 (Idx rd)) in
  dc32 Instr.

(** Crypto2RegSHA512 *)
Definition Crypto2RegSHA512 (opcode : Z) (rn rd : VRegister) : Emit unit :=
  let Instr := bin "1100'1110'1100'0000'1000'0000'0000'0000" in
  let Instr := Z.lor Instr (shl32 opcode 10) in
  let Instr := Z.lor Instr (shl32 (Idx rn) 5) in
  let Instr := Z.lor Instr (u32 (Idx rd)) in
  dc32 Instr.
(** ** Encoder layer: Advanced SIMD load and store of a single structure *)

Module LoadStore.

Section Registers.

(** The general-purpose register type and the helpers that place a register
    in its field are declared outside the sources. *)
Variable Register : Type.
Variable Encode_rt : VRegister -> Z.
Variable Encode_rn : Register -> Z.
Variable Encode_rm : Register -> Z.

Definition ASIMDLoadStore (Op L R opcode S size : Z) (rt : VRegister)
    (rn rm : Register) : Emit unit :=
  let Instr := Op in
  let Instr := Z.lor Instr (shl32 L 22) in
  let Instr := Z.lor Instr (shl32 R 21) in
  let Instr := Z.lor Instr (Encode_rm rm) in
  let Instr := Z.lor Instr (shl32 opcode 13) in
  let Instr := Z.lor Instr (shl32 S 12) in
  let Instr := Z.lor Instr (shl32 size 10) in
  let Instr := Z.lor Instr (Encode_rn rn) in
  let Instr := Z.lor Instr (Encode_rt rt) in
  dc32 Instr.

(** The overload of [ASIMDSTLD] that takes the index of a lane.  [size],
    [Load] and [Count] are its template parameters; [Q], [S] and [Size]
    start at zero and are set in the branch of the element size. *)
Definition ASIMDSTLD_Index (size : SubRegSize) (Load : bool) (Count : Z)
    (Op Opcode : Z) (rt : VRegister) (Index : Z) (rn rm : Register)
    : Emit unit :=
  LOGMAN_THROW_A_FMT
    (((size =? i8Bit) && (Index <? 16)) || ((size =? i16Bit) && (Index <? 8))
     || ((size =? i32Bit) && (Index <? 4)) || ((size =? i64Bit) && (Index <? 2)))
    "Invalid Index selected" ;;
  let selem := u32 (Count - 1) in
  let opcode := Z.lor Opcode (Z.shiftr selem 1) in
  let Q :=
    if size =? i8Bit then shl32 (Z.shiftr (Z.land Index (bin "1000")) 3) 30
    else if size =? i16Bit then
      shl32 (Z.shiftr (Z.land Index (bin "0100")) 2) 30
    else if size =? i32Bit then
      shl32 (Z.shiftr (Z.land Index (bin "0010")) 1) 30
    else if size =? i64Bit then shl32 (Z.land Index (bin "0001")) 30
    else 0 in
  let S :=
    if size =? i8Bit then Z.shiftr (Z.land Index (bin "0100")) 2
    else if size =? i16Bit then Z.shiftr (Z.land Index (bin "0010")) 1
    else if size =? i32Bit then Z.land Index (bin "0001")
    else 0 in
  let Size :=
    if size =? i8Bit then Z.land Index (bin "11")
    else if size =? i16Bit then shl32 (Z.land Index (bin "1")) 1
    else if size =? i32Bit then 0
    else if size =? i64Bit then 1
    else 0 in
  ASIMDLoadStore (Z.lor Op Q) (if Load then 1 else 0) (Z.land selem 1) opcode
    S Size rt rn rm.

End Registers.

End LoadStore.


(** ** Mnemonic layer: Advanced SIMD shift by immediate *)

Module ShiftByImm.

Definition sshr (T : RegKind) (size : SubRegSize)
    (rd rn : VRegister) (Shift : Z) : Emit unit :=
  if_DRegister T
    (LOGMAN_THROW_A_FMT (negb (size =? i64Bit))
       "Invalid element size with 64-bit {}") ;;
  SubregSizeInBits <- SubRegSizeInBits size ;;
  let InvertedShift := u32 (u64 (SubregSizeInBits * 2 - Shift)) in
  let immh := Z.shiftr InvertedShift 3 in
  let immb := Z.land InvertedShift (bin "111") in
  ASIMDShiftByImm T 0 immh immb (bin "00000") rn rd.

Definition ssra (T : RegKind) (size : SubRegSize)
    (rd rn : VRegister) (Shift : Z) : Emit unit :=
  if_DRegister T
    (LOGMAN_THROW_A_FMT (negb (size =? i64Bit))
       "Invalid element size with 64-bit {}") ;;
  SubregSizeInBits <- SubRegSizeInBits size ;;
  let InvertedShift := u32 (u64 (SubregSizeInBits * 2 - Shift)) in
  let immh := Z.shiftr InvertedShift 3 in
  let immb := Z.land InvertedShift (bin "111") in
  ASIMDShiftByImm T 0 immh immb (bin "00010") rn rd.

Definition srshr (T : RegKind) (size : SubRegSize)
    (rd rn : VRegister) (Shift : Z) : Emit unit :=
  if_DRegister T
    (LOGMAN_THROW_A_FMT (negb (size =? i64Bit))
       "Invalid element size with 64-bit {}") ;;
  SubregSizeInBits <- SubRegSizeInBits size ;;
  let InvertedShift := u32 (u64 (SubregSizeInBits * 2 - Shift)) in
  let immh := Z.shiftr InvertedShift 3 in
  let immb := Z.land InvertedShift (bin "111") in
  ASIMDShiftByImm T 0 immh immb (bin "00100") rn rd.

Definition srsra (T : RegKind) (size : SubRegSize)
    (rd rn : VRegister) (Shift : Z) : Emit unit :=
  if_DRegister T
    (LOGMAN_THROW_A_FMT (negb (size =? i64Bit))
       "Invalid element size with 64-bit {}") ;;
  SubregSizeInBits <- SubRegSizeInBits size ;;
  let InvertedShift := u32 (u64 (SubregSizeInBits * 2 - Shift)) in
  let immh := Z.shiftr InvertedShift 3 in
  let immb := Z.land InvertedShift (bin "111") in
  ASIMDShiftByImm T 0 immh immb (bin "00110") rn rd.

Definition shl (T : RegKind) (size : SubRegSize)
    (rd rn : VRegister) (Shift : Z) : Emit unit :=
  if_DRegister T
    (LOGMAN_THROW_A_FMT (negb (size =? i64Bit))
       "Invalid element size with 64-bit {}") ;;
  SubregSizeInBits <- SubRegSizeInBits size ;;
  let InvertedShift := u32 (u64 (SubregSizeInBits + Shift)) in
  let immh := Z.shiftr InvertedShift 3 in
  let immb := Z.land InvertedShift (bin "111") in
  ASIMDShiftByImm T 0 immh immb (bin "01010") rn rd.

Definition sqshl (T : RegKind) (size : SubRegSize)
    (rd rn : VRegister) (Shift : Z) : Emit unit :=
  if_DRegister T
    (LOGMAN_THROW_A_FMT (negb (size =? i64Bit))
       "Invalid element size with 64-bit {}") ;;
  SubregSizeInBits <- SubRegSizeInBits size ;;
  let InvertedShift := u32 (u64 (SubregSizeInBits + Shift)) in
  let immh := Z.shiftr InvertedShift 3 in
  let immb := Z.land InvertedShift (bin "111") in
  ASIMDShiftByImm T 0 immh immb (bin "01110") rn rd.

Definition shrn (size : SubRegSize)
    (rd rn : VRegister) (Shift : Z) : Emit unit :=
  LOGMAN_THROW_A_FMT (negb (size =? i64Bit))
    "Invalid element size with 64-bit {}" ;;
  SubregSizeInBits <- SubRegSizeInBits size ;;
  let InvertedShift := u32 (u64 (SubregSizeInBits * 2 - Shift)) in
  let immh := Z.shiftr InvertedShift 3 in
  let immb := Z.land InvertedShift (bin "111") in
  ASIMDShiftByImm DRegister 0 immh immb (bin "10000") rn rd.

Definition shrn2 (size : SubRegSize)
    (rd rn : VRegister) (Shift : Z) : Emit unit :=
  LOGMAN_THROW_A_FMT (negb (size =? i64Bit))
    "Invalid element size with 64-bit {}" ;;
  SubregSizeInBits <- SubRegSizeInBits size ;;
  let InvertedShift := u32 (u64 (SubregSizeInBits * 2 - Shift)) in
  let immh := Z.shiftr InvertedShift 3 in
  let immb := Z.land InvertedShift (bin "111") in
  ASIMDShiftByImm QRegister 0 immh immb (bin "10000") rn rd.

Definition rshrn (size : SubRegSize)
    (rd rn : VRegister) (Shift : Z) : Emit unit :=
  LOGMAN_THROW_A_FMT (negb (size =? i64Bit))
    "Invalid element size with 64-bit {}" ;;
  SubregSizeInBits <- SubRegSizeInBits size ;;
  let InvertedShift := u32 (u64 (SubregSizeInBits * 2 - Shift)) in
  let immh := Z.shiftr InvertedShift 3 in
  let immb := Z.land InvertedShift (bin "111") in
  ASIMDShiftByImm DRegister 0 immh immb (bin "10001") rn rd.

Definition rshrn2 (size : SubRegSize)
    (rd rn : VRegister) (Shift : Z) : Emit unit :=
  LOGMAN_THROW_A_FMT (negb (size =? i64Bit))
    "Invalid element size with 64-bit {}" ;;
  SubregSizeInBits <- SubRegSizeInBits size ;;
  let InvertedShift := u32 (u64 (SubregSizeInBits * 2 - Shift)) in
  let immh := Z.shiftr InvertedShift 3 in
  let immb := Z.land InvertedShift (bin "111") in
  ASIMDShiftByImm QRegister 0 immh immb (bin "10001") rn rd.

Definition sqshrn (size : SubRegSize)
    (rd rn : VRegister) (Shift : Z) : Emit unit :=
  LOGMAN_THROW_A_FMT (negb (size =? i64Bit))
    "Invalid element size with 64-bit {}" ;;
  SubregSizeInBits <- SubRegSizeInBits size ;;
  let InvertedShift := u32 (u64 (SubregSizeInBits * 2 - Shift)) in
  let immh := Z.shiftr InvertedShift 3 in
  let immb := Z.land InvertedShift (bin "111") in
  ASIMDShiftByImm DRegister 0 immh immb (bin "10010") rn rd.

Definition sqshrn2 (size : SubRegSize)
    (rd rn : VRegister) (Shift : Z) : Emit unit :=
  LOGMAN_THROW_A_FMT (negb (size =? i64Bit))
    "Invalid element size with 64-bit {}" ;;
  SubregSizeInBits <- SubRegSizeInBits size ;;
  let InvertedShift := u32 (u64 (SubregSizeInBits * 2 - Shift)) in
  let immh := Z.shiftr InvertedShift 3 in
  let immb := Z.land InvertedShift (bin "111") in
  ASIMDShiftByImm QRegister 0 immh immb (bin "10010") rn rd.

Definition sqrshrn (size : SubRegSize)
    (rd rn : VRegister) (Shift : Z) : Emit unit :=
  LOGMAN_THROW_A_FMT (negb (size =? i64Bit))
    "Invalid element size with 64-bit {}" ;;
  SubregSizeInBits <- SubRegSizeInBits size ;;
  let InvertedShift := u32 (u64 (SubregSizeInBits * 2 - Shift)) in
  let immh := Z.shiftr InvertedShift 3 in
  let immb := Z.land InvertedShift (bin "111") in
  ASIMDShiftByImm DRegister 0 immh immb (bin "10011") rn rd.

Definition sqrshrn2 (size : SubRegSize)
    (rd rn : VRegister) (Shift : Z) : Emit unit :=
  LOGMAN_THROW_A_FMT (negb (size =? i64Bit))
    "Invalid element size with 64-bit {}" ;;
  SubregSizeInBits <- SubRegSizeInBits size ;;
  let InvertedShift := u32 (u64 (SubregSizeInBits * 2 - Shift)) in
  let immh := Z.shiftr InvertedShift 3 in
  let immb := Z.land InvertedShift (bin "111") in
  ASIMDShiftByImm QRegister 0 immh immb (bin "10011") rn rd.

Definition sshll (size : SubRegSize)
    (rd rn : VRegister) (Shift : Z) : Emit unit :=
  LOGMAN_THROW_A_FMT (negb (size =? i8Bit)) "Invalid size" ;;
  let size := u32 (size - 1) in
  SubregSizeInBits <- SubRegSizeInBits size ;;
  LOGMAN_THROW_A_FMT (Shift <? SubregSizeInBits)
    "Shift must not be larger than incoming element size" ;;
  let InvertedShift := u32 (u64 (SubregSizeInBits + Shift)) in
  let immh := Z.shiftr InvertedShift 3 in
  let immb := Z.land InvertedShift (bin "111") in
  ASIMDShiftByImm DRegister 0 immh immb (bin "10100") rn rd.

Definition sshll2 (size : SubRegSize)
    (rd rn : VRegister) (Shift : Z) : Emit unit :=
  LOGMAN_THROW_A_FMT (negb (size =? i8Bit)) "Invalid size" ;;
  let size := u32 (size - 1) in
  SubregSizeInBits <- SubRegSizeInBits size ;;
  LOGMAN_THROW_A_FMT (Shift <? SubregSizeInBits)
    "Shift must not be larger than incoming element size" ;;
  let InvertedShift := u32 (u64 (SubregSizeInBits + Shift)) in
  let immh := Z.shiftr InvertedShift 3 in
  let immb := Z.land InvertedShift (bin "111") in
  ASIMDShiftByImm QRegister 0 immh immb (bin "10100") rn rd.

Definition sxtl (size : SubRegSize)
    (rd rn : VRegister) : Emit unit :=
  sshll size rd rn 0.

Definition sxtl2 (size : SubRegSize)
    (rd rn : VRegister) : Emit unit :=
  sshll2 size rd rn 0.

Definition scvtf (T : RegKind) (size : SubRegSize)
    (rd rn : VRegister) (FractionalBits : Z) : Emit unit :=
  LOGMAN_THROW_A_FMT (negb (size =? i8Bit)) "Invalid size" ;;
  if_DRegister T
    (LOGMAN_THROW_A_FMT (negb (size =? i64Bit))
       "Invalid element size with 64-bit {}") ;;
  SubregSizeInBits <- SubRegSizeInBits size ;;
  LOGMAN_THROW_A_FMT (FractionalBits <? SubregSizeInBits)
    "FractionalBits must not be larger than incoming element size" ;;
  let InvertedFractionalBits := u32 (u64 (SubregSizeInBits * 2 - FractionalBits)) in
  let immh := Z.shiftr InvertedFractionalBits 3 in
  let immb := Z.land InvertedFractionalBits (bin "111") in
  ASIMDShiftByImm T 0 immh immb (bin "11100") rn rd.

Definition fcvtzs (T : RegKind) (size : SubRegSize)
    (rd rn : VRegister) (FractionalBits : Z) : Emit unit :=
  LOGMAN_THROW_A_FMT (negb (size =? i8Bit)) "Invalid size" ;;
  if_DRegister T
    (LOGMAN_THROW_A_FMT (negb (size =? i64Bit))
       "Invalid element size with 64-bit {}") ;;
  SubregSizeInBits <- SubRegSizeInBits size ;;
  LOGMAN_THROW_A_FMT (FractionalBits <? SubregSizeInBits)
    "FractionalBits must not be larger than incoming element size" ;;
  let InvertedFractionalBits := u32 (u64 (SubregSizeInBits * 2 - FractionalBits)) in
  let immh := Z.shiftr InvertedFractionalBits 3 in
  let immb := Z.land InvertedFractionalBits (bin "111") in
  ASIMDShiftByImm T 0 immh immb (bin "11111") rn rd.

Definition ushr (T : RegKind) (size : SubRegSize)
    (rd rn : VRegister) (Shift : Z) : Emit unit :=
  if_DRegister T
    (LOGMAN_THROW_A_FMT (negb (size =? i64Bit))
       "Invalid element size with 64-bit {}") ;;
  SubregSizeInBits <- SubRegSizeInBits size ;;
  let InvertedShift := u32 (u64 (SubregSizeInBits * 2 - Shift)) in
  let immh := Z.shiftr InvertedShift 3 in
  let immb := Z.land InvertedShift (bin "111") in
  ASIMDShiftByImm T 1 immh immb (bin "00000") rn rd.

Definition usra (T : RegKind) (size : SubRegSize)
    (rd rn : VRegister) (Shift : Z) : Emit unit :=
  if_DRegister T
    (LOGMAN_THROW_A_FMT (negb (size =? i64Bit))
       "Invalid element size with 64-bit {}") ;;
  SubregSizeInBits <- SubRegSizeInBits size ;;
  let InvertedShift := u32 (u64 (SubregSizeInBits * 2 - Shift)) in
  let immh := Z.shiftr InvertedShift 3 in
  let immb := Z.land InvertedShift (bin "111") in
  ASIMDShiftByImm T 1 immh immb (bin "00010") rn rd.

Definition urshr (T : RegKind) (size : SubRegSize)
    (rd rn : VRegister) (Shift : Z) : Emit unit :=
  if_DRegister T
    (LOGMAN_THROW_A_FMT (negb (size =? i64Bit))
       "Invalid element size with 64-bit {}") ;;
  SubregSizeInBits <- SubRegSizeInBits size ;;
  let InvertedShift := u32 (u64 (SubregSizeInBits * 2 - Shift)) in
  let immh := Z.shiftr InvertedShift 3 in
  let immb := Z.land InvertedShift (bin "111") in
  ASIMDShiftByImm T 1 immh immb (bin "00100") rn rd.

Definition ursra (T : RegKind) (size : SubRegSize)
    (rd rn : VRegister) (Shift : Z) : Emit unit :=
  if_DRegister T
    (LOGMAN_THROW_A_FMT (negb (size =? i64Bit))
       "Invalid element size with 64-bit {}") ;;
  SubregSizeInBits <- SubRegSizeInBits size ;;
  let InvertedShift := u32 (u64 (SubregSizeInBits * 2 - Shift)) in
  let immh := Z.shiftr InvertedShift 3 in
  let immb := Z.land InvertedShift (bin "111") in
  ASIMDShiftByImm T 1 immh immb (bin "00110") rn rd.

Definition sri (T : RegKind) (size : SubRegSize)
    (rd rn : VRegister) (Shift : Z) : Emit unit :=
  if_DRegister T
    (LOGMAN_THROW_A_FMT (negb (size =? i64Bit))
       "Invalid element size with 64-bit {}") ;;
  SubregSizeInBits <- SubRegSizeInBits size ;;
  let InvertedShift := u32 (u64 (SubregSizeInBits * 2 - Shift)) in
  let immh := Z.shiftr InvertedShift 3 in
  let immb := Z.land InvertedShift (bin "111") in
  ASIMDShiftByImm T 1 immh immb (bin "01000") rn rd.

Definition sli (T : RegKind) (size : SubRegSize)
    (rd rn : VRegister) (Shift : Z) : Emit unit :=
  if_DRegister T
    (LOGMAN_THROW_A_FMT (negb (size =? i64Bit))
       "Invalid element size with 64-bit {}") ;;
  SubregSizeInBits <- SubRegSizeInBits size ;;
  let InvertedShift := u32 (u64 (SubregSizeInBits + Shift)) in
  let immh := Z.shiftr InvertedShift 3 in
  let immb := Z.land InvertedShift (bin "111") in
  ASIMDShiftByImm T 1 immh immb (bin "01010") rn rd.

Definition sqshlu (T : RegKind) (size : SubRegSize)
    (rd rn : VRegister) (Shift : Z) : Emit unit :=
  if_DRegister T
    (LOGMAN_THROW_A_FMT (negb (size =? i64Bit))
       "Invalid element size with 64-bit {}") ;;
  SubregSizeInBits <- SubRegSizeInBits size ;;
  let InvertedShift := u32 (u64 (SubregSizeInBits + Shift)) in
  let immh := Z.shiftr InvertedShift 3 in
  let immb := Z.land InvertedShift (bin "111") in
  ASIMDShiftByImm T 1 immh immb (bin "01100") rn rd.

Definition uqshl (T : RegKind) (size : SubRegSize)
    (rd rn : VRegister) (Shift : Z) : Emit unit :=
  if_DRegister T
    (LOGMAN_THROW_A_FMT (negb (size =? i64Bit))
       "Invalid element size with 64-bit {}") ;;
  SubregSizeInBits <- SubRegSizeInBits size ;;
  let InvertedShift := u32 (u64 (SubregSizeInBits + Shift)) in
  let immh := Z.shiftr InvertedShift 3 in
  let immb := Z.land InvertedShift (bin "111") in
  ASIMDShiftByImm T 1 immh immb (bin "01110") rn rd.

Definition sqshrun (size : SubRegSize)
    (rd rn : VRegister) (Shift : Z) : Emit unit :=
  LOGMAN_THROW_A_FMT (negb (size =? i64Bit))
    "Invalid element size with 64-bit {}" ;;
  SubregSizeInBits <- SubRegSizeInBits size ;;
  let InvertedShift := u32 (u64 (SubregSizeInBits * 2 - Shift)) in
  let immh := Z.shiftr InvertedShift 3 in
  let immb := Z.land InvertedShift (bin "111") in
  ASIMDShiftByImm DRegister 1 immh immb (bin "10000") rn rd.

Definition sqshrun2 (size : SubRegSize)
    (rd rn : VRegister) (Shift : Z) : Emit unit :=
  LOGMAN_THROW_A_FMT (negb (size =? i64Bit))
    "Invalid element size with 64-bit {}" ;;
  SubregSizeInBits <- SubRegSizeInBits size ;;
  let InvertedShift := u32 (u64 (SubregSizeInBits * 2 - Shift)) in
  let immh := Z.shiftr InvertedShift 3 in
  let immb := Z.land InvertedShift (bin "111") in
  ASIMDShiftByImm QRegister 1 immh immb (bin "10000") rn rd.

Definition sqrshrun (size : SubRegSize)
    (rd rn : VRegister) (Shift : Z) : Emit unit :=
  LOGMAN_THROW_A_FMT (negb (size =? i64Bit))
    "Invalid element size with 64-bit {}" ;;
  SubregSizeInBits <- SubRegSizeInBits size ;;
  let InvertedShift := u32 (u64 (SubregSizeInBits * 2 - Shift)) in
  let immh := Z.shiftr InvertedShift 3 in
  let immb := Z.land InvertedShift (bin "111") in
  ASIMDShiftByImm DRegister 1 immh immb (bin "10001") rn rd.

Definition sqrshrun2 (size : SubRegSize)
    (rd rn : VRegister) (Shift : Z) : Emit unit :=
  LOGMAN_THROW_A_FMT (negb (size =? i64Bit))
    "Invalid element size with 64-bit {}" ;;
  SubregSizeInBits <- SubRegSizeInBits size ;;
  let InvertedShift := u32 (u64 (SubregSizeInBits * 2 - Shift)) in
  let immh := Z.shiftr InvertedShift 3 in
  let immb := Z.land InvertedShift (bin "111") in
  ASIMDShiftByImm QRegister 1 immh immb (bin "10001") rn rd.

Definition uqshrn (size : SubRegSize)
    (rd rn : VRegister) (Shift : Z) : Emit unit :=
  SubregSizeInBits <- SubRegSizeInBits size ;;
  let InvertedShift := u32 (u64 (SubregSizeInBits * 2 - Shift)) in
  let immh := Z.shiftr InvertedShift 3 in
  let immb := Z.land InvertedShift (bin "111") in
  ASIMDShiftByImm DRegister 1 immh immb (bin "10010") rn rd.

Definition uqshrn2 (size : SubRegSize)
    (rd rn : VRegister) (Shift : Z) : Emit unit :=
  SubregSizeInBits <- SubRegSizeInBits size ;;
  let InvertedShift := u32 (u64 (SubregSizeInBits * 2 - Shift)) in
  let immh := Z.shiftr InvertedShift 3 in
  let immb := Z.land InvertedShift (bin "111") in
  ASIMDShiftByImm QRegister 1 immh immb (bin "10010") rn rd.

Definition uqrshrn (size : SubRegSize)
    (rd rn : VRegister) (Shift : Z) : Emit unit :=
  SubregSizeInBits <- SubRegSizeInBits size ;;
  let InvertedShift := u32 (u64 (SubregSizeInBits * 2 - Shift)) in
  let immh := Z.shiftr InvertedShift 3 in
  let immb := Z.land InvertedShift (bin "111") in
  ASIMDShiftByImm DRegister 1 immh immb (bin "10011") rn rd.

Definition uqrshrn2 (size : SubRegSize)
    (rd rn : VRegister) (Shift : Z) : Emit unit :=
  SubregSizeInBits <- SubRegSizeInBits size ;;
  let InvertedShift := u32 (u64 (SubregSizeInBits * 2 - Shift)) in
  let immh := Z.shiftr InvertedShift 3 in
  let immb := Z.land InvertedShift (bin "111") in
  ASIMDShiftByImm QRegister 1 immh immb (bin "10011") rn rd.

Definition ushll (size : SubRegSize)
    (rd rn : VRegister) (Shift : Z) : Emit unit :=
  let size := u32 (size - 1) in
  SubregSizeInBits <- SubRegSizeInBits size ;;
  let InvertedShift := u32 (u64 (SubregSizeInBits + Shift)) in
  let immh := Z.shiftr InvertedShift 3 in
  let immb := Z.land InvertedShift (bin "111") in
  ASIMDShiftByImm DRegister 1 immh immb (bin "10100") rn rd.

Definition ushll2 (size : SubRegSize)
    (rd rn : VRegister) (Shift : Z) : Emit unit :=
  let size := u32 (size - 1) in
  SubregSizeInBits <- SubRegSizeInBits size ;;
  let InvertedShift := u32 (u64 (SubregSizeInBits + Shift)) in
  let immh := Z.shiftr InvertedShift 3 in
  let immb := Z.land InvertedShift (bin "111") in
  ASIMDShiftByImm QRegister 1 immh immb (bin "10100") rn rd.

Definition uxtl (size : SubRegSize)
    (rd rn : VRegister) : Emit unit :=
  ushll size rd rn 0.

Definition uxtl2 (size : SubRegSize)
    (rd rn : VRegister) : Emit unit :=
  ushll2 size rd rn 0.

Definition ucvtf (T : RegKind) (size : SubRegSize)
    (rd rn : VRegister) (FractionalBits : Z) : Emit unit :=
  LOGMAN_THROW_A_FMT (negb (size =? i8Bit)) "Invalid size" ;;
  if_DRegister T
    (LOGMAN_THROW_A_FMT (negb (size =? i64Bit))
       "Invalid element size with 64-bit {}") ;;
  SubregSizeInBits <- SubRegSizeInBits size ;;
  LOGMAN_THROW_A_FMT (FractionalBits <? SubregSizeInBits)
    "FractionalBits must not be larger than incoming element size" ;;
  let InvertedFractionalBits := u32 (u64 (SubregSizeInBits * 2 - FractionalBits)) in
  let immh := Z.shiftr InvertedFractionalBits 3 in
  let immb := Z.land InvertedFractionalBits (bin "111") in
  ASIMDShiftByImm T 1 immh immb (bin "11100") rn rd.

Definition fcvtzu (T : RegKind) (size : SubRegSize)
    (rd rn : VRegister) (FractionalBits : Z) : Emit unit :=
  LOGMAN_THROW_A_FMT (negb (size =? i8Bit)) "Invalid size" ;;
  if_DRegister T
    (LOGMAN_THROW_A_FMT (negb (size =? i64Bit))
       "Invalid element size with 64-bit {}") ;;
  SubregSizeInBits <- SubRegSizeInBits size ;;
  LOGMAN_THROW_A_FMT (FractionalBits <? SubregSizeInBits)
    "FractionalBits must not be larger than incoming element size" ;;
  let InvertedFractionalBits := u32 (u64 (SubregSizeInBits * 2 - FractionalBits)) in
  let immh := Z.shiftr InvertedFractionalBits 3 in
  let immb := Z.land InvertedFractionalBits (bin "111") in
  ASIMDShiftByImm T 1 immh immb (bin "11111") rn rd.

(** The mnemonics of this class that take a shift amount (or a number of
    fractional bits), for statements about all of them. *)
Inductive Mnemonic : Type :=
| SSHR | SSRA | SRSHR | SRSRA | SHL | SQSHL | SHRN | SHRN2 | RSHRN | RSHRN2
| SQSHRN | SQSHRN2 | SQRSHRN | SQRSHRN2 | SSHLL | SSHLL2 | SCVTF | FCVTZS
| USHR | USRA | URSHR | URSRA | SRI | SLI | SQSHLU | UQSHL | SQSHRUN
| SQSHRUN2 | SQRSHRUN | SQRSHRUN2 | UQSHRN | UQSHRN2 | UQRSHRN | UQRSHRN2
| USHLL | USHLL2 | UCVTF | FCVTZU.

(** Calls the mnemonic; [T] is the register type of a templated emitter and
    is not looked at by one with fixed register types. *)
Definition emit (m : Mnemonic) (T : RegKind) (size : SubRegSize)
    (rd rn : VRegister) (Shift : Z) : Emit unit :=
  match m with
  | SSHR => sshr T size rd rn Shift
  | SSRA => ssra T size rd rn Shift
  | SRSHR => srshr T size rd rn Shift
  | SRSRA => srsra T size rd rn Shift
  | SHL => shl T size rd rn Shift
  | SQSHL => sqshl T size rd rn Shift
  | SHRN => shrn size rd rn Shift
  | SHRN2 => shrn2 size rd rn Shift
  | RSHRN => rshrn size rd rn Shift
  | RSHRN2 => rshrn2 size rd rn Shift
  | SQSHRN => sqshrn size rd rn Shift
  | SQSHRN2 => sqshrn2 size rd rn Shift
  | SQRSHRN => sqrshrn size rd rn Shift
  | SQRSHRN2 => sqrshrn2 size rd rn Shift
  | SSHLL => sshll size rd rn Shift
  | SSHLL2 => sshll2 size rd rn Shift
  | SCVTF => scvtf T size rd rn Shift
  | FCVTZS => fcvtzs T size rd rn Shift
  | USHR => ushr T size rd rn Shift
  | USRA => usra T size rd rn Shift
  | URSHR => urshr T size rd rn Shift
  | URSRA => ursra T size rd rn Shift
  | SRI => sri T size rd rn Shift
  | SLI => sli T size rd rn Shift
  | SQSHLU => sqshlu T size rd rn Shift
  | UQSHL => uqshl T size rd rn Shift
  | SQSHRUN => sqshrun size rd rn Shift
  | SQSHRUN2 => sqshrun2 size rd rn Shift
  | SQRSHRUN => sqrshrun size rd rn Shift
  | SQRSHRUN2 => sqrshrun2 size rd rn Shift
  | UQSHRN => uqshrn size rd rn Shift
  | UQSHRN2 => uqshrn2 size rd rn Shift
  | UQRSHRN => uqrshrn size rd rn Shift
  | UQRSHRN2 => uqrshrn2 size rd rn Shift
  | USHLL => ushll size rd rn Shift
  | USHLL2 => ushll2 size rd rn Shift
  | UCVTF => ucvtf T size rd rn Shift
  | FCVTZU => fcvtzu T size rd rn Shift
  end.

End ShiftByImm.

(** ** Mnemonic layer: Advanced SIMD three same *)

Module ThreeSame.

Definition fmaxnm (T : RegKind) (size : SubRegSize) (rd rn rm : VRegister)
    : Emit unit :=
  if_DRegister T
    (LOGMAN_THROW_A_FMT (negb (size =? i64Bit))
       "Invalid element size with 64-bit {}") ;;
  LOGMAN_THROW_A_FMT (IsStandardFloatSize size)
    "Only 16/32/64-bit subregsize supported" ;;
  if size =? i16Bit then
    ASIMDThreeSameFP16 T 0 0 (bin "000") rm rn rd
  else
    let ConvertedSize := if size =? i64Bit then i16Bit else i8Bit in
    ASIMD3Same T 0 ConvertedSize (bin "11000") rd rn rm.

Definition fmla (T : RegKind) (size : SubRegSize) (rd rn rm : VRegister)
    : Emit unit :=
  if_DRegister T
    (LOGMAN_THROW_A_FMT (negb (size =? i64Bit))
       "Invalid element size with 64-bit {}") ;;
  LOGMAN_THROW_A_FMT (IsStandardFloatSize size)
    "Only 16/32/64-bit subregsize supported" ;;
  if size =? i16Bit then
    ASIMDThreeSameFP16 T 0 0 (bin "001") rm rn rd
  else
    let ConvertedSize := if size =? i64Bit then i16Bit else i8Bit in
    ASIMD3Same T 0 ConvertedSize (bin "11001") rd rn rm.

Definition fadd (T : RegKind) (size : SubRegSize) (rd rn rm : VRegister)
    : Emit unit :=
  if_DRegister T
    (LOGMAN_THROW_A_FMT (negb (size =? i64Bit))
       "Invalid element size with 64-bit {}") ;;
  LOGMAN_THROW_A_FMT (IsStandardFloatSize size)
    "Only 16/32/64-bit subregsize supported" ;;
  if size =? i16Bit then
    ASIMDThreeSameFP16 T 0 0 (bin "010") rm rn rd
  else
    let ConvertedSize := if size =? i64Bit then i16Bit else i8Bit in
    ASIMD3Same T 0 ConvertedSize (bin "11010") rd rn rm.

Definition fmulx (T : RegKind) (size : SubRegSize) (rd rn rm : VRegister)
    : Emit unit :=
  if_DRegister T
    (LOGMAN_THROW_A_FMT (negb (size =? i64Bit))
       "Invalid element size with 64-bit {}") ;;
  LOGMAN_THROW_A_FMT (IsStandardFloatSize size)
    "Only 16/32/64-bit subregsize supported" ;;
  if size =? i16Bit then
    ASIMDThreeSameFP16 T 0 0 (bin "011") rm rn rd
  else
    let ConvertedSize := if size =? i64Bit then i16Bit else i8Bit in
    ASIMD3Same T 0 ConvertedSize (bin "11011") rd rn rm.

Definition fcmeq (T : RegKind) (size : SubRegSize) (rd rn rm : VRegister)
    : Emit unit :=
  if_DRegister T
    (LOGMAN_THROW_A_FMT (negb (size =? i64Bit))
       "Invalid element size with 64-bit {}") ;;
  LOGMAN_THROW_A_FMT (IsStandardFloatSize size)
    "Only 16/32/64-bit subregsize supported" ;;
  if size =? i16Bit then
    ASIMDThreeSameFP16 T 0 0 (bin "100") rm rn rd
  else
    let ConvertedSize := if size =? i64Bit then i16Bit else i8Bit in
    ASIMD3Same T 0 ConvertedSize (bin "11100") rd rn rm.

Definition fmax (T : RegKind) (size : SubRegSize) (rd rn rm : VRegister)
    : Emit unit :=
  if_DRegister T
    (LOGMAN_THROW_A_FMT (negb (size =? i64Bit))
       "Invalid element size with 64-bit {}") ;;
  LOGMAN_THROW_A_FMT (IsStandardFloatSize size)
    "Only 16/32/64-bit subregsize supported" ;;
  if size =? i16Bit then
    ASIMDThreeSameFP16 T 0 0 (bin "110") rm rn rd
  else
    let ConvertedSize := if size =? i64Bit then i16Bit else i8Bit in
    ASIMD3Same T 0 ConvertedSize (bin "11110") rd rn rm.

Definition frecps (T : RegKind) (size : SubRegSize) (rd rn rm : VRegister)
    : Emit unit :=
  if_DRegister T
    (LOGMAN_THROW_A_FMT (negb (size =? i64Bit))
       "Invalid element size with 64-bit {}") ;;
  LOGMAN_THROW_A_FMT (IsStandardFloatSize size)
    "Only 16/32/64-bit subregsize supported" ;;
  if size =? i16Bit then
    ASIMDThreeSameFP16 T 0 0 (bin "111") rm rn rd
  else
    let ConvertedSize := if size =? i64Bit then i16Bit else i8Bit in
    ASIMD3Same T 0 ConvertedSize (bin "11111") rd rn rm.

Definition fminnm (T : RegKind) (size : SubRegSize) (rd rn rm : VRegister)
    : Emit unit :=
  if_DRegister T
    (LOGMAN_THROW_A_FMT (negb (size =? i64Bit))
       "Invalid element size with 64-bit {}") ;;
  LOGMAN_THROW_A_FMT (IsStandardFloatSize size)
    "Only 16/32/64-bit subregsize supported" ;;
  if size =? i16Bit then
    ASIMDThreeSameFP16 T 0 1 (bin "000") rm rn rd
  else
    ASIMD3Same T 0 size (bin "11000") rd rn rm.

Definition fmls (T : RegKind) (size : SubRegSize) (rd rn rm : VRegister)
    : Emit unit :=
  if_DRegister T
    (LOGMAN_THROW_A_FMT (negb (size =? i64Bit))
       "Invalid element size with 64-bit {}") ;;
  LOGMAN_THROW_A_FMT (IsStandardFloatSize size)
    "Only 16/32/64-bit subregsize supported" ;;
  if size =? i16Bit then
    ASIMDThreeSameFP16 T 0 1 (bin "001") rm rn rd
  else
    ASIMD3Same T 0 size (bin "11001") rd rn rm.

Definition fsub (T : RegKind) (size : SubRegSize) (rd rn rm : VRegister)
    : Emit unit :=
  if_DRegister T
    (LOGMAN_THROW_A_FMT (negb (size =? i64Bit))
       "Invalid element size with 64-bit {}") ;;
  LOGMAN_THROW_A_FMT (IsStandardFloatSize size)
    "Only 16/32/64-bit subregsize supported" ;;
  if size =? i16Bit then
    ASIMDThreeSameFP16 T 0 1 (bin "010") rm rn rd
  else
    ASIMD3Same T 0 size (bin "11010") rd rn rm.

Definition fmin (T : RegKind) (size : SubRegSize) (rd rn rm : VRegister)
    : Emit unit :=
  if_DRegister T
    (LOGMAN_THROW_A_FMT (negb (size =? i64Bit))
       "Invalid element size with 64-bit {}") ;;
  LOGMAN_THROW_A_FMT (IsStandardFloatSize size)
    "Only 16/32/64-bit subregsize supported" ;;
  if size =? i16Bit then
    ASIMDThreeSameFP16 T 0 1 (bin "110") rm rn rd
  else
    ASIMD3Same T 0 size (bin "11110") rd rn rm.

Definition frsqrts (T : RegKind) (size : SubRegSize) (rd rn rm : VRegister)
    : Emit unit :=
  if_DRegister T
    (LOGMAN_THROW_A_FMT (negb (size =? i64Bit))
       "Invalid element size with 64-bit {}") ;;
  LOGMAN_THROW_A_FMT (IsStandardFloatSize size)
    "Only 16/32/64-bit subregsize supported" ;;
  if size =? i16Bit then
    ASIMDThreeSameFP16 T 0 1 (bin "111") rm rn rd
  else
    ASIMD3Same T 0 size (bin "11111") rd rn rm.

Definition orr (T : RegKind) (rd rn rm : VRegister) : Emit unit :=
  ASIMD3Same T 0 i32Bit (bin "00011") rd rn rm.

Definition mov (T : RegKind) (rd rn : VRegister) : Emit unit :=
  orr T rd rn rn.

Definition fmaxnmp (T : RegKind) (size : SubRegSize) (rd rn rm : VRegister)
    : Emit unit :=
  if_DRegister T
    (LOGMAN_THROW_A_FMT (negb (size =? i64Bit))
       "Invalid element size with 64-bit {}") ;;
  LOGMAN_THROW_A_FMT (IsStandardFloatSize size)
    "Only 16/32/64-bit subregsize supported" ;;
  if size =? i16Bit then
    ASIMDThreeSameFP16 T 1 0 (bin "000") rm rn rd
  else
    let ConvertedSize := if size =? i64Bit then i16Bit else i8Bit in
    ASIMD3Same T 1 ConvertedSize (bin "11000") rd rn rm.

Definition faddp (T : RegKind) (size : SubRegSize) (rd rn rm : VRegister)
    : Emit unit :=
  if_DRegister T
    (LOGMAN_THROW_A_FMT (negb (size =? i64Bit))
       "Invalid element size with 64-bit {}") ;;
  LOGMAN_THROW_A_FMT (IsStandardFloatSize size)
    "Only 16/32/64-bit subregsize supported" ;;
  if size =? i16Bit then
    ASIMDThreeSameFP16 T 1 0 (bin "010") rm rn rd
  else
    let ConvertedSize := if size =? i64Bit then i16Bit else i8Bit in
    ASIMD3Same T 1 ConvertedSize (bin "11010") rd rn rm.

Definition fmul (T : RegKind) (size : SubRegSize) (rd rn rm : VRegister)
    : Emit unit :=
  if_DRegister T
    (LOGMAN_THROW_A_FMT (negb (size =? i64Bit))
       "Invalid element size with 64-bit {}") ;;
  LOGMAN_THROW_A_FMT (IsStandardFloatSize size)
    "Only 16/32/64-bit subregsize supported" ;;
  if size =? i16Bit then
    ASIMDThreeSameFP16 T 1 0 (bin "011") rm rn rd
  else
    let ConvertedSize := if size =? i64Bit then i16Bit else i8Bit in
    ASIMD3Same T 1 ConvertedSize (bin "11011") rd rn rm.

Definition fcmge (T : RegKind) (size : SubRegSize) (rd rn rm : VRegister)
    : Emit unit :=
  if_DRegister T
    (LOGMAN_THROW_A_FMT (negb (size =? i64Bit))
       "Invalid element size with 64-bit {}") ;;
  LOGMAN_THROW_A_FMT (IsStandardFloatSize size)
    "Only 16/32/64-bit subregsize supported" ;;
  if size =? i16Bit then
    ASIMDThreeSameFP16 T 1 0 (bin "100") rm rn rd
  else
    let ConvertedSize := if size =? i64Bit then i16Bit else i8Bit in
    ASIMD3Same T 1 ConvertedSize (bin "11100") rd rn rm.

Definition facge (T : RegKind) (size : SubRegSize) (rd rn rm : VRegister)
    : Emit unit :=
  if_DRegister T
    (LOGMAN_THROW_A_FMT (negb (size =? i64Bit))
       "Invalid element size with 64-bit {}") ;;
  LOGMAN_THROW_A_FMT (IsStandardFloatSize size)
    "Only 16/32/64-bit subregsize supported" ;;
  if size =? i16Bit then
    ASIMDThreeSameFP16 T 1 0 (bin "101") rm rn rd
  else
    let ConvertedSize := if size =? i64Bit then i16Bit else i8Bit in
    ASIMD3Same T 1 ConvertedSize (bin "11101") rd rn rm.

Definition fmaxp (T : RegKind) (size : SubRegSize) (rd rn rm : VRegister)
    : Emit unit :=
  if_DRegister T
    (LOGMAN_THROW_A_FMT (negb (size =? i64Bit))
       "Invalid element size with 64-bit {}") ;;
  LOGMAN_THROW_A_FMT (IsStandardFloatSize size)
    "Only 16/32/64-bit subregsize supported" ;;
  if size =? i16Bit then
    ASIMDThreeSameFP16 T 1 0 (bin "110") rm rn rd
  else
    let ConvertedSize := if size =? i64Bit then i16Bit else i8Bit in
    ASIMD3Same T 1 ConvertedSize (bin "11110") rd rn rm.

Definition fdiv (T : RegKind) (size : SubRegSize) (rd rn rm : VRegister)
    : Emit unit :=
  if_DRegister T
    (LOGMAN_THROW_A_FMT (negb (size =? i64Bit))
       "Invalid element size with 64-bit {}") ;;
  LOGMAN_THROW_A_FMT (IsStandardFloatSize size)
    "Only 16/32/64-bit subregsize supported" ;;
  if size =? i16Bit then
    ASIMDThreeSameFP16 T 1 0 (bin "111") rm rn rd
  else
    let ConvertedSize := if size =? i64Bit then i16Bit else i8Bit in
    ASIMD3Same T 1 ConvertedSize (bin "11111") rd rn rm.

Definition fminnmp (T : RegKind) (size : SubRegSize) (rd rn rm : VRegister)
    : Emit unit :=
  if_DRegister T
    (LOGMAN_THROW_A_FMT (negb (size =? i64Bit))
       "Invalid element size with 64-bit {}") ;;
  LOGMAN_THROW_A_FMT (IsStandardFloatSize size)
    "Only 16/32/64-bit subregsize supported" ;;
  if size =? i16Bit then
    ASIMDThreeSameFP16 T 1 1 (bin "000") rm rn rd
  else
    ASIMD3Same T 1 size (bin "11000") rd rn rm.

Definition fabd (T : RegKind) (size : SubRegSize) (rd rn rm : VRegister)
    : Emit unit :=
  if_DRegister T
    (LOGMAN_THROW_A_FMT (negb (size =? i64Bit))
       "Invalid element size with 64-bit {}") ;;
  LOGMAN_THROW_A_FMT (IsStandardFloatSize size)
    "Only 16/32/64-bit subregsize supported" ;;
  if size =? i16Bit then
    ASIMDThreeSameFP16 T 1 1 (bin "010") rm rn rd
  else
    ASIMD3Same T 1 size (bin "11010") rd rn rm.

Definition fcmgt (T : RegKind) (size : SubRegSize) (rd rn rm : VRegister)
    : Emit unit :=
  if_DRegister T
    (LOGMAN_THROW_A_FMT (negb (size =? i64Bit))
       "Invalid element size with 64-bit {}") ;;
  LOGMAN_THROW_A_FMT (IsStandardFloatSize size)
    "Only 16/32/64-bit subregsize supported" ;;
  if size =? i16Bit then
    ASIMDThreeSameFP16 T 1 1 (bin "100") rm rn rd
  else
    ASIMD3Same T 1 size (bin "11100") rd rn rm.

Definition facgt (T : RegKind) (size : SubRegSize) (rd rn rm : VRegister)
    : Emit unit :=
  if_DRegister T
    (LOGMAN_THROW_A_FMT (negb (size =? i64Bit))
       "Invalid element size with 64-bit {}") ;;
  LOGMAN_THROW_A_FMT (IsStandardFloatSize size)
    "Only 16/32/64-bit subregsize supported" ;;
  if size =? i16Bit then
    ASIMDThreeSameFP16 T 1 1 (bin "101") rm rn rd
  else
    ASIMD3Same T 1 size (bin "11101") rd rn rm.

Definition fminp (T : RegKind) (size : SubRegSize) (rd rn rm : VRegister)
    : Emit unit :=
  if_DRegister T
    (LOGMAN_THROW_A_FMT (negb (size =? i64Bit))
       "Invalid element size with 64-bit {}") ;;
  LOGMAN_THROW_A_FMT (IsStandardFloatSize size)
    "Only 16/32/64-bit subregsize supported" ;;
  if size =? i16Bit then
    ASIMDThreeSameFP16 T 1 1 (bin "110") rm rn rd
  else
    ASIMD3Same T 1 size (bin "11110") rd rn rm.

(** The floating-point mnemonics of this class, for statements about all of
    them. *)
Inductive FloatMnemonic : Type :=
| FMAXNM | FMLA | FADD | FMULX | FCMEQ | FMAX | FRECPS | FMINNM | FMLS
| FSUB | FMIN | FRSQRTS | FMAXNMP | FADDP | FMUL | FCMGE | FACGE | FMAXP
| FDIV | FMINNMP | FABD | FCMGT | FACGT | FMINP.

Definition emit (m : FloatMnemonic) (T : RegKind) (size : SubRegSize)
    (rd rn rm : VRegister) : Emit unit :=
  match m with
  | FMAXNM => fmaxnm T size rd rn rm
  | FMLA => fmla T size rd rn rm
  | FADD => fadd T size rd rn rm
  | FMULX => fmulx T size rd rn rm
  | FCMEQ => fcmeq T size rd rn rm
  | FMAX => fmax T size rd rn rm
  | FRECPS => frecps T size rd rn rm
  | FMINNM => fminnm T size rd rn rm
  | FMLS => fmls T size rd rn rm
  | FSUB => fsub T size rd rn rm
  | FMIN => fmin T size rd rn rm
  | FRSQRTS => frsqrts T size rd rn rm
  | FMAXNMP => fmaxnmp T size rd rn rm
  | FADDP => faddp T size rd rn rm
  | FMUL => fmul T size rd rn rm
  | FCMGE => fcmge T size rd rn rm
  | FACGE => facge T size rd rn rm
  | FMAXP => fmaxp T size rd rn rm
  | FDIV => fdiv T size rd rn rm
  | FMINNMP => fminnmp T size rd rn rm
  | FABD => fabd T size rd rn rm
  | FCMGT => fcmgt T size rd rn rm
  | FACGT => facgt T size rd rn rm
  | FMINP => fminp T size rd rn rm
  end.

End ThreeSame.

(** ** Mnemonic layer: Advanced SIMD modified immediate *)

Module ModifiedImm.

Section FloatImmediate.

(** The IEEE754 value handed to [fmov] and the numeric encoder that turns
    it into the 8-bit immediate are external collaborators. *)
Variable float : Type.
Variable FP32ToImm8 : float -> Emit Z.
Variable FP64ToImm8 : float -> Emit Z.

Definition fmov (T : RegKind) (size : SubRegSize) (rd : VRegister)
    (Value : float) : Emit unit :=
  if_DRegister T
    (LOGMAN_THROW_A_FMT (negb (size =? i64Bit))
       "Invalid element size with 64-bit {}") ;;
  LOGMAN_THROW_A_FMT (IsStandardFloatSize size) "Unsupported fmov size" ;;
  let cmode := bin "1111" in
  '(op, o2, Imm) <-
    (if size =? i16Bit
     then LOGMAN_MSG_A_FMT "Unsupported"
     else if size =? i32Bit
     then (Imm <- FP32ToImm8 Value ;; ret (0, 0, Imm))
     else if size =? i64Bit
     then (Imm <- FP64ToImm8 Value ;; ret (1, 0, Imm))
     else LOGMAN_MSG_A_FMT "Invalid subregsize") ;;
  ASIMDModifiedImm T op cmode o2 Imm rd.

End FloatImmediate.

(** The loop of the 64-bit case of [movi]: [n] iterations are left, [i] is
    the loop counter. *)
Fixpoint movi_loop (n : nat) (i : Z) (Imm NewImm : Z) : Emit Z :=
  match n with
  | O => ret NewImm
  | S n' =>
      let BitOffset := i * 8 in
      let Section := u8 (Z.land (Z.shiftr Imm BitOffset) 0xFF) in
      LOGMAN_THROW_A_FMT ((Section =? 0) || (Section =? 0xFF))
        "Invalid 64-bit constant encoding" ;;
      let NewImm :=
        if Section =? 0xFF then u8 (Z.lor NewImm (Z.shiftl 1 i)) else NewImm in
      movi_loop n' (i + 1) Imm NewImm
  end.

(** [(Imm & ~0xFF) == 0] on [uint64_t] *)
Definition fits_8bit (Imm : Z) : bool :=
  Z.land Imm (u64 (Z.lnot 0xFF)) =? 0.

Definition movi (T : RegKind) (size : SubRegSize) (rd : VRegister)
    (Imm : Z) (Shift : Z) : Emit unit :=
  LOGMAN_THROW_A_FMT
    ((size =? i8Bit) || (size =? i16Bit) || (size =? i32Bit) || (size =? i64Bit))
    "Unsupported movi size" ;;
  '(cmode, op, Imm) <-
    (if size =? i8Bit then
       LOGMAN_THROW_A_FMT (Shift =? 0) "8-bit can't have shift" ;;
       LOGMAN_THROW_A_FMT (fits_8bit Imm) "Larger than 8-bit Imm not supported" ;;
       ret (bin "1110", 0, Imm)
     else if size =? i16Bit then
       LOGMAN_THROW_A_FMT ((Shift =? 0) || (Shift =? 8)) "Shift by invalid amount" ;;
       LOGMAN_THROW_A_FMT (fits_8bit Imm) "Larger than 8-bit Imm not supported" ;;
       ret (Z.lor (bin "1000") (if negb (Shift =? 0) then bin "10" else bin "00"),
            0, Imm)
     else if size =? i32Bit then
       LOGMAN_THROW_A_FMT
         ((Shift =? 0) || (Shift =? 8) || (Shift =? 16) || (Shift =? 24))
         "Shift by invalid amount" ;;
       LOGMAN_THROW_A_FMT (fits_8bit Imm) "Larger than 8-bit Imm not supported" ;;
       ret (Z.lor (bin "0000") (Z.shiftl (Z.shiftr Shift 3) 1), 0, Imm)
     else if size =? i64Bit then
       LOGMAN_THROW_A_FMT (Shift =? 0) "64-bit can't have shift" ;;
       NewImm <- movi_loop 8 0 Imm 0 ;;
       ret (bin "1110", 1, NewImm)
     else LOGMAN_MSG_A_FMT "Invalid subregsize") ;;
  ASIMDModifiedImm T op cmode 0 (u32 Imm) rd.

End ModifiedImm.

(** ** Mnemonic layer: Advanced SIMD vector x indexed element *)

Module IndexedElement.

(** [std::is_same_v<QRegister, T>] *)
Definition is_QRegister (T : RegKind) : bool :=
  match T with
  | QRegister => true
  | DRegister => false
  end.

Definition smlal (size : SubRegSize) (rd rn rm : VRegister)
    (Index : Z) : Emit unit :=
  LOGMAN_THROW_A_FMT ((size =? i32Bit) || (size =? i64Bit))
    "Invalid destination size" ;;
  (if size =? i32Bit
   then LOGMAN_THROW_A_FMT (Idx rm <? 16)
          "Rm can't be v16-v31 with half source size"
   else ret tt) ;;
  let EncodedSubRegSize := u32 (size - 1) in
  SizeInBits <- SubRegSizeInBits EncodedSubRegSize ;;
  LOGMAN_THROW_A_FMT (Index <? SizeInBits)
    "Index must be less than the source register size" ;;
  '(H, L, M) <-
    (if size =? i32Bit
     then ret (Z.land (Z.shiftr Index 2) 1,
               Z.land (Z.shiftr Index 1) 1,
               Z.land (Z.shiftr Index 0) 1)
     else ret (Z.land (Z.shiftr Index 1) 1,
               Z.land (Z.shiftr Index 0) 1,
               0)) ;;
  ASIMDVectorXIndexedElement DRegister (bin "0") L M (bin "0010") H
    EncodedSubRegSize rm rn rd.

Definition smlal2 (size : SubRegSize) (rd rn rm : VRegister)
    (Index : Z) : Emit unit :=
  LOGMAN_THROW_A_FMT ((size =? i32Bit) || (size =? i64Bit))
    "Invalid destination size" ;;
  (if size =? i32Bit
   then LOGMAN_THROW_A_FMT (Idx rm <? 16)
          "Rm can't be v16-v31 with half source size"
   else ret tt) ;;
  let EncodedSubRegSize := u32 (size - 1) in
  SizeInBits <- SubRegSizeInBits EncodedSubRegSize ;;
  LOGMAN_THROW_A_FMT (Index <? SizeInBits)
    "Index must be less than the source register size" ;;
  '(H, L, M) <-
    (if size =? i32Bit
     then ret (Z.land (Z.shiftr Index 2) 1,
               Z.land (Z.shiftr Index 1) 1,
               Z.land (Z.shiftr Index 0) 1)
     else ret (Z.land (Z.shiftr Index 1) 1,
               Z.land (Z.shiftr Index 0) 1,
               0)) ;;
  ASIMDVectorXIndexedElement QRegister (bin "0") L M (bin "0010") H
    EncodedSubRegSize rm rn rd.

Definition sqdmlal (size : SubRegSize) (rd rn rm : VRegister)
    (Index : Z) : Emit unit :=
  LOGMAN_THROW_A_FMT ((size =? i32Bit) || (size =? i64Bit))
    "Invalid destination size" ;;
  (if size =? i32Bit
   then LOGMAN_THROW_A_FMT (Idx rm <? 16)
          "Rm can't be v16-v31 with half source size"
   else ret tt) ;;
  let EncodedSubRegSize := u32 (size - 1) in
  SizeInBits <- SubRegSizeInBits EncodedSubRegSize ;;
  LOGMAN_THROW_A_FMT (Index <? SizeInBits)
    "Index must be less than the source register size" ;;
  '(H, L, M) <-
    (if size =? i32Bit
     then ret (Z.land (Z.shiftr Index 2) 1,
               Z.land (Z.shiftr Index 1) 1,
               Z.land (Z.shiftr Index 0) 1)
     else ret (Z.land (Z.shiftr Index 1) 1,
               Z.land (Z.shiftr Index 0) 1,
               0)) ;;
  ASIMDVectorXIndexedElement DRegister (bin "0") L M (bin "0011") H
    EncodedSubRegSize rm rn rd.

Definition sqdmlal2 (size : SubRegSize) (rd rn rm : VRegister)
    (Index : Z) : Emit unit :=
  LOGMAN_THROW_A_FMT ((size =? i32Bit) || (size =? i64Bit))
    "Invalid destination size" ;;
  (if size =? i32Bit
   then LOGMAN_THROW_A_FMT (Idx rm <? 16)
          "Rm can't be v16-v31 with half source size"
   else ret tt) ;;
  let EncodedSubRegSize := u32 (size - 1) in
  SizeInBits <- SubRegSizeInBits EncodedSubRegSize ;;
  LOGMAN_THROW_A_FMT (Index <? SizeInBits)
    "Index must be less than the source register size" ;;
  '(H, L, M) <-
    (if size =? i32Bit
     then ret (Z.land (Z.shiftr Index 2) 1,
               Z.land (Z.shiftr Index 1) 1,
               Z.land (Z.shiftr Index 0) 1)
     else ret (Z.land (Z.shiftr Index 1) 1,
               Z.land (Z.shiftr Index 0) 1,
               0)) ;;
  ASIMDVectorXIndexedElement QRegister (bin "0") L M (bin "0011") H
    EncodedSubRegSize rm rn rd.

Definition smlsl (size : SubRegSize) (rd rn rm : VRegister)
    (Index : Z) : Emit unit :=
  LOGMAN_THROW_A_FMT ((size =? i32Bit) || (size =? i64Bit))
    "Invalid destination size" ;;
  (if size =? i32Bit
   then LOGMAN_THROW_A_FMT (Idx rm <? 16)
          "Rm can't be v16-v31 with half source size"
   else ret tt) ;;
  let EncodedSubRegSize := u32 (size - 1) in
  SizeInBits <- SubRegSizeInBits EncodedSubRegSize ;;
  LOGMAN_THROW_A_FMT (Index <? SizeInBits)
    "Index must be less than the source register size" ;;
  '(H, L, M) <-
    (if size =? i32Bit
     then ret (Z.land (Z.shiftr Index 2) 1,
               Z.land (Z.shiftr Index 1) 1,
               Z.land (Z.shiftr Index 0) 1)
     else ret (Z.land (Z.shiftr Index 1) 1,
               Z.land (Z.shiftr Index 0) 1,
               0)) ;;
  ASIMDVectorXIndexedElement DRegister (bin "0") L M (bin "0110") H
    EncodedSubRegSize rm rn rd.

Definition smlsl2 (size : SubRegSize) (rd rn rm : VRegister)
    (Index : Z) : Emit unit :=
  LOGMAN_THROW_A_FMT ((size =? i32Bit) || (size =? i64Bit))
    "Invalid destination size" ;;
  (if size =? i32Bit
   then LOGMAN_THROW_A_FMT (Idx rm <? 16)
          "Rm can't be v16-v31 with half source size"
   else ret tt) ;;
  let EncodedSubRegSize := u32 (size - 1) in
  SizeInBits <- SubRegSizeInBits EncodedSubRegSize ;;
  LOGMAN_THROW_A_FMT (Index <? SizeInBits)
    "Index must be less than the source register size" ;;
  '(H, L, M) <-
    (if size =? i32Bit
     then ret (Z.land (Z.shiftr Index 2) 1,
               Z.land (Z.shiftr Index 1) 1,
               Z.land (Z.shiftr Index 0) 1)
     else ret (Z.land (Z.shiftr Index 1) 1,
               Z.land (Z.shiftr Index 0) 1,
               0)) ;;
  ASIMDVectorXIndexedElement QRegister (bin "0") L M (bin "0110") H
    EncodedSubRegSize rm rn rd.

Definition sqdmlsl (size : SubRegSize) (rd rn rm : VRegister)
    (Index : Z) : Emit unit :=
  LOGMAN_THROW_A_FMT ((size =? i32Bit) || (size =? i64Bit))
    "Invalid destination size" ;;
  (if size =? i32Bit
   then LOGMAN_THROW_A_FMT (Idx rm <? 16)
          "Rm can't be v16-v31 with half source size"
   else ret tt) ;;
  let EncodedSubRegSize := u32 (size - 1) in
  SizeInBits <- SubRegSizeInBits EncodedSubRegSize ;;
  LOGMAN_THROW_A_FMT (Index <? SizeInBits)
    "Index must be less than the source register size" ;;
  '(H, L, M) <-
    (if size =? i32Bit
     then ret (Z.land (Z.shiftr Index 2) 1,
               Z.land (Z.shiftr Index 1) 1,
               Z.land (Z.shiftr Index 0) 1)
     else ret (Z.land (Z.shiftr Index 1) 1,
               Z.land (Z.shiftr Index 0) 1,
               0)) ;;
  ASIMDVectorXIndexedElement DRegister (bin "0") L M (bin "0111") H
    EncodedSubRegSize rm rn rd.

Definition sqdmlsl2 (size : SubRegSize) (rd rn rm : VRegister)
    (Index : Z) : Emit unit :=
  LOGMAN_THROW_A_FMT ((size =? i32Bit) || (size =? i64Bit))
    "Invalid destination size" ;;
  (if size =? i32Bit
   then LOGMAN_THROW_A_FMT (Idx rm <? 16)
          "Rm can't be v16-v31 with half source size"
   else ret tt) ;;
  let EncodedSubRegSize := u32 (size - 1) in
  SizeInBits <- SubRegSizeInBits EncodedSubRegSize ;;
  LOGMAN_THROW_A_FMT (Index <? SizeInBits)
    "Index must be less than the source register size" ;;
  '(H, L, M) <-
    (if size =? i32Bit
     then ret (Z.land (Z.shiftr Index 2) 1,
               Z.land (Z.shiftr Index 1) 1,
               Z.land (Z.shiftr Index 0) 1)
     else ret (Z.land (Z.shiftr Index 1) 1,
               Z.land (Z.shiftr Index 0) 1,
               0)) ;;
  ASIMDVectorXIndexedElement QRegister (bin "0") L M (bin "0111") H
    EncodedSubRegSize rm rn rd.

Definition mul (T : RegKind) (size : SubRegSize) (rd rn rm : VRegister)
    (Index : Z) : Emit unit :=
  LOGMAN_THROW_A_FMT ((size =? i16Bit) || (size =? i32Bit))
    "Invalid destination size" ;;
  (if size =? i16Bit
   then LOGMAN_THROW_A_FMT (Idx rm <? 16)
          "Rm can't be v16-v31 with half source size"
   else ret tt) ;;
  SizeInBits <- SubRegSizeInBits size ;;
  LOGMAN_THROW_A_FMT (Index <? SizeInBits)
    "Index must be less than the source register size" ;;
  '(H, L, M) <-
    (if size =? i16Bit
     then ret (Z.land (Z.shiftr Index 2) 1,
               Z.land (Z.shiftr Index 1) 1,
               Z.land (Z.shiftr Index 0) 1)
     else ret (Z.land (Z.shiftr Index 1) 1,
               Z.land (Z.shiftr Index 0) 1,
               0)) ;;
  ASIMDVectorXIndexedElement T (bin "0") L M (bin "1000") H
    size rm rn rd.

Definition smull (size : SubRegSize) (rd rn rm : VRegister)
    (Index : Z) : Emit unit :=
  LOGMAN_THROW_A_FMT ((size =? i32Bit) || (size =? i64Bit))
    "Invalid destination size" ;;
  (if size =? i32Bit
   then LOGMAN_THROW_A_FMT (Idx rm <? 16)
          "Rm can't be v16-v31 with half source size"
   else ret tt) ;;
  let EncodedSubRegSize := u32 (size - 1) in
  SizeInBits <- SubRegSizeInBits EncodedSubRegSize ;;
  LOGMAN_THROW_A_FMT (Index <? SizeInBits)
    "Index must be less than the source register size" ;;
  '(H, L, M) <-
    (if size =? i32Bit
     then ret (Z.land (Z.shiftr Index 2) 1,
               Z.land (Z.shiftr Index 1) 1,
               Z.land (Z.shiftr Index 0) 1)
     else ret (Z.land (Z.shiftr Index 1) 1,
               Z.land (Z.shiftr Index 0) 1,
               0)) ;;
  ASIMDVectorXIndexedElement DRegister (bin "0") L M (bin "1010") H
    EncodedSubRegSize rm rn rd.

Definition smull2 (size : SubRegSize) (rd rn rm : VRegister)
    (Index : Z) : Emit unit :=
  LOGMAN_THROW_A_FMT ((size =? i32Bit) || (size =? i64Bit))
    "Invalid destination size" ;;
  (if size =? i32Bit
   then LOGMAN_THROW_A_FMT (Idx rm <? 16)
          "Rm can't be v16-v31 with half source size"
   else ret tt) ;;
  let EncodedSubRegSize := u32 (size - 1) in
  SizeInBits <- SubRegSizeInBits EncodedSubRegSize ;;
  LOGMAN_THROW_A_FMT (Index <? SizeInBits)
    "Index must be less than the source register size" ;;
  '(H, L, M) <-
    (if size =? i32Bit
     then ret (Z.land (Z.shiftr Index 2) 1,
               Z.land (Z.shiftr Index 1) 1,
               Z.land (Z.shiftr Index 0) 1)
     else ret (Z.land (Z.shiftr Index 1) 1,
               Z.land (Z.shiftr Index 0) 1,
               0)) ;;
  ASIMDVectorXIndexedElement QRegister (bin "0") L M (bin "1010") H
    EncodedSubRegSize rm rn rd.

Definition sqdmull (size : SubRegSize) (rd rn rm : VRegister)
    (Index : Z) : Emit unit :=
  LOGMAN_THROW_A_FMT ((size =? i32Bit) || (size =? i64Bit))
    "Invalid destination size" ;;
  (if size =? i32Bit
   then LOGMAN_THROW_A_FMT (Idx rm <? 16)
          "Rm can't be v16-v31 with half source size"
   else ret tt) ;;
  let EncodedSubRegSize := u32 (size - 1) in
  SizeInBits <- SubRegSizeInBits EncodedSubRegSize ;;
  LOGMAN_THROW_A_FMT (Index <? SizeInBits)
    "Index must be less than the source register size" ;;
  '(H, L, M) <-
    (if size =? i32Bit
     then ret (Z.land (Z.shiftr Index 2) 1,
               Z.land (Z.shiftr Index 1) 1,
               Z.land (Z.shiftr Index 0) 1)
     else ret (Z.land (Z.shiftr Index 1) 1,
               Z.land (Z.shiftr Index 0) 1,
               0)) ;;
  ASIMDVectorXIndexedElement DRegister (bin "0") L M (bin "1011") H
    EncodedSubRegSize rm rn rd.

Definition sqdmull2 (size : SubRegSize) (rd rn rm : VRegister)
    (Index : Z) : Emit unit :=
  LOGMAN_THROW_A_FMT ((size =? i32Bit) || (size =? i64Bit))
    "Invalid destination size" ;;
  (if size =? i32Bit
   then LOGMAN_THROW_A_FMT (Idx rm <? 16)
          "Rm can't be v16-v31 with half source size"
   else ret tt) ;;
  let EncodedSubRegSize := u32 (size - 1) in
  SizeInBits <- SubRegSizeInBits EncodedSubRegSize ;;
  LOGMAN_THROW_A_FMT (Index <? SizeInBits)
    "Index must be less than the source register size" ;;
  '(H, L, M) <-
    (if size =? i32Bit
     then ret (Z.land (Z.shiftr Index 2) 1,
               Z.land (Z.shiftr Index 1) 1,
               Z.land (Z.shiftr Index 0) 1)
     else ret (Z.land (Z.shiftr Index 1) 1,
               Z.land (Z.shiftr Index 0) 1,
               0)) ;;
  ASIMDVectorXIndexedElement QRegister (bin "0") L M (bin "1011") H
    EncodedSubRegSize rm rn rd.

Definition sqdmulh (T : RegKind) (size : SubRegSize) (rd rn rm : VRegister)
    (Index : Z) : Emit unit :=
  LOGMAN_THROW_A_FMT ((size =? i16Bit) || (size =? i32Bit))
    "Invalid destination size" ;;
  (if size =? i16Bit
   then LOGMAN_THROW_A_FMT (Idx rm <? 16)
          "Rm can't be v16-v31 with half source size"
   else ret tt) ;;
  SizeInBits <- SubRegSizeInBits size ;;
  LOGMAN_THROW_A_FMT (Index <? SizeInBits)
    "Index must be less than the source register size" ;;
  '(H, L, M) <-
    (if size =? i16Bit
     then ret (Z.land (Z.shiftr Index 2) 1,
               Z.land (Z.shiftr Index 1) 1,
               Z.land (Z.shiftr Index 0) 1)
     else ret (Z.land (Z.shiftr Index 1) 1,
               Z.land (Z.shiftr Index 0) 1,
               0)) ;;
  ASIMDVectorXIndexedElement T (bin "0") L M (bin "1100") H
    size rm rn rd.

Definition sqrdmulh (T : RegKind) (size : SubRegSize) (rd rn rm : VRegister)
    (Index : Z) : Emit unit :=
  LOGMAN_THROW_A_FMT ((size =? i16Bit) || (size =? i32Bit))
    "Invalid destination size" ;;
  (if size =? i16Bit
   then LOGMAN_THROW_A_FMT (Idx rm <? 16)
          "Rm can't be v16-v31 with half source size"
   else ret tt) ;;
  SizeInBits <- SubRegSizeInBits size ;;
  LOGMAN_THROW_A_FMT (Index <? SizeInBits)
    "Index must be less than the source register size" ;;
  '(H, L, M) <-
    (if size =? i16Bit
     then ret (Z.land (Z.shiftr Index 2) 1,
               Z.land (Z.shiftr Index 1) 1,
               Z.land (Z.shiftr Index 0) 1)
     else ret (Z.land (Z.shiftr Index 1) 1,
               Z.land (Z.shiftr Index 0) 1,
               0)) ;;
  ASIMDVectorXIndexedElement T (bin "0") L M (bin "1101") H
    size rm rn rd.

Definition sdot (T : RegKind) (rd rn rm : VRegister)
    (Index : Z) : Emit unit :=
  LOGMAN_THROW_A_FMT (Index <? 4)
    "Index must be less than the source register size" ;;
  let H := Z.land (Z.shiftr Index 1) 1 in
  let L := Z.land (Z.shiftr Index 0) 1 in
  let M := 0 in
  ASIMDVectorXIndexedElement T (bin "0") L M (bin "1110") H
    i32Bit rm rn rd.

Definition sudot (T : RegKind) (rd rn rm : VRegister)
    (Index : Z) : Emit unit :=
  LOGMAN_THROW_A_FMT (Index <? 4)
    "Index must be less than the source register size" ;;
  let H := Z.land (Z.shiftr Index 1) 1 in
  let L := Z.land (Z.shiftr Index 0) 1 in
  let M := 0 in
  ASIMDVectorXIndexedElement T (bin "0") L M (bin "1111") H
    i8Bit rm rn rd.

Definition bfdot (T : RegKind) (rd rn rm : VRegister)
    (Index : Z) : Emit unit :=
  LOGMAN_THROW_A_FMT (Index <? 4)
    "Index must be less than the source register size" ;;
  let H := Z.land (Z.shiftr Index 1) 1 in
  let L := Z.land (Z.shiftr Index 0) 1 in
  let M := 0 in
  ASIMDVectorXIndexedElement T (bin "0") L M (bin "1111") H
    i16Bit rm rn rd.

Definition fmla (T : RegKind) (size : SubRegSize) (rd rn rm : VRegister)
    (Index : Z) : Emit unit :=
  LOGMAN_THROW_A_FMT (IsStandardFloatSize size) "Invalid destination size" ;;
  SizeInBits <- SubRegSizeInBits size ;;
  LOGMAN_THROW_A_FMT (Index <? SizeInBits)
    "Index must be less than the source register size" ;;
  let EncodedSubRegSize := size in
  '(H, L, M, EncodedSubRegSize) <-
    (if size =? i16Bit
     then ret (Z.land (Z.shiftr Index 2) 1,
               Z.land (Z.shiftr Index 1) 1,
               Z.land (Z.shiftr Index 0) 1,
               i8Bit)
     else if size =? i32Bit
     then ret (Z.land (Z.shiftr Index 1) 1,
               Z.land (Z.shiftr Index 0) 1,
               0,
               EncodedSubRegSize)
     else (LOGMAN_THROW_A_FMT (is_QRegister T)
             "Can't encode DRegister with i64Bit" ;;
           ret (Index, 0, 0, EncodedSubRegSize))) ;;
  ASIMDVectorXIndexedElement T (bin "0") L M (bin "0001") H
    EncodedSubRegSize rm rn rd.

Definition fmls (T : RegKind) (size : SubRegSize) (rd rn rm : VRegister)
    (Index : Z) : Emit unit :=
  LOGMAN_THROW_A_FMT (IsStandardFloatSize size) "Invalid destination size" ;;
  SizeInBits <- SubRegSizeInBits size ;;
  LOGMAN_THROW_A_FMT (Index <? SizeInBits)
    "Index must be less than the source register size" ;;
  let EncodedSubRegSize := size in
  '(H, L, M, EncodedSubRegSize) <-
    (if size =? i16Bit
     then ret (Z.land (Z.shiftr Index 2) 1,
               Z.land (Z.shiftr Index 1) 1,
               Z.land (Z.shiftr Index 0) 1,
               i8Bit)
     else if size =? i32Bit
     then ret (Z.land (Z.shiftr Index 1) 1,
               Z.land (Z.shiftr Index 0) 1,
               0,
               EncodedSubRegSize)
     else (LOGMAN_THROW_A_FMT (is_QRegister T)
             "Can't encode DRegister with i64Bit" ;;
           ret (Index, 0, 0, EncodedSubRegSize))) ;;
  ASIMDVectorXIndexedElement T (bin "0") L M (bin "0101") H
    EncodedSubRegSize rm rn rd.

Definition fmul (T : RegKind) (size : SubRegSize) (rd rn rm : VRegister)
    (Index : Z) : Emit unit :=
  LOGMAN_THROW_A_FMT (IsStandardFloatSize size) "Invalid destination size" ;;
  SizeInBits <- SubRegSizeInBits size ;;
  LOGMAN_THROW_A_FMT (Index <? SizeInBits)
    "Index must be less than the source register size" ;;
  let EncodedSubRegSize := size in
  '(H, L, M, EncodedSubRegSize) <-
    (if size =? i16Bit
     then ret (Z.land (Z.shiftr Index 2) 1,
               Z.land (Z.shiftr Index 1) 1,
               Z.land (Z.shiftr Index 0) 1,
               i8Bit)
     else if size =? i32Bit
     then ret (Z.land (Z.shiftr Index 1) 1,
               Z.land (Z.shiftr Index 0) 1,
               0,
               EncodedSubRegSize)
     else (LOGMAN_THROW_A_FMT (is_QRegister T)
             "Can't encode DRegister with i64Bit" ;;
           ret (Index, 0, 0, EncodedSubRegSize))) ;;
  ASIMDVectorXIndexedElement T (bin "0") L M (bin "1001") H
    EncodedSubRegSize rm rn rd.

Definition fmlal (T : RegKind) (rd rn rm : VRegister)
    (Index : Z) : Emit unit :=
  LOGMAN_THROW_A_FMT (Index <? 8)
    "Index must be less than the source register size" ;;
  let H := Z.land (Z.shiftr Index 2) 1 in
  let L := Z.land (Z.shiftr Index 1) 1 in
  let M := Z.land (Z.shiftr Index 0) 1 in
  ASIMDVectorXIndexedElement T (bin "0") L M (bin "0000") H
    i32Bit rm rn rd.

Definition fmlal2 (T : RegKind) (rd rn rm : VRegister)
    (Index : Z) : Emit unit :=
  LOGMAN_THROW_A_FMT (Index <? 8)
    "Index must be less than the source register size" ;;
  let H := Z.land (Z.shiftr Index 2) 1 in
  let L := Z.land (Z.shiftr Index 1) 1 in
  let M := Z.land (Z.shiftr Index 0) 1 in
  ASIMDVectorXIndexedElement T (bin "1") L M (bin "1000") H
    i32Bit rm rn rd.

Definition fmlsl (T : RegKind) (rd rn rm : VRegister)
    (Index : Z) : Emit unit :=
  LOGMAN_THROW_A_FMT (Index <? 8)
    "Index must be less than the source register size" ;;
  let H := Z.land (Z.shiftr Index 2) 1 in
  let L := Z.land (Z.shiftr Index 1) 1 in
  let M := Z.land (Z.shiftr Index 0) 1 in
  ASIMDVectorXIndexedElement T (bin "0") L M (bin "0100") H
    i32Bit rm rn rd.

Definition fmlsl2 (T : RegKind) (rd rn rm : VRegister)
    (Index : Z) : Emit unit :=
  LOGMAN_THROW_A_FMT (Index <? 8)
    "Index must be less than the source register size" ;;
  let H := Z.land (Z.shiftr Index 2) 1 in
  let L := Z.land (Z.shiftr Index 1) 1 in
  let M := Z.land (Z.shiftr Index 0) 1 in
  ASIMDVectorXIndexedElement T (bin "1") L M (bin "1100") H
    i32Bit rm rn rd.

Definition usdot (T : RegKind) (rd rn rm : VRegister)
    (Index : Z) : Emit unit :=
  LOGMAN_THROW_A_FMT (Index <? 4)
    "Index must be less than the source register size" ;;
  let H := Z.land (Z.shiftr Index 1) 1 in
  let L := Z.land (Z.shiftr Index 0) 1 in
  let M := 0 in
  ASIMDVectorXIndexedElement T (bin "0") L M (bin "1111") H
    i32Bit rm rn rd.

Definition bfmlalb (rd rn rm : VRegister)
    (Index : Z) : Emit unit :=
  LOGMAN_THROW_A_FMT (Idx rm <? 16)
    "Rm can't be v16-v31 with half source size" ;;
  LOGMAN_THROW_A_FMT (Index <? 8)
    "Index must be less than the source register size" ;;
  let H := Z.land (Z.shiftr Index 2) 1 in
  let L := Z.land (Z.shiftr Index 1) 1 in
  let M := Z.land (Z.shiftr Index 0) 1 in
  ASIMDVectorXIndexedElement DRegister (bin "0") L M (bin "1111") H
    i64Bit rm rn rd.

Definition bfmlalt (rd rn rm : VRegister)
    (Index : Z) : Emit unit :=
  LOGMAN_THROW_A_FMT (Idx rm <? 16)
    "Rm can't be v16-v31 with half source size" ;;
  LOGMAN_THROW_A_FMT (Index <? 8)
    "Index must be less than the source register size" ;;
  let H := Z.land (Z.shiftr Index 2) 1 in
  let L := Z.land (Z.shiftr Index 1) 1 in
  let M := Z.land (Z.shiftr Index 0) 1 in
  ASIMDVectorXIndexedElement QRegister (bin "0") L M (bin "1111") H
    i64Bit rm rn rd.

Definition mla (T : RegKind) (size : SubRegSize) (rd rn rm : VRegister)
    (Index : Z) : Emit unit :=
  LOGMAN_THROW_A_FMT ((size =? i16Bit) || (size =? i32Bit))
    "Invalid destination size" ;;
  (if size =? i16Bit
   then LOGMAN_THROW_A_FMT (Idx rm <? 16)
          "Rm can't be v16-v31 with half source size"
   else ret tt) ;;
  SizeInBits <- SubRegSizeInBits size ;;
  LOGMAN_THROW_A_FMT (Index <? SizeInBits)
    "Index must be less than the source register size" ;;
  '(H, L, M) <-
    (if size =? i16Bit
     then ret (Z.land (Z.shiftr Index 2) 1,
               Z.land (Z.shiftr Index 1) 1,
               Z.land (Z.shiftr Index 0) 1)
     else ret (Z.land (Z.shiftr Index 1) 1,
               Z.land (Z.shiftr Index 0) 1,
               0)) ;;
  ASIMDVectorXIndexedElement T (bin "1") L M (bin "0000") H
    size rm rn rd.

Definition umlal (size : SubRegSize) (rd rn rm : VRegister)
    (Index : Z) : Emit unit :=
  LOGMAN_THROW_A_FMT ((size =? i32Bit) || (size =? i64Bit))
    "Invalid destination size" ;;
  (if size =? i32Bit
   then LOGMAN_THROW_A_FMT (Idx rm <? 16)
          "Rm can't be v16-v31 with half source size"
   else ret tt) ;;
  let EncodedSubRegSize := u32 (size - 1) in
  SizeInBits <- SubRegSizeInBits EncodedSubRegSize ;;
  LOGMAN_THROW_A_FMT (Index <? SizeInBits)
    "Index must be less than the source register size" ;;
  '(H, L, M) <-
    (if size =? i32Bit
     then ret (Z.land (Z.shiftr Index 2) 1,
               Z.land (Z.shiftr Index 1) 1,
               Z.land (Z.shiftr Index 0) 1)
     else ret (Z.land (Z.shiftr Index 1) 1,
               Z.land (Z.shiftr Index 0) 1,
               0)) ;;
  ASIMDVectorXIndexedElement DRegister (bin "1") L M (bin "0010") H
    EncodedSubRegSize rm rn rd.

Definition umlal2 (size : SubRegSize) (rd rn rm : VRegister)
    (Index : Z) : Emit unit :=
  LOGMAN_THROW_A_FMT ((size =? i32Bit) || (size =? i64Bit))
    "Invalid destination size" ;;
  (if size =? i32Bit
   then LOGMAN_THROW_A_FMT (Idx rm <? 16)
          "Rm can't be v16-v31 with half source size"
   else ret tt) ;;
  let EncodedSubRegSize := u32 (size - 1) in
  SizeInBits <- SubRegSizeInBits EncodedSubRegSize ;;
  LOGMAN_THROW_A_FMT (Index <? SizeInBits)
    "Index must be less than the source register size" ;;
  '(H, L, M) <-
    (if size =? i32Bit
     then ret (Z.land (Z.shiftr Index 2) 1,
               Z.land (Z.shiftr Index 1) 1,
               Z.land (Z.shiftr Index 0) 1)
     else ret (Z.land (Z.shiftr Index 1) 1,
               Z.land (Z.shiftr Index 0) 1,
               0)) ;;
  ASIMDVectorXIndexedElement QRegister (bin "1") L M (bin "0010") H
    EncodedSubRegSize rm rn rd.

Definition mls (T : RegKind) (size : SubRegSize) (rd rn rm : VRegister)
    (Index : Z) : Emit unit :=
  LOGMAN_THROW_A_FMT ((size =? i16Bit) || (size =? i32Bit))
    "Invalid destination size" ;;
  (if size =? i16Bit
   then LOGMAN_THROW_A_FMT (Idx rm <? 16)
          "Rm can't be v16-v31 with half source size"
   else ret tt) ;;
  SizeInBits <- SubRegSizeInBits size ;;
  LOGMAN_THROW_A_FMT (Index <? SizeInBits)
    "Index must be less than the source register size" ;;
  '(H, L, M) <-
    (if size =? i16Bit
     then ret (Z.land (Z.shiftr Index 2) 1,
               Z.land (Z.shiftr Index 1) 1,
               Z.land (Z.shiftr Index 0) 1)
     else ret (Z.land (Z.shiftr Index 1) 1,
               Z.land (Z.shiftr Index 0) 1,
               0)) ;;
  ASIMDVectorXIndexedElement T (bin "1") L M (bin "0100") H
    size rm rn rd.

Definition umlsl (size : SubRegSize) (rd rn rm : VRegister)
    (Index : Z) : Emit unit :=
  LOGMAN_THROW_A_FMT ((size =? i32Bit) || (size =? i64Bit))
    "Invalid destination size" ;;
  (if size =? i32Bit
   then LOGMAN_THROW_A_FMT (Idx rm <? 16)
          "Rm can't be v16-v31 with half source size"
   else ret tt) ;;
  let EncodedSubRegSize := u32 (size - 1) in
  SizeInBits <- SubRegSizeInBits EncodedSubRegSize ;;
  LOGMAN_THROW_A_FMT (Index <? SizeInBits)
    "Index must be less than the source register size" ;;
  '(H, L, M) <-
    (if size =? i32Bit
     then ret (Z.land (Z.shiftr Index 2) 1,
               Z.land (Z.shiftr Index 1) 1,
               Z.land (Z.shiftr Index 0) 1)
     else ret (Z.land (Z.shiftr Index 1) 1,
               Z.land (Z.shiftr Index 0) 1,
               0)) ;;
  ASIMDVectorXIndexedElement DRegister (bin "1") L M (bin "0110") H
    EncodedSubRegSize rm rn rd.

Definition umlsl2 (size : SubRegSize) (rd rn rm : VRegister)
    (Index : Z) : Emit unit :=
  LOGMAN_THROW_A_FMT ((size =? i32Bit) || (size =? i64Bit))
    "Invalid destination size" ;;
  (if size =? i32Bit
   then LOGMAN_THROW_A_FMT (Idx rm <? 16)
          "Rm can't be v16-v31 with half source size"
   else ret tt) ;;
  let EncodedSubRegSize := u32 (size - 1) in
  SizeInBits <- SubRegSizeInBits EncodedSubRegSize ;;
  LOGMAN_THROW_A_FMT (Index <? SizeInBits)
    "Index must be less than the source register size" ;;
  '(H, L, M) <-
    (if size =? i32Bit
     then ret (Z.land (Z.shiftr Index 2) 1,
               Z.land (Z.shiftr Index 1) 1,
               Z.land (Z.shiftr Index 0) 1)
     else ret (Z.land (Z.shiftr Index 1) 1,
               Z.land (Z.shiftr Index 0) 1,
               0)) ;;
  ASIMDVectorXIndexedElement QRegister (bin "1") L M (bin "0110") H
    EncodedSubRegSize rm rn rd.

Definition umull (size : SubRegSize) (rd rn rm : VRegister)
    (Index : Z) : Emit unit :=
  LOGMAN_THROW_A_FMT ((size =? i32Bit) || (size =? i64Bit))
    "Invalid destination size" ;;
  (if size =? i32Bit
   then LOGMAN_THROW_A_FMT (Idx rm <? 16)
          "Rm can't be v16-v31 with half source size"
   else ret tt) ;;
  let EncodedSubRegSize := u32 (size - 1) in
  SizeInBits <- SubRegSizeInBits EncodedSubRegSize ;;
  LOGMAN_THROW_A_FMT (Index <? SizeInBits)
    "Index must be less than the source register size" ;;
  '(H, L, M) <-
    (if size =? i32Bit
     then ret (Z.land (Z.shiftr Index 2) 1,
               Z.land (Z.shiftr Index 1) 1,
               Z.land (Z.shiftr Index 0) 1)
     else ret (Z.land (Z.shiftr Index 1) 1,
               Z.land (Z.shiftr Index 0) 1,
               0)) ;;
  ASIMDVectorXIndexedElement DRegister (bin "1") L M (bin "1010") H
    EncodedSubRegSize rm rn rd.

Definition umull2 (size : SubRegSize) (rd rn rm : VRegister)
    (Index : Z) : Emit unit :=
  LOGMAN_THROW_A_FMT ((size =? i32Bit) || (size =? i64Bit))
    "Invalid destination size" ;;
  (if size =? i32Bit
   then LOGMAN_THROW_A_FMT (Idx rm <? 16)
          "Rm can't be v16-v31 with half source size"
   else ret tt) ;;
  let EncodedSubRegSize := u32 (size - 1) in
  SizeInBits <- SubRegSizeInBits EncodedSubRegSize ;;
  LOGMAN_THROW_A_FMT (Index <? SizeInBits)
    "Index must be less than the source register size" ;;
  '(H, L, M) <-
    (if size =? i32Bit
     then ret (Z.land (Z.shiftr Index 2) 1,
               Z.land (Z.shiftr Index 1) 1,
               Z.land (Z.shiftr Index 0) 1)
     else ret (Z.land (Z.shiftr Index 1) 1,
               Z.land (Z.shiftr Index 0) 1,
               0)) ;;
  ASIMDVectorXIndexedElement QRegister (bin "1") L M (bin "1010") H
    EncodedSubRegSize rm rn rd.

Definition sqrdmlah (T : RegKind) (size : SubRegSize) (rd rn rm : VRegister)
    (Index : Z) : Emit unit :=
  LOGMAN_THROW_A_FMT ((size =? i16Bit) || (size =? i32Bit))
    "Invalid destination size" ;;
  (if size =? i16Bit
   then LOGMAN_THROW_A_FMT (Idx rm <? 16)
          "Rm can't be v16-v31 with half source size"
   else ret tt) ;;
  SizeInBits <- SubRegSizeInBits size ;;
  LOGMAN_THROW_A_FMT (Index <? SizeInBits)
    "Index must be less than the source register size" ;;
  '(H, L, M) <-
    (if size =? i16Bit
     then ret (Z.land (Z.shiftr Index 2) 1,
               Z.land (Z.shiftr Index 1) 1,
               Z.land (Z.shiftr Index 0) 1)
     else ret (Z.land (Z.shiftr Index 1) 1,
               Z.land (Z.shiftr Index 0) 1,
               0)) ;;
  ASIMDVectorXIndexedElement T (bin "1") L M (bin "1101") H
    size rm rn rd.

Definition udot (T : RegKind) (rd rn rm : VRegister)
    (Index : Z) : Emit unit :=
  LOGMAN_THROW_A_FMT (Index <? 4)
    "Index must be less than the source register size" ;;
  let H := Z.land (Z.shiftr Index 1) 1 in
  let L := Z.land (Z.shiftr Index 0) 1 in
  let M := 0 in
  ASIMDVectorXIndexedElement T (bin "1") L M (bin "1110") H
    i32Bit rm rn rd.

Definition sqrdmlsh (T : RegKind) (size : SubRegSize) (rd rn rm : VRegister)
    (Index : Z) : Emit unit :=
  LOGMAN_THROW_A_FMT ((size =? i16Bit) || (size =? i32Bit))
    "Invalid destination size" ;;
  (if size =? i16Bit
   then LOGMAN_THROW_A_FMT (Idx rm <? 16)
          "Rm can't be v16-v31 with half source size"
   else ret tt) ;;
  SizeInBits <- SubRegSizeInBits size ;;
  LOGMAN_THROW_A_FMT (Index <? SizeInBits)
    "Index must be less than the source register size" ;;
  '(H, L, M) <-
    (if size =? i16Bit
     then ret (Z.land (Z.shiftr Index 2) 1,
               Z.land (Z.shiftr Index 1) 1,
               Z.land (Z.shiftr Index 0) 1)
     else ret (Z.land (Z.shiftr Index 1) 1,
               Z.land (Z.shiftr Index 0) 1,
               0)) ;;
  ASIMDVectorXIndexedElement T (bin "1") L M (bin "1111") H
    size rm rn rd.

(** The mnemonics of this class, for statements about all of them. *)
Inductive Mnemonic : Type :=
| SMLAL | SMLAL2 | SQDMLAL | SQDMLAL2 | SMLSL | SMLSL2 | SQDMLSL | SQDMLSL2
| MUL | SMULL | SMULL2 | SQDMULL | SQDMULL2 | SQDMULH | SQRDMULH | SDOT
| SUDOT | BFDOT | FMLA | FMLS | FMUL | FMLAL | FMLAL2 | FMLSL | FMLSL2
| USDOT | BFMLALB | BFMLALT | MLA | UMLAL | UMLAL2 | MLS | UMLSL | UMLSL2
| UMULL | UMULL2 | SQRDMLAH | UDOT | SQRDMLSH.

(** Calls the mnemonic; [T] and [size] are not looked at by a mnemonic that
    has no such parameter. *)
Definition emit (m : Mnemonic) (T : RegKind) (size : SubRegSize)
    (rd rn rm : VRegister) (Index : Z) : Emit unit :=
  match m with
  | SMLAL => smlal size rd rn rm Index
  | SMLAL2 => smlal2 size rd rn rm Index
  | SQDMLAL => sqdmlal size rd rn rm Index
  | SQDMLAL2 => sqdmlal2 size rd rn rm Index
  | SMLSL => smlsl size rd rn rm Index
  | SMLSL2 => smlsl2 size rd rn rm Index
  | SQDMLSL => sqdmlsl size rd rn rm Index
  | SQDMLSL2 => sqdmlsl2 size rd rn rm Index
  | MUL => mul T size rd rn rm Index
  | SMULL => smull size rd rn rm Index
  | SMULL2 => smull2 size rd rn rm Index
  | SQDMULL => sqdmull size rd rn rm Index
  | SQDMULL2 => sqdmull2 size rd rn rm Index
  | SQDMULH => sqdmulh T size rd rn rm Index
  | SQRDMULH => sqrdmulh T size rd rn rm Index
  | SDOT => sdot T rd rn rm Index
  | SUDOT => sudot T rd rn rm Index
  | BFDOT => bfdot T rd rn rm Index
  | FMLA => fmla T size rd rn rm Index
  | FMLS => fmls T size rd rn rm Index
  | FMUL => fmul T size rd rn rm Index
  | FMLAL => fmlal T rd rn rm Index
  | FMLAL2 => fmlal2 T rd rn rm Index
  | FMLSL => fmlsl T rd rn rm Index
  | FMLSL2 => fmlsl2 T rd rn rm Index
  | USDOT => usdot T rd rn rm Index
  | BFMLALB => bfmlalb rd rn rm Index
  | BFMLALT => bfmlalt rd rn rm Index
  | MLA => mla T size rd rn rm Index
  | UMLAL => umlal size rd rn rm Index
  | UMLAL2 => umlal2 size rd rn rm Index
  | MLS => mls T size rd rn rm Index
  | UMLSL => umlsl size rd rn rm Index
  | UMLSL2 => umlsl2 size rd rn rm Index
  | UMULL => umull size rd rn rm Index
  | UMULL2 => umull2 size rd rn rm Index
  | SQRDMLAH => sqrdmlah T size rd rn rm Index
  | UDOT => udot T rd rn rm Index
  | SQRDMLSH => sqrdmlsh T size rd rn rm Index
  end.

End IndexedElement.

(** ** Mnemonic layer: Advanced SIMD copy *)

Module Copy.

Section ScalarCopy.

(** The category encoder [ASIMDScalarCopy] is declared outside the
    sources. *)
Variable ASIMDScalarCopy :
  Z -> Z -> Z -> Z -> VRegister -> VRegister -> Emit unit.

Definition dup (T : RegKind) (size : SubRegSize) (rd rn : VRegister)
    (Index : Z) : Emit unit :=
  if_DRegister T
    (LOGMAN_THROW_A_FMT (negb (size =? i64Bit))
       "Invalid element size with 64-bit dup") ;;
  let Q := match T with QRegister => 1 | DRegister => 0 end in
  let SizeImm := size in
  let IndexShift := u32 (SizeImm + 1) in
  let ElementSize := shl32 1 SizeImm in
  let MaxIndex := 128 / u32 (ElementSize * 8) in
  LOGMAN_THROW_A_FMT (Index <? MaxIndex)
    "Index too large. Index={}, Max Index: {}" ;;
  let imm5 := Z.lor (shl32 Index IndexShift) ElementSize in
  ASIMDScalarCopy Q 0 imm5 (bin "0000") rd rn.

(** The general-purpose register types and [ToVReg], which carries the index
    of one over to a vector register, are declared outside the sources; the
    overloads of [ToVReg] are told apart by the register type. *)
Variable XRegister WRegister Register : Type.
Variable ToVReg_X : XRegister -> VRegister.
Variable ToVReg_W : WRegister -> VRegister.
Variable ToVReg : Register -> VRegister.






End ScalarCopy.

End Copy.

(** ** Mnemonic layer: Cryptographic instructions *)

(** A scalar register operand ([SRegister]) is passed on as the vector
    register of its index ([V()]). *)

Module Crypto.

Definition aese (rd rn : VRegister) : Emit unit :=
  CryptoAES (bin "00100") rd rn.

Definition aesd (rd rn : VRegister) : Emit unit :=
  CryptoAES (bin "00101") rd rn.

Definition aesmc (rd rn : VRegister) : Emit unit :=
  CryptoAES (bin "00110") rd rn.

Definition aesimc (rd rn : VRegister) : Emit unit :=
  CryptoAES (bin "00111") rd rn.

Definition sha1c (rd rn rm : VRegister) : Emit unit :=
  Crypto3RegSHA (bin "000") rd rn rm.

Definition sha1p (rd rn rm : VRegister) : Emit unit :=
  Crypto3RegSHA (bin "001") rd rn rm.

Definition sha1m (rd rn rm : VRegister) : Emit unit :=
  Crypto3RegSHA (bin "010") rd rn rm.

Definition sha1su0 (rd rn rm : VRegister) : Emit unit :=
  Crypto3RegSHA (bin "011") rd rn rm.

Definition sha256h (rd rn rm : VRegister) : Emit unit :=
  Crypto3RegSHA (bin "100") rd rn rm.

Definition sha256h2 (rd rn rm : VRegister) : Emit unit :=
  Crypto3RegSHA (bin "101") rd rn rm.

Definition sha256su1 (rd rn rm : VRegister) : Emit unit :=
  Crypto3RegSHA (bin "110") rd rn rm.

Definition sha1h (rd rn : VRegister) : Emit unit :=
  Crypto2RegSHA (bin "00000") rd rn.

Definition sha1su1 (rd rn : VRegister) : Emit unit :=
  Crypto2RegSHA (bin "00001") rd rn.

Definition sha256su0 (rd rn : VRegister) : Emit unit :=
  Crypto2RegSHA (bin "00010") rd rn.

Definition sm3tt1a (rd rn rm : VRegister) (index : Z) : Emit unit :=
  Crypto3RegImm index (bin "00") rm rn rd.

Definition sm3tt1b (rd rn rm : VRegister) (index : Z) : Emit unit :=
  Crypto3RegImm index (bin "01") rm rn rd.

Definition sm3tt2a (rd rn rm : VRegister) (index : Z) : Emit unit :=
  Crypto3RegImm index (bin "10") rm rn rd.

Definition sm3tt2b (rd rn rm : VRegister) (index : Z) : Emit unit :=
  Crypto3RegImm index (bin "11") rm rn rd.

Definition sha512h (rd rn rm : VRegister) : Emit unit :=
  Crypto3RegSHA512 0 (bin "00") rm rn rd.

Definition sha512h2 (rd rn rm : VRegister) : Emit unit :=
  Crypto3RegSHA512 0 (bin "01") rm rn rd.

Definition sha512su1 (rd rn rm : VRegister) : Emit unit :=
  Crypto3RegSHA512 0 (bin "10") rm rn rd.

Definition rax1 (rd rn rm : VRegister) : Emit unit :=
  Crypto3RegSHA512 0 (bin "11") rm rn rd.

Definition sm3partw1 (rd rn rm : VRegister) : Emit unit :=
  Crypto3RegSHA512 1 (bin "00") rm rn rd.

Definition sm3partw2 (rd rn rm : VRegister) : Emit unit :=
  Crypto3RegSHA512 1 (bin "01") rm rn rd.

Definition sm4ekey (rd rn rm : VRegister) : Emit unit :=
  Crypto3RegSHA512 1 (bin "10") rm rn rd.

Definition eor3 (rd rn rm ra : VRegister) : Emit unit :=
  Crypto4Register (bin "00") rm ra rn rd.

Definition bcax (rd rn rm ra : VRegister) : Emit unit :=
  Crypto4Register (bin "01") rm ra rn rd.

Definition sm3ss1 (rd rn rm ra : VRegister) : Emit unit :=
  Crypto4Register (bin "10") rm ra rn rd.

Definition sha512su0 (rd rn : VRegister) : Emit unit :=
  Crypto2RegSHA512 (bin "00") rn rd.

Definition sm4e (rd rn : VRegister) : Emit unit :=
  Crypto2RegSHA512 (bin "01") rn rd.

(** The mnemonics with two registers. *)
Inductive TwoReg : Type :=
| AESE | AESD | AESMC | AESIMC | SHA1H | SHA1SU1 | SHA256SU0 | SHA512SU0
| SM4E.

(** Calls a mnemonic with two registers. *)
Definition emit2 (m : TwoReg) (rd rn : VRegister) : Emit unit :=
  match m with
  | AESE => aese rd rn
  | AESD => aesd rd rn
  | AESMC => aesmc rd rn
  | AESIMC => aesimc rd rn
  | SHA1H => sha1h rd rn
  | SHA1SU1 => sha1su1 rd rn
  | SHA256SU0 => sha256su0 rd rn
  | SHA512SU0 => sha512su0 rd rn
  | SM4E => sm4e rd rn
  end.

(** The mnemonics with three registers. *)
Inductive ThreeReg : Type :=
| SHA1C | SHA1P | SHA1M | SHA1SU0 | SHA256H | SHA256H2 | SHA256SU1 | SHA512H
| SHA512H2 | SHA512SU1 | RAX1 | SM3PARTW1 | SM3PARTW2 | SM4EKEY.

(** Calls a mnemonic with three registers. *)
Definition emit3 (m : ThreeReg) (rd rn rm : VRegister) : Emit unit :=
  match m with
  | SHA1C => sha1c rd rn rm
  | SHA1P => sha1p rd rn rm
  | SHA1M => sha1m rd rn rm
  | SHA1SU0 => sha1su0 rd rn rm
  | SHA256H => sha256h rd rn rm
  | SHA256H2 => sha256h2 rd rn rm
  | SHA256SU1 => sha256su1 rd rn rm
  | SHA512H => sha512h rd rn rm
  | SHA512H2 => sha512h2 rd rn rm
  | SHA512SU1 => sha512su1 rd rn rm
  | RAX1 => rax1 rd rn rm
  | SM3PARTW1 => sm3partw1 rd rn rm
  | SM3PARTW2 => sm3partw2 rd rn rm
  | SM4EKEY => sm4ekey rd rn rm
  end.

(** The mnemonics with three registers and an index. *)
Inductive ThreeRegImm : Type :=
| SM3TT1A | SM3TT1B | SM3TT2A | SM3TT2B.

(** Calls a mnemonic with three registers and an index. *)
Definition emit3i (m : ThreeRegImm) (rd rn rm : VRegister) (index : Z)
    : Emit unit :=
  match m with
  | SM3TT1A => sm3tt1a rd rn rm index
  | SM3TT1B => sm3tt1b rd rn rm index
  | SM3TT2A => sm3tt2a rd rn rm index
  | SM3TT2B => sm3tt2b rd rn rm index
  end.

(** The mnemonics with four registers. *)
Inductive FourReg : Type :=
| EOR3 | BCAX | SM3SS1.

(** Calls a mnemonic with four registers. *)
Definition emit4 (m : FourReg) (rd rn rm ra : VRegister) : Emit unit :=
  match m with
  | EOR3 => eor3 rd rn rm ra
  | BCAX => bcax rd rn rm ra
  | SM3SS1 => sm3ss1 rd rn rm ra
  end.

End Crypto.

(** ** Mnemonic layer: Advanced SIMD permute *)

(** Each mnemonic has an overload for the 128-bit and one for the 64-bit
    register type; [T] selects the overload. *)

Module Permute.

Definition uzp1 (T : RegKind) (size : SubRegSize) (rd rn rm : VRegister)
    : Emit unit :=
  match T with
  | QRegister =>
      ASIMDPermute 1 size (bin "001") rd rn rm
  | DRegister =>
      LOGMAN_THROW_A_FMT (negb (size =? i64Bit))
        "Invalid 64-bit size on 64-bit permute" ;;
      ASIMDPermute 0 size (bin "001") rd rn rm
  end.

Definition trn1 (T : RegKind) (size : SubRegSize) (rd rn rm : VRegister)
    : Emit unit :=
  match T with
  | QRegister =>
      ASIMDPermute 1 size (bin "010") rd rn rm
  | DRegister =>
      LOGMAN_THROW_A_FMT (negb (size =? i64Bit))
        "Invalid 64-bit size on 64-bit permute" ;;
      ASIMDPermute 0 size (bin "010") rd rn rm
  end.

Definition zip1 (T : RegKind) (size : SubRegSize) (rd rn rm : VRegister)
    : Emit unit :=
  match T with
  | QRegister =>
      ASIMDPermute 1 size (bin "011") rd rn rm
  | DRegister =>
      LOGMAN_THROW_A_FMT (negb (size =? i64Bit))
        "Invalid 64-bit size on 64-bit permute" ;;
      ASIMDPermute 0 size (bin "011") rd rn rm
  end.

Definition uzp2 (T : RegKind) (size : SubRegSize) (rd rn rm : VRegister)
    : Emit unit :=
  match T with
  | QRegister =>
      ASIMDPermute 1 size (bin "101") rd rn rm
  | DRegister =>
      LOGMAN_THROW_A_FMT (negb (size =? i64Bit))
        "Invalid 64-bit size on 64-bit permute" ;;
      ASIMDPermute 0 size (bin "101") rd rn rm
  end.

Definition trn2 (T : RegKind) (size : SubRegSize) (rd rn rm : VRegister)
    : Emit unit :=
  match T with
  | QRegister =>
      ASIMDPermute 1 size (bin "110") rd rn rm
  | DRegister =>
      LOGMAN_THROW_A_FMT (negb (size =? i64Bit))
        "Invalid 64-bit size on 64-bit permute" ;;
      ASIMDPermute 0 size (bin "110") rd rn rm
  end.

Definition zip2 (T : RegKind) (size : SubRegSize) (rd rn rm : VRegister)
    : Emit unit :=
  match T with
  | QRegister =>
      ASIMDPermute 1 size (bin "111") rd rn rm
  | DRegister =>
      LOGMAN_THROW_A_FMT (negb (size =? i64Bit))
        "Invalid 64-bit size on 64-bit permute" ;;
      ASIMDPermute 0 size (bin "111") rd rn rm
  end.

(** The mnemonics of the category. *)
Inductive Mnemonic : Type :=
| UZP1 | TRN1 | ZIP1 | UZP2 | TRN2 | ZIP2.

(** Calls the mnemonic. *)
Definition emit (m : Mnemonic) (T : RegKind) (size : SubRegSize)
    (rd rn rm : VRegister) : Emit unit :=
  match m with
  | UZP1 => uzp1 T size rd rn rm
  | TRN1 => trn1 T size rd rn rm
  | ZIP1 => zip1 T size rd rn rm
  | UZP2 => uzp2 T size rd rn rm
  | TRN2 => trn2 T size rd rn rm
  | ZIP2 => zip2 T size rd rn rm
  end.

End Permute.

(** ** Mnemonic layer: Advanced SIMD three-register extension *)

(** [fcmla] and [fcadd] take a [Rotation], an enumeration declared outside the
    sources; they are left out. *)

Module ThreeRegisterExt.

Definition sdot (T : RegKind) (size : SubRegSize) (rd rn rm : VRegister)
    : Emit unit :=
  if_DRegister T
    (LOGMAN_THROW_A_FMT (negb (size =? i64Bit))
       "64-bit subregsize not supported") ;;
  ASIMDThreeRegisterExt T 0 (bin "0010") size rm rn rd.

Definition usdot (T : RegKind) (rd rn rm : VRegister) : Emit unit :=
  ASIMDThreeRegisterExt T 0 (bin "0011") i32Bit rm rn rd.

Definition sqrdmlah (T : RegKind) (size : SubRegSize) (rd rn rm : VRegister)
    : Emit unit :=
  if_DRegister T
    (LOGMAN_THROW_A_FMT (negb (size =? i64Bit))
       "64-bit subregsize not supported") ;;
  ASIMDThreeRegisterExt T 1 (bin "0000") size rm rn rd.

Definition sqrdmlsh (T : RegKind) (size : SubRegSize) (rd rn rm : VRegister)
    : Emit unit :=
  if_DRegister T
    (LOGMAN_THROW_A_FMT (negb (size =? i64Bit))
       "64-bit subregsize not supported") ;;
  ASIMDThreeRegisterExt T 1 (bin "0001") size rm rn rd.

Definition udot (T : RegKind) (size : SubRegSize) (rd rn rm : VRegister)
    : Emit unit :=
  if_DRegister T
    (LOGMAN_THROW_A_FMT (negb (size =? i64Bit))
       "64-bit subregsize not supported") ;;
  ASIMDThreeRegisterExt T 1 (bin "0010") size rm rn rd.

Definition bfdot (T : RegKind) (rd rn rm : VRegister) : Emit unit :=
  ASIMDThreeRegisterExt T 1 (bin "1111") i16Bit rm rn rd.

Definition bfmlalb (rd rn rm : VRegister) : Emit unit :=
  ASIMDThreeRegisterExt DRegister 1 (bin "1111") i64Bit rm rn rd.

Definition bfmlalt (rd rn rm : VRegister) : Emit unit :=
  ASIMDThreeRegisterExt QRegister 1 (bin "1111") i64Bit rm rn rd.

Definition smmla (rd rn rm : VRegister) : Emit unit :=
  ASIMDThreeRegisterExt QRegister 0 (bin "0100") i32Bit rm rn rd.

Definition usmmla (rd rn rm : VRegister) : Emit unit :=
  ASIMDThreeRegisterExt QRegister 0 (bin "0101") i32Bit rm rn rd.

Definition bfmmla (rd rn rm : VRegister) : Emit unit :=
  ASIMDThreeRegisterExt QRegister 1 (bin "1101") i16Bit rm rn rd.

Definition ummla (rd rn rm : VRegister) : Emit unit :=
  ASIMDThreeRegisterExt QRegister 1 (bin "0100") i32Bit rm rn rd.

(** The templated mnemonics that take an element size. *)
Inductive Sized : Type :=
| SDOT | SQRDMLAH | SQRDMLSH | UDOT.

(** Calls a templated mnemonic that takes an element size. *)
Definition emitS (m : Sized) (T : RegKind) (size : SubRegSize)
    (rd rn rm : VRegister) : Emit unit :=
  match m with
  | SDOT => sdot T size rd rn rm
  | SQRDMLAH => sqrdmlah T size rd rn rm
  | SQRDMLSH => sqrdmlsh T size rd rn rm
  | UDOT => udot T size rd rn rm
  end.

(** The templated mnemonics of a single element size. *)
Inductive Unsized : Type :=
| USDOT | BFDOT.

(** Calls a templated mnemonic of a single element size. *)
Definition emitU (m : Unsized) (T : RegKind) (rd rn rm : VRegister)
    : Emit unit :=
  match m with
  | USDOT => usdot T rd rn rm
  | BFDOT => bfdot T rd rn rm
  end.

(** The mnemonics with fixed register types. *)
Inductive Fixed : Type :=
| BFMLALB | BFMLALT | SMMLA | USMMLA | BFMMLA | UMMLA.

(** Calls a mnemonic with fixed register types. *)
Definition emitF (m : Fixed) (rd rn rm : VRegister) : Emit unit :=
  match m with
  | BFMLALB => bfmlalb rd rn rm
  | BFMLALT => bfmlalt rd rn rm
  | SMMLA => smmla rd rn rm
  | USMMLA => usmmla rd rn rm
  | BFMMLA => bfmmla rd rn rm
  | UMMLA => ummla rd rn rm
  end.

End ThreeRegisterExt.

(** ** Mnemonic layer: Advanced SIMD two-register miscellaneous *)

Module TwoRegMisc.

Definition rev64 (T : RegKind) (size : SubRegSize) (rd rn : VRegister)
    : Emit unit :=
  LOGMAN_THROW_A_FMT (negb (size =? i64Bit))
    "64-bit subregsize not supported" ;;
  ASIMD2RegMisc T 0 size (bin "00000") rd rn.

Definition rev16 (T : RegKind) (size : SubRegSize) (rd rn : VRegister)
    : Emit unit :=
  LOGMAN_THROW_A_FMT (size =? i8Bit)
    "Only 8-bit subregsize supported" ;;
  ASIMD2RegMisc T 0 size (bin "00001") rd rn.

Definition saddlp (T : RegKind) (size : SubRegSize) (rd rn : VRegister)
    : Emit unit :=
  LOGMAN_THROW_A_FMT (negb (size =? i8Bit))
    "Destination 8-bit subregsize unsupported" ;;
  let ConvertedSize := u32 (size - 1) in
  ASIMD2RegMisc T 0 ConvertedSize (bin "00010") rd rn.

Definition suqadd (T : RegKind) (size : SubRegSize) (rd rn : VRegister)
    : Emit unit :=
  if_DRegister T
    (LOGMAN_THROW_A_FMT (negb (size =? i64Bit))
       "64-bit subregsize not supported") ;;
  ASIMD2RegMisc T 0 size (bin "00011") rd rn.

Definition cls (T : RegKind) (size : SubRegSize) (rd rn : VRegister)
    : Emit unit :=
  LOGMAN_THROW_A_FMT (negb (size =? i64Bit))
    "64-bit subregsize not supported" ;;
  ASIMD2RegMisc T 0 size (bin "00100") rd rn.

Definition cnt (T : RegKind) (size : SubRegSize) (rd rn : VRegister)
    : Emit unit :=
  LOGMAN_THROW_A_FMT (size =? i8Bit)
    "Only 8-bit subregsize supported" ;;
  ASIMD2RegMisc T 0 size (bin "00101") rd rn.

Definition sadalp (T : RegKind) (size : SubRegSize) (rd rn : VRegister)
    : Emit unit :=
  LOGMAN_THROW_A_FMT (negb (size =? i8Bit))
    "Destination 8-bit subregsize unsupported" ;;
  let ConvertedSize := u32 (size - 1) in
  ASIMD2RegMisc T 0 ConvertedSize (bin "00110") rd rn.

Definition sqabs (T : RegKind) (size : SubRegSize) (rd rn : VRegister)
    : Emit unit :=
  if_DRegister T
    (LOGMAN_THROW_A_FMT (negb (size =? i64Bit))
       "64-bit subregsize not supported") ;;
  ASIMD2RegMisc T 0 size (bin "00111") rd rn.

Definition cmgt (T : RegKind) (size : SubRegSize) (rd rn : VRegister)
    : Emit unit :=
  if_DRegister T
    (LOGMAN_THROW_A_FMT (negb (size =? i64Bit))
       "64-bit subregsize not supported") ;;
  ASIMD2RegMisc T 0 size (bin "01000") rd rn.

Definition cmeq (T : RegKind) (size : SubRegSize) (rd rn : VRegister)
    : Emit unit :=
  if_DRegister T
    (LOGMAN_THROW_A_FMT (negb (size =? i64Bit))
       "64-bit subregsize not supported") ;;
  ASIMD2RegMisc T 0 size (bin "01001") rd rn.

Definition cmlt (T : RegKind) (size : SubRegSize) (rd rn : VRegister)
    : Emit unit :=
  if_DRegister T
    (LOGMAN_THROW_A_FMT (negb (size =? i64Bit))
       "64-bit subregsize not supported") ;;
  ASIMD2RegMisc T 0 size (bin "01010") rd rn.

Definition abs (T : RegKind) (size : SubRegSize) (rd rn : VRegister)
    : Emit unit :=
  if_DRegister T
    (LOGMAN_THROW_A_FMT (negb (size =? i64Bit))
       "64-bit subregsize not supported") ;;
  ASIMD2RegMisc T 0 size (bin "01011") rd rn.

Definition xtn (size : SubRegSize) (rd rn : VRegister) : Emit unit :=
  LOGMAN_THROW_A_FMT (negb (size =? i64Bit))
    "64-bit destination subregsize not supported" ;;
  ASIMD2RegMisc DRegister 0 size (bin "10010") rd rn.

Definition xtn2 (size : SubRegSize) (rd rn : VRegister) : Emit unit :=
  LOGMAN_THROW_A_FMT (negb (size =? i64Bit))
    "64-bit destination subregsize not supported" ;;
  ASIMD2RegMisc QRegister 0 size (bin "10010") rd rn.

Definition sqxtn (size : SubRegSize) (rd rn : VRegister) : Emit unit :=
  LOGMAN_THROW_A_FMT (negb (size =? i64Bit))
    "64-bit destination subregsize not supported" ;;
  ASIMD2RegMisc DRegister 0 size (bin "10100") rd rn.

Definition sqxtn2 (size : SubRegSize) (rd rn : VRegister) : Emit unit :=
  LOGMAN_THROW_A_FMT (negb (size =? i64Bit))
    "64-bit destination subregsize not supported" ;;
  ASIMD2RegMisc QRegister 0 size (bin "10100") rd rn.

Definition fcvtn (size : SubRegSize) (rd rn : VRegister) : Emit unit :=
  LOGMAN_THROW_A_FMT ((size =? i32Bit) || (size =? i16Bit))
    "Only 16-bit & 32-bit subregsize supported" ;;
  let ConvertedSize := if size =? i32Bit then i16Bit else i8Bit in
  ASIMD2RegMisc DRegister 0 ConvertedSize (bin "10110") rd rn.

Definition fcvtn2 (size : SubRegSize) (rd rn : VRegister) : Emit unit :=
  LOGMAN_THROW_A_FMT ((size =? i32Bit) || (size =? i16Bit))
    "Only 16-bit & 32-bit subregsize supported" ;;
  let ConvertedSize := if size =? i32Bit then i16Bit else i8Bit in
  ASIMD2RegMisc QRegister 0 ConvertedSize (bin "10110") rd rn.

Definition fcvtl (size : SubRegSize) (rd rn : VRegister) : Emit unit :=
  LOGMAN_THROW_A_FMT ((size =? i64Bit) || (size =? i32Bit))
    "Only 32-bit & 64-bit subregsize supported" ;;
  let ConvertedSize := if size =? i64Bit then i16Bit else i8Bit in
  ASIMD2RegMisc DRegister 0 ConvertedSize (bin "10111") rd rn.

Definition fcvtl2 (size : SubRegSize) (rd rn : VRegister) : Emit unit :=
  LOGMAN_THROW_A_FMT ((size =? i64Bit) || (size =? i32Bit))
    "Only 32-bit & 64-bit subregsize supported" ;;
  let ConvertedSize := if size =? i64Bit then i16Bit else i8Bit in
  ASIMD2RegMisc QRegister 0 ConvertedSize (bin "10111") rd rn.

Definition frintn (T : RegKind) (size : SubRegSize) (rd rn : VRegister)
    : Emit unit :=
  if_DRegister T
    (LOGMAN_THROW_A_FMT (negb (size =? i64Bit))
       "64-bit subregsize not supported") ;;
  LOGMAN_THROW_A_FMT (IsStandardFloatSize size)
    "Only 16/32/64-bit subregsize supported" ;;
  if size =? i16Bit then
    ASIMDTwoRegMiscFP16 T 0 0 (bin "11000") rn rd
  else
    let ConvertedSize := if size =? i64Bit then i16Bit else i8Bit in
    ASIMD2RegMisc T 0 ConvertedSize (bin "11000") rd rn.

Definition frintm (T : RegKind) (size : SubRegSize) (rd rn : VRegister)
    : Emit unit :=
  if_DRegister T
    (LOGMAN_THROW_A_FMT (negb (size =? i64Bit))
       "64-bit subregsize not supported") ;;
  LOGMAN_THROW_A_FMT (IsStandardFloatSize size)
    "Only 16/32/64-bit subregsize supported" ;;
  if size =? i16Bit then
    ASIMDTwoRegMiscFP16 T 0 0 (bin "11001") rn rd
  else
    let ConvertedSize := if size =? i64Bit then i16Bit else i8Bit in
    ASIMD2RegMisc T 0 ConvertedSize (bin "11001") rd rn.

Definition fcvtns (T : RegKind) (size : SubRegSize) (rd rn : VRegister)
    : Emit unit :=
  if_DRegister T
    (LOGMAN_THROW_A_FMT (negb (size =? i64Bit))
       "64-bit subregsize not supported") ;;
  LOGMAN_THROW_A_FMT (IsStandardFloatSize size)
    "Only 16/32/64-bit subregsize supported" ;;
  if size =? i16Bit then
    ASIMDTwoRegMiscFP16 T 0 0 (bin "11010") rn rd
  else
    let ConvertedSize := if size =? i64Bit then i16Bit else i8Bit in
    ASIMD2RegMisc T 0 ConvertedSize (bin "11010") rd rn.

Definition fcvtms (T : RegKind) (size : SubRegSize) (rd rn : VRegister)
    : Emit unit :=
  if_DRegister T
    (LOGMAN_THROW_A_FMT (negb (size =? i64Bit))
       "64-bit subregsize not supported") ;;
  LOGMAN_THROW_A_FMT (IsStandardFloatSize size)
    "Only 16/32/64-bit subregsize supported" ;;
  if size =? i16Bit then
    ASIMDTwoRegMiscFP16 T 0 0 (bin "11011") rn rd
  else
    let ConvertedSize := if size =? i64Bit then i16Bit else i8Bit in
    ASIMD2RegMisc T 0 ConvertedSize (bin "11011") rd rn.

Definition fcvtas (T : RegKind) (size : SubRegSize) (rd rn : VRegister)
    : Emit unit :=
  if_DRegister T
    (LOGMAN_THROW_A_FMT (negb (size =? i64Bit))
       "64-bit subregsize not supported") ;;
  LOGMAN_THROW_A_FMT (IsStandardFloatSize size)
    "Only 16/32/64-bit subregsize supported" ;;
  if size =? i16Bit then
    ASIMDTwoRegMiscFP16 T 0 0 (bin "11100") rn rd
  else
    let ConvertedSize := if size =? i64Bit then i16Bit else i8Bit in
    ASIMD2RegMisc T 0 ConvertedSize (bin "11100") rd rn.

Definition scvtf (T : RegKind) (size : SubRegSize) (rd rn : VRegister)
    : Emit unit :=
  if_DRegister T
    (LOGMAN_THROW_A_FMT (negb (size =? i64Bit))
       "64-bit subregsize not supported") ;;
  LOGMAN_THROW_A_FMT (IsStandardFloatSize size)
    "Only 16/32/64-bit subregsize supported" ;;
  if size =? i16Bit then
    ASIMDTwoRegMiscFP16 T 0 0 (bin "11101") rn rd
  else
    let ConvertedSize := if size =? i64Bit then i16Bit else i8Bit in
    ASIMD2RegMisc T 0 ConvertedSize (bin "11101") rd rn.

Definition frint32z (T : RegKind) (size : SubRegSize) (rd rn : VRegister)
    : Emit unit :=
  if_DRegister T
    (LOGMAN_THROW_A_FMT (negb (size =? i64Bit))
       "64-bit subregsize not supported") ;;
  LOGMAN_THROW_A_FMT ((size =? i64Bit) || (size =? i32Bit))
    "Only 32-bit & 64-bit subregsize supported" ;;
  let ConvertedSize := if size =? i64Bit then i16Bit else i8Bit in
  ASIMD2RegMisc T 0 ConvertedSize (bin "11110") rd rn.

Definition frint64z (T : RegKind) (size : SubRegSize) (rd rn : VRegister)
    : Emit unit :=
  if_DRegister T
    (LOGMAN_THROW_A_FMT (negb (size =? i64Bit))
       "64-bit subregsize not supported") ;;
  LOGMAN_THROW_A_FMT ((size =? i64Bit) || (size =? i32Bit))
    "Only 32-bit & 64-bit subregsize supported" ;;
  let ConvertedSize := if size =? i64Bit then i16Bit else i8Bit in
  ASIMD2RegMisc T 0 ConvertedSize (bin "11111") rd rn.

Definition fcmgt (T : RegKind) (size : SubRegSize) (rd rn : VRegister)
    : Emit unit :=
  if_DRegister T
    (LOGMAN_THROW_A_FMT (negb (size =? i64Bit))
       "64-bit subregsize not supported") ;;
  LOGMAN_THROW_A_FMT (IsStandardFloatSize size)
    "Only 16/32/64-bit subregsize supported" ;;
  if size =? i16Bit then
    ASIMDTwoRegMiscFP16 T 0 1 (bin "01100") rn rd
  else
    ASIMD2RegMisc T 0 size (bin "01100") rd rn.

Definition fcmeq (T : RegKind) (size : SubRegSize) (rd rn : VRegister)
    : Emit unit :=
  if_DRegister T
    (LOGMAN_THROW_A_FMT (negb (size =? i64Bit))
       "64-bit subregsize not supported") ;;
  LOGMAN_THROW_A_FMT (IsStandardFloatSize size)
    "Only 16/32/64-bit subregsize supported" ;;
  if size =? i16Bit then
    ASIMDTwoRegMiscFP16 T 0 1 (bin "01101") rn rd
  else
    ASIMD2RegMisc T 0 size (bin "01101") rd rn.

Definition fcmlt (T : RegKind) (size : SubRegSize) (rd rn : VRegister)
    : Emit unit :=
  if_DRegister T
    (LOGMAN_THROW_A_FMT (negb (size =? i64Bit))
       "64-bit subregsize not supported") ;;
  LOGMAN_THROW_A_FMT (IsStandardFloatSize size)
    "Only 16/32/64-bit subregsize supported" ;;
  if size =? i16Bit then
    ASIMDTwoRegMiscFP16 T 0 1 (bin "01110") rn rd
  else
    ASIMD2RegMisc T 0 size (bin "01110") rd rn.

Definition fabs (T : RegKind) (size : SubRegSize) (rd rn : VRegister)
    : Emit unit :=
  if_DRegister T
    (LOGMAN_THROW_A_FMT (negb (size =? i64Bit))
       "64-bit subregsize not supported") ;;
  LOGMAN_THROW_A_FMT (IsStandardFloatSize size)
    "Only 16/32/64-bit subregsize supported" ;;
  if size =? i16Bit then
    ASIMDTwoRegMiscFP16 T 0 1 (bin "01111") rn rd
  else
    ASIMD2RegMisc T 0 size (bin "01111") rd rn.

Definition frintp (T : RegKind) (size : SubRegSize) (rd rn : VRegister)
    : Emit unit :=
  if_DRegister T
    (LOGMAN_THROW_A_FMT (negb (size =? i64Bit))
       "64-bit subregsize not supported") ;;
  LOGMAN_THROW_A_FMT (IsStandardFloatSize size)
    "Only 16/32/64-bit subregsize supported" ;;
  if size =? i16Bit then
    ASIMDTwoRegMiscFP16 T 0 1 (bin "11000") rn rd
  else
    ASIMD2RegMisc T 0 size (bin "11000") rd rn.

Definition frintz (T : RegKind) (size : SubRegSize) (rd rn : VRegister)
    : Emit unit :=
  if_DRegister T
    (LOGMAN_THROW_A_FMT (negb (size =? i64Bit))
       "64-bit subregsize not supported") ;;
  LOGMAN_THROW_A_FMT (IsStandardFloatSize size)
    "Only 16/32/64-bit subregsize supported" ;;
  if size =? i16Bit then
    ASIMDTwoRegMiscFP16 T 0 1 (bin "11001") rn rd
  else
    ASIMD2RegMisc T 0 size (bin "11001") rd rn.

Definition fcvtps (T : RegKind) (size : SubRegSize) (rd rn : VRegister)
    : Emit unit :=
  if_DRegister T
    (LOGMAN_THROW_A_FMT (negb (size =? i64Bit))
       "64-bit subregsize not supported") ;;
  LOGMAN_THROW_A_FMT (IsStandardFloatSize size)
    "Only 16/32/64-bit subregsize supported" ;;
  if size =? i16Bit then
    ASIMDTwoRegMiscFP16 T 0 1 (bin "11010") rn rd
  else
    ASIMD2RegMisc T 0 size (bin "11010") rd rn.

Definition fcvtzs (T : RegKind) (size : SubRegSize) (rd rn : VRegister)
    : Emit unit :=
  if_DRegister T
    (LOGMAN_THROW_A_FMT (negb (size =? i64Bit))
       "64-bit subregsize not supported") ;;
  LOGMAN_THROW_A_FMT (IsStandardFloatSize size)
    "Only 16/32/64-bit subregsize supported" ;;
  if size =? i16Bit then
    ASIMDTwoRegMiscFP16 T 0 1 (bin "11011") rn rd
  else
    ASIMD2RegMisc T 0 size (bin "11011") rd rn.

Definition urecpe (T : RegKind) (size : SubRegSize) (rd rn : VRegister)
    : Emit unit :=
  LOGMAN_THROW_A_FMT (size =? i32Bit)
    "Only 32-bit subregsize supported" ;;
  ASIMD2RegMisc T 0 size (bin "11100") rd rn.

Definition frecpe (T : RegKind) (size : SubRegSize) (rd rn : VRegister)
    : Emit unit :=
  LOGMAN_THROW_A_FMT (IsStandardFloatSize size)
    "Only 16/32/64-bit subregsize supported" ;;
  if size =? i16Bit then
    ASIMDTwoRegMiscFP16 T 0 1 (bin "11101") rn rd
  else
    ASIMD2RegMisc T 0 size (bin "11101") rd rn.

Definition rev32 (T : RegKind) (size : SubRegSize) (rd rn : VRegister)
    : Emit unit :=
  LOGMAN_THROW_A_FMT ((size =? i8Bit) || (size =? i16Bit))
    "Only 8-bit & 16-bit subregsize supported" ;;
  ASIMD2RegMisc T 1 size (bin "00000") rd rn.

Definition uaddlp (T : RegKind) (size : SubRegSize) (rd rn : VRegister)
    : Emit unit :=
  LOGMAN_THROW_A_FMT (negb (size =? i8Bit))
    "Destination 8-bit subregsize unsupported" ;;
  let ConvertedSize := u32 (size - 1) in
  ASIMD2RegMisc T 1 ConvertedSize (bin "00010") rd rn.

Definition usqadd (T : RegKind) (size : SubRegSize) (rd rn : VRegister)
    : Emit unit :=
  if_DRegister T
    (LOGMAN_THROW_A_FMT (negb (size =? i64Bit))
       "64-bit subregsize not supported") ;;
  ASIMD2RegMisc T 1 size (bin "00011") rd rn.

Definition clz (T : RegKind) (size : SubRegSize) (rd rn : VRegister)
    : Emit unit :=
  LOGMAN_THROW_A_FMT (negb (size =? i64Bit))
    "64-bit subregsize not supported" ;;
  ASIMD2RegMisc T 1 size (bin "00100") rd rn.

Definition uadalp (T : RegKind) (size : SubRegSize) (rd rn : VRegister)
    : Emit unit :=
  LOGMAN_THROW_A_FMT (negb (size =? i8Bit))
    "Destination 8-bit subregsize unsupported" ;;
  let ConvertedSize := u32 (size - 1) in
  ASIMD2RegMisc T 1 ConvertedSize (bin "00110") rd rn.

Definition sqneg (T : RegKind) (size : SubRegSize) (rd rn : VRegister)
    : Emit unit :=
  if_DRegister T
    (LOGMAN_THROW_A_FMT (negb (size =? i64Bit))
       "64-bit subregsize not supported") ;;
  ASIMD2RegMisc T 1 size (bin "00111") rd rn.

Definition cmge (T : RegKind) (size : SubRegSize) (rd rn : VRegister)
    : Emit unit :=
  if_DRegister T
    (LOGMAN_THROW_A_FMT (negb (size =? i64Bit))
       "64-bit subregsize not supported") ;;
  ASIMD2RegMisc T 1 size (bin "01000") rd rn.

Definition cmle (T : RegKind) (size : SubRegSize) (rd rn : VRegister)
    : Emit unit :=
  if_DRegister T
    (LOGMAN_THROW_A_FMT (negb (size =? i64Bit))
       "64-bit subregsize not supported") ;;
  ASIMD2RegMisc T 1 size (bin "01001") rd rn.

Definition neg (T : RegKind) (size : SubRegSize) (rd rn : VRegister)
    : Emit unit :=
  if_DRegister T
    (LOGMAN_THROW_A_FMT (negb (size =? i64Bit))
       "64-bit subregsize not supported") ;;
  ASIMD2RegMisc T 1 size (bin "01011") rd rn.

Definition sqxtun (size : SubRegSize) (rd rn : VRegister) : Emit unit :=
  LOGMAN_THROW_A_FMT (negb (size =? i64Bit))
    "64-bit destination subregsize not supported" ;;
  ASIMD2RegMisc DRegister 1 size (bin "10010") rd rn.

Definition sqxtun2 (size : SubRegSize) (rd rn : VRegister) : Emit unit :=
  LOGMAN_THROW_A_FMT (negb (size =? i64Bit))
    "64-bit destination subregsize not supported" ;;
  ASIMD2RegMisc QRegister 1 size (bin "10010") rd rn.

Definition shll (size : SubRegSize) (rd rn : VRegister) : Emit unit :=
  LOGMAN_THROW_A_FMT (negb (size =? i8Bit))
    "Destination 8-bit subregsize unsupported" ;;
  let ConvertedSize := u32 (size - 1) in
  ASIMD2RegMisc DRegister 1 ConvertedSize (bin "10011") rd rn.

Definition shll2 (size : SubRegSize) (rd rn : VRegister) : Emit unit :=
  LOGMAN_THROW_A_FMT (negb (size =? i8Bit))
    "Destination 8-bit subregsize unsupported" ;;
  let ConvertedSize := u32 (size - 1) in
  ASIMD2RegMisc QRegister 1 ConvertedSize (bin "10011") rd rn.

Definition uqxtn (size : SubRegSize) (rd rn : VRegister) : Emit unit :=
  ASIMD2RegMisc DRegister 1 size (bin "10100") rd rn.

Definition uqxtn2 (size : SubRegSize) (rd rn : VRegister) : Emit unit :=
  ASIMD2RegMisc QRegister 1 size (bin "10100") rd rn.

Definition fcvtxn (size : SubRegSize) (rd rn : VRegister) : Emit unit :=
  LOGMAN_THROW_A_FMT (size =? i32Bit)
    "Only 32-bit subregsize supported" ;;
  let ConvertedSize := if size =? i32Bit then i16Bit else i8Bit in
  ASIMD2RegMisc DRegister 1 ConvertedSize (bin "10110") rd rn.

Definition fcvtxn2 (size : SubRegSize) (rd rn : VRegister) : Emit unit :=
  LOGMAN_THROW_A_FMT (size =? i32Bit)
    "Only 32-bit subregsize supported" ;;
  let ConvertedSize := if size =? i32Bit then i16Bit else i8Bit in
  ASIMD2RegMisc QRegister 1 ConvertedSize (bin "10110") rd rn.

Definition frinta (T : RegKind) (size : SubRegSize) (rd rn : VRegister)
    : Emit unit :=
  LOGMAN_THROW_A_FMT (IsStandardFloatSize size)
    "Only 16/32/64-bit subregsize supported" ;;
  if size =? i16Bit then
    ASIMDTwoRegMiscFP16 T 1 0 (bin "11000") rn rd
  else
    let ConvertedSize := if size =? i64Bit then i16Bit else i8Bit in
    ASIMD2RegMisc T 1 ConvertedSize (bin "11000") rd rn.

Definition frintx (T : RegKind) (size : SubRegSize) (rd rn : VRegister)
    : Emit unit :=
  LOGMAN_THROW_A_FMT (IsStandardFloatSize size)
    "Only 16/32/64-bit subregsize supported" ;;
  if size =? i16Bit then
    ASIMDTwoRegMiscFP16 T 1 0 (bin "11001") rn rd
  else
    let ConvertedSize := if size =? i64Bit then i16Bit else i8Bit in
    ASIMD2RegMisc T 1 ConvertedSize (bin "11001") rd rn.

Definition fcvtnu (T : RegKind) (size : SubRegSize) (rd rn : VRegister)
    : Emit unit :=
  LOGMAN_THROW_A_FMT (IsStandardFloatSize size)
    "Only 16/32/64-bit subregsize supported" ;;
  if size =? i16Bit then
    ASIMDTwoRegMiscFP16 T 1 0 (bin "11010") rn rd
  else
    let ConvertedSize := if size =? i64Bit then i16Bit else i8Bit in
    ASIMD2RegMisc T 1 ConvertedSize (bin "11010") rd rn.

Definition fcvtmu (T : RegKind) (size : SubRegSize) (rd rn : VRegister)
    : Emit unit :=
  LOGMAN_THROW_A_FMT (IsStandardFloatSize size)
    "Only 16/32/64-bit subregsize supported" ;;
  if size =? i16Bit then
    ASIMDTwoRegMiscFP16 T 1 0 (bin "11011") rn rd
  else
    let ConvertedSize := if size =? i64Bit then i16Bit else i8Bit in
    ASIMD2RegMisc T 1 ConvertedSize (bin "11011") rd rn.

Definition fcvtau (T : RegKind) (size : SubRegSize) (rd rn : VRegister)
    : Emit unit :=
  LOGMAN_THROW_A_FMT (IsStandardFloatSize size)
    "Only 16/32/64-bit subregsize supported" ;;
  if size =? i16Bit then
    ASIMDTwoRegMiscFP16 T 1 0 (bin "11100") rn rd
  else
    let ConvertedSize := if size =? i64Bit then i16Bit else i8Bit in
    ASIMD2RegMisc T 1 ConvertedSize (bin "11100") rd rn.

Definition ucvtf (T : RegKind) (size : SubRegSize) (rd rn : VRegister)
    : Emit unit :=
  LOGMAN_THROW_A_FMT (IsStandardFloatSize size)
    "Only 16/32/64-bit subregsize supported" ;;
  if size =? i16Bit then
    ASIMDTwoRegMiscFP16 T 1 0 (bin "11101") rn rd
  else
    let ConvertedSize := if size =? i64Bit then i16Bit else i8Bit in
    ASIMD2RegMisc T 1 ConvertedSize (bin "11101") rd rn.

Definition frint32x (T : RegKind) (size : SubRegSize) (rd rn : VRegister)
    : Emit unit :=
  LOGMAN_THROW_A_FMT ((size =? i64Bit) || (size =? i32Bit))
    "Only 32-bit & 64-bit subregsize supported" ;;
  let ConvertedSize := if size =? i64Bit then i16Bit else i8Bit in
  ASIMD2RegMisc T 1 ConvertedSize (bin "11110") rd rn.

Definition frint64x (T : RegKind) (size : SubRegSize) (rd rn : VRegister)
    : Emit unit :=
  LOGMAN_THROW_A_FMT ((size =? i64Bit) || (size =? i32Bit))
    "Only 32-bit & 64-bit subregsize supported" ;;
  let ConvertedSize := if size =? i64Bit then i16Bit else i8Bit in
  ASIMD2RegMisc T 1 ConvertedSize (bin "11111") rd rn.

Definition not_ (T : RegKind) (size : SubRegSize) (rd rn : VRegister)
    : Emit unit :=
  LOGMAN_THROW_A_FMT (size =? i8Bit)
    "Only 8-bit subregsize supported" ;;
  ASIMD2RegMisc T 1 i8Bit (bin "00101") rd rn.

Definition mvn (T : RegKind) (size : SubRegSize) (rd rn : VRegister)
    : Emit unit :=
  LOGMAN_THROW_A_FMT (size =? i8Bit)
    "Only 8-bit subregsize supported" ;;
  ASIMD2RegMisc T 1 i8Bit (bin "00101") rd rn.

Definition rbit (T : RegKind) (size : SubRegSize) (rd rn : VRegister)
    : Emit unit :=
  LOGMAN_THROW_A_FMT (size =? i8Bit)
    "Only 8-bit subregsize supported" ;;
  ASIMD2RegMisc T 1 i16Bit (bin "00101") rd rn.

Definition fcmge (T : RegKind) (size : SubRegSize) (rd rn : VRegister)
    : Emit unit :=
  if_DRegister T
    (LOGMAN_THROW_A_FMT (negb (size =? i64Bit))
       "64-bit subregsize not supported") ;;
  LOGMAN_THROW_A_FMT (IsStandardFloatSize size)
    "Only 16/32/64-bit subregsize supported" ;;
  if size =? i16Bit then
    ASIMDTwoRegMiscFP16 T 1 1 (bin "01100") rn rd
  else
    ASIMD2RegMisc T 1 size (bin "01100") rd rn.

Definition fcmle (T : RegKind) (size : SubRegSize) (rd rn : VRegister)
    : Emit unit :=
  if_DRegister T
    (LOGMAN_THROW_A_FMT (negb (size =? i64Bit))
       "64-bit subregsize not supported") ;;
  LOGMAN_THROW_A_FMT (IsStandardFloatSize size)
    "Only 16/32/64-bit subregsize supported" ;;
  if size =? i16Bit then
    ASIMDTwoRegMiscFP16 T 1 1 (bin "01101") rn rd
  else
    ASIMD2RegMisc T 1 size (bin "01101") rd rn.

Definition fneg (T : RegKind) (size : SubRegSize) (rd rn : VRegister)
    : Emit unit :=
  if_DRegister T
    (LOGMAN_THROW_A_FMT (negb (size =? i64Bit))
       "64-bit subregsize not supported") ;;
  LOGMAN_THROW_A_FMT (IsStandardFloatSize size)
    "Only 16/32/64-bit subregsize supported" ;;
  if size =? i16Bit then
    ASIMDTwoRegMiscFP16 T 1 1 (bin "01111") rn rd
  else
    ASIMD2RegMisc T 1 size (bin "01111") rd rn.

Definition frinti (T : RegKind) (size : SubRegSize) (rd rn : VRegister)
    : Emit unit :=
  if_DRegister T
    (LOGMAN_THROW_A_FMT (negb (size =? i64Bit))
       "64-bit subregsize not supported") ;;
  LOGMAN_THROW_A_FMT (IsStandardFloatSize size)
    "Only 16/32/64-bit subregsize supported" ;;
  if size =? i16Bit then
    ASIMDTwoRegMiscFP16 T 1 1 (bin "11001") rn rd
  else
    ASIMD2RegMisc T 1 size (bin "11001") rd rn.

Definition fcvtpu (T : RegKind) (size : SubRegSize) (rd rn : VRegister)
    : Emit unit :=
  if_DRegister T
    (LOGMAN_THROW_A_FMT (negb (size =? i64Bit))
       "64-bit subregsize not supported") ;;
  LOGMAN_THROW_A_FMT (IsStandardFloatSize size)
    "Only 16/32/64-bit subregsize supported" ;;
  if size =? i16Bit then
    ASIMDTwoRegMiscFP16 T 1 1 (bin "11010") rn rd
  else
    ASIMD2RegMisc T 1 size (bin "11010") rd rn.

Definition fcvtzu (T : RegKind) (size : SubRegSize) (rd rn : VRegister)
    : Emit unit :=
  if_DRegister T
    (LOGMAN_THROW_A_FMT (negb (size =? i64Bit))
       "64-bit subregsize not supported") ;;
  LOGMAN_THROW_A_FMT (IsStandardFloatSize size)
    "Only 16/32/64-bit subregsize supported" ;;
  if size =? i16Bit then
    ASIMDTwoRegMiscFP16 T 1 1 (bin "11011") rn rd
  else
    ASIMD2RegMisc T 1 size (bin "11011") rd rn.

Definition ursqrte (T : RegKind) (size : SubRegSize) (rd rn : VRegister)
    : Emit unit :=
  LOGMAN_THROW_A_FMT (size =? i32Bit)
    "Only 32-bit & 64-bit subregsize supported" ;;
  ASIMD2RegMisc T 1 size (bin "11100") rd rn.

Definition frsqrte (T : RegKind) (size : SubRegSize) (rd rn : VRegister)
    : Emit unit :=
  if_DRegister T
    (LOGMAN_THROW_A_FMT (negb (size =? i64Bit))
       "64-bit subregsize not supported") ;;
  LOGMAN_THROW_A_FMT (IsStandardFloatSize size)
    "Only 16/32/64-bit subregsize supported" ;;
  if size =? i16Bit then
    ASIMDTwoRegMiscFP16 T 1 1 (bin "11101") rn rd
  else
    ASIMD2RegMisc T 1 size (bin "11101") rd rn.

Definition fsqrt (T : RegKind) (size : SubRegSize) (rd rn : VRegister)
    : Emit unit :=
  if_DRegister T
    (LOGMAN_THROW_A_FMT (negb (size =? i64Bit))
       "64-bit subregsize not supported") ;;
  LOGMAN_THROW_A_FMT (IsStandardFloatSize size)
    "Only 16/32/64-bit subregsize supported" ;;
  if size =? i16Bit then
    ASIMDTwoRegMiscFP16 T 1 1 (bin "11111") rn rd
  else
    ASIMD2RegMisc T 1 size (bin "11111") rd rn.

(** The mnemonics that are templates over the register type. *)
Inductive Templated : Type :=
| REV64 | REV16 | SADDLP | SUQADD | CLS | CNT | SADALP | SQABS | CMGT | CMEQ
| CMLT | ABS | FRINTN | FRINTM | FCVTNS | FCVTMS | FCVTAS | SCVTF | FRINT32Z
| FRINT64Z | FCMGT | FCMEQ | FCMLT | FABS | FRINTP | FRINTZ | FCVTPS | FCVTZS
| URECPE | FRECPE | REV32 | UADDLP | USQADD | CLZ | UADALP | SQNEG | CMGE
| CMLE | NEG | FRINTA | FRINTX | FCVTNU | FCVTMU | FCVTAU | UCVTF | FRINT32X
| FRINT64X | NOT | MVN | RBIT | FCMGE | FCMLE | FNEG | FRINTI | FCVTPU
| FCVTZU | URSQRTE | FRSQRTE | FSQRT.

(** Calls a templated mnemonic. *)
Definition emitT (m : Templated) (T : RegKind) (size : SubRegSize)
    (rd rn : VRegister) : Emit unit :=
  match m with
  | REV64 => rev64 T size rd rn
  | REV16 => rev16 T size rd rn
  | SADDLP => saddlp T size rd rn
  | SUQADD => suqadd T size rd rn
  | CLS => cls T size rd rn
  | CNT => cnt T size rd rn
  | SADALP => sadalp T size rd rn
  | SQABS => sqabs T size rd rn
  | CMGT => cmgt T size rd rn
  | CMEQ => cmeq T size rd rn
  | CMLT => cmlt T size rd rn
  | ABS => abs T size rd rn
  | FRINTN => frintn T size rd rn
  | FRINTM => frintm T size rd rn
  | FCVTNS => fcvtns T size rd rn
  | FCVTMS => fcvtms T size rd rn
  | FCVTAS => fcvtas T size rd rn
  | SCVTF => scvtf T size rd rn
  | FRINT32Z => frint32z T size rd rn
  | FRINT64Z => frint64z T size rd rn
  | FCMGT => fcmgt T size rd rn
  | FCMEQ => fcmeq T size rd rn
  | FCMLT => fcmlt T size rd rn
  | FABS => fabs T size rd rn
  | FRINTP => frintp T size rd rn
  | FRINTZ => frintz T size rd rn
  | FCVTPS => fcvtps T size rd rn
  | FCVTZS => fcvtzs T size rd rn
  | URECPE => urecpe T size rd rn
  | FRECPE => frecpe T size rd rn
  | REV32 => rev32 T size rd rn
  | UADDLP => uaddlp T size rd rn
  | USQADD => usqadd T size rd rn
  | CLZ => clz T size rd rn
  | UADALP => uadalp T size rd rn
  | SQNEG => sqneg T size rd rn
  | CMGE => cmge T size rd rn
  | CMLE => cmle T size rd rn
  | NEG => neg T size rd rn
  | FRINTA => frinta T size rd rn
  | FRINTX => frintx T size rd rn
  | FCVTNU => fcvtnu T size rd rn
  | FCVTMU => fcvtmu T size rd rn
  | FCVTAU => fcvtau T size rd rn
  | UCVTF => ucvtf T size rd rn
  | FRINT32X => frint32x T size rd rn
  | FRINT64X => frint64x T size rd rn
  | NOT => not_ T size rd rn
  | MVN => mvn T size rd rn
  | RBIT => rbit T size rd rn
  | FCMGE => fcmge T size rd rn
  | FCMLE => fcmle T size rd rn
  | FNEG => fneg T size rd rn
  | FRINTI => frinti T size rd rn
  | FCVTPU => fcvtpu T size rd rn
  | FCVTZU => fcvtzu T size rd rn
  | URSQRTE => ursqrte T size rd rn
  | FRSQRTE => frsqrte T size rd rn
  | FSQRT => fsqrt T size rd rn
  end.

(** The mnemonics with fixed register types. *)
Inductive Fixed : Type :=
| XTN | XTN2 | SQXTN | SQXTN2 | FCVTN | FCVTN2 | FCVTL | FCVTL2 | SQXTUN
| SQXTUN2 | SHLL | SHLL2 | UQXTN | UQXTN2 | FCVTXN | FCVTXN2.

(** Calls a mnemonic with fixed register types. *)
Definition emitF (m : Fixed) (size : SubRegSize) (rd rn : VRegister)
    : Emit unit :=
  match m with
  | XTN => xtn size rd rn
  | XTN2 => xtn2 size rd rn
  | SQXTN => sqxtn size rd rn
  | SQXTN2 => sqxtn2 size rd rn
  | FCVTN => fcvtn size rd rn
  | FCVTN2 => fcvtn2 size rd rn
  | FCVTL => fcvtl size rd rn
  | FCVTL2 => fcvtl2 size rd rn
  | SQXTUN => sqxtun size rd rn
  | SQXTUN2 => sqxtun2 size rd rn
  | SHLL => shll size rd rn
  | SHLL2 => shll2 size rd rn
  | UQXTN => uqxtn size rd rn
  | UQXTN2 => uqxtn2 size rd rn
  | FCVTXN => fcvtxn size rd rn
  | FCVTXN2 => fcvtxn2 size rd rn
  end.

End TwoRegMisc.

(** ** Mnemonic layer: Advanced SIMD across lanes *)

Module AcrossLanes.

Definition saddlv (T : RegKind) (size : SubRegSize) (rd rn : VRegister)
    : Emit unit :=
  if_DRegister T
    (LOGMAN_THROW_A_FMT (negb (size =? i64Bit))
       "64-bit subregsize not supported") ;;
  LOGMAN_THROW_A_FMT (negb (size =? i8Bit))
    "Destination 8-bit subregsize unsupported" ;;
  let ConvertedSize := u32 (size - 1) in
  ASIMDAcrossLanes T 0 ConvertedSize (bin "00011") rd rn.

Definition smaxv (T : RegKind) (size : SubRegSize) (rd rn : VRegister)
    : Emit unit :=
  if_DRegister T
    (LOGMAN_THROW_A_FMT (negb (size =? i32Bit) && negb (size =? i64Bit))
       "32/64-bit subregsize not supported") ;;
  LOGMAN_THROW_A_FMT (negb (size =? i64Bit))
    "Destination 64-bit subregsize unsupported" ;;
  ASIMDAcrossLanes T 0 size (bin "01010") rd rn.

Definition sminv (T : RegKind) (size : SubRegSize) (rd rn : VRegister)
    : Emit unit :=
  if_DRegister T
    (LOGMAN_THROW_A_FMT (negb (size =? i32Bit) && negb (size =? i64Bit))
       "32/64-bit subregsize not supported") ;;
  LOGMAN_THROW_A_FMT (negb (size =? i64Bit))
    "Destination 64-bit subregsize unsupported" ;;
  ASIMDAcrossLanes T 0 size (bin "11010") rd rn.

Definition addv (T : RegKind) (size : SubRegSize) (rd rn : VRegister)
    : Emit unit :=
  if_DRegister T
    (LOGMAN_THROW_A_FMT (negb (size =? i32Bit) && negb (size =? i64Bit))
       "32/64-bit subregsize not supported") ;;
  LOGMAN_THROW_A_FMT (negb (size =? i64Bit))
    "Destination 64-bit subregsize unsupported" ;;
  ASIMDAcrossLanes T 0 size (bin "11011") rd rn.

Definition uaddlv (T : RegKind) (size : SubRegSize) (rd rn : VRegister)
    : Emit unit :=
  if_DRegister T
    (LOGMAN_THROW_A_FMT (negb (size =? i64Bit))
       "64-bit subregsize not supported") ;;
  LOGMAN_THROW_A_FMT (negb (size =? i8Bit))
    "Destination 8-bit subregsize unsupported" ;;
  let ConvertedSize := u32 (size - 1) in
  ASIMDAcrossLanes T 1 ConvertedSize (bin "00011") rd rn.

Definition umaxv (T : RegKind) (size : SubRegSize) (rd rn : VRegister)
    : Emit unit :=
  if_DRegister T
    (LOGMAN_THROW_A_FMT (negb (size =? i32Bit) && negb (size =? i64Bit))
       "32/64-bit subregsize not supported") ;;
  LOGMAN_THROW_A_FMT (negb (size =? i64Bit))
    "Destination 64-bit subregsize unsupported" ;;
  ASIMDAcrossLanes T 1 size (bin "01010") rd rn.

Definition uminv (T : RegKind) (size : SubRegSize) (rd rn : VRegister)
    : Emit unit :=
  if_DRegister T
    (LOGMAN_THROW_A_FMT (negb (size =? i32Bit) && negb (size =? i64Bit))
       "32/64-bit subregsize not supported") ;;
  LOGMAN_THROW_A_FMT (negb (size =? i64Bit))
    "Destination 64-bit subregsize unsupported" ;;
  ASIMDAcrossLanes T 1 size (bin "11010") rd rn.

Definition fmaxnmv (T : RegKind) (size : SubRegSize) (rd rn : VRegister)
    : Emit unit :=
  if_DRegister T
    (LOGMAN_THROW_A_FMT (negb (size =? i32Bit))
       "32-bit subregsize not supported") ;;
  LOGMAN_THROW_A_FMT (negb (size =? i8Bit) && negb (size =? i64Bit))
    "Destination 8/64-bit subregsize unsupported" ;;
  let ConvertedSize := if size =? i64Bit then i16Bit else i8Bit in
  let U := if size =? i16Bit then 0 else 1 in
  ASIMDAcrossLanes T U ConvertedSize (bin "01100") rd rn.

Definition fmaxv (T : RegKind) (size : SubRegSize) (rd rn : VRegister)
    : Emit unit :=
  if_DRegister T
    (LOGMAN_THROW_A_FMT (negb (size =? i32Bit))
       "32-bit subregsize not supported") ;;
  LOGMAN_THROW_A_FMT (negb (size =? i8Bit) && negb (size =? i64Bit))
    "Destination 8/64-bit subregsize unsupported" ;;
  let ConvertedSize := if size =? i64Bit then i16Bit else i8Bit in
  let U := if size =? i16Bit then 0 else 1 in
  ASIMDAcrossLanes T U ConvertedSize (bin "01111") rd rn.

Definition fminnmv (T : RegKind) (size : SubRegSize) (rd rn : VRegister)
    : Emit unit :=
  if_DRegister T
    (LOGMAN_THROW_A_FMT (negb (size =? i32Bit))
       "32-bit subregsize not supported") ;;
  LOGMAN_THROW_A_FMT (negb (size =? i8Bit) && negb (size =? i64Bit))
    "Destination 8/64-bit subregsize unsupported" ;;
  let ConvertedSize := if size =? i64Bit then i64Bit else i32Bit in
  let U := if size =? i16Bit then 0 else 1 in
  ASIMDAcrossLanes T U ConvertedSize (bin "01100") rd rn.

Definition fminv (T : RegKind) (size : SubRegSize) (rd rn : VRegister)
    : Emit unit :=
  if_DRegister T
    (LOGMAN_THROW_A_FMT (negb (size =? i32Bit))
       "32-bit subregsize not supported") ;;
  LOGMAN_THROW_A_FMT (negb (size =? i8Bit) && negb (size =? i64Bit))
    "Destination 8/64-bit subregsize unsupported" ;;
  let ConvertedSize := if size =? i64Bit then i64Bit else i32Bit in
  let U := if size =? i16Bit then 0 else 1 in
  ASIMDAcrossLanes T U ConvertedSize (bin "01111") rd rn.

(** The mnemonics of the category. *)
Inductive Mnemonic : Type :=
| SADDLV | SMAXV | SMINV | ADDV | UADDLV | UMAXV | UMINV | FMAXNMV | FMAXV
| FMINNMV | FMINV.

(** Calls the mnemonic. *)
Definition emit (m : Mnemonic) (T : RegKind) (size : SubRegSize)
    (rd rn : VRegister) : Emit unit :=
  match m with
  | SADDLV => saddlv T size rd rn
  | SMAXV => smaxv T size rd rn
  | SMINV => sminv T size rd rn
  | ADDV => addv T size rd rn
  | UADDLV => uaddlv T size rd rn
  | UMAXV => umaxv T size rd rn
  | UMINV => uminv T size rd rn
  | FMAXNMV => fmaxnmv T size rd rn
  | FMAXV => fmaxv T size rd rn
  | FMINNMV => fminnmv T size rd rn
  | FMINV => fminv T size rd rn
  end.

End AcrossLanes.

(** ** Mnemonic layer: Advanced SIMD three different *)

Module ThreeDifferent.

Definition saddl (size : SubRegSize) (rd rn rm : VRegister) : Emit unit :=
  LOGMAN_THROW_A_FMT (negb (size =? i8Bit))
    "No 8-bit dest support." ;;
  let ConvertedSize := u32 (size - 1) in
  ASIMD3Different DRegister 0 (bin "0000") ConvertedSize rd rn rm.

Definition saddl2 (size : SubRegSize) (rd rn rm : VRegister) : Emit unit :=
  LOGMAN_THROW_A_FMT (negb (size =? i8Bit))
    "No 8-bit dest support." ;;
  let ConvertedSize := u32 (size - 1) in
  ASIMD3Different QRegister 0 (bin "0000") ConvertedSize rd rn rm.

Definition saddw (size : SubRegSize) (rd rn rm : VRegister) : Emit unit :=
  LOGMAN_THROW_A_FMT (negb (size =? i8Bit))
    "No 8-bit dest support." ;;
  let ConvertedSize := u32 (size - 1) in
  ASIMD3Different DRegister 0 (bin "0001") ConvertedSize rd rn rm.

Definition saddw2 (size : SubRegSize) (rd rn rm : VRegister) : Emit unit :=
  LOGMAN_THROW_A_FMT (negb (size =? i8Bit))
    "No 8-bit dest support." ;;
  let ConvertedSize := u32 (size - 1) in
  ASIMD3Different QRegister 0 (bin "0001") ConvertedSize rd rn rm.

Definition ssubl (size : SubRegSize) (rd rn rm : VRegister) : Emit unit :=
  LOGMAN_THROW_A_FMT (negb (size =? i8Bit))
    "No 8-bit dest support." ;;
  let ConvertedSize := u32 (size - 1) in
  ASIMD3Different DRegister 0 (bin "0010") ConvertedSize rd rn rm.

Definition ssubl2 (size : SubRegSize) (rd rn rm : VRegister) : Emit unit :=
  LOGMAN_THROW_A_FMT (negb (size =? i8Bit))
    "No 8-bit dest support." ;;
  let ConvertedSize := u32 (size - 1) in
  ASIMD3Different QRegister 0 (bin "0010") ConvertedSize rd rn rm.

Definition ssubw (size : SubRegSize) (rd rn rm : VRegister) : Emit unit :=
  LOGMAN_THROW_A_FMT (negb (size =? i8Bit))
    "No 8-bit dest support." ;;
  let ConvertedSize := u32 (size - 1) in
  ASIMD3Different DRegister 0 (bin "0011") ConvertedSize rd rn rm.

Definition ssubw2 (size : SubRegSize) (rd rn rm : VRegister) : Emit unit :=
  LOGMAN_THROW_A_FMT (negb (size =? i8Bit))
    "No 8-bit dest support." ;;
  let ConvertedSize := u32 (size - 1) in
  ASIMD3Different QRegister 0 (bin "0011") ConvertedSize rd rn rm.

Definition addhn (size : SubRegSize) (rd rn rm : VRegister) : Emit unit :=
  LOGMAN_THROW_A_FMT (negb (size =? i64Bit))
    "No 64-bit dest support." ;;
  ASIMD3Different DRegister 0 (bin "0100") size rd rn rm.

Definition addhn2 (size : SubRegSize) (rd rn rm : VRegister) : Emit unit :=
  LOGMAN_THROW_A_FMT (negb (size =? i64Bit))
    "No 64-bit dest support." ;;
  ASIMD3Different QRegister 0 (bin "0100") size rd rn rm.

Definition sabal (size : SubRegSize) (rd rn rm : VRegister) : Emit unit :=
  LOGMAN_THROW_A_FMT (negb (size =? i8Bit))
    "No 8-bit dest support." ;;
  let ConvertedSize := u32 (size - 1) in
  ASIMD3Different DRegister 0 (bin "0101") ConvertedSize rd rn rm.

Definition sabal2 (size : SubRegSize) (rd rn rm : VRegister) : Emit unit :=
  LOGMAN_THROW_A_FMT (negb (size =? i8Bit))
    "No 8-bit dest support." ;;
  let ConvertedSize := u32 (size - 1) in
  ASIMD3Different QRegister 0 (bin "0101") ConvertedSize rd rn rm.

Definition subhn (size : SubRegSize) (rd rn rm : VRegister) : Emit unit :=
  LOGMAN_THROW_A_FMT (negb (size =? i64Bit))
    "No 64-bit dest support." ;;
  ASIMD3Different DRegister 0 (bin "0110") size rd rn rm.

Definition subhn2 (size : SubRegSize) (rd rn rm : VRegister) : Emit unit :=
  LOGMAN_THROW_A_FMT (negb (size =? i64Bit))
    "No 64-bit dest support." ;;
  ASIMD3Different QRegister 0 (bin "0110") size rd rn rm.

Definition sabdl (size : SubRegSize) (rd rn rm : VRegister) : Emit unit :=
  LOGMAN_THROW_A_FMT (negb (size =? i8Bit))
    "No 8-bit dest support." ;;
  let ConvertedSize := u32 (size - 1) in
  ASIMD3Different DRegister 0 (bin "0111") ConvertedSize rd rn rm.

Definition sabdl2 (size : SubRegSize) (rd rn rm : VRegister) : Emit unit :=
  LOGMAN_THROW_A_FMT (negb (size =? i8Bit))
    "No 8-bit dest support." ;;
  let ConvertedSize := u32 (size - 1) in
  ASIMD3Different QRegister 0 (bin "0111") ConvertedSize rd rn rm.

Definition smlal (size : SubRegSize) (rd rn rm : VRegister) : Emit unit :=
  LOGMAN_THROW_A_FMT (negb (size =? i8Bit))
    "No 8-bit dest support." ;;
  let ConvertedSize := u32 (size - 1) in
  ASIMD3Different DRegister 0 (bin "1000") ConvertedSize rd rn rm.

Definition smlal2 (size : SubRegSize) (rd rn rm : VRegister) : Emit unit :=
  LOGMAN_THROW_A_FMT (negb (size =? i8Bit))
    "No 8-bit dest support." ;;
  let ConvertedSize := u32 (size - 1) in
  ASIMD3Different QRegister 0 (bin "1000") ConvertedSize rd rn rm.

Definition sqdmlal (size : SubRegSize) (rd rn rm : VRegister) : Emit unit :=
  LOGMAN_THROW_A_FMT (negb (size =? i8Bit) && negb (size =? i16Bit))
    "No 8/16-bit dest support." ;;
  let ConvertedSize := u32 (size - 1) in
  ASIMD3Different DRegister 0 (bin "1001") ConvertedSize rd rn rm.

Definition sqdmlal2 (size : SubRegSize) (rd rn rm : VRegister) : Emit unit :=
  LOGMAN_THROW_A_FMT (negb (size =? i8Bit) && negb (size =? i16Bit))
    "No 8/16-bit dest support." ;;
  let ConvertedSize := u32 (size - 1) in
  ASIMD3Different QRegister 0 (bin "1001") ConvertedSize rd rn rm.

Definition smlsl (size : SubRegSize) (rd rn rm : VRegister) : Emit unit :=
  LOGMAN_THROW_A_FMT (negb (size =? i8Bit))
    "No 8-bit dest support." ;;
  let ConvertedSize := u32 (size - 1) in
  ASIMD3Different DRegister 0 (bin "1010") ConvertedSize rd rn rm.

Definition smlsl2 (size : SubRegSize) (rd rn rm : VRegister) : Emit unit :=
  LOGMAN_THROW_A_FMT (negb (size =? i8Bit))
    "No 8-bit dest support." ;;
  let ConvertedSize := u32 (size - 1) in
  ASIMD3Different QRegister 0 (bin "1010") ConvertedSize rd rn rm.

Definition sqdmlsl (size : SubRegSize) (rd rn rm : VRegister) : Emit unit :=
  LOGMAN_THROW_A_FMT (negb (size =? i8Bit) && negb (size =? i16Bit))
    "No 8/16-bit dest support." ;;
  let ConvertedSize := u32 (size - 1) in
  ASIMD3Different DRegister 0 (bin "1011") ConvertedSize rd rn rm.

Definition sqdmlsl2 (size : SubRegSize) (rd rn rm : VRegister) : Emit unit :=
  LOGMAN_THROW_A_FMT (negb (size =? i8Bit) && negb (size =? i16Bit))
    "No 8/16-bit dest support." ;;
  let ConvertedSize := u32 (size - 1) in
  ASIMD3Different QRegister 0 (bin "1011") ConvertedSize rd rn rm.

Definition smull (size : SubRegSize) (rd rn rm : VRegister) : Emit unit :=
  LOGMAN_THROW_A_FMT (negb (size =? i8Bit))
    "No 8-bit dest support." ;;
  let ConvertedSize := u32 (size - 1) in
  ASIMD3Different DRegister 0 (bin "1100") ConvertedSize rd rn rm.

Definition smull2 (size : SubRegSize) (rd rn rm : VRegister) : Emit unit :=
  LOGMAN_THROW_A_FMT (negb (size =? i8Bit))
    "No 8-bit dest support." ;;
  let ConvertedSize := u32 (size - 1) in
  ASIMD3Different QRegister 0 (bin "1100") ConvertedSize rd rn rm.

Definition sqdmull (size : SubRegSize) (rd rn rm : VRegister) : Emit unit :=
  LOGMAN_THROW_A_FMT (negb (size =? i8Bit) && negb (size =? i16Bit))
    "No 8/16-bit dest support." ;;
  let ConvertedSize := u32 (size - 1) in
  ASIMD3Different DRegister 0 (bin "1101") ConvertedSize rd rn rm.

Definition sqdmull2 (size : SubRegSize) (rd rn rm : VRegister) : Emit unit :=
  LOGMAN_THROW_A_FMT (negb (size =? i8Bit) && negb (size =? i16Bit))
    "No 8/16-bit dest support." ;;
  let ConvertedSize := u32 (size - 1) in
  ASIMD3Different QRegister 0 (bin "1101") ConvertedSize rd rn rm.

Definition pmull (size : SubRegSize) (rd rn rm : VRegister) : Emit unit :=
  LOGMAN_THROW_A_FMT ((size =? i16Bit) || (size =? i128Bit))
    "Only 16-bit and 128-bit destination supported" ;;
  let ConvertedSize := u32 (size - 1) in
  ASIMD3Different DRegister 0 (bin "1110") ConvertedSize rd rn rm.

Definition pmull2 (size : SubRegSize) (rd rn rm : VRegister) : Emit unit :=
  LOGMAN_THROW_A_FMT ((size =? i16Bit) || (size =? i128Bit))
    "Only 16-bit and 128-bit destination supported" ;;
  let ConvertedSize := u32 (size - 1) in
  ASIMD3Different QRegister 0 (bin "1110") ConvertedSize rd rn rm.

Definition uaddl (size : SubRegSize) (rd rn rm : VRegister) : Emit unit :=
  LOGMAN_THROW_A_FMT (negb (size =? i8Bit))
    "No 8-bit dest support." ;;
  let ConvertedSize := u32 (size - 1) in
  ASIMD3Different DRegister 1 (bin "0000") ConvertedSize rd rn rm.

Definition uaddl2 (size : SubRegSize) (rd rn rm : VRegister) : Emit unit :=
  LOGMAN_THROW_A_FMT (negb (size =? i8Bit))
    "No 8-bit dest support." ;;
  let ConvertedSize := u32 (size - 1) in
  ASIMD3Different QRegister 1 (bin "0000") ConvertedSize rd rn rm.

Definition uaddw (size : SubRegSize) (rd rn rm : VRegister) : Emit unit :=
  LOGMAN_THROW_A_FMT (negb (size =? i8Bit))
    "No 8-bit dest support." ;;
  let ConvertedSize := u32 (size - 1) in
  ASIMD3Different DRegister 1 (bin "0001") ConvertedSize rd rn rm.

Definition uaddw2 (size : SubRegSize) (rd rn rm : VRegister) : Emit unit :=
  LOGMAN_THROW_A_FMT (negb (size =? i8Bit))
    "No 8-bit dest support." ;;
  let ConvertedSize := u32 (size - 1) in
  ASIMD3Different QRegister 1 (bin "0001") ConvertedSize rd rn rm.

Definition usubl (size : SubRegSize) (rd rn rm : VRegister) : Emit unit :=
  LOGMAN_THROW_A_FMT (negb (size =? i8Bit))
    "No 8-bit dest support." ;;
  let ConvertedSize := u32 (size - 1) in
  ASIMD3Different DRegister 1 (bin "0010") ConvertedSize rd rn rm.

Definition usubl2 (size : SubRegSize) (rd rn rm : VRegister) : Emit unit :=
  LOGMAN_THROW_A_FMT (negb (size =? i8Bit))
    "No 8-bit dest support." ;;
  let ConvertedSize := u32 (size - 1) in
  ASIMD3Different QRegister 1 (bin "0010") ConvertedSize rd rn rm.

Definition usubw (size : SubRegSize) (rd rn rm : VRegister) : Emit unit :=
  LOGMAN_THROW_A_FMT (negb (size =? i8Bit))
    "No 8-bit dest support." ;;
  let ConvertedSize := u32 (size - 1) in
  ASIMD3Different DRegister 1 (bin "0011") ConvertedSize rd rn rm.

Definition usubw2 (size : SubRegSize) (rd rn rm : VRegister) : Emit unit :=
  LOGMAN_THROW_A_FMT (negb (size =? i8Bit))
    "No 8-bit dest support." ;;
  let ConvertedSize := u32 (size - 1) in
  ASIMD3Different QRegister 1 (bin "0011") ConvertedSize rd rn rm.

Definition raddhn (size : SubRegSize) (rd rn rm : VRegister) : Emit unit :=
  LOGMAN_THROW_A_FMT (negb (size =? i64Bit))
    "No 64-bit dest support." ;;
  ASIMD3Different DRegister 1 (bin "0100") size rd rn rm.

Definition raddhn2 (size : SubRegSize) (rd rn rm : VRegister) : Emit unit :=
  LOGMAN_THROW_A_FMT (negb (size =? i64Bit))
    "No 64-bit dest support." ;;
  ASIMD3Different QRegister 1 (bin "0100") size rd rn rm.

Definition uabal (size : SubRegSize) (rd rn rm : VRegister) : Emit unit :=
  LOGMAN_THROW_A_FMT (negb (size =? i8Bit))
    "No 8-bit dest support." ;;
  let ConvertedSize := u32 (size - 1) in
  ASIMD3Different DRegister 1 (bin "0101") ConvertedSize rd rn rm.

Definition uabal2 (size : SubRegSize) (rd rn rm : VRegister) : Emit unit :=
  LOGMAN_THROW_A_FMT (negb (size =? i8Bit))
    "No 8-bit dest support." ;;
  let ConvertedSize := u32 (size - 1) in
  ASIMD3Different QRegister 1 (bin "0101") ConvertedSize rd rn rm.

Definition rsubhn (size : SubRegSize) (rd rn rm : VRegister) : Emit unit :=
  LOGMAN_THROW_A_FMT (negb (size =? i64Bit))
    "No 64-bit dest support." ;;
  ASIMD3Different DRegister 1 (bin "0110") size rd rn rm.

Definition rsubhn2 (size : SubRegSize) (rd rn rm : VRegister) : Emit unit :=
  LOGMAN_THROW_A_FMT (negb (size =? i64Bit))
    "No 64-bit dest support." ;;
  ASIMD3Different QRegister 1 (bin "0110") size rd rn rm.

Definition uabdl (size : SubRegSize) (rd rn rm : VRegister) : Emit unit :=
  LOGMAN_THROW_A_FMT (negb (size =? i8Bit))
    "No 8-bit dest support." ;;
  let ConvertedSize := u32 (size - 1) in
  ASIMD3Different DRegister 1 (bin "0111") ConvertedSize rd rn rm.

Definition uabdl2 (size : SubRegSize) (rd rn rm : VRegister) : Emit unit :=
  LOGMAN_THROW_A_FMT (negb (size =? i8Bit))
    "No 8-bit dest support." ;;
  let ConvertedSize := u32 (size - 1) in
  ASIMD3Different QRegister 1 (bin "0111") ConvertedSize rd rn rm.

Definition umlal (size : SubRegSize) (rd rn rm : VRegister) : Emit unit :=
  LOGMAN_THROW_A_FMT (negb (size =? i8Bit))
    "No 8-bit dest support." ;;
  let ConvertedSize := u32 (size - 1) in
  ASIMD3Different DRegister 1 (bin "1000") ConvertedSize rd rn rm.

Definition umlal2 (size : SubRegSize) (rd rn rm : VRegister) : Emit unit :=
  LOGMAN_THROW_A_FMT (negb (size =? i8Bit))
    "No 8-bit dest support." ;;
  let ConvertedSize := u32 (size - 1) in
  ASIMD3Different QRegister 1 (bin "1000") ConvertedSize rd rn rm.

Definition umlsl (size : SubRegSize) (rd rn rm : VRegister) : Emit unit :=
  LOGMAN_THROW_A_FMT (negb (size =? i8Bit))
    "No 8-bit dest support." ;;
  let ConvertedSize := u32 (size - 1) in
  ASIMD3Different DRegister 1 (bin "1010") ConvertedSize rd rn rm.

Definition umlsl2 (size : SubRegSize) (rd rn rm : VRegister) : Emit unit :=
  LOGMAN_THROW_A_FMT (negb (size =? i8Bit))
    "No 8-bit dest support." ;;
  let ConvertedSize := u32 (size - 1) in
  ASIMD3Different QRegister 1 (bin "1010") ConvertedSize rd rn rm.

Definition umull (size : SubRegSize) (rd rn rm : VRegister) : Emit unit :=
  LOGMAN_THROW_A_FMT (negb (size =? i8Bit))
    "No 8-bit dest support." ;;
  let ConvertedSize := u32 (size - 1) in
  ASIMD3Different DRegister 1 (bin "1100") ConvertedSize rd rn rm.

Definition umull2 (size : SubRegSize) (rd rn rm : VRegister) : Emit unit :=
  LOGMAN_THROW_A_FMT (negb (size =? i8Bit))
    "No 8-bit dest support." ;;
  let ConvertedSize := u32 (size - 1) in
  ASIMD3Different QRegister 1 (bin "1100") ConvertedSize rd rn rm.

(** The mnemonics of the category. *)
Inductive Mnemonic : Type :=
| SADDL | SADDL2 | SADDW | SADDW2 | SSUBL | SSUBL2 | SSUBW | SSUBW2 | ADDHN
| ADDHN2 | SABAL | SABAL2 | SUBHN | SUBHN2 | SABDL | SABDL2 | SMLAL | SMLAL2
| SQDMLAL | SQDMLAL2 | SMLSL | SMLSL2 | SQDMLSL | SQDMLSL2 | SMULL | SMULL2
| SQDMULL | SQDMULL2 | PMULL | PMULL2 | UADDL | UADDL2 | UADDW | UADDW2
| USUBL | USUBL2 | USUBW | USUBW2 | RADDHN | RADDHN2 | UABAL | UABAL2 | RSUBHN
| RSUBHN2 | UABDL | UABDL2 | UMLAL | UMLAL2 | UMLSL | UMLSL2 | UMULL | UMULL2.

(** Calls the mnemonic. *)
Definition emit (m : Mnemonic) (size : SubRegSize) (rd rn rm : VRegister)
    : Emit unit :=
  match m with
  | SADDL => saddl size rd rn rm
  | SADDL2 => saddl2 size rd rn rm
  | SADDW => saddw size rd rn rm
  | SADDW2 => saddw2 size rd rn rm
  | SSUBL => ssubl size rd rn rm
  | SSUBL2 => ssubl2 size rd rn rm
  | SSUBW => ssubw size rd rn rm
  | SSUBW2 => ssubw2 size rd rn rm
  | ADDHN => addhn size rd rn rm
  | ADDHN2 => addhn2 size rd rn rm
  | SABAL => sabal size rd rn rm
  | SABAL2 => sabal2 size rd rn rm
  | SUBHN => subhn size rd rn rm
  | SUBHN2 => subhn2 size rd rn rm
  | SABDL => sabdl size rd rn rm
  | SABDL2 => sabdl2 size rd rn rm
  | SMLAL => smlal size rd rn rm
  | SMLAL2 => smlal2 size rd rn rm
  | SQDMLAL => sqdmlal size rd rn rm
  | SQDMLAL2 => sqdmlal2 size rd rn rm
  | SMLSL => smlsl size rd rn rm
  | SMLSL2 => smlsl2 size rd rn rm
  | SQDMLSL => sqdmlsl size rd rn rm
  | SQDMLSL2 => sqdmlsl2 size rd rn rm
  | SMULL => smull size rd rn rm
  | SMULL2 => smull2 size rd rn rm
  | SQDMULL => sqdmull size rd rn rm
  | SQDMULL2 => sqdmull2 size rd rn rm
  | PMULL => pmull size rd rn rm
  | PMULL2 => pmull2 size rd rn rm
  | UADDL => uaddl size rd rn rm
  | UADDL2 => uaddl2 size rd rn rm
  | UADDW => uaddw size rd rn rm
  | UADDW2 => uaddw2 size rd rn rm
  | USUBL => usubl size rd rn rm
  | USUBL2 => usubl2 size rd rn rm
  | USUBW => usubw size rd rn rm
  | USUBW2 => usubw2 size rd rn rm
  | RADDHN => raddhn size rd rn rm
  | RADDHN2 => raddhn2 size rd rn rm
  | UABAL => uabal size rd rn rm
  | UABAL2 => uabal2 size rd rn rm
  | RSUBHN => rsubhn size rd rn rm
  | RSUBHN2 => rsubhn2 size rd rn rm
  | UABDL => uabdl size rd rn rm
  | UABDL2 => uabdl2 size rd rn rm
  | UMLAL => umlal size rd rn rm
  | UMLAL2 => umlal2 size rd rn rm
  | UMLSL => umlsl size rd rn rm
  | UMLSL2 => umlsl2 size rd rn rm
  | UMULL => umull size rd rn rm
  | UMULL2 => umull2 size rd rn rm
  end.

End ThreeDifferent.

(** ** Mnemonic layer: Advanced SIMD three same, continued *)

(** The integer, bitwise and widening multiply-add mnemonics of the category;
    its floating-point mnemonics, [orr] and [mov] are in [ThreeSame]. *)

Module ThreeSameInt.

Definition shadd (T : RegKind) (size : SubRegSize) (rd rn rm : VRegister)
    : Emit unit :=
  LOGMAN_THROW_A_FMT (negb (size =? i64Bit))
    "64-bit subregsize not supported" ;;
  ASIMD3Same T 0 size (bin "00000") rd rn rm.

Definition sqadd (T : RegKind) (size : SubRegSize) (rd rn rm : VRegister)
    : Emit unit :=
  if_DRegister T
    (LOGMAN_THROW_A_FMT (negb (size =? i64Bit))
       "Invalid element size with 64-bit sqadd") ;;
  ASIMD3Same T 0 size (bin "00001") rd rn rm.

Definition srhadd (T : RegKind) (size : SubRegSize) (rd rn rm : VRegister)
    : Emit unit :=
  LOGMAN_THROW_A_FMT (negb (size =? i64Bit))
    "64-bit subregsize not supported" ;;
  ASIMD3Same T 0 size (bin "00010") rd rn rm.

Definition shsub (T : RegKind) (size : SubRegSize) (rd rn rm : VRegister)
    : Emit unit :=
  LOGMAN_THROW_A_FMT (negb (size =? i64Bit))
    "64-bit subregsize not supported" ;;
  ASIMD3Same T 0 size (bin "00100") rd rn rm.

Definition sqsub (T : RegKind) (size : SubRegSize) (rd rn rm : VRegister)
    : Emit unit :=
  if_DRegister T
    (LOGMAN_THROW_A_FMT (negb (size =? i64Bit))
       "Invalid element size with 64-bit sqsub") ;;
  ASIMD3Same T 0 size (bin "00101") rd rn rm.

Definition cmgt (T : RegKind) (size : SubRegSize) (rd rn rm : VRegister)
    : Emit unit :=
  if_DRegister T
    (LOGMAN_THROW_A_FMT (negb (size =? i64Bit))
       "Invalid element size with 64-bit cmgt") ;;
  ASIMD3Same T 0 size (bin "00110") rd rn rm.

Definition cmge (T : RegKind) (size : SubRegSize) (rd rn rm : VRegister)
    : Emit unit :=
  if_DRegister T
    (LOGMAN_THROW_A_FMT (negb (size =? i64Bit))
       "Invalid element size with 64-bit cmge") ;;
  ASIMD3Same T 0 size (bin "00111") rd rn rm.

Definition sshl (T : RegKind) (size : SubRegSize) (rd rn rm : VRegister)
    : Emit unit :=
  if_DRegister T
    (LOGMAN_THROW_A_FMT (negb (size =? i64Bit))
       "Invalid element size with 64-bit sshl") ;;
  ASIMD3Same T 0 size (bin "01000") rd rn rm.

Definition sqshl (T : RegKind) (size : SubRegSize) (rd rn rm : VRegister)
    : Emit unit :=
  if_DRegister T
    (LOGMAN_THROW_A_FMT (negb (size =? i64Bit))
       "Invalid element size with 64-bit sqshl") ;;
  ASIMD3Same T 0 size (bin "01001") rd rn rm.

Definition srshl (T : RegKind) (size : SubRegSize) (rd rn rm : VRegister)
    : Emit unit :=
  if_DRegister T
    (LOGMAN_THROW_A_FMT (negb (size =? i64Bit))
       "Invalid element size with 64-bit srshl") ;;
  ASIMD3Same T 0 size (bin "01010") rd rn rm.

Definition sqrshl (T : RegKind) (size : SubRegSize) (rd rn rm : VRegister)
    : Emit unit :=
  if_DRegister T
    (LOGMAN_THROW_A_FMT (negb (size =? i64Bit))
       "Invalid element size with 64-bit sqrshl") ;;
  ASIMD3Same T 0 size (bin "01011") rd rn rm.

Definition smax (T : RegKind) (size : SubRegSize) (rd rn rm : VRegister)
    : Emit unit :=
  LOGMAN_THROW_A_FMT (negb (size =? i64Bit))
    "64-bit subregsize not supported" ;;
  ASIMD3Same T 0 size (bin "01100") rd rn rm.

Definition smin (T : RegKind) (size : SubRegSize) (rd rn rm : VRegister)
    : Emit unit :=
  LOGMAN_THROW_A_FMT (negb (size =? i64Bit))
    "64-bit subregsize not supported" ;;
  ASIMD3Same T 0 size (bin "01101") rd rn rm.

Definition sabd (T : RegKind) (size : SubRegSize) (rd rn rm : VRegister)
    : Emit unit :=
  LOGMAN_THROW_A_FMT (negb (size =? i64Bit))
    "64-bit subregsize not supported" ;;
  ASIMD3Same T 0 size (bin "01110") rd rn rm.

Definition saba (T : RegKind) (size : SubRegSize) (rd rn rm : VRegister)
    : Emit unit :=
  LOGMAN_THROW_A_FMT (negb (size =? i64Bit))
    "64-bit subregsize not supported" ;;
  ASIMD3Same T 0 size (bin "01111") rd rn rm.

Definition add (T : RegKind) (size : SubRegSize) (rd rn rm : VRegister)
    : Emit unit :=
  if_DRegister T
    (LOGMAN_THROW_A_FMT (negb (size =? i64Bit))
       "Invalid element size with 64-bit add") ;;
  ASIMD3Same T 0 size (bin "10000") rd rn rm.

Definition cmtst (T : RegKind) (size : SubRegSize) (rd rn rm : VRegister)
    : Emit unit :=
  if_DRegister T
    (LOGMAN_THROW_A_FMT (negb (size =? i64Bit))
       "Invalid element size with 64-bit cmtst") ;;
  ASIMD3Same T 0 size (bin "10001") rd rn rm.

Definition mla (T : RegKind) (size : SubRegSize) (rd rn rm : VRegister)
    : Emit unit :=
  LOGMAN_THROW_A_FMT (negb (size =? i64Bit))
    "64-bit subregsize not supported" ;;
  ASIMD3Same T 0 size (bin "10010") rd rn rm.

Definition mul (T : RegKind) (size : SubRegSize) (rd rn rm : VRegister)
    : Emit unit :=
  LOGMAN_THROW_A_FMT (negb (size =? i64Bit))
    "64-bit subregsize not supported" ;;
  ASIMD3Same T 0 size (bin "10011") rd rn rm.

Definition smaxp (T : RegKind) (size : SubRegSize) (rd rn rm : VRegister)
    : Emit unit :=
  LOGMAN_THROW_A_FMT (negb (size =? i64Bit))
    "64-bit subregsize not supported" ;;
  ASIMD3Same T 0 size (bin "10100") rd rn rm.

Definition sminp (T : RegKind) (size : SubRegSize) (rd rn rm : VRegister)
    : Emit unit :=
  LOGMAN_THROW_A_FMT (negb (size =? i64Bit))
    "64-bit subregsize not supported" ;;
  ASIMD3Same T 0 size (bin "10101") rd rn rm.

Definition sqdmulh (T : RegKind) (size : SubRegSize) (rd rn rm : VRegister)
    : Emit unit :=
  LOGMAN_THROW_A_FMT (negb (size =? i8Bit))
    "No 8-bit dest support." ;;
  LOGMAN_THROW_A_FMT (negb (size =? i64Bit))
    "64-bit subregsize not supported" ;;
  ASIMD3Same T 0 size (bin "10110") rd rn rm.

Definition addp (T : RegKind) (size : SubRegSize) (rd rn rm : VRegister)
    : Emit unit :=
  if_DRegister T
    (LOGMAN_THROW_A_FMT (negb (size =? i64Bit))
       "Invalid element size with 64-bit {}") ;;
  ASIMD3Same T 0 size (bin "10111") rd rn rm.

Definition and_ (T : RegKind) (rd rn rm : VRegister) : Emit unit :=
  ASIMD3Same T 0 i8Bit (bin "00011") rd rn rm.

Definition fmlal (T : RegKind) (rd rn rm : VRegister) : Emit unit :=
  ASIMD3Same T 0 i8Bit (bin "11101") rd rn rm.

Definition fmlal2 (T : RegKind) (rd rn rm : VRegister) : Emit unit :=
  ASIMD3Same T 1 i8Bit (bin "11001") rd rn rm.

Definition bic (T : RegKind) (rd rn rm : VRegister) : Emit unit :=
  ASIMD3Same T 0 i16Bit (bin "00011") rd rn rm.

Definition fmlsl (T : RegKind) (rd rn rm : VRegister) : Emit unit :=
  ASIMD3Same T 0 i32Bit (bin "11101") rd rn rm.

Definition fmlsl2 (T : RegKind) (rd rn rm : VRegister) : Emit unit :=
  ASIMD3Same T 1 i32Bit (bin "11001") rd rn rm.

Definition orn (T : RegKind) (rd rn rm : VRegister) : Emit unit :=
  ASIMD3Same T 0 i64Bit (bin "00011") rd rn rm.

Definition uhadd (T : RegKind) (size : SubRegSize) (rd rn rm : VRegister)
    : Emit unit :=
  LOGMAN_THROW_A_FMT (negb (size =? i64Bit))
    "64-bit subregsize not supported" ;;
  ASIMD3Same T 1 size (bin "00000") rd rn rm.

Definition uqadd (T : RegKind) (size : SubRegSize) (rd rn rm : VRegister)
    : Emit unit :=
  ASIMD3Same T 1 size (bin "00001") rd rn rm.

Definition urhadd (T : RegKind) (size : SubRegSize) (rd rn rm : VRegister)
    : Emit unit :=
  LOGMAN_THROW_A_FMT (negb (size =? i64Bit))
    "64-bit subregsize not supported" ;;
  ASIMD3Same T 1 size (bin "00010") rd rn rm.

Definition uhsub (T : RegKind) (size : SubRegSize) (rd rn rm : VRegister)
    : Emit unit :=
  LOGMAN_THROW_A_FMT (negb (size =? i64Bit))
    "64-bit subregsize not supported" ;;
  ASIMD3Same T 1 size (bin "00100") rd rn rm.

Definition uqsub (T : RegKind) (size : SubRegSize) (rd rn rm : VRegister)
    : Emit unit :=
  LOGMAN_THROW_A_FMT (negb (size =? i64Bit))
    "64-bit subregsize not supported" ;;
  ASIMD3Same T 1 size (bin "00101") rd rn rm.

Definition cmhi (T : RegKind) (size : SubRegSize) (rd rn rm : VRegister)
    : Emit unit :=
  if_DRegister T
    (LOGMAN_THROW_A_FMT (negb (size =? i64Bit))
       "Invalid element size with 64-bit {}") ;;
  ASIMD3Same T 1 size (bin "00110") rd rn rm.

Definition cmhs (T : RegKind) (size : SubRegSize) (rd rn rm : VRegister)
    : Emit unit :=
  if_DRegister T
    (LOGMAN_THROW_A_FMT (negb (size =? i64Bit))
       "Invalid element size with 64-bit {}") ;;
  ASIMD3Same T 1 size (bin "00111") rd rn rm.

Definition ushl (T : RegKind) (size : SubRegSize) (rd rn rm : VRegister)
    : Emit unit :=
  if_DRegister T
    (LOGMAN_THROW_A_FMT (negb (size =? i64Bit))
       "Invalid element size with 64-bit {}") ;;
  ASIMD3Same T 1 size (bin "01000") rd rn rm.

Definition uqshl (T : RegKind) (size : SubRegSize) (rd rn rm : VRegister)
    : Emit unit :=
  LOGMAN_THROW_A_FMT (negb (size =? i64Bit))
    "64-bit subregsize not supported" ;;
  ASIMD3Same T 1 size (bin "01001") rd rn rm.

Definition urshl (T : RegKind) (size : SubRegSize) (rd rn rm : VRegister)
    : Emit unit :=
  if_DRegister T
    (LOGMAN_THROW_A_FMT (negb (size =? i64Bit))
       "Invalid element size with 64-bit {}") ;;
  ASIMD3Same T 1 size (bin "01010") rd rn rm.

Definition uqrshl (T : RegKind) (size : SubRegSize) (rd rn rm : VRegister)
    : Emit unit :=
  LOGMAN_THROW_A_FMT (negb (size =? i64Bit))
    "64-bit subregsize not supported" ;;
  ASIMD3Same T 1 size (bin "01011") rd rn rm.

Definition umax (T : RegKind) (size : SubRegSize) (rd rn rm : VRegister)
    : Emit unit :=
  LOGMAN_THROW_A_FMT (negb (size =? i64Bit))
    "64-bit subregsize not supported" ;;
  ASIMD3Same T 1 size (bin "01100") rd rn rm.

Definition umin (T : RegKind) (size : SubRegSize) (rd rn rm : VRegister)
    : Emit unit :=
  LOGMAN_THROW_A_FMT (negb (size =? i64Bit))
    "64-bit subregsize not supported" ;;
  ASIMD3Same T 1 size (bin "01101") rd rn rm.

Definition uabd (T : RegKind) (size : SubRegSize) (rd rn rm : VRegister)
    : Emit unit :=
  LOGMAN_THROW_A_FMT (negb (size =? i64Bit))
    "64-bit subregsize not supported" ;;
  ASIMD3Same T 1 size (bin "01110") rd rn rm.

Definition uaba (T : RegKind) (size : SubRegSize) (rd rn rm : VRegister)
    : Emit unit :=
  LOGMAN_THROW_A_FMT (negb (size =? i64Bit))
    "64-bit subregsize not supported" ;;
  ASIMD3Same T 1 size (bin "01111") rd rn rm.

Definition sub (T : RegKind) (size : SubRegSize) (rd rn rm : VRegister)
    : Emit unit :=
  if_DRegister T
    (LOGMAN_THROW_A_FMT (negb (size =? i64Bit))
       "Invalid element size with 64-bit {}") ;;
  ASIMD3Same T 1 size (bin "10000") rd rn rm.

Definition cmeq (T : RegKind) (size : SubRegSize) (rd rn rm : VRegister)
    : Emit unit :=
  if_DRegister T
    (LOGMAN_THROW_A_FMT (negb (size =? i64Bit))
       "Invalid element size with 64-bit {}") ;;
  ASIMD3Same T 1 size (bin "10001") rd rn rm.

Definition mls (T : RegKind) (size : SubRegSize) (rd rn rm : VRegister)
    : Emit unit :=
  LOGMAN_THROW_A_FMT (negb (size =? i64Bit))
    "64-bit subregsize not supported" ;;
  ASIMD3Same T 1 size (bin "10010") rd rn rm.

Definition pmul (T : RegKind) (rd rn rm : VRegister) : Emit unit :=
  ASIMD3Same T 1 i8Bit (bin "10011") rd rn rm.

Definition umaxp (T : RegKind) (size : SubRegSize) (rd rn rm : VRegister)
    : Emit unit :=
  LOGMAN_THROW_A_FMT (negb (size =? i64Bit))
    "64-bit subregsize not supported" ;;
  ASIMD3Same T 1 size (bin "10100") rd rn rm.

Definition uminp (T : RegKind) (size : SubRegSize) (rd rn rm : VRegister)
    : Emit unit :=
  LOGMAN_THROW_A_FMT (negb (size =? i64Bit))
    "64-bit subregsize not supported" ;;
  ASIMD3Same T 1 size (bin "10101") rd rn rm.

Definition sqrdmulh (T : RegKind) (size : SubRegSize) (rd rn rm : VRegister)
    : Emit unit :=
  LOGMAN_THROW_A_FMT (negb (size =? i64Bit) && negb (size =? i8Bit))
    "8/64-bit subregsize not supported" ;;
  ASIMD3Same T 1 size (bin "10110") rd rn rm.

Definition eor (T : RegKind) (rd rn rm : VRegister) : Emit unit :=
  ASIMD3Same T 1 i8Bit (bin "00011") rd rn rm.

Definition bsl (T : RegKind) (rd rn rm : VRegister) : Emit unit :=
  ASIMD3Same T 1 i16Bit (bin "00011") rd rn rm.

Definition bit (T : RegKind) (rd rn rm : VRegister) : Emit unit :=
  ASIMD3Same T 1 i32Bit (bin "00011") rd rn rm.

Definition bif (T : RegKind) (rd rn rm : VRegister) : Emit unit :=
  ASIMD3Same T 1 i64Bit (bin "00011") rd rn rm.

(** The mnemonics that take an element size. *)
Inductive Sized : Type :=
| SHADD | SQADD | SRHADD | SHSUB | SQSUB | CMGT | CMGE | SSHL | SQSHL | SRSHL
| SQRSHL | SMAX | SMIN | SABD | SABA | ADD | CMTST | MLA | MUL | SMAXP | SMINP
| SQDMULH | ADDP | UHADD | UQADD | URHADD | UHSUB | UQSUB | CMHI | CMHS | USHL
| UQSHL | URSHL | UQRSHL | UMAX | UMIN | UABD | UABA | SUB | CMEQ | MLS
| UMAXP | UMINP | SQRDMULH.

(** Calls a mnemonic that takes an element size. *)
Definition emitS (m : Sized) (T : RegKind) (size : SubRegSize)
    (rd rn rm : VRegister) : Emit unit :=
  match m with
  | SHADD => shadd T size rd rn rm
  | SQADD => sqadd T size rd rn rm
  | SRHADD => srhadd T size rd rn rm
  | SHSUB => shsub T size rd rn rm
  | SQSUB => sqsub T size rd rn rm
  | CMGT => cmgt T size rd rn rm
  | CMGE => cmge T size rd rn rm
  | SSHL => sshl T size rd rn rm
  | SQSHL => sqshl T size rd rn rm
  | SRSHL => srshl T size rd rn rm
  | SQRSHL => sqrshl T size rd rn rm
  | SMAX => smax T size rd rn rm
  | SMIN => smin T size rd rn rm
  | SABD => sabd T size rd rn rm
  | SABA => saba T size rd rn rm
  | ADD => add T size rd rn rm
  | CMTST => cmtst T size rd rn rm
  | MLA => mla T size rd rn rm
  | MUL => mul T size rd rn rm
  | SMAXP => smaxp T size rd rn rm
  | SMINP => sminp T size rd rn rm
  | SQDMULH => sqdmulh T size rd rn rm
  | ADDP => addp T size rd rn rm
  | UHADD => uhadd T size rd rn rm
  | UQADD => uqadd T size rd rn rm
  | URHADD => urhadd T size rd rn rm
  | UHSUB => uhsub T size rd rn rm
  | UQSUB => uqsub T size rd rn rm
  | CMHI => cmhi T size rd rn rm
  | CMHS => cmhs T size rd rn rm
  | USHL => ushl T size rd rn rm
  | UQSHL => uqshl T size rd rn rm
  | URSHL => urshl T size rd rn rm
  | UQRSHL => uqrshl T size rd rn rm
  | UMAX => umax T size rd rn rm
  | UMIN => umin T size rd rn rm
  | UABD => uabd T size rd rn rm
  | UABA => uaba T size rd rn rm
  | SUB => sub T size rd rn rm
  | CMEQ => cmeq T size rd rn rm
  | MLS => mls T size rd rn rm
  | UMAXP => umaxp T size rd rn rm
  | UMINP => uminp T size rd rn rm
  | SQRDMULH => sqrdmulh T size rd rn rm
  end.

(** The mnemonics of a single form. *)
Inductive Unsized : Type :=
| AND | FMLAL | FMLAL2 | BIC | FMLSL | FMLSL2 | ORN | PMUL | EOR | BSL | BIT
| BIF.

(** Calls a mnemonic of a single form. *)
Definition emitU (m : Unsized) (T : RegKind) (rd rn rm : VRegister)
    : Emit unit :=
  match m with
  | AND => and_ T rd rn rm
  | FMLAL => fmlal T rd rn rm
  | FMLAL2 => fmlal2 T rd rn rm
  | BIC => bic T rd rn rm
  | FMLSL => fmlsl T rd rn rm
  | FMLSL2 => fmlsl2 T rd rn rm
  | ORN => orn T rd rn rm
  | PMUL => pmul T rd rn rm
  | EOR => eor T rd rn rm
  | BSL => bsl T rd rn rm
  | BIT => bit T rd rn rm
  | BIF => bif T rd rn rm
  end.

End ThreeSameInt.

(** ** Mnemonic layer: Advanced SIMD extract *)

(** [ext] has an overload for the 128-bit and one for the 64-bit register
    type; [T] selects the overload. *)

Module Extract.

Definition ext (T : RegKind) (rd rn rm : VRegister) (Index : Z) : Emit unit :=
  match T with
  | QRegister =>
      LOGMAN_THROW_A_FMT (Index <? 16)
        "Index can't be more than 15" ;;
      ASIMDExtract 1 (bin "00") Index rd rn rm
  | DRegister =>
      LOGMAN_THROW_A_FMT (Index <? 8)
        "Index can't be more than 7" ;;
      ASIMDExtract 0 (bin "00") Index rd rn rm
  end.

End Extract.

(** ** Mnemonic layer: Advanced SIMD table lookup *)

(** [tbl] and [tbx] are overloaded on the register type of the destination,
    which [T] selects, and on the number of table registers, which the name
    carries here: [tbl2] is [tbl] with the table registers [rn] and [rn2]. *)

Module Table.

Section Sequential.

(** The test that the table registers follow each other is declared outside
    the sources. *)
Variable AreVectorsSequential : list VRegister -> bool.

Definition tbl (T : RegKind) (rd rn rm : VRegister) : Emit unit :=
  match T with
  | QRegister =>
      ASIMDTable 1 (bin "00") (bin "00") (bin "0") rd rn rm
  | DRegister =>
      ASIMDTable 0 (bin "00") (bin "00") (bin "0") rd rn rm
  end.

Definition tbx (T : RegKind) (rd rn rm : VRegister) : Emit unit :=
  match T with
  | QRegister =>
      ASIMDTable 1 (bin "00") (bin "00") (bin "1") rd rn rm
  | DRegister =>
      ASIMDTable 0 (bin "00") (bin "00") (bin "1") rd rn rm
  end.

Definition tbl2 (T : RegKind) (rd rn rn2 rm : VRegister) : Emit unit :=
  match T with
  | QRegister =>
      LOGMAN_THROW_A_FMT (AreVectorsSequential [rn; rn2])
        "rn and rn2 must be sequential" ;;
      ASIMDTable 1 (bin "00") (bin "01") (bin "0") rd rn rm
  | DRegister =>
      LOGMAN_THROW_A_FMT (AreVectorsSequential [rn; rn2])
        "rn and rn2 must be sequential" ;;
      ASIMDTable 0 (bin "00") (bin "01") (bin "0") rd rn rm
  end.

Definition tbx2 (T : RegKind) (rd rn rn2 rm : VRegister) : Emit unit :=
  match T with
  | QRegister =>
      LOGMAN_THROW_A_FMT (AreVectorsSequential [rn; rn2])
        "rn and rn2 must be sequential" ;;
      ASIMDTable 1 (bin "00") (bin "01") (bin "1") rd rn rm
  | DRegister =>
      LOGMAN_THROW_A_FMT (AreVectorsSequential [rn; rn2])
        "rn and rn2 must be sequential" ;;
      ASIMDTable 0 (bin "00") (bin "01") (bin "1") rd rn rm
  end.

Definition tbl3 (T : RegKind) (rd rn rn2 rn3 rm : VRegister) : Emit unit :=
  match T with
  | QRegister =>
      LOGMAN_THROW_A_FMT (AreVectorsSequential [rn; rn2; rn3])
        "rn, rn2, and rn3 must be sequential" ;;
      ASIMDTable 1 (bin "00") (bin "10") (bin "0") rd rn rm
  | DRegister =>
      LOGMAN_THROW_A_FMT (AreVectorsSequential [rn; rn2; rn3])
        "rn, rn2, and rn3 must be sequential" ;;
      ASIMDTable 0 (bin "00") (bin "10") (bin "0") rd rn rm
  end.

Definition tbx3 (T : RegKind) (rd rn rn2 rn3 rm : VRegister) : Emit unit :=
  match T with
  | QRegister =>
      LOGMAN_THROW_A_FMT (AreVectorsSequential [rn; rn2; rn3])
        "rn, rn2, and rn3 must be sequential" ;;
      ASIMDTable 1 (bin "00") (bin "10") (bin "1") rd rn rm
  | DRegister =>
      LOGMAN_THROW_A_FMT (AreVectorsSequential [rn; rn2; rn3])
        "rn, rn2, and rn3 must be sequential" ;;
      ASIMDTable 0 (bin "00") (bin "10") (bin "1") rd rn rm
  end.

Definition tbl4 (T : RegKind) (rd rn rn2 rn3 rn4 rm : VRegister) : Emit unit :=
  match T with
  | QRegister =>
      LOGMAN_THROW_A_FMT (AreVectorsSequential [rn; rn2; rn3; rn4])
        "rn, rn2, rn3, and rn4 must be sequential" ;;
      ASIMDTable 1 (bin "00") (bin "11") (bin "0") rd rn rm
  | DRegister =>
      LOGMAN_THROW_A_FMT (AreVectorsSequential [rn; rn2; rn3; rn4])
        "rn, rn2, rn3, and rn4 must be sequential" ;;
      ASIMDTable 0 (bin "00") (bin "11") (bin "0") rd rn rm
  end.

Definition tbx4 (T : RegKind) (rd rn rn2 rn3 rn4 rm : VRegister) : Emit unit :=
  match T with
  | QRegister =>
      LOGMAN_THROW_A_FMT (AreVectorsSequential [rn; rn2; rn3; rn4])
        "rn, rn2, rn3, and rn4 must be sequential" ;;
      ASIMDTable 1 (bin "00") (bin "11") (bin "1") rd rn rm
  | DRegister =>
      LOGMAN_THROW_A_FMT (AreVectorsSequential [rn; rn2; rn3; rn4])
        "rn, rn2, rn3, and rn4 must be sequential" ;;
      ASIMDTable 0 (bin "00") (bin "11") (bin "1") rd rn rm
  end.

End Sequential.

End Table.

(** * Vocabulary of the statements *)

(** ** Shift by immediate *)

(** The width in bits of an enumerant of [SubRegSize]. *)
Definition SizeInBits (size : SubRegSize) : Z := Z.shiftl 8 size.

(** Whether a shift-by-immediate mnemonic encodes its amount as
    [field = shift + K] (shifts to the left, and the widening shifts) or as
    [field = K - shift] (shifts to the right, the narrowing shifts and the
    fixed-point conversions). *)
Inductive Direction : Type := LeftShift | RightShift.

(** The direction of each mnemonic. *)
Definition direction (m : ShiftByImm.Mnemonic) : Direction :=
  match m with
  | ShiftByImm.SHL | ShiftByImm.SQSHL | ShiftByImm.SLI | ShiftByImm.SQSHLU
  | ShiftByImm.UQSHL | ShiftByImm.SSHLL | ShiftByImm.SSHLL2
  | ShiftByImm.USHLL | ShiftByImm.USHLL2 => LeftShift
  | _ => RightShift
  end.

(** The element size the shift field is computed from: the widening shifts
    are given the destination size and shift the elements one step
    narrower. *)
Definition shifted_size (m : ShiftByImm.Mnemonic) (size : SubRegSize)
    : SubRegSize :=
  match m with
  | ShiftByImm.SSHLL | ShiftByImm.SSHLL2
  | ShiftByImm.USHLL | ShiftByImm.USHLL2 => u32 (size - 1)
  | _ => size
  end.

(** No 64-bit elements on the 64-bit register type. *)
Definition not_64bit_on_D (T : RegKind) (size : SubRegSize) : bool :=
  match T with
  | DRegister => negb (size =? i64Bit)
  | QRegister => true
  end.

(** The element sizes a shift-by-immediate mnemonic accepts for a register
    type. *)
Definition size_allowed (m : ShiftByImm.Mnemonic) (T : RegKind)
    (size : SubRegSize) : bool :=
  match m with
  | ShiftByImm.SSHR | ShiftByImm.SSRA | ShiftByImm.SRSHR | ShiftByImm.SRSRA
  | ShiftByImm.SHL | ShiftByImm.SQSHL
  | ShiftByImm.USHR | ShiftByImm.USRA | ShiftByImm.URSHR | ShiftByImm.URSRA
  | ShiftByImm.SRI | ShiftByImm.SLI | ShiftByImm.SQSHLU | ShiftByImm.UQSHL =>
      not_64bit_on_D T size
  | ShiftByImm.SHRN | ShiftByImm.SHRN2 | ShiftByImm.RSHRN | ShiftByImm.RSHRN2
  | ShiftByImm.SQSHRN | ShiftByImm.SQSHRN2
  | ShiftByImm.SQRSHRN | ShiftByImm.SQRSHRN2
  | ShiftByImm.SQSHRUN | ShiftByImm.SQSHRUN2
  | ShiftByImm.SQRSHRUN | ShiftByImm.SQRSHRUN2 =>
      negb (size =? i64Bit)
  | ShiftByImm.UQSHRN | ShiftByImm.UQSHRN2
  | ShiftByImm.UQRSHRN | ShiftByImm.UQRSHRN2
  | ShiftByImm.USHLL | ShiftByImm.USHLL2 => true
  | ShiftByImm.SSHLL | ShiftByImm.SSHLL2 => negb (size =? i8Bit)
  | ShiftByImm.SCVTF | ShiftByImm.FCVTZS
  | ShiftByImm.UCVTF | ShiftByImm.FCVTZU =>
      negb (size =? i8Bit) && not_64bit_on_D T size
  end.

(** The shift field a mnemonic of either direction encodes. *)
Definition shift_field (d : Direction) (bits Shift : Z) : Z :=
  match d with
  | LeftShift => bits + Shift
  | RightShift => 2 * bits - Shift
  end.

(** The inverse of the encoding formula: the shift amount that the pair
    [immh:immb] stands for. *)
Definition decode_shift (d : Direction) (bits immh immb : Z) : Z :=
  let fld := Z.lor (Z.shiftl immh 3) immb in
  match d with
  | LeftShift => fld - bits
  | RightShift => 2 * bits - fld
  end.

(** ** Three same *)

(** The floating-point three-same mnemonics that hand the integer template a
    remapped size; the others hand it the size they were given. *)
Definition remaps_size (m : ThreeSame.FloatMnemonic) : bool :=
  match m with
  | ThreeSame.FMAXNM | ThreeSame.FMLA | ThreeSame.FADD | ThreeSame.FMULX
  | ThreeSame.FCMEQ | ThreeSame.FMAX | ThreeSame.FRECPS
  | ThreeSame.FMAXNMP | ThreeSame.FADDP | ThreeSame.FMUL | ThreeSame.FCMGE
  | ThreeSame.FACGE | ThreeSame.FMAXP | ThreeSame.FDIV => true
  | _ => false
  end.

(** ** Vector by indexed element *)

(** The lane index that the bits H (bit 11), L (bit 21) and M (bit 20) of an
    emitted word stand for when the index is spread over H:L:M. *)
Definition index_of_HLM (w : Z) : Z :=
  Z.lor (Z.shiftl (field w 11 1) 2)
    (Z.lor (Z.shiftl (field w 21 1) 1) (field w 20 1)).

(** The same when the index is spread over H:L. *)
Definition index_of_HL (w : Z) : Z :=
  Z.lor (Z.shiftl (field w 11 1) 1) (field w 21 1).

(** How an emitter spreads a lane index over the bits H, L and M: over all
    three (8 lanes of 16-bit elements), over H:L (4 lanes of 32-bit elements)
    or in H alone (2 lanes of 64-bit elements). *)
Inductive IndexForm : Type := FormHLM | FormHL | FormH.

(** The form a mnemonic uses for the element size it is given. *)
Definition index_form (m : IndexedElement.Mnemonic) (size : SubRegSize)
    : IndexForm :=
  match m with
  | IndexedElement.SMLAL | IndexedElement.SMLAL2
  | IndexedElement.SQDMLAL | IndexedElement.SQDMLAL2
  | IndexedElement.SMLSL | IndexedElement.SMLSL2
  | IndexedElement.SQDMLSL | IndexedElement.SQDMLSL2
  | IndexedElement.SMULL | IndexedElement.SMULL2
  | IndexedElement.SQDMULL | IndexedElement.SQDMULL2
  | IndexedElement.UMLAL | IndexedElement.UMLAL2
  | IndexedElement.UMLSL | IndexedElement.UMLSL2
  | IndexedElement.UMULL | IndexedElement.UMULL2 =>
      if size =? i32Bit then FormHLM else FormHL
  | IndexedElement.MUL | IndexedElement.SQDMULH | IndexedElement.SQRDMULH
  | IndexedElement.MLA | IndexedElement.MLS
  | IndexedElement.SQRDMLAH | IndexedElement.SQRDMLSH =>
      if size =? i16Bit then FormHLM else FormHL
  | IndexedElement.SDOT | IndexedElement.SUDOT | IndexedElement.BFDOT
  | IndexedElement.USDOT | IndexedElement.UDOT => FormHL
  | IndexedElement.FMLA | IndexedElement.FMLS | IndexedElement.FMUL =>
      if size =? i16Bit then FormHLM
      else if size =? i32Bit then FormHL else FormH
  | IndexedElement.FMLAL | IndexedElement.FMLAL2
  | IndexedElement.FMLSL | IndexedElement.FMLSL2
  | IndexedElement.BFMLALB | IndexedElement.BFMLALT => FormHLM
  end.

(** The number of lanes a form can address. *)
Definition lanes (f : IndexForm) : Z :=
  match f with
  | FormHLM => 8
  | FormHL => 4
  | FormH => 2
  end.

(** The index the bits stand for. *)
Definition join_index (f : IndexForm) (H L M : Z) : Z :=
  match f with
  | FormHLM => Z.lor (Z.shiftl H 2) (Z.lor (Z.shiftl L 1) M)
  | FormHL => Z.lor (Z.shiftl H 1) L
  | FormH => H
  end.

(** The index the bits of a word stand for, by form. *)
Definition index_of_word (f : IndexForm) (w : Z) : Z :=
  match f with
  | FormHLM => index_of_HLM w
  | FormHL => index_of_HL w
  | FormH => field w 11 1
  end.

(** The element sizes an indexed-element mnemonic accepts. *)
Definition index_size_allowed (m : IndexedElement.Mnemonic) (T : RegKind)
    (size : SubRegSize) : bool :=
  match m with
  | IndexedElement.SMLAL | IndexedElement.SMLAL2
  | IndexedElement.SQDMLAL | IndexedElement.SQDMLAL2
  | IndexedElement.SMLSL | IndexedElement.SMLSL2
  | IndexedElement.SQDMLSL | IndexedElement.SQDMLSL2
  | IndexedElement.SMULL | IndexedElement.SMULL2
  | IndexedElement.SQDMULL | IndexedElement.SQDMULL2
  | IndexedElement.UMLAL | IndexedElement.UMLAL2
  | IndexedElement.UMLSL | IndexedElement.UMLSL2
  | IndexedElement.UMULL | IndexedElement.UMULL2 =>
      (size =? i32Bit) || (size =? i64Bit)
  | IndexedElement.MUL | IndexedElement.SQDMULH | IndexedElement.SQRDMULH
  | IndexedElement.MLA | IndexedElement.MLS
  | IndexedElement.SQRDMLAH | IndexedElement.SQRDMLSH =>
      (size =? i16Bit) || (size =? i32Bit)
  | IndexedElement.FMLA | IndexedElement.FMLS | IndexedElement.FMUL =>
      (size =? i16Bit) || (size =? i32Bit)
      || ((size =? i64Bit) && IndexedElement.is_QRegister T)
  | _ => true
  end.

(** The mnemonics that assert [rm.Idx() < 16] when they use H:L:M (those
    that never use it are counted in). *)
Definition rm_guarded (m : IndexedElement.Mnemonic) : bool :=
  match m with
  | IndexedElement.FMLA | IndexedElement.FMLS | IndexedElement.FMUL
  | IndexedElement.FMLAL | IndexedElement.FMLAL2
  | IndexedElement.FMLSL | IndexedElement.FMLSL2 => false
  | _ => true
  end.

(** The bound the index assertion of a mnemonic compares the index with. *)
Definition checked_bound (m : IndexedElement.Mnemonic) (size : SubRegSize) : Z :=
  match m with
  | IndexedElement.SMLAL | IndexedElement.SMLAL2
  | IndexedElement.SQDMLAL | IndexedElement.SQDMLAL2
  | IndexedElement.SMLSL | IndexedElement.SMLSL2
  | IndexedElement.SQDMLSL | IndexedElement.SQDMLSL2
  | IndexedElement.SMULL | IndexedElement.SMULL2
  | IndexedElement.SQDMULL | IndexedElement.SQDMULL2
  | IndexedElement.UMLAL | IndexedElement.UMLAL2
  | IndexedElement.UMLSL | IndexedElement.UMLSL2
  | IndexedElement.UMULL | IndexedElement.UMULL2 => SizeInBits (u32 (size - 1))
  | IndexedElement.MUL | IndexedElement.SQDMULH | IndexedElement.SQRDMULH
  | IndexedElement.MLA | IndexedElement.MLS
  | IndexedElement.SQRDMLAH | IndexedElement.SQRDMLSH
  | IndexedElement.FMLA | IndexedElement.FMLS | IndexedElement.FMUL =>
      SizeInBits size
  | IndexedElement.SDOT | IndexedElement.SUDOT | IndexedElement.BFDOT
  | IndexedElement.USDOT | IndexedElement.UDOT => 4
  | IndexedElement.FMLAL | IndexedElement.FMLAL2
  | IndexedElement.FMLSL | IndexedElement.FMLSL2
  | IndexedElement.BFMLALB | IndexedElement.BFMLALT => 8
  end.

(** ** Modified immediate *)

(** Byte [i] of a 64-bit value. *)
Definition byte_of (Imm i : Z) : Z := Z.land (Z.shiftr Imm (8 * i)) 0xFF.

(** The 8-bit form of a 64-bit value: bit [i] is set when byte [i] is 0xFF. *)
Definition compress_bytes (Imm : Z) : Z :=
  fold_right
    (fun i acc => Z.lor (if byte_of Imm i =? 0xFF then Z.shiftl 1 i else 0) acc)
    0 [0; 1; 2; 3; 4; 5; 6; 7].

(** The 64-bit value an 8-bit form stands for: each bit becomes a full byte,
    0xFF for a set bit and 0x00 for a clear one. *)
Definition expand_bits (imm8 : Z) : Z :=
  fold_right
    (fun i acc =>
       Z.lor (if Z.testbit imm8 i then Z.shiftl 0xFF (8 * i) else 0) acc)
    0 [0; 1; 2; 3; 4; 5; 6; 7].

(** A byte the 64-bit move immediate can express. *)
Definition whole_byte (b : Z) : bool := (b =? 0) || (b =? 0xFF).

(** The 8-bit immediate a modified-immediate word carries: a:b:c in bits
    18 to 16 and d:e:f:g:h in bits 9 to 5. *)
Definition imm8_of_word (w : Z) : Z :=
  Z.lor (Z.shiftl (field w 16 3) 5) (field w 5 5).

(** * Words of the register categories: definitions *)

(** [x] has no bit outside [m]. *)
Definition within (x m : Z) : Prop := Z.land x m = x.

(** The bit sets [ms] are disjoint from [acc] and from each other. *)
Fixpoint disjoint (acc : Z) (ms : list Z) : bool :=
  match ms with
  | [] => true
  | m :: r => (Z.land acc m =? 0) && disjoint (Z.lor acc m) r
  end.

(** The register v0; a call is run on it to read the bits of the word that
    do not come from the operands. *)
Definition v0 : VRegister := VReg 0.

(** The outcome [o] of a call with zeroed operands on the empty stream,
    brought to the stream [code] and the operands [r]. *)
Definition relocate (o : Outcome unit) (code : list Z) (r : Z)
    : Outcome unit :=
  match o with
  | Done _ [w] => Done tt (code ++ [w + r])
  | Done _ _ => Unlisted code
  | Abort msg _ => Abort msg code
  | Unlisted _ => Unlisted code
  end.

(** The word of an outcome that is a single word. *)
Definition word_of (o : Outcome unit) : option Z :=
  match o with
  | Done _ [w] => Some w
  | _ => None
  end.

(** The word [w] holds the value of the operand [f] in its field. *)
Definition reads (w : Z) (f : Z * Z * Z) : Prop :=
  field w (fst (fst f)) (snd (fst f)) = snd f.

Section Tables.

Context {A : Type}.

(** The table of a category: for every call that emits a word, the word of
    the call with zeroed operands, the bits of its operand fields and the
    call, with an alias replaced by the mnemonic it stands for. *)
Definition entries (run : A -> Emit unit) (mask : A -> Z) (canon : A -> A)
    (calls : list A) : list (Z * Z * A) :=
  flat_map (fun c => match word_of (run c []) with
                     | Some w => [(w, mask c, canon c)]
                     | None => []
                     end) calls.

(** The first call of the table whose fixed bits are those of [w]. *)
Fixpoint classify (w : Z) (t : list (Z * Z * A)) : option A :=
  match t with
  | [] => None
  | (b, m, k) :: t' => if Z.ldiff w m =? b then Some k else classify w t'
  end.

(** The first entry of the table that the bits outside the operand fields do
    not tell from the fixed bits [b] with operand fields [m]. *)
Fixpoint unseparated (b m : Z) (t : list (Z * Z * A))
    : option (Z * Z * A) :=
  match t with
  | [] => None
  | (b', m', k') :: t' =>
      if Z.ldiff b (Z.lor m m') =? Z.ldiff b' (Z.lor m m')
      then Some (b', m', k')
      else unseparated b m t'
  end.

(** The call [c], with zeroed operands, either fails on the empty stream and
    leaves it empty, or emits one 32-bit word that is clear in the operand
    fields and that the table tells from the words of the calls before it. *)
Definition decodes (run : A -> Emit unit) (mask : A -> Z) (canon : A -> A)
    (table : list (Z * Z * A)) (c : A) : Prop :=
  match run c [] with
  | Done _ [b] =>
      Z.land b (mask c) = 0
      /\ unseparated b (mask c) table = Some (b, mask c, canon c)
      /\ Z.land b (Z.ones 32) = b
  | Abort _ [] => True
  | _ => False
  end.

End Tables.

(** The mnemonics of each enumeration. *)

Definition all_crypto_TwoReg : list Crypto.TwoReg :=
  [Crypto.AESE; Crypto.AESD; Crypto.AESMC; Crypto.AESIMC; Crypto.SHA1H;
   Crypto.SHA1SU1; Crypto.SHA256SU0; Crypto.SHA512SU0; Crypto.SM4E].

Definition all_crypto_ThreeReg : list Crypto.ThreeReg :=
  [Crypto.SHA1C; Crypto.SHA1P; Crypto.SHA1M; Crypto.SHA1SU0; Crypto.SHA256H;
   Crypto.SHA256H2; Crypto.SHA256SU1; Crypto.SHA512H; Crypto.SHA512H2;
   Crypto.SHA512SU1; Crypto.RAX1; Crypto.SM3PARTW1; Crypto.SM3PARTW2;
   Crypto.SM4EKEY].

Definition all_crypto_ThreeRegImm : list Crypto.ThreeRegImm :=
  [Crypto.SM3TT1A; Crypto.SM3TT1B; Crypto.SM3TT2A; Crypto.SM3TT2B].

Definition all_crypto_FourReg : list Crypto.FourReg :=
  [Crypto.EOR3; Crypto.BCAX; Crypto.SM3SS1].

Definition all_permute_Mnemonic : list Permute.Mnemonic :=
  [Permute.UZP1; Permute.TRN1; Permute.ZIP1; Permute.UZP2; Permute.TRN2;
   Permute.ZIP2].

Definition all_ext_Sized : list ThreeRegisterExt.Sized :=
  [ThreeRegisterExt.SDOT; ThreeRegisterExt.SQRDMLAH;
   ThreeRegisterExt.SQRDMLSH; ThreeRegisterExt.UDOT].

Definition all_ext_Unsized : list ThreeRegisterExt.Unsized :=
  [ThreeRegisterExt.USDOT; ThreeRegisterExt.BFDOT].

Definition all_ext_Fixed : list ThreeRegisterExt.Fixed :=
  [ThreeRegisterExt.BFMLALB; ThreeRegisterExt.BFMLALT; ThreeRegisterExt.SMMLA;
   ThreeRegisterExt.USMMLA; ThreeRegisterExt.BFMMLA; ThreeRegisterExt.UMMLA].

Definition all_tworeg_Templated : list TwoRegMisc.Templated :=
  [TwoRegMisc.REV64; TwoRegMisc.REV16; TwoRegMisc.SADDLP; TwoRegMisc.SUQADD;
   TwoRegMisc.CLS; TwoRegMisc.CNT; TwoRegMisc.SADALP; TwoRegMisc.SQABS;
   TwoRegMisc.CMGT; TwoRegMisc.CMEQ; TwoRegMisc.CMLT; TwoRegMisc.ABS;
   TwoRegMisc.FRINTN; TwoRegMisc.FRINTM; TwoRegMisc.FCVTNS; TwoRegMisc.FCVTMS;
   TwoRegMisc.FCVTAS; TwoRegMisc.SCVTF; TwoRegMisc.FRINT32Z;
   TwoRegMisc.FRINT64Z; TwoRegMisc.FCMGT; TwoRegMisc.FCMEQ; TwoRegMisc.FCMLT;
   TwoRegMisc.FABS; TwoRegMisc.FRINTP; TwoRegMisc.FRINTZ; TwoRegMisc.FCVTPS;
   TwoRegMisc.FCVTZS; TwoRegMisc.URECPE; TwoRegMisc.FRECPE; TwoRegMisc.REV32;
   TwoRegMisc.UADDLP; TwoRegMisc.USQADD; TwoRegMisc.CLZ; TwoRegMisc.UADALP;
   TwoRegMisc.SQNEG; TwoRegMisc.CMGE; TwoRegMisc.CMLE; TwoRegMisc.NEG;
   TwoRegMisc.FRINTA; TwoRegMisc.FRINTX; TwoRegMisc.FCVTNU; TwoRegMisc.FCVTMU;
   TwoRegMisc.FCVTAU; TwoRegMisc.UCVTF; TwoRegMisc.FRINT32X;
   TwoRegMisc.FRINT64X; TwoRegMisc.NOT; TwoRegMisc.MVN; TwoRegMisc.RBIT;
   TwoRegMisc.FCMGE; TwoRegMisc.FCMLE; TwoRegMisc.FNEG; TwoRegMisc.FRINTI;
   TwoRegMisc.FCVTPU; TwoRegMisc.FCVTZU; TwoRegMisc.URSQRTE;
   TwoRegMisc.FRSQRTE; TwoRegMisc.FSQRT].

Definition all_tworeg_Fixed : list TwoRegMisc.Fixed :=
  [TwoRegMisc.XTN; TwoRegMisc.XTN2; TwoRegMisc.SQXTN; TwoRegMisc.SQXTN2;
   TwoRegMisc.FCVTN; TwoRegMisc.FCVTN2; TwoRegMisc.FCVTL; TwoRegMisc.FCVTL2;
   TwoRegMisc.SQXTUN; TwoRegMisc.SQXTUN2; TwoRegMisc.SHLL; TwoRegMisc.SHLL2;
   TwoRegMisc.UQXTN; TwoRegMisc.UQXTN2; TwoRegMisc.FCVTXN; TwoRegMisc.FCVTXN2].

Definition all_across_Mnemonic : list AcrossLanes.Mnemonic :=
  [AcrossLanes.SADDLV; AcrossLanes.SMAXV; AcrossLanes.SMINV; AcrossLanes.ADDV;
   AcrossLanes.UADDLV; AcrossLanes.UMAXV; AcrossLanes.UMINV;
   AcrossLanes.FMAXNMV; AcrossLanes.FMAXV; AcrossLanes.FMINNMV;
   AcrossLanes.FMINV].

Definition all_threediff_Mnemonic : list ThreeDifferent.Mnemonic :=
  [ThreeDifferent.SADDL; ThreeDifferent.SADDL2; ThreeDifferent.SADDW;
   ThreeDifferent.SADDW2; ThreeDifferent.SSUBL; ThreeDifferent.SSUBL2;
   ThreeDifferent.SSUBW; ThreeDifferent.SSUBW2; ThreeDifferent.ADDHN;
   ThreeDifferent.ADDHN2; ThreeDifferent.SABAL; ThreeDifferent.SABAL2;
   ThreeDifferent.SUBHN; ThreeDifferent.SUBHN2; ThreeDifferent.SABDL;
   ThreeDifferent.SABDL2; ThreeDifferent.SMLAL; ThreeDifferent.SMLAL2;
   ThreeDifferent.SQDMLAL; ThreeDifferent.SQDMLAL2; ThreeDifferent.SMLSL;
   ThreeDifferent.SMLSL2; ThreeDifferent.SQDMLSL; ThreeDifferent.SQDMLSL2;
   ThreeDifferent.SMULL; ThreeDifferent.SMULL2; ThreeDifferent.SQDMULL;
   ThreeDifferent.SQDMULL2; ThreeDifferent.PMULL; ThreeDifferent.PMULL2;
   ThreeDifferent.UADDL; ThreeDifferent.UADDL2; ThreeDifferent.UADDW;
   ThreeDifferent.UADDW2; ThreeDifferent.USUBL; ThreeDifferent.USUBL2;
   ThreeDifferent.USUBW; ThreeDifferent.USUBW2; ThreeDifferent.RADDHN;
   ThreeDifferent.RADDHN2; ThreeDifferent.UABAL; ThreeDifferent.UABAL2;
   ThreeDifferent.RSUBHN; ThreeDifferent.RSUBHN2; ThreeDifferent.UABDL;
   ThreeDifferent.UABDL2; ThreeDifferent.UMLAL; ThreeDifferent.UMLAL2;
   ThreeDifferent.UMLSL; ThreeDifferent.UMLSL2; ThreeDifferent.UMULL;
   ThreeDifferent.UMULL2].

Definition all_threesame_Sized : list ThreeSameInt.Sized :=
  [ThreeSameInt.SHADD; ThreeSameInt.SQADD; ThreeSameInt.SRHADD;
   ThreeSameInt.SHSUB; ThreeSameInt.SQSUB; ThreeSameInt.CMGT;
   ThreeSameInt.CMGE; ThreeSameInt.SSHL; ThreeSameInt.SQSHL;
   ThreeSameInt.SRSHL; ThreeSameInt.SQRSHL; ThreeSameInt.SMAX;
   ThreeSameInt.SMIN; ThreeSameInt.SABD; ThreeSameInt.SABA; ThreeSameInt.ADD;
   ThreeSameInt.CMTST; ThreeSameInt.MLA; ThreeSameInt.MUL; ThreeSameInt.SMAXP;
   ThreeSameInt.SMINP; ThreeSameInt.SQDMULH; ThreeSameInt.ADDP;
   ThreeSameInt.UHADD; ThreeSameInt.UQADD; ThreeSameInt.URHADD;
   ThreeSameInt.UHSUB; ThreeSameInt.UQSUB; ThreeSameInt.CMHI;
   ThreeSameInt.CMHS; ThreeSameInt.USHL; ThreeSameInt.UQSHL;
   ThreeSameInt.URSHL; ThreeSameInt.UQRSHL; ThreeSameInt.UMAX;
   ThreeSameInt.UMIN; ThreeSameInt.UABD; ThreeSameInt.UABA; ThreeSameInt.SUB;
   ThreeSameInt.CMEQ; ThreeSameInt.MLS; ThreeSameInt.UMAXP;
   ThreeSameInt.UMINP; ThreeSameInt.SQRDMULH].

Definition all_threesame_Unsized : list ThreeSameInt.Unsized :=
  [ThreeSameInt.AND; ThreeSameInt.FMLAL; ThreeSameInt.FMLAL2;
   ThreeSameInt.BIC; ThreeSameInt.FMLSL; ThreeSameInt.FMLSL2;
   ThreeSameInt.ORN; ThreeSameInt.PMUL; ThreeSameInt.EOR; ThreeSameInt.BSL;
   ThreeSameInt.BIT; ThreeSameInt.BIF].

Definition all_float : list ThreeSame.FloatMnemonic :=
  [ThreeSame.FMAXNM; ThreeSame.FMLA; ThreeSame.FADD; ThreeSame.FMULX;
   ThreeSame.FCMEQ; ThreeSame.FMAX; ThreeSame.FRECPS; ThreeSame.FMINNM;
   ThreeSame.FMLS; ThreeSame.FSUB; ThreeSame.FMIN; ThreeSame.FRSQRTS;
   ThreeSame.FMAXNMP; ThreeSame.FADDP; ThreeSame.FMUL; ThreeSame.FCMGE;
   ThreeSame.FACGE; ThreeSame.FMAXP; ThreeSame.FDIV; ThreeSame.FMINNMP;
   ThreeSame.FABD; ThreeSame.FCMGT; ThreeSame.FACGT; ThreeSame.FMINP].


(** ** Calls of the cryptographic mnemonics *)

Module CryptoCall.

(** A call of a mnemonic of the category, with its arguments. *)
Inductive t : Type :=
| TwoReg (m : Crypto.TwoReg) (rd rn : VRegister)
| ThreeReg (m : Crypto.ThreeReg) (rd rn rm : VRegister)
| ThreeRegImm (m : Crypto.ThreeRegImm) (rd rn rm : VRegister) (index : Z)
| FourReg (m : Crypto.FourReg) (rd rn rm ra : VRegister).

Definition run (c : t) : Emit unit :=
  match c with
  | TwoReg m rd rn => Crypto.emit2 m rd rn
  | ThreeReg m rd rn rm => Crypto.emit3 m rd rn rm
  | ThreeRegImm m rd rn rm index => Crypto.emit3i m rd rn rm index
  | FourReg m rd rn rm ra => Crypto.emit4 m rd rn rm ra
  end.

(** The registers are v0 to v31 and an index is 0 to 3. *)
Definition listed (c : t) : Prop :=
  match c with
  | TwoReg _ rd rn =>
      0 <= Idx rd < 32 /\ 0 <= Idx rn < 32
  | ThreeReg _ rd rn rm =>
      0 <= Idx rd < 32 /\ 0 <= Idx rn < 32 /\ 0 <= Idx rm < 32
  | ThreeRegImm _ rd rn rm index =>
      0 <= Idx rd < 32
      /\ 0 <= Idx rn < 32 /\ 0 <= Idx rm < 32 /\ 0 <= index <= 3
  | FourReg _ rd rn rm ra =>
      0 <= Idx rd < 32
      /\ 0 <= Idx rn < 32 /\ 0 <= Idx rm < 32 /\ 0 <= Idx ra < 32
  end.

(** The operands of the call: the place of the field in the word, its width and
    the value it holds. *)
Definition fields (c : t) : list (Z * Z * Z) :=
  match c with
  | TwoReg _ rd rn =>
      [(0, 5, Idx rd); (5, 5, Idx rn)]
  | ThreeReg _ rd rn rm =>
      [(0, 5, Idx rd); (5, 5, Idx rn); (16, 5, Idx rm)]
  | ThreeRegImm _ rd rn rm index =>
      [(0, 5, Idx rd); (5, 5, Idx rn); (12, 2, index); (16, 5, Idx rm)]
  | FourReg _ rd rn rm ra =>
      [(0, 5, Idx rd); (5, 5, Idx rn); (10, 5, Idx ra); (16, 5, Idx rm)]
  end.

(** The call with its operands zeroed. *)
Definition erase (c : t) : t :=
  match c with
  | TwoReg m _ _ => TwoReg m v0 v0
  | ThreeReg m _ _ _ => ThreeReg m v0 v0 v0
  | ThreeRegImm m _ _ _ _ => ThreeRegImm m v0 v0 v0 0
  | FourReg m _ _ _ _ => FourReg m v0 v0 v0 v0
  end.

(** The operands, each at the place of its field. *)
Definition operands (c : t) : Z :=
  match c with
  | TwoReg _ rd rn =>
      32 * Idx rn + Idx rd
  | ThreeReg _ rd rn rm =>
      65536 * Idx rm + 32 * Idx rn + Idx rd
  | ThreeRegImm _ rd rn rm index =>
      65536 * Idx rm + 4096 * index + 32 * Idx rn + Idx rd
  | FourReg _ rd rn rm ra =>
      65536 * Idx rm + 1024 * Idx ra + 32 * Idx rn + Idx rd
  end.

(** The bits of the operand fields. *)
Definition mask (c : t) : Z :=
  match c with
  | TwoReg _ _ _ => 0x3FF
  | ThreeReg _ _ _ _ => 0x1F03FF
  | ThreeRegImm _ _ _ _ _ => 0x1F33FF
  | FourReg _ _ _ _ _ => 0x1F7FFF
  end.

(** Every call with zeroed operands. *)
Definition calls : list t :=
  flat_map
      (fun m =>
       [TwoReg m v0 v0])
      all_crypto_TwoReg
  ++ flat_map
      (fun m =>
       [ThreeReg m v0 v0 v0])
      all_crypto_ThreeReg
  ++ flat_map
      (fun m =>
       [ThreeRegImm m v0 v0 v0 0])
      all_crypto_ThreeRegImm
  ++ flat_map
      (fun m =>
       [FourReg m v0 v0 v0 v0])
      all_crypto_FourReg.

(** The fixed bits of every call that emits a word, with the bits of its
    operand fields. *)
Definition table : list (Z * Z * t) :=
  Eval vm_compute in entries run mask (fun c => c) calls.

End CryptoCall.

(** ** Calls of the permute mnemonics *)

Module PermuteCall.

(** A call of a mnemonic of the category, with its arguments. *)
Inductive t : Type :=
| Op (m : Permute.Mnemonic) (T : RegKind) (size : SubRegSize)
    (rd rn rm : VRegister).

Definition run (c : t) : Emit unit :=
  match c with
  | Op m T size rd rn rm => Permute.emit m T size rd rn rm
  end.

(** The element size is an enumerant and the registers are v0 to v31. *)
Definition listed (c : t) : Prop :=
  match c with
  | Op _ _ size rd rn rm =>
      In size SubRegSizes /\ 0 <= Idx rd < 32
      /\ 0 <= Idx rn < 32 /\ 0 <= Idx rm < 32
  end.

(** The operands of the call: the place of the field in the word, its width and
    the value it holds. *)
Definition fields (c : t) : list (Z * Z * Z) :=
  match c with
  | Op _ _ _ rd rn rm =>
      [(0, 5, Idx rd); (5, 5, Idx rn); (16, 5, Idx rm)]
  end.

(** The call with its operands zeroed. *)
Definition erase (c : t) : t :=
  match c with
  | Op m T size _ _ _ => Op m T size v0 v0 v0
  end.

(** The operands, each at the place of its field. *)
Definition operands (c : t) : Z :=
  match c with
  | Op _ _ _ rd rn rm =>
      65536 * Idx rm + 32 * Idx rn + Idx rd
  end.

(** The bits of the operand fields. *)
Definition mask (c : t) : Z :=
  match c with
  | Op _ _ _ _ _ _ => 0x1F03FF
  end.

(** Every call with zeroed operands. *)
Definition calls : list t :=
  flat_map
      (fun m =>
       flat_map (fun T => map (fun size => Op m T size v0 v0 v0) SubRegSizes)
         [QRegister; DRegister])
      all_permute_Mnemonic.

(** The fixed bits of every call that emits a word, with the bits of its
    operand fields. *)
Definition table : list (Z * Z * t) :=
  Eval vm_compute in entries run mask (fun c => c) calls.

End PermuteCall.

(** ** Calls of the three-register extension mnemonics *)

Module ThreeRegisterExtCall.

(** A call of a mnemonic of the category, with its arguments. *)
Inductive t : Type :=
| Sized (m : ThreeRegisterExt.Sized) (T : RegKind) (size : SubRegSize)
    (rd rn rm : VRegister)
| Unsized (m : ThreeRegisterExt.Unsized) (T : RegKind) (rd rn rm : VRegister)
| Fixed (m : ThreeRegisterExt.Fixed) (rd rn rm : VRegister).

Definition run (c : t) : Emit unit :=
  match c with
  | Sized m T size rd rn rm => ThreeRegisterExt.emitS m T size rd rn rm
  | Unsized m T rd rn rm => ThreeRegisterExt.emitU m T rd rn rm
  | Fixed m rd rn rm => ThreeRegisterExt.emitF m rd rn rm
  end.

(** The element size is an enumerant and the registers are v0 to v31. *)
Definition listed (c : t) : Prop :=
  match c with
  | Sized _ _ size rd rn rm =>
      In size SubRegSizes /\ 0 <= Idx rd < 32
      /\ 0 <= Idx rn < 32 /\ 0 <= Idx rm < 32
  | Unsized _ _ rd rn rm
  | Fixed _ rd rn rm =>
      0 <= Idx rd < 32 /\ 0 <= Idx rn < 32 /\ 0 <= Idx rm < 32
  end.

(** The operands of the call: the place of the field in the word, its width and
    the value it holds. *)
Definition fields (c : t) : list (Z * Z * Z) :=
  match c with
  | Sized _ _ _ rd rn rm
  | Unsized _ _ rd rn rm
  | Fixed _ rd rn rm =>
      [(0, 5, Idx rd); (5, 5, Idx rn); (16, 5, Idx rm)]
  end.

(** The call with its operands zeroed. *)
Definition erase (c : t) : t :=
  match c with
  | Sized m T size _ _ _ => Sized m T size v0 v0 v0
  | Unsized m T _ _ _ => Unsized m T v0 v0 v0
  | Fixed m _ _ _ => Fixed m v0 v0 v0
  end.

(** The operands, each at the place of its field. *)
Definition operands (c : t) : Z :=
  match c with
  | Sized _ _ _ rd rn rm
  | Unsized _ _ rd rn rm
  | Fixed _ rd rn rm =>
      65536 * Idx rm + 32 * Idx rn + Idx rd
  end.

(** The bits of the operand fields. *)
Definition mask (c : t) : Z :=
  match c with
  | Sized _ _ _ _ _ _
  | Unsized _ _ _ _ _
  | Fixed _ _ _ _ => 0x1F03FF
  end.

(** Every call with zeroed operands. *)
Definition calls : list t :=
  flat_map
      (fun m =>
       flat_map (fun T => map (fun size => Sized m T size v0 v0 v0) SubRegSizes)
         [QRegister; DRegister])
      all_ext_Sized
  ++ flat_map
      (fun m =>
       flat_map (fun T => [Unsized m T v0 v0 v0])
         [QRegister; DRegister])
      all_ext_Unsized
  ++ flat_map
      (fun m =>
       [Fixed m v0 v0 v0])
      all_ext_Fixed.

(** The fixed bits of every call that emits a word, with the bits of its
    operand fields. *)
Definition table : list (Z * Z * t) :=
  Eval vm_compute in entries run mask (fun c => c) calls.

End ThreeRegisterExtCall.

(** ** Calls of the two-register miscellaneous mnemonics *)

Module TwoRegMiscCall.

(** A call of a mnemonic of the category, with its arguments. *)
Inductive t : Type :=
| Templated (m : TwoRegMisc.Templated) (T : RegKind) (size : SubRegSize)
    (rd rn : VRegister)
| Fixed (m : TwoRegMisc.Fixed) (size : SubRegSize) (rd rn : VRegister).

Definition run (c : t) : Emit unit :=
  match c with
  | Templated m T size rd rn => TwoRegMisc.emitT m T size rd rn
  | Fixed m size rd rn => TwoRegMisc.emitF m size rd rn
  end.

(** The element size is an enumerant and the registers are v0 to v31. *)
Definition listed (c : t) : Prop :=
  match c with
  | Templated _ _ size rd rn
  | Fixed _ size rd rn =>
      In size SubRegSizes /\ 0 <= Idx rd < 32 /\ 0 <= Idx rn < 32
  end.

(** The operands of the call: the place of the field in the word, its width and
    the value it holds. *)
Definition fields (c : t) : list (Z * Z * Z) :=
  match c with
  | Templated _ _ _ rd rn
  | Fixed _ _ rd rn =>
      [(0, 5, Idx rd); (5, 5, Idx rn)]
  end.

(** [mvn] is another name of [not_]. *)
Definition alias_of (m : TwoRegMisc.Templated) : TwoRegMisc.Templated :=
  match m with
  | TwoRegMisc.MVN => TwoRegMisc.NOT
  | _ => m
  end.

Definition alias (c : t) : t :=
  match c with
  | Templated m T size rd rn => Templated (alias_of m) T size rd rn
  | Fixed _ _ _ _ => c
  end.

(** The call with its operands zeroed. *)
Definition erase (c : t) : t :=
  match c with
  | Templated m T size _ _ => Templated m T size v0 v0
  | Fixed m size _ _ => Fixed m size v0 v0
  end.

(** The operands, each at the place of its field. *)
Definition operands (c : t) : Z :=
  match c with
  | Templated _ _ _ rd rn
  | Fixed _ _ rd rn =>
      32 * Idx rn + Idx rd
  end.

(** The bits of the operand fields. *)
Definition mask (c : t) : Z :=
  match c with
  | Templated _ _ _ _ _
  | Fixed _ _ _ _ => 0x3FF
  end.

(** Every call with zeroed operands. *)
Definition calls : list t :=
  flat_map
      (fun m =>
       flat_map (fun T => map (fun size => Templated m T size v0 v0)
           SubRegSizes)
         [QRegister; DRegister])
      all_tworeg_Templated
  ++ flat_map
      (fun m =>
       map (fun size => Fixed m size v0 v0) SubRegSizes)
      all_tworeg_Fixed.

(** The fixed bits of every call that emits a word, with the bits of its
    operand fields. *)
Definition table : list (Z * Z * t) :=
  Eval vm_compute in entries run mask alias calls.

End TwoRegMiscCall.

(** ** Calls of the across lanes mnemonics *)

Module AcrossLanesCall.

(** A call of a mnemonic of the category, with its arguments. *)
Inductive t : Type :=
| Reduce (m : AcrossLanes.Mnemonic) (T : RegKind) (size : SubRegSize)
    (rd rn : VRegister).

Definition run (c : t) : Emit unit :=
  match c with
  | Reduce m T size rd rn => AcrossLanes.emit m T size rd rn
  end.

(** The element size is an enumerant of 8 to 64 bits and the registers are v0 to
    v31. *)
Definition listed (c : t) : Prop :=
  match c with
  | Reduce _ _ size rd rn =>
      In size ElementSizes /\ 0 <= Idx rd < 32 /\ 0 <= Idx rn < 32
  end.

(** The operands of the call: the place of the field in the word, its width and
    the value it holds. *)
Definition fields (c : t) : list (Z * Z * Z) :=
  match c with
  | Reduce _ _ _ rd rn =>
      [(0, 5, Idx rd); (5, 5, Idx rn)]
  end.

(** The call with its operands zeroed. *)
Definition erase (c : t) : t :=
  match c with
  | Reduce m T size _ _ => Reduce m T size v0 v0
  end.

(** The operands, each at the place of its field. *)
Definition operands (c : t) : Z :=
  match c with
  | Reduce _ _ _ rd rn =>
      32 * Idx rn + Idx rd
  end.

(** The bits of the operand fields. *)
Definition mask (c : t) : Z :=
  match c with
  | Reduce _ _ _ _ _ => 0x3FF
  end.

(** Every call with zeroed operands. *)
Definition calls : list t :=
  flat_map
      (fun m =>
       flat_map (fun T => map (fun size => Reduce m T size v0 v0) ElementSizes)
         [QRegister; DRegister])
      all_across_Mnemonic.

(** The fixed bits of every call that emits a word, with the bits of its
    operand fields. *)
Definition table : list (Z * Z * t) :=
  Eval vm_compute in entries run mask (fun c => c) calls.

End AcrossLanesCall.

(** ** Calls of the three different mnemonics *)

Module ThreeDifferentCall.

(** A call of a mnemonic of the category, with its arguments. *)
Inductive t : Type :=
| Op (m : ThreeDifferent.Mnemonic) (size : SubRegSize) (rd rn rm : VRegister).

Definition run (c : t) : Emit unit :=
  match c with
  | Op m size rd rn rm => ThreeDifferent.emit m size rd rn rm
  end.

(** The element size is an enumerant and the registers are v0 to v31. *)
Definition listed (c : t) : Prop :=
  match c with
  | Op _ size rd rn rm =>
      In size SubRegSizes /\ 0 <= Idx rd < 32
      /\ 0 <= Idx rn < 32 /\ 0 <= Idx rm < 32
  end.

(** The operands of the call: the place of the field in the word, its width and
    the value it holds. *)
Definition fields (c : t) : list (Z * Z * Z) :=
  match c with
  | Op _ _ rd rn rm =>
      [(0, 5, Idx rd); (5, 5, Idx rn); (16, 5, Idx rm)]
  end.

(** The call with its operands zeroed. *)
Definition erase (c : t) : t :=
  match c with
  | Op m size _ _ _ => Op m size v0 v0 v0
  end.

(** The operands, each at the place of its field. *)
Definition operands (c : t) : Z :=
  match c with
  | Op _ _ rd rn rm =>
      65536 * Idx rm + 32 * Idx rn + Idx rd
  end.

(** The bits of the operand fields. *)
Definition mask (c : t) : Z :=
  match c with
  | Op _ _ _ _ _ => 0x1F03FF
  end.

(** Every call with zeroed operands. *)
Definition calls : list t :=
  flat_map
      (fun m =>
       map (fun size => Op m size v0 v0 v0) SubRegSizes)
      all_threediff_Mnemonic.

(** The fixed bits of every call that emits a word, with the bits of its
    operand fields. *)
Definition table : list (Z * Z * t) :=
  Eval vm_compute in entries run mask (fun c => c) calls.

End ThreeDifferentCall.

(** ** Calls of the three same mnemonics *)

Module ThreeSameCall.

(** A call of a mnemonic of the category, with its arguments. *)
Inductive t : Type :=
| Sized (m : ThreeSameInt.Sized) (T : RegKind) (size : SubRegSize)
    (rd rn rm : VRegister)
| Unsized (m : ThreeSameInt.Unsized) (T : RegKind) (rd rn rm : VRegister)
| Float (m : ThreeSame.FloatMnemonic) (T : RegKind) (size : SubRegSize)
    (rd rn rm : VRegister)
| Orr (T : RegKind) (rd rn rm : VRegister)
| Mov (T : RegKind) (rd rn : VRegister).

Definition run (c : t) : Emit unit :=
  match c with
  | Sized m T size rd rn rm => ThreeSameInt.emitS m T size rd rn rm
  | Unsized m T rd rn rm => ThreeSameInt.emitU m T rd rn rm
  | Float m T size rd rn rm => ThreeSame.emit m T size rd rn rm
  | Orr T rd rn rm => ThreeSame.orr T rd rn rm
  | Mov T rd rn => ThreeSame.mov T rd rn
  end.

(** The element size is an enumerant and the registers are v0 to v31. *)
Definition listed (c : t) : Prop :=
  match c with
  | Sized _ _ size rd rn rm
  | Float _ _ size rd rn rm =>
      In size SubRegSizes /\ 0 <= Idx rd < 32
      /\ 0 <= Idx rn < 32 /\ 0 <= Idx rm < 32
  | Unsized _ _ rd rn rm
  | Orr _ rd rn rm =>
      0 <= Idx rd < 32 /\ 0 <= Idx rn < 32 /\ 0 <= Idx rm < 32
  | Mov _ rd rn =>
      0 <= Idx rd < 32 /\ 0 <= Idx rn < 32
  end.

(** The operands of the call: the place of the field in the word, its width and
    the value it holds. *)
Definition fields (c : t) : list (Z * Z * Z) :=
  match c with
  | Sized _ _ _ rd rn rm
  | Unsized _ _ rd rn rm
  | Float _ _ _ rd rn rm
  | Orr _ rd rn rm =>
      [(0, 5, Idx rd); (5, 5, Idx rn); (16, 5, Idx rm)]
  | Mov _ rd rn =>
      [(0, 5, Idx rd); (5, 5, Idx rn); (16, 5, Idx rn)]
  end.

(** [mov] is [orr] with the source register in both places. *)
Definition alias (c : t) : t :=
  match c with
  | Mov T rd rn => Orr T rd rn rn
  | _ => c
  end.

(** The call with its operands zeroed. *)
Definition erase (c : t) : t :=
  match c with
  | Sized m T size _ _ _ => Sized m T size v0 v0 v0
  | Unsized m T _ _ _ => Unsized m T v0 v0 v0
  | Float m T size _ _ _ => Float m T size v0 v0 v0
  | Orr T _ _ _ => Orr T v0 v0 v0
  | Mov T _ _ => Mov T v0 v0
  end.

(** The operands, each at the place of its field. *)
Definition operands (c : t) : Z :=
  match c with
  | Sized _ _ _ rd rn rm
  | Unsized _ _ rd rn rm
  | Float _ _ _ rd rn rm
  | Orr _ rd rn rm =>
      65536 * Idx rm + 32 * Idx rn + Idx rd
  | Mov _ rd rn =>
      65536 * Idx rn + 32 * Idx rn + Idx rd
  end.

(** The bits of the operand fields. *)
Definition mask (c : t) : Z :=
  match c with
  | Sized _ _ _ _ _ _
  | Unsized _ _ _ _ _
  | Float _ _ _ _ _ _
  | Orr _ _ _ _
  | Mov _ _ _ => 0x1F03FF
  end.

(** Every call with zeroed operands. *)
Definition calls : list t :=
  flat_map
      (fun m =>
       flat_map (fun T => map (fun size => Sized m T size v0 v0 v0) SubRegSizes)
         [QRegister; DRegister])
      all_threesame_Sized
  ++ flat_map
      (fun m =>
       flat_map (fun T => [Unsized m T v0 v0 v0])
         [QRegister; DRegister])
      all_threesame_Unsized
  ++ flat_map
      (fun m =>
       flat_map (fun T => map (fun size => Float m T size v0 v0 v0) SubRegSizes)
         [QRegister; DRegister])
      all_float
  ++ flat_map (fun T => [Orr T v0 v0 v0])
         [QRegister; DRegister]
  ++ flat_map (fun T => [Mov T v0 v0])
         [QRegister; DRegister].

(** The fixed bits of every call that emits a word, with the bits of its
    operand fields. *)
Definition table : list (Z * Z * t) :=
  Eval vm_compute in entries run mask alias calls.

End ThreeSameCall.

(** * Proof tools *)

Ltac unfold_shift :=
  cbv [ShiftByImm.emit
       ShiftByImm.sshr ShiftByImm.ssra ShiftByImm.srshr ShiftByImm.srsra
       ShiftByImm.shl ShiftByImm.sqshl ShiftByImm.shrn ShiftByImm.shrn2
       ShiftByImm.rshrn ShiftByImm.rshrn2 ShiftByImm.sqshrn ShiftByImm.sqshrn2
       ShiftByImm.sqrshrn ShiftByImm.sqrshrn2 ShiftByImm.sshll ShiftByImm.sshll2
       ShiftByImm.scvtf ShiftByImm.fcvtzs ShiftByImm.ushr ShiftByImm.usra
       ShiftByImm.urshr ShiftByImm.ursra ShiftByImm.sri ShiftByImm.sli
       ShiftByImm.sqshlu ShiftByImm.uqshl ShiftByImm.sqshrun ShiftByImm.sqshrun2
       ShiftByImm.sqrshrun ShiftByImm.sqrshrun2 ShiftByImm.uqshrn
       ShiftByImm.uqshrn2 ShiftByImm.uqrshrn ShiftByImm.uqrshrn2
       ShiftByImm.ushll ShiftByImm.ushll2 ShiftByImm.ucvtf ShiftByImm.fcvtzu].

(** Names the widths and the narrowed sizes of the enumerants. *)
Ltac fold_sizes :=
  change (u32 (i16Bit - 1)) with i8Bit in *;
  change (u32 (i32Bit - 1)) with i16Bit in *;
  change (u32 (i64Bit - 1)) with i32Bit in *;
  change (u32 (i128Bit - 1)) with i64Bit in *;
  change (SizeInBits i8Bit) with 8 in *;
  change (SizeInBits i16Bit) with 16 in *;
  change (SizeInBits i32Bit) with 32 in *;
  change (SizeInBits i64Bit) with 64 in *;
  change (SizeInBits i128Bit) with 128 in *.

(** Runs the guards of an emitter whose element size is known. *)
Ltac run_guards :=
  cbv [bind if_DRegister ret LOGMAN_THROW_A_FMT SubRegSizeInBits
       i8Bit i16Bit i32Bit i64Bit i128Bit negb andb orb Z.eqb Pos.eqb].

Ltac unfold_float :=
  cbv [ThreeSame.emit
       ThreeSame.fmaxnm ThreeSame.fmla ThreeSame.fadd ThreeSame.fmulx
       ThreeSame.fcmeq ThreeSame.fmax ThreeSame.frecps ThreeSame.fminnm
       ThreeSame.fmls ThreeSame.fsub ThreeSame.fmin ThreeSame.frsqrts
       ThreeSame.fmaxnmp ThreeSame.faddp ThreeSame.fmul ThreeSame.fcmge
       ThreeSame.facge ThreeSame.fmaxp ThreeSame.fdiv ThreeSame.fminnmp
       ThreeSame.fabd ThreeSame.fcmgt ThreeSame.facgt ThreeSame.fminp].

Ltac unfold_indexed :=
  cbv [IndexedElement.emit
       IndexedElement.smlal IndexedElement.smlal2 IndexedElement.sqdmlal
       IndexedElement.sqdmlal2 IndexedElement.smlsl IndexedElement.smlsl2
       IndexedElement.sqdmlsl IndexedElement.sqdmlsl2 IndexedElement.mul
       IndexedElement.smull IndexedElement.smull2 IndexedElement.sqdmull
       IndexedElement.sqdmull2 IndexedElement.sqdmulh IndexedElement.sqrdmulh
       IndexedElement.sdot IndexedElement.sudot IndexedElement.bfdot
       IndexedElement.fmla IndexedElement.fmls IndexedElement.fmul
       IndexedElement.fmlal IndexedElement.fmlal2 IndexedElement.fmlsl
       IndexedElement.fmlsl2 IndexedElement.usdot IndexedElement.bfmlalb
       IndexedElement.bfmlalt IndexedElement.mla IndexedElement.umlal
       IndexedElement.umlal2 IndexedElement.mls IndexedElement.umlsl
       IndexedElement.umlsl2 IndexedElement.umull IndexedElement.umull2
       IndexedElement.sqrdmlah IndexedElement.udot IndexedElement.sqrdmlsh].

(** Splits a hypothesis on the accepted sizes into its cases. *)
Ltac split_sizes H :=
  repeat match type of H with
         | (_ || _) = true =>
             apply Bool.orb_true_iff in H; destruct H as [H | H]
         | (_ && _) = true =>
             apply Bool.andb_true_iff in H;
             let H' := fresh "HT" in destruct H as [H H']
         end;
  try (apply Z.eqb_eq in H; subst).

(** Runs an indexed-element emitter up to its call of the encoder. *)
Ltac run_indexed :=
  unfold_indexed; fold_sizes; unfold IsStandardFloatSize; run_guards;
  repeat match goal with
         | |- context [?a <? ?b] =>
             replace (a <? b) with true by (symmetry; apply Z.ltb_lt; lia)
         end.

(** Evaluates the fields of the constant parts of a word. *)
Ltac closed_fields :=
  repeat match goal with
         | |- context [field (shl32 (bin ?s) ?q) ?p ?n] =>
             let r := eval vm_compute in (field (shl32 (bin s) q) p n) in
             change (field (shl32 (bin s) q) p n) with r
         | |- context [field (shl32 (Zpos ?c) ?q) ?p ?n] =>
             let r := eval vm_compute in (field (shl32 (Zpos c) q) p n) in
             change (field (shl32 (Zpos c) q) p n) with r
         | |- context [field (shl32 Z0 ?q) ?p ?n] =>
             let r := eval vm_compute in (field (shl32 Z0 q) p n) in
             change (field (shl32 Z0 q) p n) with r
         | |- context [field Z0 ?p ?n] =>
             let r := eval vm_compute in (field Z0 p n) in
             change (field Z0 p n) with r
         end.

(** Closes the side conditions of the field lemmas. *)
Ltac bounds :=
  repeat match goal with
         | |- context [2 ^ Zpos ?k] =>
             let v := eval vm_compute in (2 ^ Zpos k) in
             change (2 ^ Zpos k) with v
         end;
  lia.

Ltac unfold_crypto :=
  cbv [Crypto.emit2 Crypto.emit3 Crypto.emit3i Crypto.emit4 Crypto.aese
       Crypto.aesd Crypto.aesmc Crypto.aesimc Crypto.sha1c Crypto.sha1p
       Crypto.sha1m Crypto.sha1su0 Crypto.sha256h Crypto.sha256h2
       Crypto.sha256su1 Crypto.sha1h Crypto.sha1su1 Crypto.sha256su0
       Crypto.sm3tt1a Crypto.sm3tt1b Crypto.sm3tt2a Crypto.sm3tt2b
       Crypto.sha512h Crypto.sha512h2 Crypto.sha512su1 Crypto.rax1
       Crypto.sm3partw1 Crypto.sm3partw2 Crypto.sm4ekey Crypto.eor3
       Crypto.bcax Crypto.sm3ss1 Crypto.sha512su0 Crypto.sm4e].

Ltac unfold_permute :=
  cbv [Permute.emit Permute.uzp1 Permute.trn1 Permute.zip1 Permute.uzp2
       Permute.trn2 Permute.zip2].

Ltac unfold_ext :=
  cbv [ThreeRegisterExt.emitS ThreeRegisterExt.emitU ThreeRegisterExt.emitF
       ThreeRegisterExt.sdot ThreeRegisterExt.usdot ThreeRegisterExt.sqrdmlah
       ThreeRegisterExt.sqrdmlsh ThreeRegisterExt.udot ThreeRegisterExt.bfdot
       ThreeRegisterExt.bfmlalb ThreeRegisterExt.bfmlalt
       ThreeRegisterExt.smmla ThreeRegisterExt.usmmla ThreeRegisterExt.bfmmla
       ThreeRegisterExt.ummla].

Ltac unfold_tworeg :=
  cbv [TwoRegMisc.emitT TwoRegMisc.emitF TwoRegMisc.rev64 TwoRegMisc.rev16
       TwoRegMisc.saddlp TwoRegMisc.suqadd TwoRegMisc.cls TwoRegMisc.cnt
       TwoRegMisc.sadalp TwoRegMisc.sqabs TwoRegMisc.cmgt TwoRegMisc.cmeq
       TwoRegMisc.cmlt TwoRegMisc.abs TwoRegMisc.xtn TwoRegMisc.xtn2
       TwoRegMisc.sqxtn TwoRegMisc.sqxtn2 TwoRegMisc.fcvtn TwoRegMisc.fcvtn2
       TwoRegMisc.fcvtl TwoRegMisc.fcvtl2 TwoRegMisc.frintn TwoRegMisc.frintm
       TwoRegMisc.fcvtns TwoRegMisc.fcvtms TwoRegMisc.fcvtas TwoRegMisc.scvtf
       TwoRegMisc.frint32z TwoRegMisc.frint64z TwoRegMisc.fcmgt
       TwoRegMisc.fcmeq TwoRegMisc.fcmlt TwoRegMisc.fabs TwoRegMisc.frintp
       TwoRegMisc.frintz TwoRegMisc.fcvtps TwoRegMisc.fcvtzs TwoRegMisc.urecpe
       TwoRegMisc.frecpe TwoRegMisc.rev32 TwoRegMisc.uaddlp TwoRegMisc.usqadd
       TwoRegMisc.clz TwoRegMisc.uadalp TwoRegMisc.sqneg TwoRegMisc.cmge
       TwoRegMisc.cmle TwoRegMisc.neg TwoRegMisc.sqxtun TwoRegMisc.sqxtun2
       TwoRegMisc.shll TwoRegMisc.shll2 TwoRegMisc.uqxtn TwoRegMisc.uqxtn2
       TwoRegMisc.fcvtxn TwoRegMisc.fcvtxn2 TwoRegMisc.frinta
       TwoRegMisc.frintx TwoRegMisc.fcvtnu TwoRegMisc.fcvtmu TwoRegMisc.fcvtau
       TwoRegMisc.ucvtf TwoRegMisc.frint32x TwoRegMisc.frint64x
       TwoRegMisc.not_ TwoRegMisc.mvn TwoRegMisc.rbit TwoRegMisc.fcmge
       TwoRegMisc.fcmle TwoRegMisc.fneg TwoRegMisc.frinti TwoRegMisc.fcvtpu
       TwoRegMisc.fcvtzu TwoRegMisc.ursqrte TwoRegMisc.frsqrte
       TwoRegMisc.fsqrt].

Ltac unfold_across :=
  cbv [AcrossLanes.emit AcrossLanes.saddlv AcrossLanes.smaxv AcrossLanes.sminv
       AcrossLanes.addv AcrossLanes.uaddlv AcrossLanes.umaxv AcrossLanes.uminv
       AcrossLanes.fmaxnmv AcrossLanes.fmaxv AcrossLanes.fminnmv
       AcrossLanes.fminv].

Ltac unfold_threediff :=
  cbv [ThreeDifferent.emit ThreeDifferent.saddl ThreeDifferent.saddl2
       ThreeDifferent.saddw ThreeDifferent.saddw2 ThreeDifferent.ssubl
       ThreeDifferent.ssubl2 ThreeDifferent.ssubw ThreeDifferent.ssubw2
       ThreeDifferent.addhn ThreeDifferent.addhn2 ThreeDifferent.sabal
       ThreeDifferent.sabal2 ThreeDifferent.subhn ThreeDifferent.subhn2
       ThreeDifferent.sabdl ThreeDifferent.sabdl2 ThreeDifferent.smlal
       ThreeDifferent.smlal2 ThreeDifferent.sqdmlal ThreeDifferent.sqdmlal2
       ThreeDifferent.smlsl ThreeDifferent.smlsl2 ThreeDifferent.sqdmlsl
       ThreeDifferent.sqdmlsl2 ThreeDifferent.smull ThreeDifferent.smull2
       ThreeDifferent.sqdmull ThreeDifferent.sqdmull2 ThreeDifferent.pmull
       ThreeDifferent.pmull2 ThreeDifferent.uaddl ThreeDifferent.uaddl2
       ThreeDifferent.uaddw ThreeDifferent.uaddw2 ThreeDifferent.usubl
       ThreeDifferent.usubl2 ThreeDifferent.usubw ThreeDifferent.usubw2
       ThreeDifferent.raddhn ThreeDifferent.raddhn2 ThreeDifferent.uabal
       ThreeDifferent.uabal2 ThreeDifferent.rsubhn ThreeDifferent.rsubhn2
       ThreeDifferent.uabdl ThreeDifferent.uabdl2 ThreeDifferent.umlal
       ThreeDifferent.umlal2 ThreeDifferent.umlsl ThreeDifferent.umlsl2
       ThreeDifferent.umull ThreeDifferent.umull2].

Ltac unfold_threesame :=
  cbv [ThreeSameInt.emitS ThreeSameInt.emitU ThreeSameInt.shadd
       ThreeSameInt.sqadd ThreeSameInt.srhadd ThreeSameInt.shsub
       ThreeSameInt.sqsub ThreeSameInt.cmgt ThreeSameInt.cmge
       ThreeSameInt.sshl ThreeSameInt.sqshl ThreeSameInt.srshl
       ThreeSameInt.sqrshl ThreeSameInt.smax ThreeSameInt.smin
       ThreeSameInt.sabd ThreeSameInt.saba ThreeSameInt.add ThreeSameInt.cmtst
       ThreeSameInt.mla ThreeSameInt.mul ThreeSameInt.smaxp ThreeSameInt.sminp
       ThreeSameInt.sqdmulh ThreeSameInt.addp ThreeSameInt.and_
       ThreeSameInt.fmlal ThreeSameInt.fmlal2 ThreeSameInt.bic
       ThreeSameInt.fmlsl ThreeSameInt.fmlsl2 ThreeSameInt.orn
       ThreeSameInt.uhadd ThreeSameInt.uqadd ThreeSameInt.urhadd
       ThreeSameInt.uhsub ThreeSameInt.uqsub ThreeSameInt.cmhi
       ThreeSameInt.cmhs ThreeSameInt.ushl ThreeSameInt.uqshl
       ThreeSameInt.urshl ThreeSameInt.uqrshl ThreeSameInt.umax
       ThreeSameInt.umin ThreeSameInt.uabd ThreeSameInt.uaba ThreeSameInt.sub
       ThreeSameInt.cmeq ThreeSameInt.mls ThreeSameInt.pmul ThreeSameInt.umaxp
       ThreeSameInt.uminp ThreeSameInt.sqrdmulh ThreeSameInt.eor
       ThreeSameInt.bsl ThreeSameInt.bit ThreeSameInt.bif].

(** Closes a bound on a number or on a register. *)
Ltac closed_bound :=
  first [assumption | vm_compute; split; [discriminate | reflexivity]].

(** Splits a hypothesis on a listed element size into its cases. *)
Ltac split_listed H :=
  cbv [SubRegSizes ElementSizes In] in H;
  repeat (destruct H as [<- | H]; [|]); try contradiction.
(** ** Vocabulary of the further properties *)

(** The outcome of a call that appended one 32-bit word to the stream [code],
    or failed and left it as it was. *)
Definition one_word_or_nothing (o : Outcome unit) (code : list Z) : Prop :=
  (exists w, o = Done tt (code ++ [w]) /\ 0 <= w < 2 ^ 32)
  \/ (exists msg, o = Abort msg code).

(** The width of a vector register in bits. *)
Definition RegisterBits (T : RegKind) : Z :=
  match T with
  | QRegister => 128
  | DRegister => 64
  end.

(** The Q bit of the word of a register type. *)
Definition Q_of (T : RegKind) : Z :=
  match T with
  | QRegister => 1
  | DRegister => 0
  end.

(** The two-register mnemonics on floating-point elements that have a
    half-precision form. *)
Definition all_tworeg_half : list TwoRegMisc.Templated :=
  [TwoRegMisc.FRINTN; TwoRegMisc.FRINTM; TwoRegMisc.FCVTNS; TwoRegMisc.FCVTMS;
   TwoRegMisc.FCVTAS; TwoRegMisc.SCVTF; TwoRegMisc.FCMGT; TwoRegMisc.FCMEQ;
   TwoRegMisc.FCMLT; TwoRegMisc.FABS; TwoRegMisc.FRINTP; TwoRegMisc.FRINTZ;
   TwoRegMisc.FCVTPS; TwoRegMisc.FCVTZS; TwoRegMisc.FRECPE; TwoRegMisc.FRINTA;
   TwoRegMisc.FRINTX; TwoRegMisc.FCVTNU; TwoRegMisc.FCVTMU; TwoRegMisc.FCVTAU;
   TwoRegMisc.UCVTF; TwoRegMisc.FCMGE; TwoRegMisc.FCMLE; TwoRegMisc.FNEG;
   TwoRegMisc.FRINTI; TwoRegMisc.FCVTPU; TwoRegMisc.FCVTZU;
   TwoRegMisc.FRSQRTE; TwoRegMisc.FSQRT].

(** The size of the elements an across-lanes mnemonic reads: the long sums
    are given the size of the sum, twice that of the elements. *)
Definition reduced_size (m : AcrossLanes.Mnemonic) (size : SubRegSize)
    : SubRegSize :=
  match m with
  | AcrossLanes.SADDLV | AcrossLanes.UADDLV => size - 1
  | _ => size
  end.

(** The element sizes an across-lanes mnemonic has: 8 to 32 bits for the
    integer ones, 16 and 32 bits for the floating-point ones. *)
Definition reduces (m : AcrossLanes.Mnemonic) (size : SubRegSize) : bool :=
  match m with
  | AcrossLanes.SADDLV | AcrossLanes.UADDLV
  | AcrossLanes.SMAXV | AcrossLanes.SMINV | AcrossLanes.ADDV
  | AcrossLanes.UMAXV | AcrossLanes.UMINV =>
      existsb (Z.eqb (reduced_size m size)) [i8Bit; i16Bit; i32Bit]
  | AcrossLanes.FMAXNMV | AcrossLanes.FMAXV
  | AcrossLanes.FMINNMV | AcrossLanes.FMINV =>
      existsb (Z.eqb size) [i16Bit; i32Bit]
  end.

(** The three-different mnemonics on the lower half of the narrow operand,
    each with the mnemonic on the upper half. *)
Definition threediff_halves
    : list (ThreeDifferent.Mnemonic * ThreeDifferent.Mnemonic) :=
  [(ThreeDifferent.SADDL, ThreeDifferent.SADDL2);
   (ThreeDifferent.SADDW, ThreeDifferent.SADDW2);
   (ThreeDifferent.SSUBL, ThreeDifferent.SSUBL2);
   (ThreeDifferent.SSUBW, ThreeDifferent.SSUBW2);
   (ThreeDifferent.ADDHN, ThreeDifferent.ADDHN2);
   (ThreeDifferent.SABAL, ThreeDifferent.SABAL2);
   (ThreeDifferent.SUBHN, ThreeDifferent.SUBHN2);
   (ThreeDifferent.SABDL, ThreeDifferent.SABDL2);
   (ThreeDifferent.SMLAL, ThreeDifferent.SMLAL2);
   (ThreeDifferent.SQDMLAL, ThreeDifferent.SQDMLAL2);
   (ThreeDifferent.SMLSL, ThreeDifferent.SMLSL2);
   (ThreeDifferent.SQDMLSL, ThreeDifferent.SQDMLSL2);
   (ThreeDifferent.SMULL, ThreeDifferent.SMULL2);
   (ThreeDifferent.SQDMULL, ThreeDifferent.SQDMULL2);
   (ThreeDifferent.PMULL, ThreeDifferent.PMULL2);
   (ThreeDifferent.UADDL, ThreeDifferent.UADDL2);
   (ThreeDifferent.UADDW, ThreeDifferent.UADDW2);
   (ThreeDifferent.USUBL, ThreeDifferent.USUBL2);
   (ThreeDifferent.USUBW, ThreeDifferent.USUBW2);
   (ThreeDifferent.RADDHN, ThreeDifferent.RADDHN2);
   (ThreeDifferent.UABAL, ThreeDifferent.UABAL2);
   (ThreeDifferent.RSUBHN, ThreeDifferent.RSUBHN2);
   (ThreeDifferent.UABDL, ThreeDifferent.UABDL2);
   (ThreeDifferent.UMLAL, ThreeDifferent.UMLAL2);
   (ThreeDifferent.UMLSL, ThreeDifferent.UMLSL2);
   (ThreeDifferent.UMULL, ThreeDifferent.UMULL2)].

(** The same for the two-register mnemonics that narrow or lengthen. *)
Definition tworeg_halves : list (TwoRegMisc.Fixed * TwoRegMisc.Fixed) :=
  [(TwoRegMisc.XTN, TwoRegMisc.XTN2);
   (TwoRegMisc.SQXTN, TwoRegMisc.SQXTN2);
   (TwoRegMisc.FCVTN, TwoRegMisc.FCVTN2);
   (TwoRegMisc.FCVTL, TwoRegMisc.FCVTL2);
   (TwoRegMisc.SQXTUN, TwoRegMisc.SQXTUN2);
   (TwoRegMisc.SHLL, TwoRegMisc.SHLL2);
   (TwoRegMisc.UQXTN, TwoRegMisc.UQXTN2);
   (TwoRegMisc.FCVTXN, TwoRegMisc.FCVTXN2)].

(** The overloads of [tbl] and [tbx], told apart by the number of table
    registers; [extend] selects [tbx]. *)
Definition lookup (AreVectorsSequential : list VRegister -> bool)
    (extend : bool) (T : RegKind) (rd : VRegister) (table : list VRegister)
    (rm : VRegister) : Emit unit :=
  match table, extend with
  | [rn], false => Table.tbl T rd rn rm
  | [rn], true => Table.tbx T rd rn rm
  | [rn; rn2], false => Table.tbl2 AreVectorsSequential T rd rn rn2 rm
  | [rn; rn2], true => Table.tbx2 AreVectorsSequential T rd rn rn2 rm
  | [rn; rn2; rn3], false =>
      Table.tbl3 AreVectorsSequential T rd rn rn2 rn3 rm
  | [rn; rn2; rn3], true =>
      Table.tbx3 AreVectorsSequential T rd rn rn2 rn3 rm
  | [rn; rn2; rn3; rn4], false =>
      Table.tbl4 AreVectorsSequential T rd rn rn2 rn3 rn4 rm
  | [rn; rn2; rn3; rn4], true =>
      Table.tbx4 AreVectorsSequential T rd rn rn2 rn3 rn4 rm
  | _, _ => fun code => Unlisted code
  end.

(** The element size and the shift the mode bits of a move immediate with
    op = 0 stand for: 0xx0 is a 32-bit element shifted left by 8 * xx, 10x0 a
    16-bit element shifted left by 8 * x, and 1110 an 8-bit element. *)
Definition movi_form (cmode : Z) : SubRegSize * Z :=
  if field cmode 3 1 =? 0 then (i32Bit, 8 * field cmode 1 2)
  else if field cmode 2 1 =? 0 then (i16Bit, 8 * field cmode 1 1)
  else (i8Bit, 0).

(** The lane a single-structure load or store addresses, read from Q, S and
    size of its word: Q:S:size for bytes, Q:S:size<1> for halfwords, Q:S for
    words and Q for doublewords. *)
Definition lane_of_word (size : SubRegSize) (w : Z) : Z :=
  let Q := field w 30 1 in
  let S := field w 12 1 in
  let sz := field w 10 2 in
  if size =? i8Bit then 8 * Q + 4 * S + sz
  else if size =? i16Bit then 4 * Q + 2 * S + Z.shiftr sz 1
  else if size =? i32Bit then 2 * Q + S
  else Q.

(** The bits Q, S and size of [x] are clear. *)
Definition lane_fields_clear (x : Z) : Prop :=
  field x 30 1 = 0 /\ field x 12 1 = 0 /\ field x 10 2 = 0.


(** Evaluates the calls with zeroed operands of a goal in normal form. *)
Ltac run_probes :=
  repeat match goal with
         | |- context [relocate ?p _ _] =>
             let r := eval vm_compute in p in progress change p with r
         end;
  cbv [relocate].

(** An element size is one of the enumerants. *)
Ltac listed_size :=
  cbv [SubRegSizes ElementSizes In i8Bit i16Bit i32Bit i64Bit i128Bit]; tauto.

(** Two streams that end in equal words. *)
Ltac same_word :=
  match goal with
  | |- Done tt (?code ++ [?a]) = Done tt (?code ++ [?b]) =>
      replace b with a by lia; reflexivity
  end.


(** * Properties *)

(** ** Machine arithmetic *)

Lemma u32_small (x : Z) : 0 <= x < 2 ^ 32 -> u32 x = x.
Proof. intros H. unfold u32. now apply Z.mod_small. Qed.

Lemma u64_small (x : Z) : 0 <= x < 2 ^ 64 -> u64 x = x.
Proof. intros H. unfold u64. now apply Z.mod_small. Qed.

Lemma u32_u64_small (x : Z) : 0 <= x < 2 ^ 32 -> u32 (u64 x) = x.
Proof.
  intros H. rewrite u64_small; [now apply u32_small|].
  change (2 ^ 32) with 4294967296 in H.
  change (2 ^ 64) with 18446744073709551616. lia.
Qed.

Lemma shiftr3_nonzero (x : Z) : 8 <= x -> Z.shiftr x 3 <> 0.
Proof.
  intros H. rewrite Z.shiftr_div_pow2 by lia.
  change (2 ^ 3) with 8.
  assert (1 <= x / 8) by (apply Z.div_le_lower_bound; lia). lia.
Qed.

(** Splitting a field into [fld >> 3] and [fld & 0b111] loses nothing. *)
Lemma split_join (fld : Z) :
  0 <= fld -> Z.lor (Z.shiftl (Z.shiftr fld 3) 3) (Z.land fld 7) = fld.
Proof.
  intros H. change 7 with (Z.ones 3).
  rewrite <- Z.ldiff_ones_r by lia.
  apply Z.lor_ldiff_and.
Qed.

Lemma SizeInBits_listed (size : SubRegSize) (code : list Z) :
  In size SubRegSizes -> SubRegSizeInBits size code = Done (SizeInBits size) code.
Proof.
  intros H. unfold SubRegSizes in H. simpl in H.
  repeat (destruct H as [<- | H]; [reflexivity|]). contradiction.
Qed.

Lemma SizeInBits_bounds (size : SubRegSize) :
  In size SubRegSizes -> 8 <= SizeInBits size <= 128.
Proof.
  intros H. unfold SubRegSizes in H. simpl in H.
  repeat (destruct H as [<- | H]; [vm_compute; split; discriminate|]).
  contradiction.
Qed.

(** ** The shift-by-immediate encoder *)

Lemma ASIMDShiftByImm_zero (T : RegKind) (U immb opcode : Z)
    (rn rd : VRegister) (code : list Z) :
  ASIMDShiftByImm T U 0 immb opcode rn rd code
  = Abort "ImmH needs to not be zero" code.
Proof. reflexivity. Qed.

Lemma ASIMDShiftByImm_emits (T : RegKind) (U immh immb opcode : Z)
    (rn rd : VRegister) (code : list Z) :
  immh <> 0 ->
  exists w, ASIMDShiftByImm T U immh immb opcode rn rd code = Done tt (code ++ [w]).
Proof.
  intros H. unfold ASIMDShiftByImm, bind, LOGMAN_THROW_A_FMT, dc32.
  apply Z.eqb_neq in H. rewrite H. cbn [negb]. eexists. reflexivity.
Qed.

Lemma ASIMDShiftByImm_Done (T : RegKind) (U immh immb opcode : Z)
    (rn rd : VRegister) (code out : list Z) :
  ASIMDShiftByImm T U immh immb opcode rn rd code = Done tt out ->
  immh <> 0 /\ exists w, out = code ++ [w].
Proof.
  intros H. destruct (Z.eq_dec immh 0) as [-> | Hne].
  - rewrite ASIMDShiftByImm_zero in H. discriminate H.
  - split; [exact Hne|].
    destruct (ASIMDShiftByImm_emits T U immh immb opcode rn rd code Hne) as [w Hw].
    rewrite Hw in H. exists w. congruence.
Qed.

(** ** Shift by immediate: what every mnemonic hands to the encoder *)

(** Under its preconditions every mnemonic hands the encoder the two halves of
    the shift field of its direction, computed without wrap-around, with a
    one-bit U and a five-bit opcode. *)
Lemma shift_emit_spec (m : ShiftByImm.Mnemonic) (T : RegKind)
    (size : SubRegSize) (rd rn : VRegister) (Shift : Z) (code : list Z) :
  In size SubRegSizes ->
  In (shifted_size m size) SubRegSizes ->
  0 <= Shift < SizeInBits (shifted_size m size) ->
  size_allowed m T size = true ->
  exists T' U opcode,
    ShiftByImm.emit m T size rd rn Shift code
    = ASIMDShiftByImm T' U
        (Z.shiftr
           (shift_field (direction m) (SizeInBits (shifted_size m size)) Shift) 3)
        (Z.land
           (shift_field (direction m) (SizeInBits (shifted_size m size)) Shift) 7)
        opcode rn rd code
    /\ (U = 0 \/ U = 1) /\ 0 <= opcode < 32.
Proof.
  intros Hsize Hsrc HShift Hok.
  unfold SubRegSizes in Hsize; simpl in Hsize.
  repeat (destruct Hsize as [<- | Hsize]; [|]); try contradiction.
  all: destruct m;
    try (exfalso; vm_compute in Hsrc; intuition discriminate).
  all: destruct T; try discriminate Hok.
  all: clear Hsrc Hok; do 3 eexists.
  all: (split;
          [unfold_shift;
           cbv [shifted_size direction shift_field] in *; fold_sizes; run_guards;
           try (replace (Shift <? _) with true
                  by (symmetry; apply Z.ltb_lt; lia));
           rewrite u32_u64_small by (change (2 ^ 32) with 4294967296; lia);
           reflexivity
          |]).
  all: (split;
          [first [left; reflexivity | right; reflexivity]
          | vm_compute; split; [discriminate | reflexivity]]).
Qed.

(** The shift field of a legal amount is at least 8, so its high part is not
    zero. *)
Lemma shift_field_lower (d : Direction) (size : SubRegSize) (Shift : Z) :
  In size SubRegSizes ->
  0 <= Shift < SizeInBits size ->
  8 <= shift_field d (SizeInBits size) Shift.
Proof.
  intros Hsize HShift. pose proof (SizeInBits_bounds size Hsize) as Hb.
  destruct d; unfold shift_field; lia.
Qed.

Lemma decode_shift_field (d : Direction) (bits Shift : Z) :
  0 <= shift_field d bits Shift ->
  decode_shift d bits (Z.shiftr (shift_field d bits Shift) 3)
    (Z.land (shift_field d bits Shift) 7) = Shift.
Proof.
  intros H. unfold decode_shift. rewrite split_join by exact H.
  destruct d; unfold shift_field; lia.
Qed.

(** C7: the shift-by-immediate encoder refuses a zero immh before it emits
    anything, so every word it emits was built from a nonzero immh; and under
    the preconditions of every shift-by-immediate mnemonic (an element size it
    accepts, a shift amount in [0, size_in_bits)) the mnemonic emits its word:
    the immh == 0 branch is not reached. *)
Theorem immh_never_zero :
  (forall (T : RegKind) (U immb opcode : Z) (rn rd : VRegister) (code : list Z),
      ASIMDShiftByImm T U 0 immb opcode rn rd code
      = Abort "ImmH needs to not be zero" code)
  /\ (forall (T : RegKind) (U immh immb opcode : Z) (rn rd : VRegister)
             (code out : list Z),
         ASIMDShiftByImm T U immh immb opcode rn rd code = Done tt out ->
         immh <> 0 /\ exists w, out = code ++ [w])
  /\ (forall (m : ShiftByImm.Mnemonic) (T : RegKind) (size : SubRegSize)
             (rd rn : VRegister) (Shift : Z) (code : list Z),
         In size SubRegSizes ->
         In (shifted_size m size) SubRegSizes ->
         0 <= Shift < SizeInBits (shifted_size m size) ->
         size_allowed m T size = true ->
         exists T' U immh immb opcode w,
           ShiftByImm.emit m T size rd rn Shift code
           = ASIMDShiftByImm T' U immh immb opcode rn rd code
           /\ immh <> 0
           /\ ShiftByImm.emit m T size rd rn Shift code = Done tt (code ++ [w])).
Proof.
  split; [exact ASIMDShiftByImm_zero|]. split; [exact ASIMDShiftByImm_Done|].
  intros m T size rd rn Shift code Hsize Hsrc HShift Hok.
  destruct (shift_emit_spec m T size rd rn Shift code Hsize Hsrc HShift Hok)
    as (T' & U & opcode & Hemit & _).
  pose proof (shift_field_lower (direction m) _ Shift Hsrc HShift) as Hlow.
  pose proof (shiftr3_nonzero _ Hlow) as Hne.
  destruct (ASIMDShiftByImm_emits T' U _
              (Z.land (shift_field (direction m)
                         (SizeInBits (shifted_size m size)) Shift) 7)
              opcode rn rd code Hne) as [w Hw].
  exists T', U. do 2 eexists. exists opcode, w.
  split; [exact Hemit|]. split; [exact Hne|]. now rewrite Hemit.
Qed.

Lemma immh_never_zero_witness :
  exists T' U immh immb opcode w,
    ShiftByImm.emit ShiftByImm.USHLL DRegister i16Bit (VReg 4) (VReg 5) 0 []
    = ASIMDShiftByImm T' U immh immb opcode (VReg 5) (VReg 4) []
    /\ immh <> 0
    /\ ShiftByImm.emit ShiftByImm.USHLL DRegister i16Bit (VReg 4) (VReg 5) 0 []
       = Done tt ([] ++ [w]).
Proof.
  apply (proj2 (proj2 immh_never_zero) ShiftByImm.USHLL DRegister i16Bit
           (VReg 4) (VReg 5) 0 []).
  - simpl; auto.
  - simpl; auto.
  - vm_compute; split; [discriminate | reflexivity].
  - reflexivity.
Defined.

(** C3: the code at the failing input.  ushll, ushll2 and their aliases uxtl
    and uxtl2 do not check the destination size: for an 8-bit destination
    they narrow the enumerant to [0 - 1] and hand it on, no assertion fails;
    sshll and sshll2, which narrow the same way, refuse that size first. *)
Theorem ushll_8bit_unchecked (rd rn : VRegister) (Shift : Z) (code : list Z) :
  ShiftByImm.ushll2 i8Bit rd rn Shift code = Unlisted code
  /\ ShiftByImm.uxtl2 i8Bit rd rn code = Unlisted code
  /\ ShiftByImm.ushll i8Bit rd rn Shift code = Unlisted code
  /\ ShiftByImm.uxtl i8Bit rd rn code = Unlisted code
  /\ ShiftByImm.sshll2 i8Bit rd rn Shift code = Abort "Invalid size" code
  /\ ShiftByImm.sshll i8Bit rd rn Shift code = Abort "Invalid size" code.
Proof. repeat split; reflexivity. Qed.

(** ** Three same: the register move and the floating-point mnemonics *)

(** C8: for every register type and every pair of registers rd, rn, the
    register-move alias mov(rd, rn) emits the very word that orr(rd, rn, rn)
    emits: the three-same word of orr with rn in both source fields. *)
Theorem mov_is_orr (T : RegKind) (rd rn : VRegister) (code : list Z) :
  ThreeSame.mov T rd rn code = ThreeSame.orr T rd rn rn code
  /\ ThreeSame.mov T rd rn code
     = Done tt
         (code ++
          [fold_left Z.lor
             [Qbit T; shl32 0 29; shl32 i32Bit 22; Encode_rm rn;
              shl32 (bin "00011") 11; Encode_rn rn; Encode_rd rd]
             (shl32 (bin "0000'1110'0010'0000'0000'01") 10)]).
Proof. split; reflexivity. Qed.

(** The standard-float-size gate of every floating-point three-same
    mnemonic. *)
Lemma float_gate (m : ThreeSame.FloatMnemonic) (T : RegKind)
    (size : SubRegSize) (rd rn rm : VRegister) (code : list Z) :
  IsStandardFloatSize size = false ->
  ThreeSame.emit m T size rd rn rm code
  = Abort "Only 16/32/64-bit subregsize supported" code.
Proof.
  intros Hgate.
  assert (H64 : (size =? i64Bit) = false).
  { unfold IsStandardFloatSize in Hgate.
    destruct (size =? i64Bit); [|reflexivity].
    now rewrite Bool.orb_true_r in Hgate. }
  destruct m, T; unfold_float;
    cbv [bind if_DRegister ret LOGMAN_THROW_A_FMT];
    rewrite ?H64, Hgate; reflexivity.
Qed.

(** C9, as stated, fails: fabd, a floating-point three-register mnemonic,
    hands the integer template the 32-bit enumerant for 32-bit elements, and
    the word differs from the one the 8-bit enumerant gives. *)
Lemma float_remap_counterexample :
  ThreeSame.fabd QRegister i32Bit (VReg 0) (VReg 1) (VReg 2) []
  = ASIMD3Same QRegister 1 i32Bit (bin "11010") (VReg 0) (VReg 1) (VReg 2) []
  /\ ThreeSame.fabd QRegister i32Bit (VReg 0) (VReg 1) (VReg 2) []
     <> ASIMD3Same QRegister 1 i8Bit (bin "11010") (VReg 0) (VReg 1) (VReg 2) [].
Proof. split; [reflexivity | vm_compute; discriminate]. Qed.

(** ** Modified immediate: the floating-point immediate load *)

(** C10: fmov of a floating-point immediate fails for the 16-bit element
    size, for every register type, register and value, although 16 bits
    passes the standard-float-size gate; a call that emits a word was given
    the 32-bit or the 64-bit element size. *)
Theorem fmov_16bit_unsupported (float : Type)
    (FP32ToImm8 FP64ToImm8 : float -> Emit Z) (T : RegKind) (rd : VRegister)
    (Value : float) (code : list Z) :
  IsStandardFloatSize i16Bit = true
  /\ ModifiedImm.fmov float FP32ToImm8 FP64ToImm8 T i16Bit rd Value code
     = Abort "Unsupported" code
  /\ (forall (size : SubRegSize) (out : list Z),
         ModifiedImm.fmov float FP32ToImm8 FP64ToImm8 T size rd Value code
         = Done tt out ->
         size = i32Bit \/ size = i64Bit).
Proof.
  split; [reflexivity|]. split; [destruct T; reflexivity|].
  intros size out.
  unfold ModifiedImm.fmov, bind, if_DRegister, LOGMAN_THROW_A_FMT,
    LOGMAN_MSG_A_FMT, IsStandardFloatSize, ret.
  destruct (size =? i16Bit) eqn:E16, (size =? i32Bit) eqn:E32,
    (size =? i64Bit) eqn:E64, T; cbn [negb orb]; intros H;
    try discriminate H.
  all: first [ left; now apply Z.eqb_eq | right; now apply Z.eqb_eq ].
Qed.

Lemma fmov_16bit_unsupported_witness :
  i32Bit = i32Bit \/ i32Bit = i64Bit.
Proof.
  apply (proj2 (proj2 (fmov_16bit_unsupported unit (fun _ => ret 112)
                         (fun _ => ret 112) QRegister (VReg 0) tt []))
           i32Bit ([] ++ [1325659648])).
  vm_compute. reflexivity.
Defined.

(** ** Vector by indexed element *)

(** Joining the three bits, or the two bits, an emitter splits an index into
    gives the index back, within the range the form can hold. *)
Lemma HLM_join (Index : Z) :
  0 <= Index < 8 ->
  Z.lor (Z.shiftl (Z.land (Z.shiftr Index 2) 1) 2)
    (Z.lor (Z.shiftl (Z.land (Z.shiftr Index 1) 1) 1)
       (Z.land (Z.shiftr Index 0) 1)) = Index.
Proof.
  intros H.
  assert (Hc : Index = 0 \/ Index = 1 \/ Index = 2 \/ Index = 3 \/ Index = 4
               \/ Index = 5 \/ Index = 6 \/ Index = 7) by lia.
  repeat (destruct Hc as [-> | Hc]; [reflexivity|]). now subst.
Qed.

Lemma HL_join (Index : Z) :
  0 <= Index < 4 ->
  Z.lor (Z.shiftl (Z.land (Z.shiftr Index 1) 1) 1)
    (Z.land (Z.shiftr Index 0) 1) = Index.
Proof.
  intros H.
  assert (Hc : Index = 0 \/ Index = 1 \/ Index = 2 \/ Index = 3) by lia.
  repeat (destruct Hc as [-> | Hc]; [reflexivity|]). now subst.
Qed.

(** The indexed-element encoder checks nothing and emits one word. *)
Lemma ASIMDVectorXIndexedElement_emits (T : RegKind) (U L M opcode H : Z)
    (size : SubRegSize) (rm rn rd : VRegister) (code : list Z) :
  exists w,
    ASIMDVectorXIndexedElement T U L M opcode H size rm rn rd code
    = Done tt (code ++ [w]).
Proof. unfold ASIMDVectorXIndexedElement, dc32. eexists. reflexivity. Qed.

(** The lowest bit of a number is 0 or 1. *)
Lemma land1_bit (x : Z) : Z.land x 1 = 0 \/ Z.land x 1 = 1.
Proof.
  change (Z.land x 1) with (Z.land x (Z.ones 1)).
  rewrite Z.land_ones by lia. change (2 ^ 1) with 2.
  pose proof (Z.mod_pos_bound x 2 ltac:(lia)). lia.
Qed.

(** On a legal lane index every indexed-element mnemonic hands the encoder
    bits that stand for the index, with M = 0 outside the H:L:M form; U, H, L
    and M are single bits, the opcode has four bits and the size two. *)
Lemma indexed_emit_spec (m : IndexedElement.Mnemonic) (T : RegKind)
    (size : SubRegSize) (rd rn rm : VRegister) (Index : Z) (code : list Z) :
  index_size_allowed m T size = true ->
  0 <= Index < lanes (index_form m size) ->
  (index_form m size = FormHLM -> rm_guarded m = true -> Idx rm < 16) ->
  exists T' U opcode size' H L M,
    IndexedElement.emit m T size rd rn rm Index code
    = ASIMDVectorXIndexedElement T' U L M opcode H size' rm rn rd code
    /\ join_index (index_form m size) H L M = Index
    /\ (index_form m size <> FormHLM -> M = 0)
    /\ (U = 0 \/ U = 1) /\ (H = 0 \/ H = 1) /\ (L = 0 \/ L = 1)
    /\ (M = 0 \/ M = 1) /\ 0 <= opcode < 16 /\ 0 <= size' < 4.
Proof.
  intros Hok HI Hrm.
  destruct m; cbv [index_size_allowed] in Hok; split_sizes Hok.
  all: cbv [index_form lanes rm_guarded i8Bit i16Bit i32Bit i64Bit
            Z.eqb Pos.eqb] in HI, Hrm.
  all: try (specialize (Hrm eq_refl eq_refl)).
  all: do 7 eexists.
  all: (split;
          [run_indexed; try (destruct T; [|discriminate HT]);
           cbv [IndexedElement.is_QRegister]; reflexivity |]).
  all: cbv [index_form join_index i8Bit i16Bit i32Bit i64Bit Z.eqb Pos.eqb].
  all: (split;
          [first [now apply HLM_join | now apply HL_join | reflexivity]|]).
  all: (split;
          [intros Hne; try reflexivity; try (now contradiction Hne)|]).
  all: repeat (split;
                 [first [apply land1_bit | left; reflexivity
                        | right; reflexivity | lia]|]).
  all: split; vm_compute; split; first [discriminate | reflexivity].
Qed.

(** The index assertion of a mnemonic rejects exactly the indices from
    [checked_bound] on. *)
Lemma index_check_rejects (m : IndexedElement.Mnemonic) (T : RegKind)
    (size : SubRegSize) (rd rn rm : VRegister) (Index : Z) (code : list Z) :
  index_size_allowed m T size = true ->
  (index_form m size = FormHLM -> rm_guarded m = true -> Idx rm < 16) ->
  checked_bound m size <= Index ->
  IndexedElement.emit m T size rd rn rm Index code
  = Abort "Index must be less than the source register size" code.
Proof.
  intros Hok Hrm HI.
  destruct m; cbv [index_size_allowed] in Hok; split_sizes Hok.
  all: cbv [index_form rm_guarded checked_bound i8Bit i16Bit i32Bit i64Bit
            Z.eqb Pos.eqb] in HI, Hrm.
  all: try (specialize (Hrm eq_refl eq_refl)).
  all: match type of HI with
       | ?b <= _ => let v := eval vm_compute in b in change b with v in HI
       end.
  all: unfold_indexed; fold_sizes; unfold IsStandardFloatSize; run_guards.
  all: try (replace (Idx rm <? 16) with true by (symmetry; apply Z.ltb_lt; lia)).
  all: replace (Index <? _) with false by (symmetry; apply Z.ltb_ge; lia).
  all: reflexivity.
Qed.

(** An emitter that comes down to a call of the encoder emits one word. *)
Lemma emits_via (x : Outcome unit) (T : RegKind) (U L M opcode H : Z)
    (size : SubRegSize) (rm rn rd : VRegister) (code : list Z) :
  x = ASIMDVectorXIndexedElement T U L M opcode H size rm rn rd code ->
  exists w, x = Done tt (code ++ [w]).
Proof. intros ->. apply ASIMDVectorXIndexedElement_emits. Qed.

(** Below [checked_bound] the index is accepted and a word is emitted. *)
Lemma index_check_accepts (m : IndexedElement.Mnemonic) (T : RegKind)
    (size : SubRegSize) (rd rn rm : VRegister) (Index : Z) (code : list Z) :
  index_size_allowed m T size = true ->
  (index_form m size = FormHLM -> rm_guarded m = true -> Idx rm < 16) ->
  0 <= Index < checked_bound m size ->
  exists w,
    IndexedElement.emit m T size rd rn rm Index code = Done tt (code ++ [w]).
Proof.
  intros Hok Hrm HI.
  destruct m; cbv [index_size_allowed] in Hok; split_sizes Hok.
  all: cbv [index_form rm_guarded checked_bound i8Bit i16Bit i32Bit i64Bit
            Z.eqb Pos.eqb] in HI, Hrm.
  all: try (specialize (Hrm eq_refl eq_refl)).
  all: match type of HI with
       | _ <= _ < ?b => let v := eval vm_compute in b in change b with v in HI
       end.
  all: eapply emits_via; run_indexed; try (destruct T; [|discriminate HT]);
       cbv [IndexedElement.is_QRegister]; reflexivity.
Qed.

(** X4: a mnemonic that guards the second source register refuses v16 to
    v31 when it spreads the index over H:L:M, and emits nothing. *)
Theorem indexed_rm_refused (m : IndexedElement.Mnemonic) (T : RegKind)
    (size : SubRegSize) (rd rn rm : VRegister) (Index : Z) (code : list Z) :
  index_size_allowed m T size = true ->
  index_form m size = FormHLM ->
  rm_guarded m = true ->
  16 <= Idx rm ->
  IndexedElement.emit m T size rd rn rm Index code
  = Abort "Rm can't be v16-v31 with half source size" code.
Proof.
  intros Hok Hform Hguard Hrm.
  destruct m; try discriminate Hguard; cbv [index_size_allowed] in Hok;
    split_sizes Hok; try discriminate Hform.
  all: unfold_indexed; fold_sizes; run_guards.
  all: replace (Idx rm <? 16) with false by (symmetry; apply Z.ltb_ge; lia).
  all: reflexivity.
Qed.

Lemma indexed_rm_refused_witness :
  IndexedElement.emit IndexedElement.MLA QRegister i16Bit
    (VReg 0) (VReg 1) (VReg 16) 0 []
  = Abort "Rm can't be v16-v31 with half source size" [].
Proof.
  apply (indexed_rm_refused IndexedElement.MLA QRegister i16Bit
           (VReg 0) (VReg 1) (VReg 16) 0 []).
  - reflexivity.
  - reflexivity.
  - reflexivity.
  - simpl; lia.
Defined.

(** An unguarded mnemonic takes any second source register with the H:L:M
    form. *)
Lemma unguarded_rm_accepted (m : IndexedElement.Mnemonic) (T : RegKind)
    (size : SubRegSize) (rd rn rm : VRegister) (Index : Z) (code : list Z) :
  rm_guarded m = false ->
  index_size_allowed m T size = true ->
  index_form m size = FormHLM ->
  0 <= Index < 8 ->
  exists w,
    IndexedElement.emit m T size rd rn rm Index code = Done tt (code ++ [w]).
Proof.
  intros Hguard Hok Hform HI.
  destruct (indexed_emit_spec m T size rd rn rm Index code Hok) as
    (T' & U & opcode & size' & H & L & M & Hemit & _).
  - now rewrite Hform.
  - intros _ Hg. congruence.
  - eapply emits_via. exact Hemit.
Qed.

(** umull on its legal inputs: 16-bit source elements take the index in
    H:L:M and a second source register below v16, 32-bit source elements take
    it in H:L with M = 0; joining the bits gives the index back. *)
Lemma umull_legal_index (size : SubRegSize) (rd rn rm : VRegister)
    (Index : Z) (code : list Z) :
  (size = i32Bit /\ 0 <= Index < 8 /\ Idx rm < 16)
  \/ (size = i64Bit /\ 0 <= Index < 4) ->
  exists H L M,
    IndexedElement.umull size rd rn rm Index code
    = ASIMDVectorXIndexedElement DRegister 1 L M (bin "1010") H
        (u32 (size - 1)) rm rn rd code
    /\ (size = i32Bit ->
        Z.lor (Z.shiftl H 2) (Z.lor (Z.shiftl L 1) M) = Index)
    /\ (size = i64Bit -> M = 0 /\ Z.lor (Z.shiftl H 1) L = Index).
Proof.
  intros [(-> & HI & Hrm) | (-> & HI)]; do 3 eexists.
  - split.
    + unfold IndexedElement.umull. fold_sizes. run_guards.
      replace (Idx rm <? 16) with true by (symmetry; apply Z.ltb_lt; lia).
      replace (Index <? 16) with true by (symmetry; apply Z.ltb_lt; lia).
      reflexivity.
    + split; [intros _; now apply HLM_join | discriminate].
  - split.
    + unfold IndexedElement.umull. fold_sizes. run_guards.
      replace (Index <? 32) with true by (symmetry; apply Z.ltb_lt; lia).
      reflexivity.
    + split; [discriminate | intros _; split; [reflexivity | now apply HL_join]].
Qed.

(** umull keeps the second source register below v16 when the index is spread
    over H:L:M. *)
Lemma umull_rm_checked (rd rn rm : VRegister) (Index : Z) (code : list Z) :
  16 <= Idx rm ->
  IndexedElement.umull i32Bit rd rn rm Index code
  = Abort "Rm can't be v16-v31 with half source size" code.
Proof.
  intros H. unfold IndexedElement.umull. run_guards.
  replace (Idx rm <? 16) with false by (symmetry; apply Z.ltb_ge; lia).
  reflexivity.
Qed.

(** X5: dup on the 128-bit register type checks the lane index against the
    number of lanes of the element size, [128 / size_in_bits], and refuses an
    index from there on before it calls the encoder. *)
Theorem dup_index_checked
    (ASIMDScalarCopy : Z -> Z -> Z -> Z -> VRegister -> VRegister -> Emit unit)
    (size : SubRegSize) (rd rn : VRegister) (Index : Z) (code : list Z) :
  In size ElementSizes ->
  128 / SizeInBits size <= Index ->
  Copy.dup ASIMDScalarCopy QRegister size rd rn Index code
  = Abort "Index too large. Index={}, Max Index: {}" code.
Proof.
  intros Hsize HI. unfold ElementSizes in Hsize; simpl in Hsize.
  repeat (destruct Hsize as [<- | Hsize]; [|]); try contradiction.
  all: unfold Copy.dup; cbv [bind if_DRegister ret LOGMAN_THROW_A_FMT].
  all: match goal with
       | |- context [_ <? ?b] =>
           let v := eval vm_compute in b in change b with v
       end.
  all: match type of HI with
       | ?b <= _ => let v := eval vm_compute in b in change b with v in HI
       end.
  all: match goal with
       | |- context [?i <? ?b] =>
           replace (i <? b) with false by (symmetry; apply Z.ltb_ge; lia)
       end.
  all: reflexivity.
Qed.

Lemma dup_index_checked_witness :
  Copy.dup (fun _ _ _ _ _ _ => ret tt) QRegister i32Bit (VReg 0) (VReg 1) 4 []
  = Abort "Index too large. Index={}, Max Index: {}" [].
Proof.
  apply (dup_index_checked (fun _ _ _ _ _ _ => ret tt) i32Bit
           (VReg 0) (VReg 1) 4 []).
  - simpl; auto.
  - vm_compute; discriminate.
Defined.

(** C2: the code at the failing input.  Given the 64-bit destination size
    umull reads 32-bit source elements, whose lanes are 0 to 3; asked for lane
    4 it passes its index check, drops the index bit that does not fit H:L and
    emits the word of lane 0. *)
Theorem umull_lane_4_accepted (rd rn rm : VRegister) (code : list Z) :
  IndexedElement.umull i64Bit rd rn rm 4 code
  = ASIMDVectorXIndexedElement DRegister 1 0 0 (bin "1010") 0 i32Bit rm rn rd code
  /\ IndexedElement.umull i64Bit rd rn rm 4 code
     = IndexedElement.umull i64Bit rd rn rm 0 code
  /\ (exists w, IndexedElement.umull i64Bit rd rn rm 4 code = Done tt (code ++ [w]))
  /\ IndexedElement.umull i64Bit rd rn rm 32 code
     = Abort "Index must be less than the source register size" code.
Proof.
  assert (H4 : IndexedElement.umull i64Bit rd rn rm 4 code
               = ASIMDVectorXIndexedElement DRegister 1 0 0 (bin "1010") 0
                   i32Bit rm rn rd code) by reflexivity.
  split; [exact H4|]. split; [reflexivity|].
  split; [rewrite H4; apply ASIMDVectorXIndexedElement_emits | reflexivity].
Qed.

(** C5: the code at the failing input.  fmla on 16-bit elements spreads the
    index over H:L:M and does not keep the second source register below v16:
    with v16 and lane 0 it emits the word of v0 and lane 1, from which lane 1
    is read back; fmlal does the same; mla, which spreads the index the same
    way, refuses v16. *)
Theorem fmla_half_rm_unchecked (rd rn : VRegister) (code : list Z) :
  IndexedElement.fmla QRegister i16Bit rd rn (VReg 16) 0 code
  = ASIMDVectorXIndexedElement QRegister 0 0 0 (bin "0001") 0 i8Bit
      (VReg 16) rn rd code
  /\ IndexedElement.fmla QRegister i16Bit rd rn (VReg 16) 0 code
     = IndexedElement.fmla QRegister i16Bit rd rn (VReg 0) 1 code
  /\ IndexedElement.fmla QRegister i16Bit (VReg 0) (VReg 1) (VReg 16) 0 []
     = Done tt [1326452768]
  /\ index_of_HLM 1326452768 = 1
  /\ IndexedElement.fmlal QRegister rd rn (VReg 16) 0 code
     = IndexedElement.fmlal QRegister rd rn (VReg 0) 1 code
  /\ IndexedElement.mla QRegister i16Bit rd rn (VReg 16) 0 code
     = Abort "Rm can't be v16-v31 with half source size" code.
Proof. repeat split; reflexivity. Qed.

(** ** Modified immediate: the 64-bit move immediate *)

Lemma byte_of_div (Imm i : Z) :
  0 <= i -> byte_of Imm i = (Imm / 2 ^ (8 * i)) mod 256.
Proof.
  intros H. unfold byte_of. change 0xFF with (Z.ones 8).
  rewrite Z.land_ones by lia. rewrite Z.shiftr_div_pow2 by lia. reflexivity.
Qed.

Lemma byte_of_range (Imm i : Z) : 0 <= i -> 0 <= byte_of Imm i < 256.
Proof.
  intros H. rewrite byte_of_div by exact H. apply Z.mod_pos_bound. lia.
Qed.

(** A 64-bit value is the sum of its eight bytes, each at its place. *)
Lemma bytes_decompose (Imm : Z) :
  0 <= Imm < 2 ^ 64 ->
  Imm = byte_of Imm 0 + 2 ^ 8 * byte_of Imm 1 + 2 ^ 16 * byte_of Imm 2
        + 2 ^ 24 * byte_of Imm 3 + 2 ^ 32 * byte_of Imm 4
        + 2 ^ 40 * byte_of Imm 5 + 2 ^ 48 * byte_of Imm 6
        + 2 ^ 56 * byte_of Imm 7.
Proof.
  intros H. rewrite !byte_of_div by lia.
  change (2 ^ (8 * 0)) with 1. change (2 ^ (8 * 1)) with 256.
  change (2 ^ (8 * 2)) with 65536. change (2 ^ (8 * 3)) with 16777216.
  change (2 ^ (8 * 4)) with 4294967296.
  change (2 ^ (8 * 5)) with 1099511627776.
  change (2 ^ (8 * 6)) with 281474976710656.
  change (2 ^ (8 * 7)) with 72057594037927936.
  change (2 ^ 8) with 256. change (2 ^ 16) with 65536.
  change (2 ^ 24) with 16777216. change (2 ^ 32) with 4294967296.
  change (2 ^ 40) with 1099511627776. change (2 ^ 48) with 281474976710656.
  change (2 ^ 56) with 72057594037927936.
  change (2 ^ 64) with 18446744073709551616 in H.
  Z.div_mod_to_equations. lia.
Qed.

(** The section the loop reads at step [i] is byte [i]. *)
Lemma loop_section (Imm i : Z) :
  0 <= i -> u8 (Z.land (Z.shiftr Imm (i * 8)) 0xFF) = byte_of Imm i.
Proof.
  intros H. unfold byte_of, u8. rewrite (Z.mul_comm i 8).
  apply Z.mod_small. apply (byte_of_range Imm i H).
Qed.

(** The loop stops at the first byte that is neither 0x00 nor 0xFF, and has
    emitted nothing. *)
Lemma movi_loop_rejects (n : nat) :
  forall (i Imm NewImm : Z) (code : list Z),
    0 <= i ->
    (exists j, i <= j < i + Z.of_nat n /\ whole_byte (byte_of Imm j) = false) ->
    ModifiedImm.movi_loop n i Imm NewImm code
    = Abort "Invalid 64-bit constant encoding" code.
Proof.
  induction n as [|n IH]; intros i Imm NewImm code Hi (j & Hj & Hbad).
  - simpl in Hj. lia.
  - cbn [ModifiedImm.movi_loop]. cbv zeta. rewrite loop_section by exact Hi.
    unfold bind, LOGMAN_THROW_A_FMT. fold (whole_byte (byte_of Imm i)).
    destruct (whole_byte (byte_of Imm i)) eqn:Hgood; [|reflexivity].
    apply IH; [lia|]. exists j. split; [|exact Hbad].
    assert (j <> i) by (intros ->; congruence). lia.
Qed.

(** The modified-immediate encoder checks nothing and emits one word. *)
Lemma ASIMDModifiedImm_emits (T : RegKind) (op cmode o2 imm : Z)
    (rd : VRegister) (code : list Z) :
  exists w, ASIMDModifiedImm T op cmode o2 imm rd code = Done tt (code ++ [w]).
Proof. unfold ASIMDModifiedImm, dc32. eexists. reflexivity. Qed.

(** An input of whole bytes: what the loop computes and the encoder is
    handed. *)
Lemma movi_whole_bytes :
  forall (T : RegKind) (rd : VRegister) (Imm : Z) (code : list Z),
    0 <= Imm < 2 ^ 64 ->
    (forall i, 0 <= i < 8 -> byte_of Imm i = 0 \/ byte_of Imm i = 0xFF) ->
    0 <= compress_bytes Imm < 2 ^ 8
    /\ (forall i, 0 <= i < 8 ->
                  Z.testbit (compress_bytes Imm) i = (byte_of Imm i =? 0xFF))
    /\ ModifiedImm.movi T i64Bit rd Imm 0 code
       = ASIMDModifiedImm T 1 (bin "1110") 0 (compress_bytes Imm) rd code
    /\ (exists w,
           ModifiedImm.movi T i64Bit rd Imm 0 code = Done tt (code ++ [w]))
    /\ expand_bits (compress_bytes Imm) = Imm.
Proof.
  intros T rd Imm code HImm Hbytes.
  pose proof (bytes_decompose Imm HImm) as Hsum.
  pose proof (Hbytes 0 ltac:(lia)) as H0. pose proof (Hbytes 1 ltac:(lia)) as H1.
  pose proof (Hbytes 2 ltac:(lia)) as H2. pose proof (Hbytes 3 ltac:(lia)) as H3.
  pose proof (Hbytes 4 ltac:(lia)) as H4. pose proof (Hbytes 5 ltac:(lia)) as H5.
  pose proof (Hbytes 6 ltac:(lia)) as H6. pose proof (Hbytes 7 ltac:(lia)) as H7.
  clear Hbytes HImm.
  remember (byte_of Imm 0) as b0 eqn:E0. remember (byte_of Imm 1) as b1 eqn:E1.
  remember (byte_of Imm 2) as b2 eqn:E2. remember (byte_of Imm 3) as b3 eqn:E3.
  remember (byte_of Imm 4) as b4 eqn:E4. remember (byte_of Imm 5) as b5 eqn:E5.
  remember (byte_of Imm 6) as b6 eqn:E6. remember (byte_of Imm 7) as b7 eqn:E7.
  clear E0 E1 E2 E3 E4 E5 E6 E7.
  destruct H0 as [-> | ->], H1 as [-> | ->], H2 as [-> | ->], H3 as [-> | ->],
    H4 as [-> | ->], H5 as [-> | ->], H6 as [-> | ->], H7 as [-> | ->].
  all: vm_compute in Hsum; subst Imm.
  all: split; [vm_compute; split; [discriminate | reflexivity]|].
  all: split;
    [intros i Hi;
     assert (Hc : i = 0 \/ i = 1 \/ i = 2 \/ i = 3 \/ i = 4 \/ i = 5
                  \/ i = 6 \/ i = 7) by lia;
     repeat (destruct Hc as [-> | Hc]; [reflexivity|]); now subst|].
  all: match goal with
       | |- ?E /\ _ => assert (Hm : E) by reflexivity; split; [exact Hm|]
       end.
  all: split; [|reflexivity].
  all: rewrite Hm; apply ASIMDModifiedImm_emits.
Qed.

(** C6: the 64-bit move immediate.  An input whose eight bytes are each 0x00
    or 0xFF is handed to the encoder as the 8-bit immediate that has bit i set
    exactly when byte i is 0xFF, one word is emitted, and expanding that
    immediate bit by bit into bytes gives the input back; an input with any
    other byte is rejected and nothing is emitted. *)
Theorem movi_64bit_round_trip :
  (forall (T : RegKind) (rd : VRegister) (Imm : Z) (code : list Z),
      0 <= Imm < 2 ^ 64 ->
      (forall i, 0 <= i < 8 -> byte_of Imm i = 0 \/ byte_of Imm i = 0xFF) ->
      0 <= compress_bytes Imm < 2 ^ 8
      /\ (forall i, 0 <= i < 8 ->
                    Z.testbit (compress_bytes Imm) i = (byte_of Imm i =? 0xFF))
      /\ ModifiedImm.movi T i64Bit rd Imm 0 code
         = ASIMDModifiedImm T 1 (bin "1110") 0 (compress_bytes Imm) rd code
      /\ (exists w,
             ModifiedImm.movi T i64Bit rd Imm 0 code = Done tt (code ++ [w]))
      /\ expand_bits (compress_bytes Imm) = Imm)
  /\ (forall (T : RegKind) (rd : VRegister) (Imm : Z) (code : list Z),
         0 <= Imm < 2 ^ 64 ->
         (exists i, 0 <= i < 8 /\ byte_of Imm i <> 0 /\ byte_of Imm i <> 0xFF) ->
         ModifiedImm.movi T i64Bit rd Imm 0 code
         = Abort "Invalid 64-bit constant encoding" code).
Proof.
  split; [exact movi_whole_bytes|].
  intros T rd Imm code HImm (i & Hi & Hn0 & HnFF).
  unfold ModifiedImm.movi. run_guards.
  rewrite (movi_loop_rejects 8 0 Imm 0 code); [reflexivity | lia |].
  exists i. split; [simpl; lia|].
  unfold whole_byte. apply Bool.orb_false_iff.
  split; now apply Z.eqb_neq.
Qed.

Lemma movi_64bit_round_trip_witness :
  0 <= compress_bytes 0xFF00FF0000FFFF00 < 2 ^ 8
  /\ (forall i, 0 <= i < 8 ->
                Z.testbit (compress_bytes 0xFF00FF0000FFFF00) i
                = (byte_of 0xFF00FF0000FFFF00 i =? 0xFF))
  /\ ModifiedImm.movi QRegister i64Bit (VReg 3) 0xFF00FF0000FFFF00 0 []
     = ASIMDModifiedImm QRegister 1 (bin "1110") 0
         (compress_bytes 0xFF00FF0000FFFF00) (VReg 3) []
  /\ (exists w,
         ModifiedImm.movi QRegister i64Bit (VReg 3) 0xFF00FF0000FFFF00 0 []
         = Done tt ([] ++ [w]))
  /\ expand_bits (compress_bytes 0xFF00FF0000FFFF00) = 0xFF00FF0000FFFF00.
Proof.
  apply (proj1 movi_64bit_round_trip QRegister (VReg 3) 0xFF00FF0000FFFF00 []).
  - vm_compute. split; [discriminate | reflexivity].
  - intros i Hi.
    assert (Hc : i = 0 \/ i = 1 \/ i = 2 \/ i = 3 \/ i = 4 \/ i = 5
                 \/ i = 6 \/ i = 7) by lia.
    repeat (destruct Hc as [-> | Hc]; [vm_compute; auto|]).
    subst i. vm_compute. auto.
Defined.

(** ** Bit fields of the emitted words *)

(** A field by division: the quotient by [2^pos], modulo [2^width]. *)
Lemma field_div_mod (w p n : Z) :
  0 <= p -> 0 <= n -> field w p n = (w / 2 ^ p) mod 2 ^ n.
Proof.
  intros Hp Hn. unfold field.
  rewrite Z.land_ones by exact Hn. now rewrite Z.shiftr_div_pow2 by exact Hp.
Qed.

(** The field of a union is the union of the fields. *)
Lemma field_lor (a b p n : Z) :
  field (Z.lor a b) p n = Z.lor (field a p n) (field b p n).
Proof. unfold field. now rewrite Z.shiftr_lor, Z.land_lor_distr_l. Qed.

(** A shift that keeps the value within 32 bits does not wrap. *)
Lemma shl32_nowrap (v q k : Z) :
  0 <= v < 2 ^ k -> 0 <= q -> 0 <= k -> q + k <= 32 ->
  shl32 v q = v * 2 ^ q.
Proof.
  intros Hv Hq Hk Hqk. unfold shl32, u32.
  rewrite Z.shiftl_mul_pow2 by exact Hq. apply Z.mod_small.
  assert (0 < 2 ^ q) by (apply Z.pow_pos_nonneg; lia).
  assert (2 ^ (q + k) <= 2 ^ 32) by (apply Z.pow_le_mono_r; lia).
  rewrite Z.pow_add_r in * by lia. nia.
Qed.

(** A value read back from the field it was shifted into. *)
Lemma field_hit (v p n : Z) :
  0 <= v < 2 ^ n -> 0 <= p -> 0 <= n -> p + n <= 32 ->
  field (shl32 v p) p n = v.
Proof.
  intros Hv Hp Hn Hpn. rewrite (shl32_nowrap v p n) by assumption.
  rewrite field_div_mod by assumption.
  rewrite Z.div_mul by (apply Z.pow_nonzero; lia).
  now apply Z.mod_small.
Qed.

(** A field above every bit of the value is zero. *)
Lemma field_below (v q k p n : Z) :
  0 <= v < 2 ^ k -> 0 <= q -> 0 <= k -> q + k <= p -> 0 <= n ->
  field (shl32 v q) p n = 0.
Proof.
  intros Hv Hq Hk Hqk Hn. rewrite field_div_mod by lia.
  assert (Hx : 0 <= shl32 v q < 2 ^ p).
  { unfold shl32, u32. rewrite Z.shiftl_mul_pow2 by exact Hq.
    assert (0 < 2 ^ q) by (apply Z.pow_pos_nonneg; lia).
    assert (2 ^ (q + k) <= 2 ^ p) by (apply Z.pow_le_mono_r; lia).
    rewrite Z.pow_add_r in * by lia.
    assert (0 <= v * 2 ^ q) by nia.
    pose proof (Z.mod_pos_bound (v * 2 ^ q) (2 ^ 32) ltac:(lia)).
    pose proof (Z.mod_le (v * 2 ^ q) (2 ^ 32) ltac:(lia) ltac:(lia)).
    nia. }
  rewrite Z.div_small by exact Hx. apply Z.mod_0_l.
  apply Z.pow_nonzero; lia.
Qed.

(** A field below the place a value was shifted to is zero. *)
Lemma field_above (v q p n : Z) :
  0 <= p -> 0 <= n -> p + n <= q ->
  field (shl32 v q) p n = 0.
Proof.
  intros Hp Hn Hq. apply Z.bits_inj'. intros k Hk.
  rewrite Z.bits_0. unfold field, shl32, u32.
  rewrite Z.land_spec, Z.shiftr_spec by exact Hk.
  destruct (Z.lt_ge_cases k n) as [Hlt | Hge].
  - destruct (Z.lt_ge_cases (k + p) 32) as [H32 | H32].
    + rewrite Z.mod_pow2_bits_low by exact H32.
      rewrite Z.shiftl_spec_low by lia. reflexivity.
    + rewrite Z.mod_pow2_bits_high by lia. reflexivity.
  - rewrite Z.ones_spec_high by lia. apply Bool.andb_false_r.
Qed.

(** A value read from a field that holds it whole, at an offset. *)
Lemma field_within (v q k p n : Z) :
  0 <= v < 2 ^ k -> 0 <= k -> 0 <= p -> p <= q -> q + k <= p + n ->
  p + n <= 32 ->
  field (shl32 v q) p n = Z.shiftl v (q - p).
Proof.
  intros Hv Hk Hp Hpq Hkn H32. rewrite (shl32_nowrap v q k) by lia.
  rewrite field_div_mod by lia. rewrite Z.shiftl_mul_pow2 by lia.
  replace q with ((q - p) + p) at 1 by lia.
  rewrite Z.pow_add_r by lia. rewrite Z.mul_assoc.
  rewrite Z.div_mul by (apply Z.pow_nonzero; lia).
  apply Z.mod_small.
  assert (0 < 2 ^ (q - p)) by (apply Z.pow_pos_nonneg; lia).
  assert (2 ^ (k + (q - p)) <= 2 ^ n) by (apply Z.pow_le_mono_r; lia).
  rewrite Z.pow_add_r in * by lia. nia.
Qed.

(** A property checked on every number below [n] holds of each of them. *)
Lemma forall_below (P : Z -> bool) (n : nat) :
  forallb P (map Z.of_nat (seq 0 n)) = true ->
  forall i, 0 <= i < Z.of_nat n -> P i = true.
Proof.
  intros Hall i Hi. rewrite forallb_forall in Hall. apply Hall.
  apply in_map_iff. exists (Z.to_nat i). split; [lia|].
  apply in_seq. lia.
Qed.

(** The fields of a shift-by-immediate word. *)
Lemma ASIMDShiftByImm_fields (T : RegKind) (U immh immb opcode : Z)
    (rn rd : VRegister) (code : list Z) :
  U = 0 \/ U = 1 ->
  0 < immh < 16 -> 0 <= immb < 8 -> 0 <= opcode < 32 ->
  0 <= Idx rn < 32 -> 0 <= Idx rd < 32 ->
  exists w,
    ASIMDShiftByImm T U immh immb opcode rn rd code = Done tt (code ++ [w])
    /\ field w 19 4 = immh /\ field w 16 3 = immb.
Proof.
  intros HU Himmh Himmb Hop Hrn Hrd.
  unfold ASIMDShiftByImm, bind, LOGMAN_THROW_A_FMT, dc32.
  replace (immh =? 0) with false by (symmetry; apply Z.eqb_neq; lia).
  cbn [negb]. cbv zeta. eexists. split; [reflexivity|].
  unfold Encode_rn, Encode_rd.
  change (u32 (Idx rd)) with (shl32 (Idx rd) 0).
  rewrite !field_lor.
  destruct T, HU as [-> | ->]; cbv [Qbit]; closed_fields.
  all: rewrite (field_hit immh 19 4), (field_below immb 16 3 19 4),
         (field_below opcode 11 5 19 4), (field_below (Idx rn) 5 5 19 4),
         (field_below (Idx rd) 0 5 19 4), (field_above immh 19 16 3),
         (field_hit immb 16 3), (field_below opcode 11 5 16 3),
         (field_below (Idx rn) 5 5 16 3), (field_below (Idx rd) 0 5 16 3)
       by bounds.
  all: rewrite ?Z.lor_0_r, ?Z.lor_0_l; split; reflexivity.
Qed.

(** The fields of an indexed-element word: H and L are read back as they
    were given; the five bits of the second source register hold the register
    number with M on its top bit, so M is read back only with a register below
    v16. *)
Lemma ASIMDVectorXIndexedElement_fields (T : RegKind) (U L M opcode H : Z)
    (size : SubRegSize) (rm rn rd : VRegister) (code : list Z) :
  U = 0 \/ U = 1 -> L = 0 \/ L = 1 -> M = 0 \/ M = 1 -> H = 0 \/ H = 1 ->
  0 <= opcode < 16 -> 0 <= size < 4 ->
  0 <= Idx rm < 32 -> 0 <= Idx rn < 32 -> 0 <= Idx rd < 32 ->
  exists w,
    ASIMDVectorXIndexedElement T U L M opcode H size rm rn rd code
    = Done tt (code ++ [w])
    /\ field w 11 1 = H /\ field w 21 1 = L
    /\ field w 16 5 = Z.lor (Z.shiftl M 4) (Idx rm)
    /\ (Idx rm < 16 -> field w 20 1 = M /\ field w 16 4 = Idx rm).
Proof.
  intros HU HL HM HH Hop Hsize Hrm Hrn Hrd.
  unfold ASIMDVectorXIndexedElement, dc32. cbv zeta.
  eexists. split; [reflexivity|].
  change (u32 (Idx rd)) with (shl32 (Idx rd) 0).
  rewrite !field_lor.
  destruct T, HU as [-> | ->], HL as [-> | ->], HM as [-> | ->],
    HH as [-> | ->]; cbv [Qbit]; closed_fields.
  all: rewrite (field_above size 22 11 1), (field_above (Idx rm) 16 11 1),
         (field_above opcode 12 11 1), (field_below (Idx rn) 5 5 11 1),
         (field_below (Idx rd) 0 5 11 1),
         (field_above size 22 21 1), (field_below (Idx rm) 16 5 21 1),
         (field_below opcode 12 4 21 1), (field_below (Idx rn) 5 5 21 1),
         (field_below (Idx rd) 0 5 21 1),
         (field_above size 22 16 5), (field_hit (Idx rm) 16 5),
         (field_below opcode 12 4 16 5), (field_below (Idx rn) 5 5 16 5),
         (field_below (Idx rd) 0 5 16 5),
         (field_above size 22 20 1),
         (field_below opcode 12 4 20 1), (field_below (Idx rn) 5 5 20 1),
         (field_below (Idx rd) 0 5 20 1),
         (field_above size 22 16 4),
         (field_below opcode 12 4 16 4), (field_below (Idx rn) 5 5 16 4),
         (field_below (Idx rd) 0 5 16 4)
       by bounds.
  all: rewrite ?Z.lor_0_r, ?Z.lor_0_l.
  all: repeat (split; [reflexivity|]).
  all: intros Hlow;
       rewrite (field_below (Idx rm) 16 4 20 1), (field_hit (Idx rm) 16 4)
         by bounds.
  all: rewrite ?Z.lor_0_r, ?Z.lor_0_l; split; reflexivity.
Qed.

(** A byte is the join of its eight bits. *)
Lemma bits8_join (imm : Z) :
  0 <= imm < 256 ->
  Z.lor
    (Z.shiftl
       (Z.lor (Z.lor (Z.shiftl (Z.land (Z.shiftr imm 7) 1) 2)
                 (Z.shiftl (Z.land (Z.shiftr imm 6) 1) 1))
          (Z.shiftl (Z.land (Z.shiftr imm 5) 1) 0)) 5)
    (Z.lor (Z.lor (Z.lor (Z.lor (Z.shiftl (Z.land (Z.shiftr imm 4) 1) 4)
                            (Z.shiftl (Z.land (Z.shiftr imm 3) 1) 3))
                     (Z.shiftl (Z.land (Z.shiftr imm 2) 1) 2))
              (Z.shiftl (Z.land (Z.shiftr imm 1) 1) 1))
       (Z.shiftl (Z.land (Z.shiftr imm 0) 1) 0)) = imm.
Proof.
  intros H. apply Z.eqb_eq.
  apply (forall_below
           (fun i =>
              Z.lor
                (Z.shiftl
                   (Z.lor (Z.lor (Z.shiftl (Z.land (Z.shiftr i 7) 1) 2)
                             (Z.shiftl (Z.land (Z.shiftr i 6) 1) 1))
                      (Z.shiftl (Z.land (Z.shiftr i 5) 1) 0)) 5)
                (Z.lor (Z.lor (Z.lor (Z.lor (Z.shiftl (Z.land (Z.shiftr i 4) 1) 4)
                                        (Z.shiftl (Z.land (Z.shiftr i 3) 1) 3))
                                 (Z.shiftl (Z.land (Z.shiftr i 2) 1) 2))
                          (Z.shiftl (Z.land (Z.shiftr i 1) 1) 1))
                   (Z.shiftl (Z.land (Z.shiftr i 0) 1) 0)) =? i) 256);
    [vm_compute; reflexivity | simpl; lia].
Qed.

(** The immediate of a modified-immediate word is read back as it was
    given. *)
Lemma ASIMDModifiedImm_fields (T : RegKind) (op cmode o2 imm : Z)
    (rd : VRegister) (code : list Z) :
  op = 0 \/ op = 1 -> 0 <= cmode < 16 -> o2 = 0 \/ o2 = 1 ->
  0 <= imm < 256 -> 0 <= Idx rd < 32 ->
  exists w,
    ASIMDModifiedImm T op cmode o2 imm rd code = Done tt (code ++ [w])
    /\ imm8_of_word w = imm.
Proof.
  intros Hop Hcmode Ho2 Himm Hrd.
  unfold ASIMDModifiedImm, dc32. cbv zeta.
  eexists. split; [reflexivity|].
  etransitivity; [|exact (bits8_join imm Himm)].
  pose proof (land1_bit (Z.shiftr imm 7)) as H7.
  pose proof (land1_bit (Z.shiftr imm 6)) as H6.
  pose proof (land1_bit (Z.shiftr imm 5)) as H5.
  pose proof (land1_bit (Z.shiftr imm 4)) as H4.
  pose proof (land1_bit (Z.shiftr imm 3)) as H3.
  pose proof (land1_bit (Z.shiftr imm 2)) as H2.
  pose proof (land1_bit (Z.shiftr imm 1)) as H1.
  pose proof (land1_bit (Z.shiftr imm 0)) as H0.
  generalize dependent (Z.land (Z.shiftr imm 7) 1).
  generalize dependent (Z.land (Z.shiftr imm 6) 1).
  generalize dependent (Z.land (Z.shiftr imm 5) 1).
  generalize dependent (Z.land (Z.shiftr imm 4) 1).
  generalize dependent (Z.land (Z.shiftr imm 3) 1).
  generalize dependent (Z.land (Z.shiftr imm 2) 1).
  generalize dependent (Z.land (Z.shiftr imm 1) 1).
  generalize dependent (Z.land (Z.shiftr imm 0) 1).
  intros b0 H0 b1 H1 b2 H2 b3 H3 b4 H4 b5 H5 b6 H6 b7 H7.
  unfold imm8_of_word, Encode_rd.
  change (u32 (Idx rd)) with (shl32 (Idx rd) 0).
  rewrite !field_lor.
  destruct T, Hop as [-> | ->], Ho2 as [-> | ->]; cbv [Qbit]; closed_fields.
  all: rewrite (field_within b7 18 1 16 3), (field_within b6 17 1 16 3),
         (field_within b5 16 1 16 3), (field_below cmode 12 4 16 3),
         (field_below b4 9 1 16 3), (field_below b3 8 1 16 3),
         (field_below b2 7 1 16 3), (field_below b1 6 1 16 3),
         (field_below b0 5 1 16 3), (field_below (Idx rd) 0 5 16 3),
         (field_above b7 18 5 5), (field_above b6 17 5 5),
         (field_above b5 16 5 5), (field_above cmode 12 5 5),
         (field_within b4 9 1 5 5), (field_within b3 8 1 5 5),
         (field_within b2 7 1 5 5), (field_within b1 6 1 5 5),
         (field_within b0 5 1 5 5), (field_below (Idx rd) 0 5 5 5)
       by bounds.
  all: rewrite ?Z.lor_0_r, ?Z.lor_0_l; reflexivity.
Qed.

(** ** Reading the emitted words back *)





(** The halves of a shift field below 128 fit immh and immb. *)
Lemma shift_halves_fit (fld : Z) :
  8 <= fld < 128 -> 0 < Z.shiftr fld 3 < 16 /\ 0 <= Z.land fld 7 < 8.
Proof.
  intros H. split.
  - rewrite Z.shiftr_div_pow2 by lia. change (2 ^ 3) with 8.
    assert (1 <= fld / 8) by (apply Z.div_le_lower_bound; lia).
    assert (fld / 8 < 16) by (apply Z.div_lt_upper_bound; lia). lia.
  - change 7 with (Z.ones 3). rewrite Z.land_ones by lia.
    change (2 ^ 3) with 8. apply Z.mod_pos_bound. lia.
Qed.

(** C1: every right-shift-like shift-by-immediate mnemonic, given an element
    size it accepts and a legal shift amount, encodes the field
    [2 * size_in_bits - shift]: it calls the encoder with the high part
    [field >> 3] as immh and the low part [field & 0b111] as immb, beside a
    one-bit U and a five-bit opcode, which do not reach the bits of immh and
    immb, and the encoder emits one word; with registers v0 to v31 and a field
    below 128 the bits 22 to 19 and 18 to 16 of that word are the two parts and
    together read the field.  In particular sshr with 32-bit elements and
    shift amount 10 hands over immh = 6 and immb = 6. *)
Theorem right_shift_field_split :
  (forall (m : ShiftByImm.Mnemonic) (T : RegKind) (size : SubRegSize)
          (rd rn : VRegister) (Shift : Z) (code : list Z),
      direction m = RightShift ->
      In size SubRegSizes ->
      0 <= Shift < SizeInBits size ->
      size_allowed m T size = true ->
      exists T' U opcode w,
        (U = 0 \/ U = 1) /\ 0 <= opcode < 32
        /\ ShiftByImm.emit m T size rd rn Shift code
           = ASIMDShiftByImm T' U
               (Z.shiftr (2 * SizeInBits size - Shift) 3)
               (Z.land (2 * SizeInBits size - Shift) 7) opcode rn rd code
        /\ ShiftByImm.emit m T size rd rn Shift code = Done tt (code ++ [w])
        /\ (0 <= Idx rn < 32 -> 0 <= Idx rd < 32 ->
            2 * SizeInBits size - Shift < 128 ->
            field w 19 4 = Z.shiftr (2 * SizeInBits size - Shift) 3
            /\ field w 16 3 = Z.land (2 * SizeInBits size - Shift) 7
            /\ Z.lor (Z.shiftl (field w 19 4) 3) (field w 16 3)
               = 2 * SizeInBits size - Shift))
  /\ (forall (rd rn : VRegister) (code : list Z),
         ShiftByImm.sshr QRegister i32Bit rd rn 10 code
         = ASIMDShiftByImm QRegister 0 6 6 0 rn rd code).
Proof.
  split.
  - intros m T size rd rn Shift code Hdir Hsize HShift Hok.
    assert (Hsame : shifted_size m size = size)
      by (destruct m; try reflexivity; discriminate Hdir).
    assert (Hsrc : In (shifted_size m size) SubRegSizes) by (now rewrite Hsame).
    assert (HShift' : 0 <= Shift < SizeInBits (shifted_size m size))
      by (now rewrite Hsame).
    destruct (shift_emit_spec m T size rd rn Shift code Hsize Hsrc HShift' Hok)
      as (T' & U & opcode & Hemit & HU & Hop).
    rewrite Hsame, Hdir in Hemit. cbv [shift_field] in Hemit.
    pose proof (shift_field_lower RightShift size Shift Hsize HShift) as Hlow.
    cbv [shift_field] in Hlow.
    destruct (ASIMDShiftByImm_emits T' U _
                (Z.land (2 * SizeInBits size - Shift) 7)
                opcode rn rd code (shiftr3_nonzero _ Hlow)) as [w Hw].
    exists T', U, opcode, w.
    split; [exact HU|]. split; [exact Hop|]. split; [exact Hemit|].
    split; [now rewrite Hemit|].
    intros Hrn Hrd Hfit.
    destruct (shift_halves_fit (2 * SizeInBits size - Shift) ltac:(lia))
      as (Himmh & Himmb).
    destruct (ASIMDShiftByImm_fields T' U _ _ opcode rn rd code
                HU Himmh Himmb Hop Hrn Hrd) as (w' & Hw' & Hh & Hb).
    rewrite Hw in Hw'. injection Hw' as Hw'.
    apply app_inv_head in Hw'. injection Hw' as <-.
    split; [exact Hh|]. split; [exact Hb|].
    rewrite Hh, Hb. apply split_join. lia.
  - intros rd rn code. reflexivity.
Qed.

Lemma right_shift_field_split_witness :
  exists T' U opcode w,
    (U = 0 \/ U = 1) /\ 0 <= opcode < 32
    /\ ShiftByImm.emit ShiftByImm.SSHR QRegister i32Bit (VReg 0) (VReg 1) 10 []
       = ASIMDShiftByImm T' U
           (Z.shiftr (2 * SizeInBits i32Bit - 10) 3)
           (Z.land (2 * SizeInBits i32Bit - 10) 7) opcode (VReg 1) (VReg 0) []
    /\ ShiftByImm.emit ShiftByImm.SSHR QRegister i32Bit (VReg 0) (VReg 1) 10 []
       = Done tt ([] ++ [w])
    /\ (0 <= Idx (VReg 1) < 32 -> 0 <= Idx (VReg 0) < 32 ->
        2 * SizeInBits i32Bit - 10 < 128 ->
        field w 19 4 = Z.shiftr (2 * SizeInBits i32Bit - 10) 3
        /\ field w 16 3 = Z.land (2 * SizeInBits i32Bit - 10) 7
        /\ Z.lor (Z.shiftl (field w 19 4) 3) (field w 16 3)
           = 2 * SizeInBits i32Bit - 10).
Proof.
  apply (proj1 right_shift_field_split ShiftByImm.SSHR QRegister i32Bit
           (VReg 0) (VReg 1) 10 []).
  - reflexivity.
  - simpl; auto.
  - vm_compute; split; [discriminate | reflexivity].
  - reflexivity.
Defined.




(** X1: the shift read back from the emitted word: for every shift-by-immediate
    mnemonic, on an element size it accepts, a shift amount in
    [0, size_in_bits) whose field fits seven bits and registers v0 to v31,
    the bits 22 to 19 and 18 to 16 of the emitted word decode to the shift
    amount. *)
Theorem shift_word_round_trip (m : ShiftByImm.Mnemonic) (T : RegKind)
    (size : SubRegSize) (rd rn : VRegister) (Shift : Z) (code : list Z) :
  In size SubRegSizes ->
  In (shifted_size m size) SubRegSizes ->
  0 <= Shift < SizeInBits (shifted_size m size) ->
  size_allowed m T size = true ->
  shift_field (direction m) (SizeInBits (shifted_size m size)) Shift < 128 ->
  0 <= Idx rn < 32 -> 0 <= Idx rd < 32 ->
  exists w,
    ShiftByImm.emit m T size rd rn Shift code = Done tt (code ++ [w])
    /\ decode_shift (direction m) (SizeInBits (shifted_size m size))
         (field w 19 4) (field w 16 3) = Shift.
Proof.
  intros Hsize Hsrc HShift Hok Hfit Hrn Hrd.
  destruct (shift_emit_spec m T size rd rn Shift code Hsize Hsrc HShift Hok)
    as (T' & U & opcode & Hemit & HU & Hop).
  pose proof (shift_field_lower (direction m) _ Shift Hsrc HShift) as Hlow.
  set (fld := shift_field (direction m) (SizeInBits (shifted_size m size)) Shift)
    in *.
  assert (Himmh : 0 < Z.shiftr fld 3 < 16).
  { rewrite Z.shiftr_div_pow2 by lia. change (2 ^ 3) with 8.
    assert (1 <= fld / 8) by (apply Z.div_le_lower_bound; lia).
    assert (fld / 8 < 16) by (apply Z.div_lt_upper_bound; lia). lia. }
  assert (Himmb : 0 <= Z.land fld 7 < 8).
  { change 7 with (Z.ones 3). rewrite Z.land_ones by lia.
    change (2 ^ 3) with 8. apply Z.mod_pos_bound. lia. }
  destruct (ASIMDShiftByImm_fields T' U _ _ opcode rn rd code
              HU Himmh Himmb Hop Hrn Hrd) as (w & Hw & Hh & Hb).
  exists w. split; [now rewrite Hemit|].
  rewrite Hh, Hb. apply decode_shift_field. lia.
Qed.

Lemma shift_word_round_trip_witness :
  exists w,
    ShiftByImm.emit ShiftByImm.SSHR QRegister i32Bit (VReg 0) (VReg 1) 10 []
    = Done tt ([] ++ [w])
    /\ decode_shift RightShift (SizeInBits i32Bit) (field w 19 4) (field w 16 3)
       = 10.
Proof.
  apply (shift_word_round_trip ShiftByImm.SSHR QRegister i32Bit
           (VReg 0) (VReg 1) 10 []).
  - simpl; auto.
  - simpl; auto.
  - vm_compute; split; [discriminate | reflexivity].
  - reflexivity.
  - vm_compute; reflexivity.
  - simpl; lia.
  - simpl; lia.
Defined.

(** The corner the seven bits leave out: a right shift of 64-bit elements by
    0 hands over immh = 16, which the word does not hold; its bits 22 to 19
    read 0. *)
Lemma right_shift_64_by_0_word :
  ShiftByImm.sshr QRegister i64Bit (VReg 0) (VReg 1) 0 []
  = ASIMDShiftByImm QRegister 0 16 0 0 (VReg 1) (VReg 0) []
  /\ ShiftByImm.sshr QRegister i64Bit (VReg 0) (VReg 1) 0 []
     = Done tt [1333789728]
  /\ field 1333789728 19 4 = 0.
Proof. repeat split; reflexivity. Qed.

(** X2: the lane index read back from the emitted word: for every
    indexed-element mnemonic, on an element size it accepts, a lane of that
    size, registers v0 to v31 and, where the index is spread over H:L:M, a
    second source register below v16, the bits H, L and M of the emitted word
    decode to the index and the register field reads the register. *)
Theorem indexed_word_round_trip (m : IndexedElement.Mnemonic) (T : RegKind)
    (size : SubRegSize) (rd rn rm : VRegister) (Index : Z) (code : list Z) :
  index_size_allowed m T size = true ->
  0 <= Index < lanes (index_form m size) ->
  (index_form m size = FormHLM -> Idx rm < 16) ->
  0 <= Idx rm < 32 -> 0 <= Idx rn < 32 -> 0 <= Idx rd < 32 ->
  exists w,
    IndexedElement.emit m T size rd rn rm Index code = Done tt (code ++ [w])
    /\ index_of_word (index_form m size) w = Index
    /\ (index_form m size = FormHLM -> field w 16 4 = Idx rm)
    /\ (index_form m size <> FormHLM -> field w 16 5 = Idx rm).
Proof.
  intros Hok HI Hlow Hrm Hrn Hrd.
  destruct (indexed_emit_spec m T size rd rn rm Index code Hok HI)
    as (T' & U & opcode & size' & H & L & M & Hemit & Hjoin & HM0
        & HU & HH & HL & HM & Hop & Hsz).
  { intros Hform _. now apply Hlow. }
  destruct (ASIMDVectorXIndexedElement_fields T' U L M opcode H size'
              rm rn rd code HU HL HM HH Hop Hsz Hrm Hrn Hrd)
    as (w & Hw & HwH & HwL & Hw5 & Hw4).
  exists w. split; [now rewrite Hemit|].
  destruct (index_form m size) eqn:Hform.
  - destruct (Hw4 (Hlow eq_refl)) as [HwM Hwrm].
    split; [|split; [intros _; exact Hwrm | intros Hne; now contradiction Hne]].
    cbn [index_of_word join_index] in *. unfold index_of_HLM.
    now rewrite HwH, HwL, HwM.
  - rewrite (HM0 ltac:(discriminate)) in Hw5.
    split; [|split; [discriminate | intros _; exact Hw5]].
    cbn [index_of_word join_index] in *. unfold index_of_HL.
    now rewrite HwH, HwL.
  - rewrite (HM0 ltac:(discriminate)) in Hw5.
    split; [|split; [discriminate | intros _; exact Hw5]].
    cbn [index_of_word join_index] in *. now rewrite HwH.
Qed.

Lemma indexed_word_round_trip_witness :
  exists w,
    IndexedElement.emit IndexedElement.UMULL DRegister i32Bit
      (VReg 0) (VReg 1) (VReg 2) 5 []
    = Done tt ([] ++ [w])
    /\ index_of_word (index_form IndexedElement.UMULL i32Bit) w = 5
    /\ (index_form IndexedElement.UMULL i32Bit = FormHLM ->
        field w 16 4 = Idx (VReg 2))
    /\ (index_form IndexedElement.UMULL i32Bit <> FormHLM ->
        field w 16 5 = Idx (VReg 2)).
Proof.
  apply (indexed_word_round_trip IndexedElement.UMULL DRegister i32Bit
           (VReg 0) (VReg 1) (VReg 2) 5 []).
  - reflexivity.
  - vm_compute; split; [discriminate | reflexivity].
  - intros _. simpl; lia.
  - simpl; lia.
  - simpl; lia.
  - simpl; lia.
Defined.

(** X3: the 64-bit move immediate read back from the emitted word: for an input
    of whole bytes and a register v0 to v31, the immediate bits of the
    emitted word are the compressed form, and expanding them gives the input
    back. *)
Theorem movi_word_round_trip (T : RegKind) (rd : VRegister) (Imm : Z)
    (code : list Z) :
  0 <= Imm < 2 ^ 64 ->
  (forall i, 0 <= i < 8 -> byte_of Imm i = 0 \/ byte_of Imm i = 0xFF) ->
  0 <= Idx rd < 32 ->
  exists w,
    ModifiedImm.movi T i64Bit rd Imm 0 code = Done tt (code ++ [w])
    /\ imm8_of_word w = compress_bytes Imm
    /\ expand_bits (imm8_of_word w) = Imm.
Proof.
  intros HImm Hbytes Hrd.
  destruct (movi_whole_bytes T rd Imm code HImm Hbytes)
    as (Hrange & _ & Hmovi & _ & Hexpand).
  destruct (ASIMDModifiedImm_fields T 1 (bin "1110") 0 (compress_bytes Imm)
              rd code) as (w & Hw & Himm8).
  - right; reflexivity.
  - vm_compute; split; [discriminate | reflexivity].
  - left; reflexivity.
  - change (2 ^ 8) with 256 in Hrange. exact Hrange.
  - exact Hrd.
  - exists w. split; [now rewrite Hmovi|]. split; [exact Himm8|].
    now rewrite Himm8.
Qed.

Lemma movi_word_round_trip_witness :
  exists w,
    ModifiedImm.movi QRegister i64Bit (VReg 3) 0xFF00FF0000FFFF00 0 []
    = Done tt ([] ++ [w])
    /\ imm8_of_word w = compress_bytes 0xFF00FF0000FFFF00
    /\ expand_bits (imm8_of_word w) = 0xFF00FF0000FFFF00.
Proof.
  apply (movi_word_round_trip QRegister (VReg 3) 0xFF00FF0000FFFF00 []).
  - vm_compute. split; [discriminate | reflexivity].
  - intros i Hi.
    assert (Hc : i = 0 \/ i = 1 \/ i = 2 \/ i = 3 \/ i = 4 \/ i = 5
                 \/ i = 6 \/ i = 7) by lia.
    repeat (destruct Hc as [-> | Hc]; [vm_compute; auto|]).
    subst i. vm_compute. auto.
  - simpl; lia.
Defined.

(** * Words of the register categories *)

(** ** Unions of disjoint fields *)

Lemma lor_disjoint_add (a b : Z) : Z.land a b = 0 -> Z.lor a b = a + b.
Proof.
  intros H. rewrite Z.add_nocarry_lxor by exact H. symmetry.
  apply Z.lxor_lor. exact H.
Qed.

(** Settles an equation between unions, intersections and differences of
    bit sets, from like equations [H1] and [H2], bit by bit. *)
Ltac bitwise H1 H2 :=
  apply Z.bits_inj'; intros n Hn;
  pose proof (f_equal (fun x => Z.testbit x n) H1) as B1;
  pose proof (f_equal (fun x => Z.testbit x n) H2) as B2;
  cbv beta in B1, B2;
  revert B1 B2;
  repeat first [rewrite Z.land_spec | rewrite Z.lor_spec
               | rewrite Z.ldiff_spec | rewrite Z.bits_0];
  repeat match goal with
         | |- context [Z.testbit ?x n] => destruct (Z.testbit x n)
         end;
  cbn; intros; first [reflexivity | congruence].

Lemma within_disjoint (a ma b mb : Z) :
  within a ma -> within b mb -> Z.land ma mb = 0 -> Z.land a b = 0.
Proof.
  unfold within. intros Ha Hb H. rewrite <- Ha, <- Hb.
  rewrite <- Z.land_assoc, (Z.land_assoc ma b mb), (Z.land_comm ma b).
  rewrite <- (Z.land_assoc b ma mb), H, Z.land_0_r, Z.land_0_r. reflexivity.
Qed.

Lemma within_lor (a ma b mb : Z) :
  within a ma -> within b mb -> within (Z.lor a b) (Z.lor ma mb).
Proof. unfold within. intros Ha Hb. bitwise Ha Hb. Qed.

Lemma within_refl (c : Z) : within c c.
Proof. apply Z.land_diag. Qed.

Lemma within_trans (a b c : Z) : within a b -> within b c -> within a c.
Proof. unfold within. intros Ha Hb. bitwise Ha Hb. Qed.

(** A union of values in disjoint fields is their sum. *)
Lemma lor_sum (xs : list (Z * Z)) :
  forall c mc,
    within c mc ->
    Forall (fun xm => within (fst xm) (snd xm)) xs ->
    disjoint mc (map snd xs) = true ->
    fold_left Z.lor (map fst xs) c = fold_left Z.add (map fst xs) c.
Proof.
  induction xs as [|[x m] xs IH]; intros c mc Hc Hxs Hd; [reflexivity|].
  inversion Hxs as [|? ? Hx Hrest]; subst. cbn [map fst snd fold_left] in *.
  cbn [disjoint] in Hd. apply Bool.andb_true_iff in Hd.
  destruct Hd as [H0 Hd]. apply Z.eqb_eq in H0.
  rewrite <- (lor_disjoint_add c x)
    by (eapply within_disjoint; eassumption).
  apply (IH (Z.lor c x) (Z.lor mc m));
    [now apply within_lor | exact Hrest | exact Hd].
Qed.

(** The sum lies in the union of the fields. *)
Lemma within_sum (xs : list (Z * Z)) :
  forall c mc,
    within c mc ->
    Forall (fun xm => within (fst xm) (snd xm)) xs ->
    disjoint mc (map snd xs) = true ->
    within (fold_left Z.add (map fst xs) c) (fold_left Z.lor (map snd xs) mc).
Proof.
  induction xs as [|[x m] xs IH]; intros c mc Hc Hxs Hd; [exact Hc|].
  inversion Hxs as [|? ? Hx Hrest]; subst. cbn [map fst snd fold_left] in *.
  cbn [disjoint] in Hd. apply Bool.andb_true_iff in Hd.
  destruct Hd as [H0 Hd]. apply Z.eqb_eq in H0.
  rewrite <- (lor_disjoint_add c x)
    by (eapply within_disjoint; eassumption).
  apply IH; [now apply within_lor | exact Hrest | exact Hd].
Qed.

Lemma within_shl32 (v p n : Z) :
  0 <= v < 2 ^ n -> 0 <= p -> 0 <= n -> p + n <= 32 ->
  within (shl32 v p) (Z.shiftl (Z.ones n) p).
Proof.
  intros Hv Hp Hn Hpn. unfold within.
  rewrite (shl32_nowrap v p n) by assumption.
  rewrite <- Z.shiftl_mul_pow2 by exact Hp.
  rewrite <- Z.shiftl_land. f_equal. rewrite Z.land_ones by exact Hn.
  apply Z.mod_small. exact Hv.
Qed.

Lemma within_Qbit (T : RegKind) : within (Qbit T) (Z.shiftl 1 30).
Proof. destruct T; reflexivity. Qed.

Lemma Encode_rd_small (rd : VRegister) :
  0 <= Idx rd < 32 -> Encode_rd rd = Idx rd.
Proof. intros H. unfold Encode_rd, u32. apply Z.mod_small. lia. Qed.

Lemma Encode_rn_small (rn : VRegister) :
  0 <= Idx rn < 32 -> Encode_rn rn = 32 * Idx rn.
Proof.
  intros H. unfold Encode_rn. rewrite (shl32_nowrap _ 5 5) by lia. lia.
Qed.

Lemma Encode_rm_small (rm : VRegister) :
  0 <= Idx rm < 32 -> Encode_rm rm = 65536 * Idx rm.
Proof.
  intros H. unfold Encode_rm. rewrite (shl32_nowrap _ 16 5) by lia. lia.
Qed.

Lemma within_Encode_rd (rd : VRegister) :
  0 <= Idx rd < 32 -> within (Encode_rd rd) (Z.shiftl (Z.ones 5) 0).
Proof. intros H. apply (within_shl32 (Idx rd) 0 5); lia. Qed.

Lemma within_Encode_rn (rn : VRegister) :
  0 <= Idx rn < 32 -> within (Encode_rn rn) (Z.shiftl (Z.ones 5) 5).
Proof. intros H. apply (within_shl32 (Idx rn) 5 5); lia. Qed.

Lemma within_Encode_rm (rm : VRegister) :
  0 <= Idx rm < 32 -> within (Encode_rm rm) (Z.shiftl (Z.ones 5) 16).
Proof. intros H. apply (within_shl32 (Idx rm) 16 5); lia. Qed.

Lemma VReg_eq (a b : VRegister) : Idx a = Idx b -> a = b.
Proof. destruct a, b; cbn; congruence. Qed.

(** Shows that a part of a word lies in its field. *)
Ltac within_item :=
  lazymatch goal with
  | |- within (Qbit _) _ => apply within_Qbit
  | |- within (Encode_rd _) _ => apply within_Encode_rd; assumption
  | |- within (Encode_rn _) _ => apply within_Encode_rn; assumption
  | |- within (Encode_rm _) _ => apply within_Encode_rm; assumption
  | |- within (shl32 ?v ?p) (Z.shiftl (Z.ones ?n) ?p) =>
      apply (within_shl32 v p n); bounds
  end.

Ltac within_all :=
  repeat (apply Forall_cons; [cbn [fst snd]; within_item|]); apply Forall_nil.

(** Rewrites the union [e], written as the chain of [items] over [base], into
    their sum. *)
Ltac lor_to_sum e base items :=
  let E := fresh "E" in
  assert (E : e = fold_left Z.add (map fst items) base)
    by (rewrite <- (lor_sum items base base (within_refl _));
        [cbn [fold_left map fst]; reflexivity | within_all
        | vm_compute; reflexivity]);
  rewrite E; clear E; cbn [fold_left map fst].

(** The operands of a call lie in their fields. *)
Lemma operands_in_fields (rm ra index rn rd : Z) :
  0 <= rm < 32 -> 0 <= ra < 32 -> 0 <= index <= 3 -> 0 <= rn < 32 ->
  0 <= rd < 32 ->
  within (32 * rn + rd) 0x3FF
  /\ within (65536 * rm + 32 * rn + rd) 0x1F03FF
  /\ within (65536 * rm + 4096 * index + 32 * rn + rd) 0x1F33FF
  /\ within (65536 * rm + 1024 * ra + 32 * rn + rd) 0x1F7FFF.
Proof.
  intros Hrm Hra Hindex Hrn Hrd.
  pose proof (within_shl32 rm 16 5 ltac:(bounds) ltac:(lia) ltac:(lia)
                ltac:(lia)) as Wm.
  pose proof (within_shl32 ra 10 5 ltac:(bounds) ltac:(lia) ltac:(lia)
                ltac:(lia)) as Wa.
  pose proof (within_shl32 index 12 2 ltac:(bounds) ltac:(lia) ltac:(lia)
                ltac:(lia)) as Wi.
  pose proof (within_shl32 rn 5 5 ltac:(bounds) ltac:(lia) ltac:(lia)
                ltac:(lia)) as Wn.
  pose proof (within_shl32 rd 0 5 ltac:(bounds) ltac:(lia) ltac:(lia)
                ltac:(lia)) as Wd.
  rewrite (shl32_nowrap rm 16 5) in Wm by bounds.
  rewrite (shl32_nowrap ra 10 5) in Wa by bounds.
  rewrite (shl32_nowrap index 12 2) in Wi by bounds.
  rewrite (shl32_nowrap rn 5 5) in Wn by bounds.
  rewrite (shl32_nowrap rd 0 5) in Wd by bounds.
  change (2 ^ 16) with 65536 in Wm. change (2 ^ 10) with 1024 in Wa.
  change (2 ^ 12) with 4096 in Wi. change (2 ^ 5) with 32 in Wn.
  change (2 ^ 0) with 1 in Wd.
  assert (S : forall items,
             Forall (fun xm => within (fst xm) (snd xm)) items ->
             disjoint 0 (map snd items) = true ->
             within (fold_left Z.add (map fst items) 0)
               (fold_left Z.lor (map snd items) 0))
    by (intros items; apply within_sum, within_refl).
  repeat split.
  - replace (32 * rn + rd) with (0 + rn * 32 + rd * 1) by lia.
    apply (S [(rn * 32, Z.shiftl (Z.ones 5) 5);
              (rd * 1, Z.shiftl (Z.ones 5) 0)]); [|reflexivity].
    repeat (apply Forall_cons; [cbn [fst snd]; eassumption|]).
    apply Forall_nil.
  - replace (65536 * rm + 32 * rn + rd)
      with (0 + rm * 65536 + rn * 32 + rd * 1) by lia.
    apply (S [(rm * 65536, Z.shiftl (Z.ones 5) 16);
              (rn * 32, Z.shiftl (Z.ones 5) 5);
              (rd * 1, Z.shiftl (Z.ones 5) 0)]); [|reflexivity].
    repeat (apply Forall_cons; [cbn [fst snd]; eassumption|]).
    apply Forall_nil.
  - replace (65536 * rm + 4096 * index + 32 * rn + rd)
      with (0 + rm * 65536 + index * 4096 + rn * 32 + rd * 1) by lia.
    apply (S [(rm * 65536, Z.shiftl (Z.ones 5) 16);
              (index * 4096, Z.shiftl (Z.ones 2) 12);
              (rn * 32, Z.shiftl (Z.ones 5) 5);
              (rd * 1, Z.shiftl (Z.ones 5) 0)]); [|reflexivity].
    repeat (apply Forall_cons; [cbn [fst snd]; eassumption|]).
    apply Forall_nil.
  - replace (65536 * rm + 1024 * ra + 32 * rn + rd)
      with (0 + rm * 65536 + ra * 1024 + rn * 32 + rd * 1) by lia.
    apply (S [(rm * 65536, Z.shiftl (Z.ones 5) 16);
              (ra * 1024, Z.shiftl (Z.ones 5) 10);
              (rn * 32, Z.shiftl (Z.ones 5) 5);
              (rd * 1, Z.shiftl (Z.ones 5) 0)]); [|reflexivity].
    repeat (apply Forall_cons; [cbn [fst snd]; eassumption|]).
    apply Forall_nil.
Qed.

Ltac fields_of_operands :=
  match goal with
  | |- within (32 * ?rn + ?rd) _ =>
      apply (operands_in_fields 0 0 0 rn rd); (assumption || lia)
  | |- within (65536 * ?rm + 32 * ?rn + ?rd) _ =>
      apply (operands_in_fields rm 0 0 rn rd); (assumption || lia)
  | |- within (65536 * ?rm + 4096 * ?i + 32 * ?rn + ?rd) _ =>
      apply (operands_in_fields rm 0 i rn rd); (assumption || lia)
  | |- within (65536 * ?rm + 1024 * ?ra + 32 * ?rn + ?rd) _ =>
      apply (operands_in_fields rm ra 0 rn rd); (assumption || lia)
  end.

(** ** Reading a word by its fixed bits *)

(** A word is its fixed bits outside the operand fields and its operands
    inside. *)
Lemma base_of_word (b r m : Z) :
  Z.land b m = 0 -> within r m ->
  Z.ldiff (b + r) m = b /\ Z.land (b + r) m = r.
Proof.
  unfold within. intros Hb Hr.
  assert (Hd : Z.land b r = 0) by bitwise Hb Hr.
  rewrite <- (lor_disjoint_add b r Hd).
  split; bitwise Hb Hr.
Qed.

Lemma ldiff_outside (b r m m' : Z) :
  Z.land b m = 0 -> within r m ->
  Z.ldiff (Z.ldiff (b + r) m') (Z.lor m m') = Z.ldiff b (Z.lor m m').
Proof.
  unfold within. intros Hb Hr.
  assert (Hd : Z.land b r = 0) by bitwise Hb Hr.
  rewrite <- (lor_disjoint_add b r Hd).
  bitwise Hb Hr.
Qed.

(** A word of 32 bits with operands of 32 bits is a word of 32 bits. *)
Lemma word_32 (b r m : Z) :
  Z.land b m = 0 -> within r m -> within b (Z.ones 32) ->
  within m (Z.ones 32) -> 0 <= b + r < 2 ^ 32.
Proof.
  intros Hb Hr Hb32 Hm32.
  assert (Hd : Z.land b r = 0) by (unfold within in Hr; bitwise Hb Hr).
  assert (W : within (b + r) (Z.ones 32)).
  { rewrite <- (lor_disjoint_add b r Hd).
    replace (Z.ones 32) with (Z.lor (Z.ones 32) (Z.ones 32)) by reflexivity.
    apply within_lor; [exact Hb32|]. now apply (within_trans r m). }
  unfold within in W. rewrite Z.land_ones in W by lia. rewrite <- W.
  apply Z.mod_pos_bound. reflexivity.
Qed.

(** The first entry whose fixed bits are those of the word is the first
    entry that the bits outside the operand fields do not tell from it. *)
Lemma classify_unseparated {A : Type} (t : list (Z * Z * A)) (b m r : Z)
    (k : A) :
  Z.land b m = 0 -> within r m ->
  unseparated b m t = Some (b, m, k) ->
  classify (b + r) t = Some k.
Proof.
  intros Hb Hr. induction t as [|[[b' m'] k'] t IH]; cbn; [discriminate|].
  destruct (Z.ldiff b (Z.lor m m') =? Z.ldiff b' (Z.lor m m')) eqn:E.
  - intros [= -> -> ->].
    destruct (base_of_word b r m Hb Hr) as [-> _].
    now rewrite Z.eqb_refl.
  - intros H. destruct (Z.ldiff (b + r) m' =? b') eqn:E'; [|now apply IH].
    exfalso. apply Z.eqb_eq in E'. apply Z.eqb_neq in E. apply E.
    rewrite <- (ldiff_outside b r m m' Hb Hr), E'. reflexivity.
Qed.

Lemma relocate_Done (o : Outcome unit) (code : list Z) (r w : Z) :
  relocate o code r = Done tt (code ++ [w]) ->
  exists b, o = Done tt [b] /\ w = b + r.
Proof.
  destruct o as [[] [|b [|? ?]] | |]; cbn; try discriminate.
  intros H. exists b. split; [reflexivity|].
  assert (E : code ++ [b + r] = code ++ [w]) by congruence.
  apply app_inj_tail in E. symmetry. apply E.
Qed.

Section Decoding.

Context {A : Type}.
Variables (run : A -> Emit unit) (erase canon : A -> A)
  (operands mask : A -> Z) (listed : A -> Prop) (table : list (Z * Z * A)).

Hypothesis run_relocate :
  forall c code, listed c ->
    run c code = relocate (run (erase c) []) code (operands c).
Hypothesis run_decodes :
  forall c, listed c -> decodes run mask canon table (erase c).
Hypothesis mask_erase : forall c, mask (erase c) = mask c.
Hypothesis mask_32 : forall c, within (mask c) (Z.ones 32).
Hypothesis operands_within :
  forall c, listed c -> within (operands c) (mask c).

(** What the word of a call tells: the call with zeroed operands, and the
    operands. *)
Lemma emitted_word (c : A) (code : list Z) (w : Z) :
  listed c -> run c code = Done tt (code ++ [w]) ->
  classify w table = Some (canon (erase c))
  /\ Z.land w (mask c) = operands c
  /\ 0 <= w < 2 ^ 32.
Proof.
  intros L H. rewrite (run_relocate c code L) in H.
  apply relocate_Done in H. destruct H as (b & Hb & ->).
  pose proof (run_decodes c L) as D. unfold decodes in D.
  rewrite Hb, mask_erase in D. destruct D as (D0 & D & D32).
  pose proof (operands_within c L) as W.
  split; [now apply (classify_unseparated table b (mask c))|].
  split; [now apply base_of_word|].
  now apply (word_32 b (operands c) (mask c)).
Qed.

(** A call emits one word or fails with the stream as it was. *)
Lemma one_word_or_failure (c : A) (code : list Z) :
  listed c ->
  (exists w, run c code = Done tt (code ++ [w]) /\ 0 <= w < 2 ^ 32)
  \/ (exists msg, run c code = Abort msg code).
Proof.
  intros L. pose proof (emitted_word c code) as W.
  rewrite (run_relocate c code L) in *.
  pose proof (run_decodes c L) as D. unfold decodes in D.
  destruct (run (erase c) []) as [[] [|b [|? ?]] | ? [|? ?] |];
    try contradiction.
  - left. eexists. split; [reflexivity|]. now apply W.
  - right. eexists. reflexivity.
Qed.

Hypothesis mask_canon :
  forall c1 c2, canon (erase c1) = canon (erase c2) -> mask c1 = mask c2.
Hypothesis rebuild :
  forall c1 c2, listed c1 -> listed c2 ->
    canon (erase c1) = canon (erase c2) -> operands c1 = operands c2 ->
    canon c1 = canon c2.

(** Two calls that emit the same word are the same call. *)
Lemma decoding_injective (c1 c2 : A) (code : list Z) (w : Z) :
  listed c1 -> listed c2 ->
  run c1 code = Done tt (code ++ [w]) ->
  run c2 code = Done tt (code ++ [w]) ->
  canon c1 = canon c2.
Proof.
  intros L1 L2 H1 H2.
  destruct (emitted_word c1 code w L1 H1) as (K1 & O1 & _).
  destruct (emitted_word c2 code w L2 H2) as (K2 & O2 & _).
  assert (E : canon (erase c1) = canon (erase c2)) by congruence.
  apply rebuild; [assumption..|].
  rewrite <- O1, <- O2, (mask_canon c1 c2 E). reflexivity.
Qed.

End Decoding.

(** ** Reading the operands back *)

Lemma field_land (a b p n : Z) :
  field (Z.land a b) p n = Z.land (field a p n) (field b p n).
Proof.
  unfold field. rewrite Z.shiftr_land.
  rewrite <- !Z.land_assoc. f_equal.
  rewrite (Z.land_comm (Z.ones n)). rewrite <- Z.land_assoc.
  now rewrite Z.land_diag.
Qed.

(** A field that lies in the operand fields is read from the operands. *)
Lemma field_from_operands (w m r p n v : Z) :
  Z.land w m = r -> field m p n = Z.ones n -> field r p n = v ->
  field w p n = v.
Proof.
  intros Hw Hm Hr. rewrite <- Hr, <- Hw, field_land, Hm.
  unfold field. now rewrite <- Z.land_assoc, Z.land_diag.
Qed.

(** A field that is clear of the operand fields is read from the fixed
    bits. *)
Lemma field_from_base (b r m p k : Z) :
  Z.land b m = 0 -> within r m -> field m p k = 0 ->
  field (b + r) p k = field b p k.
Proof.
  intros Hb Hr Hm.
  assert (Hd : Z.land b r = 0) by (unfold within in Hr; bitwise Hb Hr).
  rewrite <- (lor_disjoint_add b r Hd), field_lor.
  unfold within in Hr. rewrite <- Hr, field_land, Hm, Z.land_0_r.
  apply Z.lor_0_r.
Qed.

Lemma operand_fields (rm ra index rn rd : Z) :
  0 <= rm < 32 -> 0 <= ra < 32 -> 0 <= index <= 3 -> 0 <= rn < 32 ->
  0 <= rd < 32 ->
  (field (32 * rn + rd) 0 5 = rd /\ field (32 * rn + rd) 5 5 = rn)
  /\ (field (65536 * rm + 32 * rn + rd) 0 5 = rd
      /\ field (65536 * rm + 32 * rn + rd) 5 5 = rn
      /\ field (65536 * rm + 32 * rn + rd) 16 5 = rm)
  /\ (field (65536 * rm + 4096 * index + 32 * rn + rd) 0 5 = rd
      /\ field (65536 * rm + 4096 * index + 32 * rn + rd) 5 5 = rn
      /\ field (65536 * rm + 4096 * index + 32 * rn + rd) 12 2 = index
      /\ field (65536 * rm + 4096 * index + 32 * rn + rd) 16 5 = rm)
  /\ (field (65536 * rm + 1024 * ra + 32 * rn + rd) 0 5 = rd
      /\ field (65536 * rm + 1024 * ra + 32 * rn + rd) 5 5 = rn
      /\ field (65536 * rm + 1024 * ra + 32 * rn + rd) 10 5 = ra
      /\ field (65536 * rm + 1024 * ra + 32 * rn + rd) 16 5 = rm).
Proof.
  intros Hrm Hra Hindex Hrn Hrd.
  rewrite !field_div_mod by lia.
  change (2 ^ 0) with 1. change (2 ^ 5) with 32. change (2 ^ 16) with 65536.
  change (2 ^ 12) with 4096. change (2 ^ 2) with 4. change (2 ^ 10) with 1024.
  repeat split; Z.div_mod_to_equations; lia.
Qed.

(** Reads an operand of a call back from the word, whose operand fields are
    given by [O]. *)
Ltac read_operand O :=
  unfold reads; cbn [fst snd];
  eapply field_from_operands; [exact O | reflexivity |];
  match goal with
  | |- field (32 * ?rn + ?rd) _ _ = _ =>
      apply (operand_fields 0 0 0 rn rd); (assumption || lia)
  | |- field (65536 * ?rm + 32 * ?rn + ?rd) _ _ = _ =>
      apply (operand_fields rm 0 0 rn rd); (assumption || lia)
  | |- field (65536 * ?rm + 4096 * ?i + 32 * ?rn + ?rd) _ _ = _ =>
      apply (operand_fields rm 0 i rn rd); (assumption || lia)
  | |- field (65536 * ?rm + 1024 * ?ra + 32 * ?rn + ?rd) _ _ = _ =>
      apply (operand_fields rm ra 0 rn rd); (assumption || lia)
  end.

(** ** The encoders *)

Lemma ASIMDThreeSameFP16_relocate (T : RegKind) (U a opcode : Z)
    (rm rn rd : VRegister) (code : list Z) :
  0 <= U < 2 ->
  0 <= a < 2 ->
  0 <= opcode < 8 ->
  0 <= Idx rm < 32 ->
  0 <= Idx rn < 32 ->
  0 <= Idx rd < 32 ->
  ASIMDThreeSameFP16 T U a opcode rm rn rd code
  = relocate (ASIMDThreeSameFP16 T U a opcode v0 v0 v0 []) code
      (65536 * Idx rm + 32 * Idx rn + Idx rd).
Proof.
  intros.
  unfold ASIMDThreeSameFP16, dc32, relocate. cbv zeta. cbn [app]. do 3 f_equal.
  change (shl32 (Idx v0) 16) with 0. change (shl32 (Idx v0) 5) with 0. change
      (u32 (Idx v0)) with 0.
  change (u32 (Idx rd)) with (shl32 (Idx rd) 0).
  rewrite !Z.lor_0_r.
  match goal with
  | |- ?l = ?r + _ =>
      lor_to_sum l (shl32 (bin "0000'1110'0100'0000'0000'01") 10)
        [(Qbit T, Z.shiftl 1 30);
         (shl32 U 29, Z.shiftl (Z.ones 1) 29);
         (shl32 a 23, Z.shiftl (Z.ones 1) 23);
         (shl32 (Idx rm) 16, Z.shiftl (Z.ones 5) 16);
         (shl32 opcode 11, Z.shiftl (Z.ones 3) 11);
         (shl32 (Idx rn) 5, Z.shiftl (Z.ones 5) 5);
         (shl32 (Idx rd) 0, Z.shiftl (Z.ones 5) 0)];
      lor_to_sum r (shl32 (bin "0000'1110'0100'0000'0000'01") 10)
        [(Qbit T, Z.shiftl 1 30);
         (shl32 U 29, Z.shiftl (Z.ones 1) 29);
         (shl32 a 23, Z.shiftl (Z.ones 1) 23);
         (shl32 opcode 11, Z.shiftl (Z.ones 3) 11)]
  end.
  rewrite (shl32_nowrap (Idx rm) 16 5),
    (shl32_nowrap (Idx rn) 5 5),
    (shl32_nowrap (Idx rd) 0 5)
    by (assumption || bounds).
  lia.
Qed.

Lemma ASIMD3Same_relocate (T : RegKind) (U : Z) (size : SubRegSize)
    (opcode : Z) (rd rn rm : VRegister) (code : list Z) :
  0 <= U < 2 ->
  0 <= size < 8 ->
  0 <= opcode < 32 ->
  0 <= Idx rd < 32 ->
  0 <= Idx rn < 32 ->
  0 <= Idx rm < 32 ->
  ASIMD3Same T U size opcode rd rn rm code
  = relocate (ASIMD3Same T U size opcode v0 v0 v0 []) code
      (65536 * Idx rm + 32 * Idx rn + Idx rd).
Proof.
  intros.
  unfold ASIMD3Same, dc32, relocate. cbv zeta. cbn [app]. do 3 f_equal.
  change (Encode_rm v0) with 0. change (Encode_rn v0) with 0. change
      (Encode_rd v0) with 0.
  rewrite !Z.lor_0_r.
  match goal with
  | |- ?l = ?r + _ =>
      lor_to_sum l (shl32 (bin "0000'1110'0010'0000'0000'01") 10)
        [(Qbit T, Z.shiftl 1 30);
         (shl32 U 29, Z.shiftl (Z.ones 1) 29);
         (shl32 size 22, Z.shiftl (Z.ones 3) 22);
         (Encode_rm rm, Z.shiftl (Z.ones 5) 16);
         (shl32 opcode 11, Z.shiftl (Z.ones 5) 11);
         (Encode_rn rn, Z.shiftl (Z.ones 5) 5);
         (Encode_rd rd, Z.shiftl (Z.ones 5) 0)];
      lor_to_sum r (shl32 (bin "0000'1110'0010'0000'0000'01") 10)
        [(Qbit T, Z.shiftl 1 30);
         (shl32 U 29, Z.shiftl (Z.ones 1) 29);
         (shl32 size 22, Z.shiftl (Z.ones 3) 22);
         (shl32 opcode 11, Z.shiftl (Z.ones 5) 11)]
  end.
  rewrite Encode_rm_small,
    Encode_rn_small,
    Encode_rd_small
    by (assumption || bounds).
  lia.
Qed.

Lemma ASIMDTwoRegMiscFP16_relocate (T : RegKind) (U a opcode : Z)
    (rn rd : VRegister) (code : list Z) :
  0 <= U < 2 ->
  0 <= a < 2 ->
  0 <= opcode < 32 ->
  0 <= Idx rn < 32 ->
  0 <= Idx rd < 32 ->
  ASIMDTwoRegMiscFP16 T U a opcode rn rd code
  = relocate (ASIMDTwoRegMiscFP16 T U a opcode v0 v0 []) code
      (32 * Idx rn + Idx rd).
Proof.
  intros.
  unfold ASIMDTwoRegMiscFP16, dc32, relocate. cbv zeta. cbn [app]. do 3 f_equal.
  change (shl32 (Idx v0) 5) with 0. change (u32 (Idx v0)) with 0.
  change (u32 (Idx rd)) with (shl32 (Idx rd) 0).
  rewrite !Z.lor_0_r.
  match goal with
  | |- ?l = ?r + _ =>
      lor_to_sum l (shl32 (bin "0000'1110'0111'1000'0000'10") 10)
        [(Qbit T, Z.shiftl 1 30);
         (shl32 U 29, Z.shiftl (Z.ones 1) 29);
         (shl32 a 23, Z.shiftl (Z.ones 1) 23);
         (shl32 opcode 12, Z.shiftl (Z.ones 5) 12);
         (shl32 (Idx rn) 5, Z.shiftl (Z.ones 5) 5);
         (shl32 (Idx rd) 0, Z.shiftl (Z.ones 5) 0)];
      lor_to_sum r (shl32 (bin "0000'1110'0111'1000'0000'10") 10)
        [(Qbit T, Z.shiftl 1 30);
         (shl32 U 29, Z.shiftl (Z.ones 1) 29);
         (shl32 a 23, Z.shiftl (Z.ones 1) 23);
         (shl32 opcode 12, Z.shiftl (Z.ones 5) 12)]
  end.
  rewrite (shl32_nowrap (Idx rn) 5 5),
    (shl32_nowrap (Idx rd) 0 5)
    by (assumption || bounds).
  lia.
Qed.

Lemma ASIMDThreeRegisterExt_relocate (T : RegKind) (U opcode : Z)
    (size : SubRegSize) (rm rn rd : VRegister) (code : list Z) :
  0 <= U < 2 ->
  0 <= opcode < 16 ->
  0 <= size < 8 ->
  0 <= Idx rm < 32 ->
  0 <= Idx rn < 32 ->
  0 <= Idx rd < 32 ->
  ASIMDThreeRegisterExt T U opcode size rm rn rd code
  = relocate (ASIMDThreeRegisterExt T U opcode size v0 v0 v0 []) code
      (65536 * Idx rm + 32 * Idx rn + Idx rd).
Proof.
  intros.
  unfold ASIMDThreeRegisterExt, dc32, relocate. cbv zeta. cbn [app]. do 3
      f_equal.
  change (shl32 (Idx v0) 16) with 0. change (shl32 (Idx v0) 5) with 0. change
      (u32 (Idx v0)) with 0.
  change (u32 (Idx rd)) with (shl32 (Idx rd) 0).
  rewrite !Z.lor_0_r.
  match goal with
  | |- ?l = ?r + _ =>
      lor_to_sum l (shl32 (bin "0000'1110'0000'0000'1000'01") 10)
        [(Qbit T, Z.shiftl 1 30);
         (shl32 U 29, Z.shiftl (Z.ones 1) 29);
         (shl32 size 22, Z.shiftl (Z.ones 3) 22);
         (shl32 (Idx rm) 16, Z.shiftl (Z.ones 5) 16);
         (shl32 opcode 11, Z.shiftl (Z.ones 4) 11);
         (shl32 (Idx rn) 5, Z.shiftl (Z.ones 5) 5);
         (shl32 (Idx rd) 0, Z.shiftl (Z.ones 5) 0)];
      lor_to_sum r (shl32 (bin "0000'1110'0000'0000'1000'01") 10)
        [(Qbit T, Z.shiftl 1 30);
         (shl32 U 29, Z.shiftl (Z.ones 1) 29);
         (shl32 size 22, Z.shiftl (Z.ones 3) 22);
         (shl32 opcode 11, Z.shiftl (Z.ones 4) 11)]
  end.
  rewrite (shl32_nowrap (Idx rm) 16 5),
    (shl32_nowrap (Idx rn) 5 5),
    (shl32_nowrap (Idx rd) 0 5)
    by (assumption || bounds).
  lia.
Qed.

Lemma CryptoAES_relocate (opcode : Z) (rd rn : VRegister) (code : list Z) :
  0 <= opcode < 32 ->
  0 <= Idx rd < 32 ->
  0 <= Idx rn < 32 ->
  CryptoAES opcode rd rn code
  = relocate (CryptoAES opcode v0 v0 []) code
      (32 * Idx rn + Idx rd).
Proof.
  intros.
  unfold CryptoAES, dc32, relocate. cbv zeta. cbn [app]. do 3 f_equal.
  change (Encode_rn v0) with 0. change (Encode_rd v0) with 0.
  rewrite !Z.lor_0_r.
  match goal with
  | |- ?l = ?r + _ =>
      lor_to_sum l (shl32 (bin "0100'1110'0010'1000'0000'10") 10)
        [(shl32 opcode 12, Z.shiftl (Z.ones 5) 12);
         (Encode_rn rn, Z.shiftl (Z.ones 5) 5);
         (Encode_rd rd, Z.shiftl (Z.ones 5) 0)];
      lor_to_sum r (shl32 (bin "0100'1110'0010'1000'0000'10") 10)
        [(shl32 opcode 12, Z.shiftl (Z.ones 5) 12)]
  end.
  rewrite Encode_rn_small,
    Encode_rd_small
    by (assumption || bounds).
  lia.
Qed.

Lemma Crypto3RegSHA_relocate (opcode : Z) (rd rn rm : VRegister)
    (code : list Z) :
  0 <= opcode < 8 ->
  0 <= Idx rd < 32 ->
  0 <= Idx rn < 32 ->
  0 <= Idx rm < 32 ->
  Crypto3RegSHA opcode rd rn rm code
  = relocate (Crypto3RegSHA opcode v0 v0 v0 []) code
      (65536 * Idx rm + 32 * Idx rn + Idx rd).
Proof.
  intros.
  unfold Crypto3RegSHA, dc32, relocate. cbv zeta. cbn [app]. do 3 f_equal.
  change (Encode_rm v0) with 0. change (Encode_rn v0) with 0. change
      (Encode_rd v0) with 0.
  rewrite !Z.lor_0_r.
  match goal with
  | |- ?l = ?r + _ =>
      lor_to_sum l (shl32 (bin "0101'1110'0000'0000'0000'00") 10)
        [(Encode_rm rm, Z.shiftl (Z.ones 5) 16);
         (shl32 opcode 12, Z.shiftl (Z.ones 3) 12);
         (Encode_rn rn, Z.shiftl (Z.ones 5) 5);
         (Encode_rd rd, Z.shiftl (Z.ones 5) 0)];
      lor_to_sum r (shl32 (bin "0101'1110'0000'0000'0000'00") 10)
        [(shl32 opcode 12, Z.shiftl (Z.ones 3) 12)]
  end.
  rewrite Encode_rm_small,
    Encode_rn_small,
    Encode_rd_small
    by (assumption || bounds).
  lia.
Qed.

Lemma Crypto2RegSHA_relocate (opcode : Z) (rd rn : VRegister) (code : list Z) :
  0 <= opcode < 32 ->
  0 <= Idx rd < 32 ->
  0 <= Idx rn < 32 ->
  Crypto2RegSHA opcode rd rn code
  = relocate (Crypto2RegSHA opcode v0 v0 []) code
      (32 * Idx rn + Idx rd).
Proof.
  intros.
  unfold Crypto2RegSHA, dc32, relocate. cbv zeta. cbn [app]. do 3 f_equal.
  change (Encode_rn v0) with 0. change (Encode_rd v0) with 0.
  rewrite !Z.lor_0_r.
  match goal with
  | |- ?l = ?r + _ =>
      lor_to_sum l (shl32 (bin "0101'1110'0010'1000'0000'10") 10)
        [(shl32 opcode 12, Z.shiftl (Z.ones 5) 12);
         (Encode_rn rn, Z.shiftl (Z.ones 5) 5);
         (Encode_rd rd, Z.shiftl (Z.ones 5) 0)];
      lor_to_sum r (shl32 (bin "0101'1110'0010'1000'0000'10") 10)
        [(shl32 opcode 12, Z.shiftl (Z.ones 5) 12)]
  end.
  rewrite Encode_rn_small,
    Encode_rd_small
    by (assumption || bounds).
  lia.
Qed.

Lemma ASIMDTable_relocate (Q op2 len op : Z) (rd rn rm : VRegister)
    (code : list Z) :
  0 <= Q < 2 ->
  0 <= op2 < 4 ->
  0 <= len < 4 ->
  0 <= op < 2 ->
  0 <= Idx rd < 32 ->
  0 <= Idx rn < 32 ->
  0 <= Idx rm < 32 ->
  ASIMDTable Q op2 len op rd rn rm code
  = relocate (ASIMDTable Q op2 len op v0 v0 v0 []) code
      (65536 * Idx rm + 32 * Idx rn + Idx rd).
Proof.
  intros.
  unfold ASIMDTable, dc32, relocate. cbv zeta. cbn [app]. do 3 f_equal.
  change (Encode_rm v0) with 0. change (Encode_rn v0) with 0. change
      (Encode_rd v0) with 0.
  rewrite !Z.lor_0_r.
  match goal with
  | |- ?l = ?r + _ =>
      lor_to_sum l (shl32 (bin "0000'1110'000") 21)
        [(shl32 Q 30, Z.shiftl (Z.ones 1) 30);
         (shl32 op2 22, Z.shiftl (Z.ones 2) 22);
         (Encode_rm rm, Z.shiftl (Z.ones 5) 16);
         (shl32 len 13, Z.shiftl (Z.ones 2) 13);
         (shl32 op 12, Z.shiftl (Z.ones 1) 12);
         (Encode_rn rn, Z.shiftl (Z.ones 5) 5);
         (Encode_rd rd, Z.shiftl (Z.ones 5) 0)];
      lor_to_sum r (shl32 (bin "0000'1110'000") 21)
        [(shl32 Q 30, Z.shiftl (Z.ones 1) 30);
         (shl32 op2 22, Z.shiftl (Z.ones 2) 22);
         (shl32 len 13, Z.shiftl (Z.ones 2) 13);
         (shl32 op 12, Z.shiftl (Z.ones 1) 12)]
  end.
  rewrite Encode_rm_small,
    Encode_rn_small,
    Encode_rd_small
    by (assumption || bounds).
  lia.
Qed.

Lemma ASIMDPermute_relocate (Q : Z) (size : SubRegSize) (opcode : Z)
    (rd rn rm : VRegister) (code : list Z) :
  0 <= Q < 2 ->
  0 <= size < 8 ->
  0 <= opcode < 8 ->
  0 <= Idx rd < 32 ->
  0 <= Idx rn < 32 ->
  0 <= Idx rm < 32 ->
  ASIMDPermute Q size opcode rd rn rm code
  = relocate (ASIMDPermute Q size opcode v0 v0 v0 []) code
      (65536 * Idx rm + 32 * Idx rn + Idx rd).
Proof.
  intros.
  unfold ASIMDPermute, dc32, relocate. cbv zeta. cbn [app]. do 3 f_equal.
  change (Encode_rm v0) with 0. change (Encode_rn v0) with 0. change
      (Encode_rd v0) with 0.
  rewrite !Z.lor_0_r.
  match goal with
  | |- ?l = ?r + _ =>
      lor_to_sum l (shl32 (bin "0000'1110'0000'0000'0000'10") 10)
        [(shl32 Q 30, Z.shiftl (Z.ones 1) 30);
         (shl32 size 22, Z.shiftl (Z.ones 3) 22);
         (Encode_rm rm, Z.shiftl (Z.ones 5) 16);
         (shl32 opcode 12, Z.shiftl (Z.ones 3) 12);
         (Encode_rn rn, Z.shiftl (Z.ones 5) 5);
         (Encode_rd rd, Z.shiftl (Z.ones 5) 0)];
      lor_to_sum r (shl32 (bin "0000'1110'0000'0000'0000'10") 10)
        [(shl32 Q 30, Z.shiftl (Z.ones 1) 30);
         (shl32 size 22, Z.shiftl (Z.ones 3) 22);
         (shl32 opcode 12, Z.shiftl (Z.ones 3) 12)]
  end.
  rewrite Encode_rm_small,
    Encode_rn_small,
    Encode_rd_small
    by (assumption || bounds).
  lia.
Qed.

Lemma ASIMDExtract_relocate (Q op2 imm4 : Z) (rd rn rm : VRegister)
    (code : list Z) :
  0 <= Q < 2 ->
  0 <= op2 < 4 ->
  0 <= imm4 < 16 ->
  0 <= Idx rd < 32 ->
  0 <= Idx rn < 32 ->
  0 <= Idx rm < 32 ->
  ASIMDExtract Q op2 imm4 rd rn rm code
  = relocate (ASIMDExtract Q op2 0 v0 v0 v0 []) code
      (65536 * Idx rm + 2048 * imm4 + 32 * Idx rn + Idx rd).
Proof.
  intros.
  unfold ASIMDExtract, dc32, relocate. cbv zeta. cbn [app]. do 3 f_equal.
  change (Encode_rm v0) with 0. change (shl32 0 11) with 0. change
      (Encode_rn v0) with 0. change (Encode_rd v0) with 0.
  rewrite !Z.lor_0_r.
  match goal with
  | |- ?l = ?r + _ =>
      lor_to_sum l (shl32 (bin "0010'1110'000") 21)
        [(shl32 Q 30, Z.shiftl (Z.ones 1) 30);
         (shl32 op2 22, Z.shiftl (Z.ones 2) 22);
         (Encode_rm rm, Z.shiftl (Z.ones 5) 16);
         (shl32 imm4 11, Z.shiftl (Z.ones 4) 11);
         (Encode_rn rn, Z.shiftl (Z.ones 5) 5);
         (Encode_rd rd, Z.shiftl (Z.ones 5) 0)];
      lor_to_sum r (shl32 (bin "0010'1110'000") 21)
        [(shl32 Q 30, Z.shiftl (Z.ones 1) 30);
         (shl32 op2 22, Z.shiftl (Z.ones 2) 22)]
  end.
  rewrite Encode_rm_small,
    (shl32_nowrap imm4 11 4),
    Encode_rn_small,
    Encode_rd_small
    by (assumption || bounds).
  lia.
Qed.

Lemma ASIMD2RegMisc_relocate (T : RegKind) (U : Z) (size : SubRegSize)
    (opcode : Z) (rd rn : VRegister) (code : list Z) :
  0 <= U < 2 ->
  0 <= size < 8 ->
  0 <= opcode < 32 ->
  0 <= Idx rd < 32 ->
  0 <= Idx rn < 32 ->
  ASIMD2RegMisc T U size opcode rd rn code
  = relocate (ASIMD2RegMisc T U size opcode v0 v0 []) code
      (32 * Idx rn + Idx rd).
Proof.
  intros.
  unfold ASIMD2RegMisc, dc32, relocate. cbv zeta. cbn [app]. do 3 f_equal.
  change (Encode_rn v0) with 0. change (Encode_rd v0) with 0.
  rewrite !Z.lor_0_r.
  match goal with
  | |- ?l = ?r + _ =>
      lor_to_sum l (shl32 (bin "0000'1110'0010'0000'0000'10") 10)
        [(Qbit T, Z.shiftl 1 30);
         (shl32 U 29, Z.shiftl (Z.ones 1) 29);
         (shl32 size 22, Z.shiftl (Z.ones 3) 22);
         (shl32 opcode 12, Z.shiftl (Z.ones 5) 12);
         (Encode_rn rn, Z.shiftl (Z.ones 5) 5);
         (Encode_rd rd, Z.shiftl (Z.ones 5) 0)];
      lor_to_sum r (shl32 (bin "0000'1110'0010'0000'0000'10") 10)
        [(Qbit T, Z.shiftl 1 30);
         (shl32 U 29, Z.shiftl (Z.ones 1) 29);
         (shl32 size 22, Z.shiftl (Z.ones 3) 22);
         (shl32 opcode 12, Z.shiftl (Z.ones 5) 12)]
  end.
  rewrite Encode_rn_small,
    Encode_rd_small
    by (assumption || bounds).
  lia.
Qed.

Lemma ASIMDAcrossLanes_relocate (T : RegKind) (U : Z) (size : SubRegSize)
    (opcode : Z) (rd rn : VRegister) (code : list Z) :
  0 <= U < 2 ->
  0 <= size < 8 ->
  0 <= opcode < 32 ->
  0 <= Idx rd < 32 ->
  0 <= Idx rn < 32 ->
  ASIMDAcrossLanes T U size opcode rd rn code
  = relocate (ASIMDAcrossLanes T U size opcode v0 v0 []) code
      (32 * Idx rn + Idx rd).
Proof.
  intros.
  unfold ASIMDAcrossLanes, dc32, relocate. cbv zeta. cbn [app]. do 3 f_equal.
  change (Encode_rn v0) with 0. change (Encode_rd v0) with 0.
  rewrite !Z.lor_0_r.
  match goal with
  | |- ?l = ?r + _ =>
      lor_to_sum l (shl32 (bin "0000'1110'0011'0000'0000'10") 10)
        [(Qbit T, Z.shiftl 1 30);
         (shl32 U 29, Z.shiftl (Z.ones 1) 29);
         (shl32 size 22, Z.shiftl (Z.ones 3) 22);
         (shl32 opcode 12, Z.shiftl (Z.ones 5) 12);
         (Encode_rn rn, Z.shiftl (Z.ones 5) 5);
         (Encode_rd rd, Z.shiftl (Z.ones 5) 0)];
      lor_to_sum r (shl32 (bin "0000'1110'0011'0000'0000'10") 10)
        [(Qbit T, Z.shiftl 1 30);
         (shl32 U 29, Z.shiftl (Z.ones 1) 29);
         (shl32 size 22, Z.shiftl (Z.ones 3) 22);
         (shl32 opcode 12, Z.shiftl (Z.ones 5) 12)]
  end.
  rewrite Encode_rn_small,
    Encode_rd_small
    by (assumption || bounds).
  lia.
Qed.

Lemma ASIMD3Different_relocate (T : RegKind) (U opcode : Z) (size : SubRegSize)
    (rd rn rm : VRegister) (code : list Z) :
  0 <= U < 2 ->
  0 <= opcode < 16 ->
  0 <= size < 8 ->
  0 <= Idx rd < 32 ->
  0 <= Idx rn < 32 ->
  0 <= Idx rm < 32 ->
  ASIMD3Different T U opcode size rd rn rm code
  = relocate (ASIMD3Different T U opcode size v0 v0 v0 []) code
      (65536 * Idx rm + 32 * Idx rn + Idx rd).
Proof.
  intros.
  unfold ASIMD3Different, dc32, relocate. cbv zeta. cbn [app]. do 3 f_equal.
  change (Encode_rm v0) with 0. change (Encode_rn v0) with 0. change
      (Encode_rd v0) with 0.
  rewrite !Z.lor_0_r.
  match goal with
  | |- ?l = ?r + _ =>
      lor_to_sum l (shl32 (bin "0000'1110'0010'0000'0000'00") 10)
        [(Qbit T, Z.shiftl 1 30);
         (shl32 U 29, Z.shiftl (Z.ones 1) 29);
         (shl32 size 22, Z.shiftl (Z.ones 3) 22);
         (Encode_rm rm, Z.shiftl (Z.ones 5) 16);
         (shl32 opcode 12, Z.shiftl (Z.ones 4) 12);
         (Encode_rn rn, Z.shiftl (Z.ones 5) 5);
         (Encode_rd rd, Z.shiftl (Z.ones 5) 0)];
      lor_to_sum r (shl32 (bin "0000'1110'0010'0000'0000'00") 10)
        [(Qbit T, Z.shiftl 1 30);
         (shl32 U 29, Z.shiftl (Z.ones 1) 29);
         (shl32 size 22, Z.shiftl (Z.ones 3) 22);
         (shl32 opcode 12, Z.shiftl (Z.ones 4) 12)]
  end.
  rewrite Encode_rm_small,
    Encode_rn_small,
    Encode_rd_small
    by (assumption || bounds).
  lia.
Qed.

Lemma Crypto3RegImm_relocate (index opcode : Z) (rm rn rd : VRegister)
    (code : list Z) :
  0 <= index <= 3 ->
  0 <= opcode < 4 ->
  0 <= Idx rm < 32 ->
  0 <= Idx rn < 32 ->
  0 <= Idx rd < 32 ->
  Crypto3RegImm index opcode rm rn rd code
  = relocate (Crypto3RegImm 0 opcode v0 v0 v0 []) code
      (65536 * Idx rm + 4096 * index + 32 * Idx rn + Idx rd).
Proof.
  intros.
  unfold Crypto3RegImm, bind, LOGMAN_THROW_A_FMT, dc32, relocate.
  replace (index <=? 3) with true by (symmetry; apply Z.leb_le; lia).
  change (0 <=? 3) with true. cbv iota zeta. cbn [app]. do 3 f_equal.
  change (shl32 (Idx v0) 16) with 0. change (shl32 0 12) with 0. change (shl32
      (Idx v0) 5) with 0. change (u32 (Idx v0)) with 0.
  change (u32 (Idx rd)) with (shl32 (Idx rd) 0).
  rewrite !Z.lor_0_r.
  match goal with
  | |- ?l = ?r + _ =>
      lor_to_sum l (bin "1100'1110'0100'0000'1000'0000'0000'0000")
        [(shl32 (Idx rm) 16, Z.shiftl (Z.ones 5) 16);
         (shl32 index 12, Z.shiftl (Z.ones 2) 12);
         (shl32 opcode 10, Z.shiftl (Z.ones 2) 10);
         (shl32 (Idx rn) 5, Z.shiftl (Z.ones 5) 5);
         (shl32 (Idx rd) 0, Z.shiftl (Z.ones 5) 0)];
      lor_to_sum r (bin "1100'1110'0100'0000'1000'0000'0000'0000")
        [(shl32 opcode 10, Z.shiftl (Z.ones 2) 10)]
  end.
  rewrite (shl32_nowrap (Idx rm) 16 5),
    (shl32_nowrap index 12 2),
    (shl32_nowrap (Idx rn) 5 5),
    (shl32_nowrap (Idx rd) 0 5)
    by (assumption || bounds).
  lia.
Qed.

Lemma Crypto3RegSHA512_relocate (o opcode : Z) (rm rn rd : VRegister)
    (code : list Z) :
  0 <= o < 2 ->
  0 <= opcode < 4 ->
  0 <= Idx rm < 32 ->
  0 <= Idx rn < 32 ->
  0 <= Idx rd < 32 ->
  Crypto3RegSHA512 o opcode rm rn rd code
  = relocate (Crypto3RegSHA512 o opcode v0 v0 v0 []) code
      (65536 * Idx rm + 32 * Idx rn + Idx rd).
Proof.
  intros.
  unfold Crypto3RegSHA512, dc32, relocate. cbv zeta. cbn [app]. do 3 f_equal.
  change (shl32 (Idx v0) 16) with 0. change (shl32 (Idx v0) 5) with 0. change
      (u32 (Idx v0)) with 0.
  change (u32 (Idx rd)) with (shl32 (Idx rd) 0).
  rewrite !Z.lor_0_r.
  match goal with
  | |- ?l = ?r + _ =>
      lor_to_sum l (bin "1100'1110'0110'0000'1000'0000'0000'0000")
        [(shl32 (Idx rm) 16, Z.shiftl (Z.ones 5) 16);
         (shl32 o 14, Z.shiftl (Z.ones 1) 14);
         (shl32 opcode 10, Z.shiftl (Z.ones 2) 10);
         (shl32 (Idx rn) 5, Z.shiftl (Z.ones 5) 5);
         (shl32 (Idx rd) 0, Z.shiftl (Z.ones 5) 0)];
      lor_to_sum r (bin "1100'1110'0110'0000'1000'0000'0000'0000")
        [(shl32 o 14, Z.shiftl (Z.ones 1) 14);
         (shl32 opcode 10, Z.shiftl (Z.ones 2) 10)]
  end.
  rewrite (shl32_nowrap (Idx rm) 16 5),
    (shl32_nowrap (Idx rn) 5 5),
    (shl32_nowrap (Idx rd) 0 5)
    by (assumption || bounds).
  lia.
Qed.

Lemma Crypto4Register_relocate (opcode : Z) (rm ra rn rd : VRegister)
    (code : list Z) :
  0 <= opcode < 4 ->
  0 <= Idx rm < 32 ->
  0 <= Idx ra < 32 ->
  0 <= Idx rn < 32 ->
  0 <= Idx rd < 32 ->
  Crypto4Register opcode rm ra rn rd code
  = relocate (Crypto4Register opcode v0 v0 v0 v0 []) code
      (65536 * Idx rm + 1024 * Idx ra + 32 * Idx rn + Idx rd).
Proof.
  intros.
  unfold Crypto4Register, dc32, relocate. cbv zeta. cbn [app]. do 3 f_equal.
  change (shl32 (Idx v0) 16) with 0. change (shl32 (Idx v0) 10) with 0. change
      (shl32 (Idx v0) 5) with 0. change (u32 (Idx v0)) with 0.
  change (u32 (Idx rd)) with (shl32 (Idx rd) 0).
  rewrite !Z.lor_0_r.
  match goal with
  | |- ?l = ?r + _ =>
      lor_to_sum l (bin "1100'1110'0000'0000'0000'0000'0000'0000")
        [(shl32 opcode 21, Z.shiftl (Z.ones 2) 21);
         (shl32 (Idx rm) 16, Z.shiftl (Z.ones 5) 16);
         (shl32 (Idx ra) 10, Z.shiftl (Z.ones 5) 10);
         (shl32 (Idx rn) 5, Z.shiftl (Z.ones 5) 5);
         (shl32 (Idx rd) 0, Z.shiftl (Z.ones 5) 0)];
      lor_to_sum r (bin "1100'1110'0000'0000'0000'0000'0000'0000")
        [(shl32 opcode 21, Z.shiftl (Z.ones 2) 21)]
  end.
  rewrite (shl32_nowrap (Idx rm) 16 5),
    (shl32_nowrap (Idx ra) 10 5),
    (shl32_nowrap (Idx rn) 5 5),
    (shl32_nowrap (Idx rd) 0 5)
    by (assumption || bounds).
  lia.
Qed.

Lemma Crypto2RegSHA512_relocate (opcode : Z) (rn rd : VRegister)
    (code : list Z) :
  0 <= opcode < 4 ->
  0 <= Idx rn < 32 ->
  0 <= Idx rd < 32 ->
  Crypto2RegSHA512 opcode rn rd code
  = relocate (Crypto2RegSHA512 opcode v0 v0 []) code
      (32 * Idx rn + Idx rd).
Proof.
  intros.
  unfold Crypto2RegSHA512, dc32, relocate. cbv zeta. cbn [app]. do 3 f_equal.
  change (shl32 (Idx v0) 5) with 0. change (u32 (Idx v0)) with 0.
  change (u32 (Idx rd)) with (shl32 (Idx rd) 0).
  rewrite !Z.lor_0_r.
  match goal with
  | |- ?l = ?r + _ =>
      lor_to_sum l (bin "1100'1110'1100'0000'1000'0000'0000'0000")
        [(shl32 opcode 10, Z.shiftl (Z.ones 2) 10);
         (shl32 (Idx rn) 5, Z.shiftl (Z.ones 5) 5);
         (shl32 (Idx rd) 0, Z.shiftl (Z.ones 5) 0)];
      lor_to_sum r (bin "1100'1110'1100'0000'1000'0000'0000'0000")
        [(shl32 opcode 10, Z.shiftl (Z.ones 2) 10)]
  end.
  rewrite (shl32_nowrap (Idx rn) 5 5),
    (shl32_nowrap (Idx rd) 0 5)
    by (assumption || bounds).
  lia.
Qed.

(** Puts the call of an encoder into its normal form. *)
Ltac by_encoder :=
  lazymatch goal with
  | |- ASIMDThreeSameFP16 _ _ _ _ _ _ _ _ = _ =>
      apply ASIMDThreeSameFP16_relocate; closed_bound
  | |- ASIMD3Same _ _ _ _ _ _ _ _ = _ =>
      apply ASIMD3Same_relocate; closed_bound
  | |- ASIMDTwoRegMiscFP16 _ _ _ _ _ _ _ = _ =>
      apply ASIMDTwoRegMiscFP16_relocate; closed_bound
  | |- ASIMDThreeRegisterExt _ _ _ _ _ _ _ _ = _ =>
      apply ASIMDThreeRegisterExt_relocate; closed_bound
  | |- CryptoAES _ _ _ _ = _ =>
      apply CryptoAES_relocate; closed_bound
  | |- Crypto3RegSHA _ _ _ _ _ = _ =>
      apply Crypto3RegSHA_relocate; closed_bound
  | |- Crypto2RegSHA _ _ _ _ = _ =>
      apply Crypto2RegSHA_relocate; closed_bound
  | |- ASIMDTable _ _ _ _ _ _ _ _ = _ =>
      apply ASIMDTable_relocate; closed_bound
  | |- ASIMDPermute _ _ _ _ _ _ _ = _ =>
      apply ASIMDPermute_relocate; closed_bound
  | |- ASIMDExtract _ _ _ _ _ _ _ = _ =>
      apply ASIMDExtract_relocate; closed_bound
  | |- ASIMD2RegMisc _ _ _ _ _ _ _ = _ =>
      apply ASIMD2RegMisc_relocate; closed_bound
  | |- ASIMDAcrossLanes _ _ _ _ _ _ _ = _ =>
      apply ASIMDAcrossLanes_relocate; closed_bound
  | |- ASIMD3Different _ _ _ _ _ _ _ _ = _ =>
      apply ASIMD3Different_relocate; closed_bound
  | |- Crypto3RegImm _ _ _ _ _ _ = _ =>
      apply Crypto3RegImm_relocate; closed_bound
  | |- Crypto3RegSHA512 _ _ _ _ _ _ = _ =>
      apply Crypto3RegSHA512_relocate; closed_bound
  | |- Crypto4Register _ _ _ _ _ _ = _ =>
      apply Crypto4Register_relocate; closed_bound
  | |- Crypto2RegSHA512 _ _ _ _ = _ =>
      apply Crypto2RegSHA512_relocate; closed_bound
  | |- Abort _ _ = _ => reflexivity
  end.

(** ** The categories *)

(** A call of a cryptographic mnemonic is its call with zeroed operands, with
    the
    operands moved into the word. *)
Lemma Crypto_relocate (c : CryptoCall.t) (code : list Z) :
  CryptoCall.listed c ->
  CryptoCall.run c code
  = relocate (CryptoCall.run (CryptoCall.erase c) []) code
      (CryptoCall.operands c).
Proof.
  destruct c; cbn [CryptoCall.listed CryptoCall.run CryptoCall.erase
      CryptoCall.operands].
  - intros (Hrd & Hrn).
    all: destruct m.
    all: unfold_crypto;
      unfold IsStandardFloatSize; run_guards; by_encoder.
  - intros (Hrd & Hrn & Hrm).
    all: destruct m.
    all: unfold_crypto;
      unfold IsStandardFloatSize; run_guards; by_encoder.
  - intros (Hrd & Hrn & Hrm & Hindex).
    all: destruct m.
    all: unfold_crypto;
      unfold IsStandardFloatSize; run_guards; by_encoder.
  - intros (Hrd & Hrn & Hrm & Hra).
    all: destruct m.
    all: unfold_crypto;
      unfold IsStandardFloatSize; run_guards; by_encoder.
Qed.

(** The fixed bits of a cryptographic call single it out among the calls of the
    category. *)
Lemma Crypto_decodes (c : CryptoCall.t) :
  CryptoCall.listed c ->
  decodes CryptoCall.run CryptoCall.mask (fun c => c) CryptoCall.table
      (CryptoCall.erase c).
Proof.
  destruct c; cbn [CryptoCall.listed CryptoCall.erase].
  - intros (Hrd & Hrn).
    all: destruct m.
    all: vm_compute; try exact I; repeat split; reflexivity.
  - intros (Hrd & Hrn & Hrm).
    all: destruct m.
    all: vm_compute; try exact I; repeat split; reflexivity.
  - intros (Hrd & Hrn & Hrm & Hindex).
    all: destruct m.
    all: vm_compute; try exact I; repeat split; reflexivity.
  - intros (Hrd & Hrn & Hrm & Hra).
    all: destruct m.
    all: vm_compute; try exact I; repeat split; reflexivity.
Qed.

(** A call of a permute mnemonic is its call with zeroed operands, with the
    operands moved into the word. *)
Lemma Permute_relocate (c : PermuteCall.t) (code : list Z) :
  PermuteCall.listed c ->
  PermuteCall.run c code
  = relocate (PermuteCall.run (PermuteCall.erase c) []) code
      (PermuteCall.operands c).
Proof.
  destruct c; cbn [PermuteCall.listed PermuteCall.run PermuteCall.erase
      PermuteCall.operands].
  - intros (Hsize & Hrd & Hrn & Hrm).
    split_listed Hsize.
    all: destruct m, T.
    all: unfold_permute;
      unfold IsStandardFloatSize; run_guards; by_encoder.
Qed.

(** The fixed bits of a permute call single it out among the calls of the
    category. *)
Lemma Permute_decodes (c : PermuteCall.t) :
  PermuteCall.listed c ->
  decodes PermuteCall.run PermuteCall.mask (fun c => c) PermuteCall.table
      (PermuteCall.erase c).
Proof.
  destruct c; cbn [PermuteCall.listed PermuteCall.erase].
  - intros (Hsize & Hrd & Hrn & Hrm).
    split_listed Hsize.
    all: destruct m, T.
    all: vm_compute; try exact I; repeat split; reflexivity.
Qed.

(** A call of a three-register extension mnemonic is its call with zeroed
    operands, with the
    operands moved into the word. *)
Lemma ThreeRegisterExt_relocate (c : ThreeRegisterExtCall.t) (code : list Z) :
  ThreeRegisterExtCall.listed c ->
  ThreeRegisterExtCall.run c code
  = relocate (ThreeRegisterExtCall.run (ThreeRegisterExtCall.erase c) []) code
      (ThreeRegisterExtCall.operands c).
Proof.
  destruct c; cbn [ThreeRegisterExtCall.listed ThreeRegisterExtCall.run
      ThreeRegisterExtCall.erase ThreeRegisterExtCall.operands].
  - intros (Hsize & Hrd & Hrn & Hrm).
    split_listed Hsize.
    all: destruct m, T.
    all: unfold_ext;
      unfold IsStandardFloatSize; run_guards; by_encoder.
  - intros (Hrd & Hrn & Hrm).
    all: destruct m, T.
    all: unfold_ext;
      unfold IsStandardFloatSize; run_guards; by_encoder.
  - intros (Hrd & Hrn & Hrm).
    all: destruct m.
    all: unfold_ext;
      unfold IsStandardFloatSize; run_guards; by_encoder.
Qed.

(** The fixed bits of a three-register extension call single it out among the
    calls of the
    category. *)
Lemma ThreeRegisterExt_decodes (c : ThreeRegisterExtCall.t) :
  ThreeRegisterExtCall.listed c ->
  decodes ThreeRegisterExtCall.run ThreeRegisterExtCall.mask
      (fun c => c) ThreeRegisterExtCall.table (ThreeRegisterExtCall.erase c).
Proof.
  destruct c; cbn [ThreeRegisterExtCall.listed ThreeRegisterExtCall.erase].
  - intros (Hsize & Hrd & Hrn & Hrm).
    split_listed Hsize.
    all: destruct m, T.
    all: vm_compute; try exact I; repeat split; reflexivity.
  - intros (Hrd & Hrn & Hrm).
    all: destruct m, T.
    all: vm_compute; try exact I; repeat split; reflexivity.
  - intros (Hrd & Hrn & Hrm).
    all: destruct m.
    all: vm_compute; try exact I; repeat split; reflexivity.
Qed.

(** A call of a two-register miscellaneous mnemonic is its call with zeroed
    operands, with the
    operands moved into the word. *)
Lemma TwoRegMisc_relocate (c : TwoRegMiscCall.t) (code : list Z) :
  TwoRegMiscCall.listed c ->
  TwoRegMiscCall.run c code
  = relocate (TwoRegMiscCall.run (TwoRegMiscCall.erase c) []) code
      (TwoRegMiscCall.operands c).
Proof.
  destruct c; cbn [TwoRegMiscCall.listed TwoRegMiscCall.run TwoRegMiscCall.erase
      TwoRegMiscCall.operands].
  - intros (Hsize & Hrd & Hrn).
    split_listed Hsize.
    all: destruct m, T.
    all: unfold_tworeg;
      unfold IsStandardFloatSize; run_guards; by_encoder.
  - intros (Hsize & Hrd & Hrn).
    split_listed Hsize.
    all: destruct m.
    all: unfold_tworeg;
      unfold IsStandardFloatSize; run_guards; by_encoder.
Qed.

(** The fixed bits of a two-register miscellaneous call single it out among the
    calls of the
    category. *)
Lemma TwoRegMisc_decodes (c : TwoRegMiscCall.t) :
  TwoRegMiscCall.listed c ->
  decodes TwoRegMiscCall.run TwoRegMiscCall.mask TwoRegMiscCall.alias
      TwoRegMiscCall.table (TwoRegMiscCall.erase c).
Proof.
  destruct c; cbn [TwoRegMiscCall.listed TwoRegMiscCall.erase].
  - intros (Hsize & Hrd & Hrn).
    split_listed Hsize.
    all: destruct m, T.
    all: vm_compute; try exact I; repeat split; reflexivity.
  - intros (Hsize & Hrd & Hrn).
    split_listed Hsize.
    all: destruct m.
    all: vm_compute; try exact I; repeat split; reflexivity.
Qed.

(** A call of a across lanes mnemonic is its call with zeroed operands, with the
    operands moved into the word. *)
Lemma AcrossLanes_relocate (c : AcrossLanesCall.t) (code : list Z) :
  AcrossLanesCall.listed c ->
  AcrossLanesCall.run c code
  = relocate (AcrossLanesCall.run (AcrossLanesCall.erase c) []) code
      (AcrossLanesCall.operands c).
Proof.
  destruct c; cbn [AcrossLanesCall.listed AcrossLanesCall.run
      AcrossLanesCall.erase AcrossLanesCall.operands].
  - intros (Hsize & Hrd & Hrn).
    split_listed Hsize.
    all: destruct m, T.
    all: unfold_across;
      unfold IsStandardFloatSize; run_guards; by_encoder.
Qed.

(** The fixed bits of a across lanes call single it out among the calls of the
    category. *)
Lemma AcrossLanes_decodes (c : AcrossLanesCall.t) :
  AcrossLanesCall.listed c ->
  decodes AcrossLanesCall.run AcrossLanesCall.mask
      (fun c => c) AcrossLanesCall.table (AcrossLanesCall.erase c).
Proof.
  destruct c; cbn [AcrossLanesCall.listed AcrossLanesCall.erase].
  - intros (Hsize & Hrd & Hrn).
    split_listed Hsize.
    all: destruct m, T.
    all: vm_compute; try exact I; repeat split; reflexivity.
Qed.

(** A call of a three different mnemonic is its call with zeroed operands, with
    the
    operands moved into the word. *)
Lemma ThreeDifferent_relocate (c : ThreeDifferentCall.t) (code : list Z) :
  ThreeDifferentCall.listed c ->
  ThreeDifferentCall.run c code
  = relocate (ThreeDifferentCall.run (ThreeDifferentCall.erase c) []) code
      (ThreeDifferentCall.operands c).
Proof.
  destruct c; cbn [ThreeDifferentCall.listed ThreeDifferentCall.run
      ThreeDifferentCall.erase ThreeDifferentCall.operands].
  - intros (Hsize & Hrd & Hrn & Hrm).
    split_listed Hsize.
    all: destruct m.
    all: unfold_threediff;
      unfold IsStandardFloatSize; run_guards; by_encoder.
Qed.

(** The fixed bits of a three different call single it out among the calls of
    the
    category. *)
Lemma ThreeDifferent_decodes (c : ThreeDifferentCall.t) :
  ThreeDifferentCall.listed c ->
  decodes ThreeDifferentCall.run ThreeDifferentCall.mask
      (fun c => c) ThreeDifferentCall.table (ThreeDifferentCall.erase c).
Proof.
  destruct c; cbn [ThreeDifferentCall.listed ThreeDifferentCall.erase].
  - intros (Hsize & Hrd & Hrn & Hrm).
    split_listed Hsize.
    all: destruct m.
    all: vm_compute; try exact I; repeat split; reflexivity.
Qed.

(** A call of a three same mnemonic is its call with zeroed operands, with the
    operands moved into the word. *)
Lemma ThreeSame_relocate (c : ThreeSameCall.t) (code : list Z) :
  ThreeSameCall.listed c ->
  ThreeSameCall.run c code
  = relocate (ThreeSameCall.run (ThreeSameCall.erase c) []) code
      (ThreeSameCall.operands c).
Proof.
  destruct c; cbn [ThreeSameCall.listed ThreeSameCall.run ThreeSameCall.erase
      ThreeSameCall.operands].
  - intros (Hsize & Hrd & Hrn & Hrm).
    split_listed Hsize.
    all: destruct m, T.
    all: unfold_threesame; unfold_float; cbv [ThreeSame.orr ThreeSame.mov];
      unfold IsStandardFloatSize; run_guards; by_encoder.
  - intros (Hrd & Hrn & Hrm).
    all: destruct m, T.
    all: unfold_threesame; unfold_float; cbv [ThreeSame.orr ThreeSame.mov];
      unfold IsStandardFloatSize; run_guards; by_encoder.
  - intros (Hsize & Hrd & Hrn & Hrm).
    split_listed Hsize.
    all: destruct m, T.
    all: unfold_threesame; unfold_float; cbv [ThreeSame.orr ThreeSame.mov];
      unfold IsStandardFloatSize; run_guards; by_encoder.
  - intros (Hrd & Hrn & Hrm).
    all: destruct T.
    all: unfold_threesame; unfold_float; cbv [ThreeSame.orr ThreeSame.mov];
      unfold IsStandardFloatSize; run_guards; by_encoder.
  - intros (Hrd & Hrn).
    all: destruct T.
    all: unfold_threesame; unfold_float; cbv [ThreeSame.orr ThreeSame.mov];
      unfold IsStandardFloatSize; run_guards; by_encoder.
Qed.

(** The fixed bits of a three same call single it out among the calls of the
    category. *)
Lemma ThreeSame_decodes (c : ThreeSameCall.t) :
  ThreeSameCall.listed c ->
  decodes ThreeSameCall.run ThreeSameCall.mask ThreeSameCall.alias
      ThreeSameCall.table (ThreeSameCall.erase c).
Proof.
  destruct c; cbn [ThreeSameCall.listed ThreeSameCall.erase].
  - intros (Hsize & Hrd & Hrn & Hrm).
    split_listed Hsize.
    all: destruct m, T.
    all: vm_compute; try exact I; repeat split; reflexivity.
  - intros (Hrd & Hrn & Hrm).
    all: destruct m, T.
    all: vm_compute; try exact I; repeat split; reflexivity.
  - intros (Hsize & Hrd & Hrn & Hrm).
    split_listed Hsize.
    all: destruct m, T.
    all: vm_compute; try exact I; repeat split; reflexivity.
  - intros (Hrd & Hrn & Hrm).
    all: destruct T.
    all: vm_compute; try exact I; repeat split; reflexivity.
  - intros (Hrd & Hrn).
    all: destruct T.
    all: vm_compute; try exact I; repeat split; reflexivity.
Qed.

(** The operands of a cryptographic call lie in their fields. *)
Lemma Crypto_operands (c : CryptoCall.t) :
  CryptoCall.listed c -> within (CryptoCall.operands c) (CryptoCall.mask c).
Proof.
  destruct c; cbn [CryptoCall.listed CryptoCall.operands CryptoCall.mask];
    intros L; decompose [and] L; fields_of_operands.
Qed.

(** A cryptographic call is the call with zeroed operands together with its
    operands. *)
Lemma Crypto_rebuild (c1 c2 : CryptoCall.t) :
  CryptoCall.listed c1 -> CryptoCall.listed c2 ->
  CryptoCall.erase c1 = CryptoCall.erase c2 ->
  CryptoCall.operands c1 = CryptoCall.operands c2 ->
  c1 = c2.
Proof.
  destruct c1, c2;
    cbn [CryptoCall.listed CryptoCall.operands CryptoCall.erase];
    intros L1 L2 E O; try discriminate E;
    decompose [and] L1; decompose [and] L2; injection E as; subst;
    f_equal; try assumption; first [lia | apply VReg_eq; lia].
Qed.

(** What the word of a cryptographic call tells. *)
Lemma Crypto_word (c : CryptoCall.t) (code : list Z) (w : Z) :
  CryptoCall.listed c -> CryptoCall.run c code = Done tt (code ++ [w]) ->
  classify w CryptoCall.table = Some (CryptoCall.erase c)
  /\ Z.land w (CryptoCall.mask c) = CryptoCall.operands c
  /\ 0 <= w < 2 ^ 32.
Proof.
  revert c code w.
  apply (emitted_word CryptoCall.run CryptoCall.erase
      (fun c => c) CryptoCall.operands CryptoCall.mask CryptoCall.listed
           CryptoCall.table).
  - intros c code'. apply Crypto_relocate.
  - apply Crypto_decodes.
  - now destruct c.
  - now destruct c.
  - apply Crypto_operands.
Qed.

Lemma Crypto_one_word (c : CryptoCall.t) (code : list Z) :
  CryptoCall.listed c ->
  (exists w, CryptoCall.run c code = Done tt (code ++ [w]) /\ 0 <= w < 2 ^ 32)
  \/ (exists msg, CryptoCall.run c code = Abort msg code).
Proof.
  revert c code.
  apply (one_word_or_failure CryptoCall.run CryptoCall.erase
      (fun c => c) CryptoCall.operands CryptoCall.mask
           CryptoCall.listed CryptoCall.table).
  - intros c code'. apply Crypto_relocate.
  - apply Crypto_decodes.
  - now destruct c.
  - now destruct c.
  - apply Crypto_operands.
Qed.

Lemma Crypto_same_call (c1 c2 : CryptoCall.t) (code : list Z) (w : Z) :
  CryptoCall.listed c1 -> CryptoCall.listed c2 ->
  CryptoCall.run c1 code = Done tt (code ++ [w]) ->
  CryptoCall.run c2 code = Done tt (code ++ [w]) ->
  c1 = c2.
Proof.
  apply (decoding_injective CryptoCall.run CryptoCall.erase
      (fun c => c) CryptoCall.operands CryptoCall.mask
           CryptoCall.listed CryptoCall.table).
  - intros c code'. apply Crypto_relocate.
  - apply Crypto_decodes.
  - now destruct c.
  - now destruct c.
  - apply Crypto_operands.
  - intros d1 d2; destruct d1, d2;
      cbn [CryptoCall.erase CryptoCall.mask];
      intros E; try discriminate E; reflexivity.
  - apply Crypto_rebuild.
Qed.

Lemma Crypto_reads (c : CryptoCall.t) (code : list Z) (w : Z) :
  CryptoCall.listed c -> CryptoCall.run c code = Done tt (code ++ [w]) ->
  Forall (reads w) (CryptoCall.fields c).
Proof.
  intros L H. destruct (Crypto_word c code w L H) as (_ & O & _).
  destruct c; cbn [CryptoCall.listed CryptoCall.fields CryptoCall.mask
      CryptoCall.operands] in *;
    decompose [and] L;
    repeat (apply Forall_cons; [read_operand O|]); apply Forall_nil.
Qed.

(** The operands of a permute call lie in their fields. *)
Lemma Permute_operands (c : PermuteCall.t) :
  PermuteCall.listed c -> within (PermuteCall.operands c) (PermuteCall.mask c).
Proof.
  destruct c; cbn [PermuteCall.listed PermuteCall.operands PermuteCall.mask];
    intros L; decompose [and] L; fields_of_operands.
Qed.

(** A permute call is the call with zeroed operands together with its
    operands. *)
Lemma Permute_rebuild (c1 c2 : PermuteCall.t) :
  PermuteCall.listed c1 -> PermuteCall.listed c2 ->
  PermuteCall.erase c1 = PermuteCall.erase c2 ->
  PermuteCall.operands c1 = PermuteCall.operands c2 ->
  c1 = c2.
Proof.
  destruct c1, c2;
    cbn [PermuteCall.listed PermuteCall.operands PermuteCall.erase];
    intros L1 L2 E O; try discriminate E;
    decompose [and] L1; decompose [and] L2; injection E as; subst;
    f_equal; try assumption; first [lia | apply VReg_eq; lia].
Qed.

(** What the word of a permute call tells. *)
Lemma Permute_word (c : PermuteCall.t) (code : list Z) (w : Z) :
  PermuteCall.listed c -> PermuteCall.run c code = Done tt (code ++ [w]) ->
  classify w PermuteCall.table = Some (PermuteCall.erase c)
  /\ Z.land w (PermuteCall.mask c) = PermuteCall.operands c
  /\ 0 <= w < 2 ^ 32.
Proof.
  revert c code w.
  apply (emitted_word PermuteCall.run PermuteCall.erase
      (fun c => c) PermuteCall.operands PermuteCall.mask PermuteCall.listed
           PermuteCall.table).
  - intros c code'. apply Permute_relocate.
  - apply Permute_decodes.
  - now destruct c.
  - now destruct c.
  - apply Permute_operands.
Qed.

Lemma Permute_one_word (c : PermuteCall.t) (code : list Z) :
  PermuteCall.listed c ->
  (exists w, PermuteCall.run c code = Done tt (code ++ [w]) /\ 0 <= w < 2 ^ 32)
  \/ (exists msg, PermuteCall.run c code = Abort msg code).
Proof.
  revert c code.
  apply (one_word_or_failure PermuteCall.run PermuteCall.erase
      (fun c => c) PermuteCall.operands PermuteCall.mask
           PermuteCall.listed PermuteCall.table).
  - intros c code'. apply Permute_relocate.
  - apply Permute_decodes.
  - now destruct c.
  - now destruct c.
  - apply Permute_operands.
Qed.

Lemma Permute_same_call (c1 c2 : PermuteCall.t) (code : list Z) (w : Z) :
  PermuteCall.listed c1 -> PermuteCall.listed c2 ->
  PermuteCall.run c1 code = Done tt (code ++ [w]) ->
  PermuteCall.run c2 code = Done tt (code ++ [w]) ->
  c1 = c2.
Proof.
  apply (decoding_injective PermuteCall.run PermuteCall.erase
      (fun c => c) PermuteCall.operands PermuteCall.mask
           PermuteCall.listed PermuteCall.table).
  - intros c code'. apply Permute_relocate.
  - apply Permute_decodes.
  - now destruct c.
  - now destruct c.
  - apply Permute_operands.
  - intros d1 d2; destruct d1, d2;
      cbn [PermuteCall.erase PermuteCall.mask];
      intros E; try discriminate E; reflexivity.
  - apply Permute_rebuild.
Qed.

Lemma Permute_reads (c : PermuteCall.t) (code : list Z) (w : Z) :
  PermuteCall.listed c -> PermuteCall.run c code = Done tt (code ++ [w]) ->
  Forall (reads w) (PermuteCall.fields c).
Proof.
  intros L H. destruct (Permute_word c code w L H) as (_ & O & _).
  destruct c; cbn [PermuteCall.listed PermuteCall.fields PermuteCall.mask
      PermuteCall.operands] in *;
    decompose [and] L;
    repeat (apply Forall_cons; [read_operand O|]); apply Forall_nil.
Qed.

(** The operands of a three-register extension call lie in their fields. *)
Lemma ThreeRegisterExt_operands (c : ThreeRegisterExtCall.t) :
  ThreeRegisterExtCall.listed c -> within (ThreeRegisterExtCall.operands c)
      (ThreeRegisterExtCall.mask c).
Proof.
  destruct c; cbn [ThreeRegisterExtCall.listed ThreeRegisterExtCall.operands
      ThreeRegisterExtCall.mask];
    intros L; decompose [and] L; fields_of_operands.
Qed.

(** A three-register extension call is the call with zeroed operands together
    with its
    operands. *)
Lemma ThreeRegisterExt_rebuild (c1 c2 : ThreeRegisterExtCall.t) :
  ThreeRegisterExtCall.listed c1 -> ThreeRegisterExtCall.listed c2 ->
  ThreeRegisterExtCall.erase c1 = ThreeRegisterExtCall.erase c2 ->
  ThreeRegisterExtCall.operands c1 = ThreeRegisterExtCall.operands c2 ->
  c1 = c2.
Proof.
  destruct c1, c2;
    cbn [ThreeRegisterExtCall.listed ThreeRegisterExtCall.operands
        ThreeRegisterExtCall.erase];
    intros L1 L2 E O; try discriminate E;
    decompose [and] L1; decompose [and] L2; injection E as; subst;
    f_equal; try assumption; first [lia | apply VReg_eq; lia].
Qed.

(** What the word of a three-register extension call tells. *)
Lemma ThreeRegisterExt_word (c : ThreeRegisterExtCall.t) (code : list Z)
    (w : Z) :
  ThreeRegisterExtCall.listed c -> ThreeRegisterExtCall.run c code = Done tt
      (code ++ [w]) ->
  classify w ThreeRegisterExtCall.table = Some (ThreeRegisterExtCall.erase c)
  /\ Z.land w (ThreeRegisterExtCall.mask c) = ThreeRegisterExtCall.operands c
  /\ 0 <= w < 2 ^ 32.
Proof.
  revert c code w.
  apply (emitted_word ThreeRegisterExtCall.run ThreeRegisterExtCall.erase
      (fun c => c) ThreeRegisterExtCall.operands ThreeRegisterExtCall.mask
      ThreeRegisterExtCall.listed
           ThreeRegisterExtCall.table).
  - intros c code'. apply ThreeRegisterExt_relocate.
  - apply ThreeRegisterExt_decodes.
  - now destruct c.
  - now destruct c.
  - apply ThreeRegisterExt_operands.
Qed.

Lemma ThreeRegisterExt_one_word (c : ThreeRegisterExtCall.t) (code : list Z) :
  ThreeRegisterExtCall.listed c ->
  (exists w, ThreeRegisterExtCall.run c code = Done tt
      (code ++ [w]) /\ 0 <= w < 2 ^ 32)
  \/ (exists msg, ThreeRegisterExtCall.run c code = Abort msg code).
Proof.
  revert c code.
  apply (one_word_or_failure ThreeRegisterExtCall.run ThreeRegisterExtCall.erase
      (fun c => c) ThreeRegisterExtCall.operands ThreeRegisterExtCall.mask
           ThreeRegisterExtCall.listed ThreeRegisterExtCall.table).
  - intros c code'. apply ThreeRegisterExt_relocate.
  - apply ThreeRegisterExt_decodes.
  - now destruct c.
  - now destruct c.
  - apply ThreeRegisterExt_operands.
Qed.

Lemma ThreeRegisterExt_same_call (c1 c2 : ThreeRegisterExtCall.t)
    (code : list Z) (w : Z) :
  ThreeRegisterExtCall.listed c1 -> ThreeRegisterExtCall.listed c2 ->
  ThreeRegisterExtCall.run c1 code = Done tt (code ++ [w]) ->
  ThreeRegisterExtCall.run c2 code = Done tt (code ++ [w]) ->
  c1 = c2.
Proof.
  apply (decoding_injective ThreeRegisterExtCall.run ThreeRegisterExtCall.erase
      (fun c => c) ThreeRegisterExtCall.operands ThreeRegisterExtCall.mask
           ThreeRegisterExtCall.listed ThreeRegisterExtCall.table).
  - intros c code'. apply ThreeRegisterExt_relocate.
  - apply ThreeRegisterExt_decodes.
  - now destruct c.
  - now destruct c.
  - apply ThreeRegisterExt_operands.
  - intros d1 d2; destruct d1, d2;
      cbn [ThreeRegisterExtCall.erase ThreeRegisterExtCall.mask];
      intros E; try discriminate E; reflexivity.
  - apply ThreeRegisterExt_rebuild.
Qed.

Lemma ThreeRegisterExt_reads (c : ThreeRegisterExtCall.t) (code : list Z)
    (w : Z) :
  ThreeRegisterExtCall.listed c -> ThreeRegisterExtCall.run c code = Done tt
      (code ++ [w]) ->
  Forall (reads w) (ThreeRegisterExtCall.fields c).
Proof.
  intros L H. destruct (ThreeRegisterExt_word c code w L H) as (_ & O & _).
  destruct c; cbn [ThreeRegisterExtCall.listed ThreeRegisterExtCall.fields
      ThreeRegisterExtCall.mask ThreeRegisterExtCall.operands] in *;
    decompose [and] L;
    repeat (apply Forall_cons; [read_operand O|]); apply Forall_nil.
Qed.

(** The operands of a two-register miscellaneous call lie in their fields. *)
Lemma TwoRegMisc_operands (c : TwoRegMiscCall.t) :
  TwoRegMiscCall.listed c -> within (TwoRegMiscCall.operands c)
      (TwoRegMiscCall.mask c).
Proof.
  destruct c; cbn [TwoRegMiscCall.listed TwoRegMiscCall.operands
      TwoRegMiscCall.mask];
    intros L; decompose [and] L; fields_of_operands.
Qed.

(** A two-register miscellaneous call is the call with zeroed operands together
    with its
    operands. *)
Lemma TwoRegMisc_rebuild (c1 c2 : TwoRegMiscCall.t) :
  TwoRegMiscCall.listed c1 -> TwoRegMiscCall.listed c2 ->
  TwoRegMiscCall.alias (TwoRegMiscCall.erase c1) = TwoRegMiscCall.alias
      (TwoRegMiscCall.erase c2) ->
  TwoRegMiscCall.operands c1 = TwoRegMiscCall.operands c2 ->
  TwoRegMiscCall.alias c1 = TwoRegMiscCall.alias c2.
Proof.
  destruct c1, c2;
    cbn [TwoRegMiscCall.listed TwoRegMiscCall.operands TwoRegMiscCall.erase
        TwoRegMiscCall.alias];
    intros L1 L2 E O; try discriminate E;
    decompose [and] L1; decompose [and] L2; injection E as; subst;
    f_equal; try assumption; first [lia | apply VReg_eq; lia].
Qed.

(** What the word of a two-register miscellaneous call tells. *)
Lemma TwoRegMisc_word (c : TwoRegMiscCall.t) (code : list Z) (w : Z) :
  TwoRegMiscCall.listed c -> TwoRegMiscCall.run c code = Done tt
      (code ++ [w]) ->
  classify w TwoRegMiscCall.table = Some (TwoRegMiscCall.alias
      (TwoRegMiscCall.erase c))
  /\ Z.land w (TwoRegMiscCall.mask c) = TwoRegMiscCall.operands c
  /\ 0 <= w < 2 ^ 32.
Proof.
  revert c code w.
  apply (emitted_word TwoRegMiscCall.run TwoRegMiscCall.erase
      TwoRegMiscCall.alias TwoRegMiscCall.operands TwoRegMiscCall.mask
      TwoRegMiscCall.listed
           TwoRegMiscCall.table).
  - intros c code'. apply TwoRegMisc_relocate.
  - apply TwoRegMisc_decodes.
  - now destruct c.
  - now destruct c.
  - apply TwoRegMisc_operands.
Qed.

Lemma TwoRegMisc_one_word (c : TwoRegMiscCall.t) (code : list Z) :
  TwoRegMiscCall.listed c ->
  (exists w, TwoRegMiscCall.run c code = Done tt
      (code ++ [w]) /\ 0 <= w < 2 ^ 32)
  \/ (exists msg, TwoRegMiscCall.run c code = Abort msg code).
Proof.
  revert c code.
  apply (one_word_or_failure TwoRegMiscCall.run TwoRegMiscCall.erase
      TwoRegMiscCall.alias TwoRegMiscCall.operands TwoRegMiscCall.mask
           TwoRegMiscCall.listed TwoRegMiscCall.table).
  - intros c code'. apply TwoRegMisc_relocate.
  - apply TwoRegMisc_decodes.
  - now destruct c.
  - now destruct c.
  - apply TwoRegMisc_operands.
Qed.

Lemma TwoRegMisc_same_call (c1 c2 : TwoRegMiscCall.t) (code : list Z) (w : Z) :
  TwoRegMiscCall.listed c1 -> TwoRegMiscCall.listed c2 ->
  TwoRegMiscCall.run c1 code = Done tt (code ++ [w]) ->
  TwoRegMiscCall.run c2 code = Done tt (code ++ [w]) ->
  TwoRegMiscCall.alias c1 = TwoRegMiscCall.alias c2.
Proof.
  apply (decoding_injective TwoRegMiscCall.run TwoRegMiscCall.erase
      TwoRegMiscCall.alias TwoRegMiscCall.operands TwoRegMiscCall.mask
           TwoRegMiscCall.listed TwoRegMiscCall.table).
  - intros c code'. apply TwoRegMisc_relocate.
  - apply TwoRegMisc_decodes.
  - now destruct c.
  - now destruct c.
  - apply TwoRegMisc_operands.
  - intros d1 d2; destruct d1, d2;
      cbn [TwoRegMiscCall.erase TwoRegMiscCall.alias TwoRegMiscCall.mask];
      intros E; try discriminate E; reflexivity.
  - apply TwoRegMisc_rebuild.
Qed.

Lemma TwoRegMisc_reads (c : TwoRegMiscCall.t) (code : list Z) (w : Z) :
  TwoRegMiscCall.listed c -> TwoRegMiscCall.run c code = Done tt
      (code ++ [w]) ->
  Forall (reads w) (TwoRegMiscCall.fields c).
Proof.
  intros L H. destruct (TwoRegMisc_word c code w L H) as (_ & O & _).
  destruct c; cbn [TwoRegMiscCall.listed TwoRegMiscCall.fields
      TwoRegMiscCall.mask TwoRegMiscCall.operands] in *;
    decompose [and] L;
    repeat (apply Forall_cons; [read_operand O|]); apply Forall_nil.
Qed.

(** The operands of a across lanes call lie in their fields. *)
Lemma AcrossLanes_operands (c : AcrossLanesCall.t) :
  AcrossLanesCall.listed c -> within (AcrossLanesCall.operands c)
      (AcrossLanesCall.mask c).
Proof.
  destruct c; cbn [AcrossLanesCall.listed AcrossLanesCall.operands
      AcrossLanesCall.mask];
    intros L; decompose [and] L; fields_of_operands.
Qed.

(** A across lanes call is the call with zeroed operands together with its
    operands. *)
Lemma AcrossLanes_rebuild (c1 c2 : AcrossLanesCall.t) :
  AcrossLanesCall.listed c1 -> AcrossLanesCall.listed c2 ->
  AcrossLanesCall.erase c1 = AcrossLanesCall.erase c2 ->
  AcrossLanesCall.operands c1 = AcrossLanesCall.operands c2 ->
  c1 = c2.
Proof.
  destruct c1, c2;
    cbn [AcrossLanesCall.listed AcrossLanesCall.operands AcrossLanesCall.erase];
    intros L1 L2 E O; try discriminate E;
    decompose [and] L1; decompose [and] L2; injection E as; subst;
    f_equal; try assumption; first [lia | apply VReg_eq; lia].
Qed.

(** What the word of a across lanes call tells. *)
Lemma AcrossLanes_word (c : AcrossLanesCall.t) (code : list Z) (w : Z) :
  AcrossLanesCall.listed c -> AcrossLanesCall.run c code = Done tt
      (code ++ [w]) ->
  classify w AcrossLanesCall.table = Some (AcrossLanesCall.erase c)
  /\ Z.land w (AcrossLanesCall.mask c) = AcrossLanesCall.operands c
  /\ 0 <= w < 2 ^ 32.
Proof.
  revert c code w.
  apply (emitted_word AcrossLanesCall.run AcrossLanesCall.erase
      (fun c => c) AcrossLanesCall.operands AcrossLanesCall.mask
      AcrossLanesCall.listed
           AcrossLanesCall.table).
  - intros c code'. apply AcrossLanes_relocate.
  - apply AcrossLanes_decodes.
  - now destruct c.
  - now destruct c.
  - apply AcrossLanes_operands.
Qed.

Lemma AcrossLanes_one_word (c : AcrossLanesCall.t) (code : list Z) :
  AcrossLanesCall.listed c ->
  (exists w, AcrossLanesCall.run c code = Done tt
      (code ++ [w]) /\ 0 <= w < 2 ^ 32)
  \/ (exists msg, AcrossLanesCall.run c code = Abort msg code).
Proof.
  revert c code.
  apply (one_word_or_failure AcrossLanesCall.run AcrossLanesCall.erase
      (fun c => c) AcrossLanesCall.operands AcrossLanesCall.mask
           AcrossLanesCall.listed AcrossLanesCall.table).
  - intros c code'. apply AcrossLanes_relocate.
  - apply AcrossLanes_decodes.
  - now destruct c.
  - now destruct c.
  - apply AcrossLanes_operands.
Qed.

Lemma AcrossLanes_same_call (c1 c2 : AcrossLanesCall.t) (code : list Z)
    (w : Z) :
  AcrossLanesCall.listed c1 -> AcrossLanesCall.listed c2 ->
  AcrossLanesCall.run c1 code = Done tt (code ++ [w]) ->
  AcrossLanesCall.run c2 code = Done tt (code ++ [w]) ->
  c1 = c2.
Proof.
  apply (decoding_injective AcrossLanesCall.run AcrossLanesCall.erase
      (fun c => c) AcrossLanesCall.operands AcrossLanesCall.mask
           AcrossLanesCall.listed AcrossLanesCall.table).
  - intros c code'. apply AcrossLanes_relocate.
  - apply AcrossLanes_decodes.
  - now destruct c.
  - now destruct c.
  - apply AcrossLanes_operands.
  - intros d1 d2; destruct d1, d2;
      cbn [AcrossLanesCall.erase AcrossLanesCall.mask];
      intros E; try discriminate E; reflexivity.
  - apply AcrossLanes_rebuild.
Qed.

Lemma AcrossLanes_reads (c : AcrossLanesCall.t) (code : list Z) (w : Z) :
  AcrossLanesCall.listed c -> AcrossLanesCall.run c code = Done tt
      (code ++ [w]) ->
  Forall (reads w) (AcrossLanesCall.fields c).
Proof.
  intros L H. destruct (AcrossLanes_word c code w L H) as (_ & O & _).
  destruct c; cbn [AcrossLanesCall.listed AcrossLanesCall.fields
      AcrossLanesCall.mask AcrossLanesCall.operands] in *;
    decompose [and] L;
    repeat (apply Forall_cons; [read_operand O|]); apply Forall_nil.
Qed.

(** The operands of a three different call lie in their fields. *)
Lemma ThreeDifferent_operands (c : ThreeDifferentCall.t) :
  ThreeDifferentCall.listed c -> within (ThreeDifferentCall.operands c)
      (ThreeDifferentCall.mask c).
Proof.
  destruct c; cbn [ThreeDifferentCall.listed ThreeDifferentCall.operands
      ThreeDifferentCall.mask];
    intros L; decompose [and] L; fields_of_operands.
Qed.

(** A three different call is the call with zeroed operands together with its
    operands. *)
Lemma ThreeDifferent_rebuild (c1 c2 : ThreeDifferentCall.t) :
  ThreeDifferentCall.listed c1 -> ThreeDifferentCall.listed c2 ->
  ThreeDifferentCall.erase c1 = ThreeDifferentCall.erase c2 ->
  ThreeDifferentCall.operands c1 = ThreeDifferentCall.operands c2 ->
  c1 = c2.
Proof.
  destruct c1, c2;
    cbn [ThreeDifferentCall.listed ThreeDifferentCall.operands
        ThreeDifferentCall.erase];
    intros L1 L2 E O; try discriminate E;
    decompose [and] L1; decompose [and] L2; injection E as; subst;
    f_equal; try assumption; first [lia | apply VReg_eq; lia].
Qed.

(** What the word of a three different call tells. *)
Lemma ThreeDifferent_word (c : ThreeDifferentCall.t) (code : list Z) (w : Z) :
  ThreeDifferentCall.listed c -> ThreeDifferentCall.run c code = Done tt
      (code ++ [w]) ->
  classify w ThreeDifferentCall.table = Some (ThreeDifferentCall.erase c)
  /\ Z.land w (ThreeDifferentCall.mask c) = ThreeDifferentCall.operands c
  /\ 0 <= w < 2 ^ 32.
Proof.
  revert c code w.
  apply (emitted_word ThreeDifferentCall.run ThreeDifferentCall.erase
      (fun c => c) ThreeDifferentCall.operands ThreeDifferentCall.mask
      ThreeDifferentCall.listed
           ThreeDifferentCall.table).
  - intros c code'. apply ThreeDifferent_relocate.
  - apply ThreeDifferent_decodes.
  - now destruct c.
  - now destruct c.
  - apply ThreeDifferent_operands.
Qed.

Lemma ThreeDifferent_one_word (c : ThreeDifferentCall.t) (code : list Z) :
  ThreeDifferentCall.listed c ->
  (exists w, ThreeDifferentCall.run c code = Done tt
      (code ++ [w]) /\ 0 <= w < 2 ^ 32)
  \/ (exists msg, ThreeDifferentCall.run c code = Abort msg code).
Proof.
  revert c code.
  apply (one_word_or_failure ThreeDifferentCall.run ThreeDifferentCall.erase
      (fun c => c) ThreeDifferentCall.operands ThreeDifferentCall.mask
           ThreeDifferentCall.listed ThreeDifferentCall.table).
  - intros c code'. apply ThreeDifferent_relocate.
  - apply ThreeDifferent_decodes.
  - now destruct c.
  - now destruct c.
  - apply ThreeDifferent_operands.
Qed.

Lemma ThreeDifferent_same_call (c1 c2 : ThreeDifferentCall.t) (code : list Z)
    (w : Z) :
  ThreeDifferentCall.listed c1 -> ThreeDifferentCall.listed c2 ->
  ThreeDifferentCall.run c1 code = Done tt (code ++ [w]) ->
  ThreeDifferentCall.run c2 code = Done tt (code ++ [w]) ->
  c1 = c2.
Proof.
  apply (decoding_injective ThreeDifferentCall.run ThreeDifferentCall.erase
      (fun c => c) ThreeDifferentCall.operands ThreeDifferentCall.mask
           ThreeDifferentCall.listed ThreeDifferentCall.table).
  - intros c code'. apply ThreeDifferent_relocate.
  - apply ThreeDifferent_decodes.
  - now destruct c.
  - now destruct c.
  - apply ThreeDifferent_operands.
  - intros d1 d2; destruct d1, d2;
      cbn [ThreeDifferentCall.erase ThreeDifferentCall.mask];
      intros E; try discriminate E; reflexivity.
  - apply ThreeDifferent_rebuild.
Qed.

Lemma ThreeDifferent_reads (c : ThreeDifferentCall.t) (code : list Z) (w : Z) :
  ThreeDifferentCall.listed c -> ThreeDifferentCall.run c code = Done tt
      (code ++ [w]) ->
  Forall (reads w) (ThreeDifferentCall.fields c).
Proof.
  intros L H. destruct (ThreeDifferent_word c code w L H) as (_ & O & _).
  destruct c; cbn [ThreeDifferentCall.listed ThreeDifferentCall.fields
      ThreeDifferentCall.mask ThreeDifferentCall.operands] in *;
    decompose [and] L;
    repeat (apply Forall_cons; [read_operand O|]); apply Forall_nil.
Qed.

(** The operands of a three same call lie in their fields. *)
Lemma ThreeSame_operands (c : ThreeSameCall.t) :
  ThreeSameCall.listed c -> within (ThreeSameCall.operands c)
      (ThreeSameCall.mask c).
Proof.
  destruct c; cbn [ThreeSameCall.listed ThreeSameCall.operands
      ThreeSameCall.mask];
    intros L; decompose [and] L; fields_of_operands.
Qed.

(** A three same call is the call with zeroed operands together with its
    operands. *)
Lemma ThreeSame_rebuild (c1 c2 : ThreeSameCall.t) :
  ThreeSameCall.listed c1 -> ThreeSameCall.listed c2 ->
  ThreeSameCall.alias (ThreeSameCall.erase c1) = ThreeSameCall.alias
      (ThreeSameCall.erase c2) ->
  ThreeSameCall.operands c1 = ThreeSameCall.operands c2 ->
  ThreeSameCall.alias c1 = ThreeSameCall.alias c2.
Proof.
  destruct c1, c2;
    cbn [ThreeSameCall.listed ThreeSameCall.operands ThreeSameCall.erase
        ThreeSameCall.alias];
    intros L1 L2 E O; try discriminate E;
    decompose [and] L1; decompose [and] L2; injection E as; subst;
    f_equal; try assumption; first [lia | apply VReg_eq; lia].
Qed.

(** What the word of a three same call tells. *)
Lemma ThreeSame_word (c : ThreeSameCall.t) (code : list Z) (w : Z) :
  ThreeSameCall.listed c -> ThreeSameCall.run c code = Done tt (code ++ [w]) ->
  classify w ThreeSameCall.table = Some (ThreeSameCall.alias
      (ThreeSameCall.erase c))
  /\ Z.land w (ThreeSameCall.mask c) = ThreeSameCall.operands c
  /\ 0 <= w < 2 ^ 32.
Proof.
  revert c code w.
  apply (emitted_word ThreeSameCall.run ThreeSameCall.erase ThreeSameCall.alias
      ThreeSameCall.operands ThreeSameCall.mask ThreeSameCall.listed
           ThreeSameCall.table).
  - intros c code'. apply ThreeSame_relocate.
  - apply ThreeSame_decodes.
  - now destruct c.
  - now destruct c.
  - apply ThreeSame_operands.
Qed.

Lemma ThreeSame_one_word (c : ThreeSameCall.t) (code : list Z) :
  ThreeSameCall.listed c ->
  (exists w, ThreeSameCall.run c code = Done tt
      (code ++ [w]) /\ 0 <= w < 2 ^ 32)
  \/ (exists msg, ThreeSameCall.run c code = Abort msg code).
Proof.
  revert c code.
  apply (one_word_or_failure ThreeSameCall.run ThreeSameCall.erase
      ThreeSameCall.alias ThreeSameCall.operands ThreeSameCall.mask
           ThreeSameCall.listed ThreeSameCall.table).
  - intros c code'. apply ThreeSame_relocate.
  - apply ThreeSame_decodes.
  - now destruct c.
  - now destruct c.
  - apply ThreeSame_operands.
Qed.

Lemma ThreeSame_same_call (c1 c2 : ThreeSameCall.t) (code : list Z) (w : Z) :
  ThreeSameCall.listed c1 -> ThreeSameCall.listed c2 ->
  ThreeSameCall.run c1 code = Done tt (code ++ [w]) ->
  ThreeSameCall.run c2 code = Done tt (code ++ [w]) ->
  ThreeSameCall.alias c1 = ThreeSameCall.alias c2.
Proof.
  apply (decoding_injective ThreeSameCall.run ThreeSameCall.erase
      ThreeSameCall.alias ThreeSameCall.operands ThreeSameCall.mask
           ThreeSameCall.listed ThreeSameCall.table).
  - intros c code'. apply ThreeSame_relocate.
  - apply ThreeSame_decodes.
  - now destruct c.
  - now destruct c.
  - apply ThreeSame_operands.
  - intros d1 d2; destruct d1, d2;
      cbn [ThreeSameCall.erase ThreeSameCall.alias ThreeSameCall.mask];
      intros E; try discriminate E; reflexivity.
  - apply ThreeSame_rebuild.
Qed.

Lemma ThreeSame_reads (c : ThreeSameCall.t) (code : list Z) (w : Z) :
  ThreeSameCall.listed c -> ThreeSameCall.run c code = Done tt (code ++ [w]) ->
  Forall (reads w) (ThreeSameCall.fields c).
Proof.
  intros L H. destruct (ThreeSame_word c code w L H) as (_ & O & _).
  destruct c; cbn [ThreeSameCall.listed ThreeSameCall.fields ThreeSameCall.mask
      ThreeSameCall.operands] in *;
    decompose [and] L;
    repeat (apply Forall_cons; [read_operand O|]); apply Forall_nil.
Qed.

(** ** Decoding *)

(** X6: for the cryptographic mnemonics (AES, SHA-1, SHA-256, SHA-512, SM3,
    SM4 and the three-way logic operations) the emitted word reads back the
    operands of the call, each in its field, and no other call of the category
    emits the same word. *)
Theorem crypto_word_decodes (c : CryptoCall.t)
    (code : list Z) (w : Z) :
  CryptoCall.listed c ->
  CryptoCall.run c code = Done tt (code ++ [w]) ->
  Forall (reads w) (CryptoCall.fields c)
  /\ forall c', CryptoCall.listed c' ->
       CryptoCall.run c' code = Done tt (code ++ [w]) ->
       c' = c.
Proof.
  intros L H. split; [now apply (Crypto_reads c code)|].
  intros c' L' H'. now apply (Crypto_same_call c' c code w).
Qed.

Lemma crypto_word_decodes_witness :
  exists w,
    CryptoCall.run
      (CryptoCall.ThreeRegImm Crypto.SM3TT1A (VReg 0) (VReg 1) (VReg 2) 3) []
    = Done tt ([] ++ [w])
    /\ Forall (reads w)
         (CryptoCall.fields
            (CryptoCall.ThreeRegImm Crypto.SM3TT1A (VReg 0) (VReg 1)
                (VReg 2) 3)).
Proof.
  eexists. split; [vm_compute; reflexivity|].
  refine (proj1 (crypto_word_decodes
                   (CryptoCall.ThreeRegImm Crypto.SM3TT1A (VReg 0) (VReg 1)
                       (VReg 2) 3)
                   [] _ _ _)).
  - cbn; repeat split; (lia || auto).
  - vm_compute; reflexivity.
Defined.

(** X7: for the permute mnemonics the emitted word reads back the operands of
    the call, each in its field, and no other call of the category emits the
    same word. *)
Theorem permute_word_decodes (c : PermuteCall.t)
    (code : list Z) (w : Z) :
  PermuteCall.listed c ->
  PermuteCall.run c code = Done tt (code ++ [w]) ->
  Forall (reads w) (PermuteCall.fields c)
  /\ forall c', PermuteCall.listed c' ->
       PermuteCall.run c' code = Done tt (code ++ [w]) ->
       c' = c.
Proof.
  intros L H. split; [now apply (Permute_reads c code)|].
  intros c' L' H'. now apply (Permute_same_call c' c code w).
Qed.

Lemma permute_word_decodes_witness :
  exists w,
    PermuteCall.run
      (PermuteCall.Op Permute.ZIP1 DRegister i8Bit (VReg 0) (VReg 1)
          (VReg 2)) []
    = Done tt ([] ++ [w])
    /\ Forall (reads w)
         (PermuteCall.fields
            (PermuteCall.Op Permute.ZIP1 DRegister i8Bit (VReg 0) (VReg 1)
                (VReg 2))).
Proof.
  eexists. split; [vm_compute; reflexivity|].
  refine (proj1 (permute_word_decodes
                   (PermuteCall.Op Permute.ZIP1 DRegister i8Bit (VReg 0)
                       (VReg 1) (VReg 2))
                   [] _ _ _)).
  - cbn; repeat split; (lia || auto).
  - vm_compute; reflexivity.
Defined.

(** X8: for the three-register extension mnemonics, [fcmla] and [fcadd] apart,
    the emitted word reads back the operands of the call, each in its field,
    and no other call of the category emits the same word. *)
Theorem three_register_ext_word_decodes (c : ThreeRegisterExtCall.t)
    (code : list Z) (w : Z) :
  ThreeRegisterExtCall.listed c ->
  ThreeRegisterExtCall.run c code = Done tt (code ++ [w]) ->
  Forall (reads w) (ThreeRegisterExtCall.fields c)
  /\ forall c', ThreeRegisterExtCall.listed c' ->
       ThreeRegisterExtCall.run c' code = Done tt (code ++ [w]) ->
       c' = c.
Proof.
  intros L H. split; [now apply (ThreeRegisterExt_reads c code)|].
  intros c' L' H'. now apply (ThreeRegisterExt_same_call c' c code w).
Qed.

Lemma three_register_ext_word_decodes_witness :
  exists w,
    ThreeRegisterExtCall.run
      (ThreeRegisterExtCall.Sized ThreeRegisterExt.SDOT QRegister i32Bit
     (VReg 0) (VReg 1) (VReg 2)) []
    = Done tt ([] ++ [w])
    /\ Forall (reads w)
         (ThreeRegisterExtCall.fields
            (ThreeRegisterExtCall.Sized ThreeRegisterExt.SDOT QRegister i32Bit
     (VReg 0) (VReg 1) (VReg 2))).
Proof.
  eexists. split; [vm_compute; reflexivity|].
  refine (proj1 (three_register_ext_word_decodes
                   (ThreeRegisterExtCall.Sized ThreeRegisterExt.SDOT QRegister
                       i32Bit
     (VReg 0) (VReg 1) (VReg 2))
                   [] _ _ _)).
  - cbn; repeat split; (lia || auto).
  - vm_compute; reflexivity.
Defined.

(** X9: for the two-register miscellaneous mnemonics the emitted word reads
    back the operands of the call, each in its field, and no other call of the
    category emits the same word, up to the two names [not_] and [mvn] of one
    instruction. *)
Theorem two_reg_misc_word_decodes (c : TwoRegMiscCall.t)
    (code : list Z) (w : Z) :
  TwoRegMiscCall.listed c ->
  TwoRegMiscCall.run c code = Done tt (code ++ [w]) ->
  Forall (reads w) (TwoRegMiscCall.fields c)
  /\ forall c', TwoRegMiscCall.listed c' ->
       TwoRegMiscCall.run c' code = Done tt (code ++ [w]) ->
       TwoRegMiscCall.alias c' = TwoRegMiscCall.alias c.
Proof.
  intros L H. split; [now apply (TwoRegMisc_reads c code)|].
  intros c' L' H'. now apply (TwoRegMisc_same_call c' c code w).
Qed.

Lemma two_reg_misc_word_decodes_witness :
  TwoRegMiscCall.alias
    (TwoRegMiscCall.Templated TwoRegMisc.MVN QRegister i8Bit (VReg 1) (VReg 2))
  = TwoRegMiscCall.alias
      (TwoRegMiscCall.Templated TwoRegMisc.NOT QRegister i8Bit (VReg 1)
          (VReg 2)).
Proof.
  refine (proj2 (two_reg_misc_word_decodes
                   (TwoRegMiscCall.Templated TwoRegMisc.NOT QRegister i8Bit
                       (VReg 1) (VReg 2))
                   [] _ _ _) _ _ _).
  - cbn; repeat split; (lia || auto).
  - vm_compute; reflexivity.
  - cbn; repeat split; (lia || auto).
  - vm_compute; reflexivity.
Defined.

(** X10: for the across-lanes mnemonics, on element sizes of 8 to 64 bits, the
    emitted word reads back the operands of the call, each in its field, and
    no other call of the category emits the same word. *)
Theorem across_lanes_word_decodes (c : AcrossLanesCall.t)
    (code : list Z) (w : Z) :
  AcrossLanesCall.listed c ->
  AcrossLanesCall.run c code = Done tt (code ++ [w]) ->
  Forall (reads w) (AcrossLanesCall.fields c)
  /\ forall c', AcrossLanesCall.listed c' ->
       AcrossLanesCall.run c' code = Done tt (code ++ [w]) ->
       c' = c.
Proof.
  intros L H. split; [now apply (AcrossLanes_reads c code)|].
  intros c' L' H'. now apply (AcrossLanes_same_call c' c code w).
Qed.

Lemma across_lanes_word_decodes_witness :
  exists w,
    AcrossLanesCall.run
      (AcrossLanesCall.Reduce AcrossLanes.FMAXNMV QRegister i32Bit (VReg 0)
          (VReg 1)) []
    = Done tt ([] ++ [w])
    /\ Forall (reads w)
         (AcrossLanesCall.fields
            (AcrossLanesCall.Reduce AcrossLanes.FMAXNMV QRegister i32Bit
                (VReg 0) (VReg 1))).
Proof.
  eexists. split; [vm_compute; reflexivity|].
  refine (proj1 (across_lanes_word_decodes
                   (AcrossLanesCall.Reduce AcrossLanes.FMAXNMV QRegister i32Bit
                       (VReg 0) (VReg 1))
                   [] _ _ _)).
  - cbn; repeat split; (lia || auto).
  - vm_compute; reflexivity.
Defined.

(** X11: for the three-different mnemonics the emitted word reads back the
    operands of the call, each in its field, and no other call of the category
    emits the same word. *)
Theorem three_different_word_decodes (c : ThreeDifferentCall.t)
    (code : list Z) (w : Z) :
  ThreeDifferentCall.listed c ->
  ThreeDifferentCall.run c code = Done tt (code ++ [w]) ->
  Forall (reads w) (ThreeDifferentCall.fields c)
  /\ forall c', ThreeDifferentCall.listed c' ->
       ThreeDifferentCall.run c' code = Done tt (code ++ [w]) ->
       c' = c.
Proof.
  intros L H. split; [now apply (ThreeDifferent_reads c code)|].
  intros c' L' H'. now apply (ThreeDifferent_same_call c' c code w).
Qed.

Lemma three_different_word_decodes_witness :
  exists w,
    ThreeDifferentCall.run
      (ThreeDifferentCall.Op ThreeDifferent.SADDL2 i16Bit (VReg 0) (VReg 1)
          (VReg 2)) []
    = Done tt ([] ++ [w])
    /\ Forall (reads w)
         (ThreeDifferentCall.fields
            (ThreeDifferentCall.Op ThreeDifferent.SADDL2 i16Bit (VReg 0)
                (VReg 1) (VReg 2))).
Proof.
  eexists. split; [vm_compute; reflexivity|].
  refine (proj1 (three_different_word_decodes
                   (ThreeDifferentCall.Op ThreeDifferent.SADDL2 i16Bit (VReg 0)
                       (VReg 1) (VReg 2))
                   [] _ _ _)).
  - cbn; repeat split; (lia || auto).
  - vm_compute; reflexivity.
Defined.

(** X12: for the three-same mnemonics the emitted word reads back the operands
    of the call, each in its field, and no other call of the category emits
    the same word, up to [mov], which is [orr] with one source register twice.
        *)
Theorem three_same_word_decodes (c : ThreeSameCall.t)
    (code : list Z) (w : Z) :
  ThreeSameCall.listed c ->
  ThreeSameCall.run c code = Done tt (code ++ [w]) ->
  Forall (reads w) (ThreeSameCall.fields c)
  /\ forall c', ThreeSameCall.listed c' ->
       ThreeSameCall.run c' code = Done tt (code ++ [w]) ->
       ThreeSameCall.alias c' = ThreeSameCall.alias c.
Proof.
  intros L H. split; [now apply (ThreeSame_reads c code)|].
  intros c' L' H'. now apply (ThreeSame_same_call c' c code w).
Qed.

Lemma three_same_word_decodes_witness :
  ThreeSameCall.alias
    (ThreeSameCall.Mov QRegister (VReg 3) (VReg 4))
  = ThreeSameCall.alias
      (ThreeSameCall.Orr QRegister (VReg 3) (VReg 4) (VReg 4)).
Proof.
  refine (proj2 (three_same_word_decodes
                   (ThreeSameCall.Orr QRegister (VReg 3) (VReg 4) (VReg 4))
                   [] _ _ _) _ _ _).
  - cbn; repeat split; (lia || auto).
  - vm_compute; reflexivity.
  - cbn; repeat split; (lia || auto).
  - vm_compute; reflexivity.
Defined.
(** ** One word or nothing *)

(** X13: a call of a cryptographic, permute, three-register extension,
    two-register miscellaneous, across-lanes, three-different or three-same
    mnemonic, on an element size of the enumeration (of 8 to 64 bits for the
    across-lanes mnemonics) and registers v0 to v31, either appends exactly
    one 32-bit word to the stream or fails with a message and leaves the
    stream as it was. *)
Theorem register_calls_atomic (code : list Z) :
  (forall c, CryptoCall.listed c ->
             one_word_or_nothing (CryptoCall.run c code) code)
  /\ (forall c, PermuteCall.listed c ->
                one_word_or_nothing (PermuteCall.run c code) code)
  /\ (forall c, ThreeRegisterExtCall.listed c ->
                one_word_or_nothing (ThreeRegisterExtCall.run c code) code)
  /\ (forall c, TwoRegMiscCall.listed c ->
                one_word_or_nothing (TwoRegMiscCall.run c code) code)
  /\ (forall c, AcrossLanesCall.listed c ->
                one_word_or_nothing (AcrossLanesCall.run c code) code)
  /\ (forall c, ThreeDifferentCall.listed c ->
                one_word_or_nothing (ThreeDifferentCall.run c code) code)
  /\ (forall c, ThreeSameCall.listed c ->
                one_word_or_nothing (ThreeSameCall.run c code) code).
Proof.
  unfold one_word_or_nothing. repeat split; intros c L.
  - now apply Crypto_one_word.
  - now apply Permute_one_word.
  - now apply ThreeRegisterExt_one_word.
  - now apply TwoRegMisc_one_word.
  - now apply AcrossLanes_one_word.
  - now apply ThreeDifferent_one_word.
  - now apply ThreeSame_one_word.
Qed.

Lemma register_calls_atomic_witness :
  one_word_or_nothing
    (ThreeSameCall.run
       (ThreeSameCall.Sized ThreeSameInt.ADD DRegister i64Bit (VReg 0) (VReg 1)
          (VReg 2)) [])
    [].
Proof.
  apply (proj2 (proj2 (proj2 (proj2 (proj2 (proj2 (register_calls_atomic
                                                     []))))))).
  cbn. repeat split; (lia || auto 10).
Defined.

(** ** Half precision *)

(** The word of a templated two-register call, from the word of the call with
    zeroed operands. *)
Lemma TwoRegMisc_emitT_word (m : TwoRegMisc.Templated) (T : RegKind)
    (size : SubRegSize) (rd rn : VRegister) (code : list Z) (b : Z) :
  In size SubRegSizes -> 0 <= Idx rd < 32 -> 0 <= Idx rn < 32 ->
  TwoRegMisc.emitT m T size v0 v0 [] = Done tt [b] ->
  TwoRegMisc.emitT m T size rd rn code
  = Done tt (code ++ [b + (32 * Idx rn + Idx rd)]).
Proof.
  intros Hsize Hrd Hrn Hb.
  pose proof (TwoRegMisc_relocate
                (TwoRegMiscCall.Templated m T size rd rn) code) as R.
  cbn [TwoRegMiscCall.run TwoRegMiscCall.erase TwoRegMiscCall.operands
       TwoRegMiscCall.listed] in R.
  rewrite R by auto. now rewrite Hb.
Qed.

Lemma ThreeSame_emit_word (m : ThreeSame.FloatMnemonic) (T : RegKind)
    (size : SubRegSize) (rd rn rm : VRegister) (code : list Z) (b : Z) :
  In size SubRegSizes ->
  0 <= Idx rd < 32 -> 0 <= Idx rn < 32 -> 0 <= Idx rm < 32 ->
  ThreeSame.emit m T size v0 v0 v0 [] = Done tt [b] ->
  ThreeSame.emit m T size rd rn rm code
  = Done tt (code ++ [b + (65536 * Idx rm + 32 * Idx rn + Idx rd)]).
Proof.
  intros Hsize Hrd Hrn Hrm Hb.
  pose proof (ThreeSame_relocate
                (ThreeSameCall.Float m T size rd rn rm) code) as R.
  cbn [ThreeSameCall.run ThreeSameCall.erase ThreeSameCall.operands
       ThreeSameCall.listed] in R.
  rewrite R by auto. now rewrite Hb.
Qed.

(** Two words with the same operands agree on a field clear of the operand
    fields when their fixed bits do. *)
Lemma same_outside (b1 b2 r m p k : Z) :
  Z.land b1 m = 0 -> Z.land b2 m = 0 -> within r m -> field m p k = 0 ->
  field b1 p k = field b2 p k ->
  field (b1 + r) p k = field (b2 + r) p k.
Proof.
  intros H1 H2 Hr Hm E.
  now rewrite (field_from_base b1 r m), (field_from_base b2 r m).
Qed.

(** X14: every two-register floating-point mnemonic with a half-precision
    form emits, for 16-bit elements, a word that agrees with its word for
    32-bit elements on Q, on U (bit 29), on bit 23 and on the opcode (bits 16
    to 12); on the 128-bit register type its word for 64-bit elements is the
    one for 32-bit elements with bit 22 set. *)
Theorem two_reg_misc_half_precision (m : TwoRegMisc.Templated) (T : RegKind)
    (rd rn : VRegister) (code : list Z) :
  In m all_tworeg_half -> 0 <= Idx rd < 32 -> 0 <= Idx rn < 32 ->
  exists h s,
    TwoRegMisc.emitT m T i16Bit rd rn code = Done tt (code ++ [h])
    /\ TwoRegMisc.emitT m T i32Bit rd rn code = Done tt (code ++ [s])
    /\ field h 30 1 = field s 30 1
    /\ field h 29 1 = field s 29 1
    /\ field h 23 1 = field s 23 1
    /\ field h 12 5 = field s 12 5
    /\ (T = QRegister ->
        TwoRegMisc.emitT m T i64Bit rd rn code
        = Done tt (code ++ [s + 2 ^ 22])).
Proof.
  intros Hm Hrd Hrn.
  assert (Hops : within (32 * Idx rn + Idx rd) 0x3FF) by fields_of_operands.
  cbv [all_tworeg_half In] in Hm.
  repeat (destruct Hm as [<- | Hm]; [|]); try contradiction.
  all: destruct T.
  all: eexists; eexists.
  all: split; [apply TwoRegMisc_emitT_word;
                 [listed_size | assumption | assumption
                 | vm_compute; reflexivity]|].
  all: split; [apply TwoRegMisc_emitT_word;
                 [listed_size | assumption | assumption
                 | vm_compute; reflexivity]|].
  all: repeat (split; [apply (same_outside _ _ _ 0x3FF);
                         [reflexivity | reflexivity | exact Hops
                         | reflexivity | reflexivity]|]).
  all: intros E; try discriminate E.
  all: etransitivity;
    [apply TwoRegMisc_emitT_word;
       [listed_size | assumption | assumption | vm_compute; reflexivity]
    | same_word].
Qed.

Lemma two_reg_misc_half_precision_witness :
  exists h s,
    TwoRegMisc.emitT TwoRegMisc.FABS QRegister i16Bit (VReg 1) (VReg 2) []
    = Done tt ([] ++ [h])
    /\ TwoRegMisc.emitT TwoRegMisc.FABS QRegister i32Bit (VReg 1) (VReg 2) []
       = Done tt ([] ++ [s])
    /\ field h 30 1 = field s 30 1
    /\ field h 29 1 = field s 29 1
    /\ field h 23 1 = field s 23 1
    /\ field h 12 5 = field s 12 5
    /\ (QRegister = QRegister ->
        TwoRegMisc.emitT TwoRegMisc.FABS QRegister i64Bit (VReg 1) (VReg 2) []
        = Done tt ([] ++ [s + 2 ^ 22])).
Proof.
  apply (two_reg_misc_half_precision TwoRegMisc.FABS QRegister (VReg 1)
           (VReg 2) []); [cbn; tauto | cbn; lia | cbn; lia].
Defined.

(** X15: every three-register floating-point mnemonic emits, for 16-bit
    elements, a word that agrees with its word for 32-bit elements on Q, on U
    (bit 29), on bit 23 and on the low three bits of the opcode (bits 13 to
    11); on the 128-bit register type its word for 64-bit elements is the one
    for 32-bit elements with bit 22 set. *)
Theorem three_same_half_precision (m : ThreeSame.FloatMnemonic) (T : RegKind)
    (rd rn rm : VRegister) (code : list Z) :
  0 <= Idx rd < 32 -> 0 <= Idx rn < 32 -> 0 <= Idx rm < 32 ->
  exists h s,
    ThreeSame.emit m T i16Bit rd rn rm code = Done tt (code ++ [h])
    /\ ThreeSame.emit m T i32Bit rd rn rm code = Done tt (code ++ [s])
    /\ field h 30 1 = field s 30 1
    /\ field h 29 1 = field s 29 1
    /\ field h 23 1 = field s 23 1
    /\ field h 11 3 = field s 11 3
    /\ (T = QRegister ->
        ThreeSame.emit m T i64Bit rd rn rm code
        = Done tt (code ++ [s + 2 ^ 22])).
Proof.
  intros Hrd Hrn Hrm.
  assert (Hops : within (65536 * Idx rm + 32 * Idx rn + Idx rd) 0x1F03FF)
    by fields_of_operands.
  destruct m, T.
  all: eexists; eexists.
  all: split; [apply ThreeSame_emit_word;
                 [listed_size | assumption | assumption | assumption
                 | vm_compute; reflexivity]|].
  all: split; [apply ThreeSame_emit_word;
                 [listed_size | assumption | assumption | assumption
                 | vm_compute; reflexivity]|].
  all: repeat (split; [apply (same_outside _ _ _ 0x1F03FF);
                         [reflexivity | reflexivity | exact Hops
                         | reflexivity | reflexivity]|]).
  all: intros E; try discriminate E.
  all: etransitivity;
    [apply ThreeSame_emit_word;
       [listed_size | assumption | assumption | assumption
       | vm_compute; reflexivity]
    | same_word].
Qed.

Lemma three_same_half_precision_witness :
  exists h s,
    ThreeSame.emit ThreeSame.FABD QRegister i16Bit (VReg 1) (VReg 2) (VReg 3) []
    = Done tt ([] ++ [h])
    /\ ThreeSame.emit ThreeSame.FABD QRegister i32Bit (VReg 1) (VReg 2)
         (VReg 3) []
       = Done tt ([] ++ [s])
    /\ field h 30 1 = field s 30 1
    /\ field h 29 1 = field s 29 1
    /\ field h 23 1 = field s 23 1
    /\ field h 11 3 = field s 11 3
    /\ (QRegister = QRegister ->
        ThreeSame.emit ThreeSame.FABD QRegister i64Bit (VReg 1) (VReg 2)
          (VReg 3) []
        = Done tt ([] ++ [s + 2 ^ 22])).
Proof.
  apply (three_same_half_precision ThreeSame.FABD QRegister (VReg 1) (VReg 2)
           (VReg 3) []); cbn; lia.
Defined.

(** ** The routing of the floating-point three-same mnemonics *)

(** C9, as amended: every floating-point three-same mnemonic lets only the
    element sizes 16, 32 and 64 bits through its gate (64 bits on the 128-bit
    register type only) and routes 16 bits to the FP16 template, with a
    one-bit U, a one-bit a and a three-bit opcode; for 32 and 64 bits the
    mnemonics of [remaps_size] (fmul among them) call the integer three-same
    template with the 8-bit and the 16-bit enumerant, and the others with the
    enumerant they were given, beside a one-bit U and a five-bit opcode.  With
    registers v0 to v31 the emitted words show it: bits 22 and 21 read 10 for
    16-bit elements, the mark of the FP16 template; for 32 and 64 bits bit 21
    is set, the mark of the integer template, and bits 23 and 22 hold the
    enumerant. *)
Theorem float_three_same_routing (m : ThreeSame.FloatMnemonic)
    (T : RegKind) (rd rn rm : VRegister) (code : list Z) :
  (forall size : SubRegSize,
      IsStandardFloatSize size = false ->
      ThreeSame.emit m T size rd rn rm code
      = Abort "Only 16/32/64-bit subregsize supported" code)
  /\ (forall size : SubRegSize,
         IsStandardFloatSize size = true <->
         size = i16Bit \/ size = i32Bit \/ size = i64Bit)
  /\ (exists U a opcode,
         (U = 0 \/ U = 1) /\ (a = 0 \/ a = 1) /\ 0 <= opcode < 8
         /\ ThreeSame.emit m T i16Bit rd rn rm code
            = ASIMDThreeSameFP16 T U a opcode rm rn rd code)
  /\ (exists U opcode,
         (U = 0 \/ U = 1) /\ 0 <= opcode < 32
         /\ ThreeSame.emit m T i32Bit rd rn rm code
            = ASIMD3Same T U (if remaps_size m then i8Bit else i32Bit) opcode
                rd rn rm code
         /\ ThreeSame.emit m QRegister i64Bit rd rn rm code
            = ASIMD3Same QRegister U
                (if remaps_size m then i16Bit else i64Bit) opcode rd rn rm
                code)
  /\ ThreeSame.emit m DRegister i64Bit rd rn rm code
     = Abort "Invalid element size with 64-bit {}" code
  /\ (0 <= Idx rd < 32 -> 0 <= Idx rn < 32 -> 0 <= Idx rm < 32 ->
      exists h s d,
        ThreeSame.emit m T i16Bit rd rn rm code = Done tt (code ++ [h])
        /\ ThreeSame.emit m T i32Bit rd rn rm code = Done tt (code ++ [s])
        /\ ThreeSame.emit m QRegister i64Bit rd rn rm code
           = Done tt (code ++ [d])
        /\ field h 21 2 = bin "10"
        /\ field s 21 1 = 1
        /\ field s 22 2 = (if remaps_size m then i8Bit else i32Bit)
        /\ field d 21 1 = 1
        /\ field d 22 2 = (if remaps_size m then i16Bit else i64Bit)).
Proof.
  split; [intros size; apply float_gate|].
  split.
  { intros size. unfold IsStandardFloatSize.
    rewrite !Bool.orb_true_iff, !Z.eqb_eq. tauto. }
  split.
  { destruct m, T; do 3 eexists.
    all: split; [|split; [|split; [|reflexivity]]].
    all: first [left; reflexivity | right; reflexivity
               | vm_compute; split; [discriminate | reflexivity]]. }
  split.
  { destruct m, T; do 2 eexists.
    all: split; [|split; [|split; reflexivity]].
    all: first [left; reflexivity | right; reflexivity
               | vm_compute; split; [discriminate | reflexivity]]. }
  split; [destruct m; reflexivity|].
  intros Hrd Hrn Hrm.
  assert (Hops : within (65536 * Idx rm + 32 * Idx rn + Idx rd) 0x1F03FF)
    by fields_of_operands.
  destruct m, T.
  all: do 3 eexists.
  all: do 3 (split; [apply ThreeSame_emit_word;
                       [listed_size | assumption | assumption | assumption
                       | vm_compute; reflexivity]|]).
  all: repeat split.
  all: etransitivity;
    [apply (field_from_base _ _ 0x1F03FF);
     [reflexivity | exact Hops | reflexivity]
    | reflexivity].
Qed.

Lemma float_three_same_routing_witness :
  exists h s d,
    ThreeSame.emit ThreeSame.FMUL QRegister i16Bit (VReg 0) (VReg 1) (VReg 2) []
    = Done tt ([] ++ [h])
    /\ ThreeSame.emit ThreeSame.FMUL QRegister i32Bit (VReg 0) (VReg 1)
         (VReg 2) []
       = Done tt ([] ++ [s])
    /\ ThreeSame.emit ThreeSame.FMUL QRegister i64Bit (VReg 0) (VReg 1)
         (VReg 2) []
       = Done tt ([] ++ [d])
    /\ field h 21 2 = bin "10"
    /\ field s 21 1 = 1
    /\ field s 22 2 = (if remaps_size ThreeSame.FMUL then i8Bit else i32Bit)
    /\ field d 21 1 = 1
    /\ field d 22 2 = (if remaps_size ThreeSame.FMUL then i16Bit else i64Bit).
Proof.
  apply (proj2 (proj2 (proj2 (proj2 (proj2
           (float_three_same_routing ThreeSame.FMUL QRegister (VReg 0)
              (VReg 1) (VReg 2) [])))))); cbn; lia.
Defined.

(** ** Lanes *)

(** X16: on an element size of 8 to 64 bits an across-lanes mnemonic emits
    its word exactly when the size is one it has (8 to 32 bits of source
    elements for the integer ones, 16 or 32 bits for the floating-point ones)
    and the register holds at least four such elements; otherwise it fails
    and emits nothing. *)
Theorem across_lanes_four_lanes (m : AcrossLanes.Mnemonic) (T : RegKind)
    (size : SubRegSize) (rd rn : VRegister) (code : list Z) :
  In size ElementSizes ->
  (reduces m size = true ->
   4 * SizeInBits (reduced_size m size) <= RegisterBits T ->
   exists w, AcrossLanes.emit m T size rd rn code = Done tt (code ++ [w]))
  /\ (reduces m size = false
      \/ RegisterBits T < 4 * SizeInBits (reduced_size m size) ->
      exists msg, AcrossLanes.emit m T size rd rn code = Abort msg code).
Proof.
  intros Hsize. split_listed Hsize.
  all: destruct m, T.
  all: split; [intros Hr Hl | intros [Hr | Hl]].
  all: try discriminate Hr.
  all: try (vm_compute in Hl; exfalso; now apply Hl).
  all: try (vm_compute in Hl; discriminate Hl).
  all: unfold_across; run_guards;
    unfold ASIMDAcrossLanes, dc32; eexists; reflexivity.
Qed.

Lemma across_lanes_four_lanes_witness :
  exists w,
    AcrossLanes.emit AcrossLanes.UADDLV DRegister i32Bit (VReg 0) (VReg 1) []
    = Done tt ([] ++ [w]).
Proof.
  apply (proj1 (across_lanes_four_lanes AcrossLanes.UADDLV DRegister i32Bit
                  (VReg 0) (VReg 1) [] ltac:(cbn; tauto))).
  - reflexivity.
  - vm_compute; discriminate.
Defined.

(** ** Lower and upper halves *)

Lemma ThreeDifferent_emit_relocate (m : ThreeDifferent.Mnemonic)
    (size : SubRegSize) (rd rn rm : VRegister) (code : list Z) :
  In size SubRegSizes ->
  0 <= Idx rd < 32 -> 0 <= Idx rn < 32 -> 0 <= Idx rm < 32 ->
  ThreeDifferent.emit m size rd rn rm code
  = relocate (ThreeDifferent.emit m size v0 v0 v0 []) code
      (65536 * Idx rm + 32 * Idx rn + Idx rd).
Proof.
  intros Hsize Hrd Hrn Hrm.
  apply (ThreeDifferent_relocate (ThreeDifferentCall.Op m size rd rn rm) code).
  cbn; auto.
Qed.

Lemma TwoRegMisc_emitF_relocate (m : TwoRegMisc.Fixed) (size : SubRegSize)
    (rd rn : VRegister) (code : list Z) :
  In size SubRegSizes -> 0 <= Idx rd < 32 -> 0 <= Idx rn < 32 ->
  TwoRegMisc.emitF m size rd rn code
  = relocate (TwoRegMisc.emitF m size v0 v0 []) code (32 * Idx rn + Idx rd).
Proof.
  intros Hsize Hrd Hrn.
  apply (TwoRegMisc_relocate (TwoRegMiscCall.Fixed m size rd rn) code).
  cbn; auto.
Qed.

(** X17: a three-different mnemonic on the upper half (saddl2, ...) and a
    two-register narrowing or lengthening mnemonic on the upper half (xtn2,
    ...) behave as the mnemonic on the lower half: where that one emits a
    word, whose Q bit is clear, the upper one emits the same word with the Q
    bit set, and where it fails the upper one fails with the same message. *)
Theorem second_half_forms :
  (forall lo hi size rd rn rm code,
      In (lo, hi) threediff_halves -> In size SubRegSizes ->
      0 <= Idx rd < 32 -> 0 <= Idx rn < 32 -> 0 <= Idx rm < 32 ->
      (exists w,
          ThreeDifferent.emit lo size rd rn rm code = Done tt (code ++ [w])
          /\ ThreeDifferent.emit hi size rd rn rm code
             = Done tt (code ++ [w + 2 ^ 30])
          /\ field w 30 1 = 0)
      \/ (exists msg,
             ThreeDifferent.emit lo size rd rn rm code = Abort msg code
             /\ ThreeDifferent.emit hi size rd rn rm code = Abort msg code))
  /\ (forall lo hi size rd rn code,
         In (lo, hi) tworeg_halves -> In size SubRegSizes ->
         0 <= Idx rd < 32 -> 0 <= Idx rn < 32 ->
         (exists w,
             TwoRegMisc.emitF lo size rd rn code = Done tt (code ++ [w])
             /\ TwoRegMisc.emitF hi size rd rn code
                = Done tt (code ++ [w + 2 ^ 30])
             /\ field w 30 1 = 0)
         \/ (exists msg,
                TwoRegMisc.emitF lo size rd rn code = Abort msg code
                /\ TwoRegMisc.emitF hi size rd rn code = Abort msg code)).
Proof.
  split.
  - intros lo hi size rd rn rm code Hm Hsize Hrd Hrn Hrm.
    assert (Hops : within (65536 * Idx rm + 32 * Idx rn + Idx rd) 0x1F03FF)
      by fields_of_operands.
    rewrite (ThreeDifferent_emit_relocate lo size rd rn rm code),
      (ThreeDifferent_emit_relocate hi size rd rn rm code) by assumption.
    cbv [threediff_halves In] in Hm. split_listed Hsize.
    all: repeat (destruct Hm as [Hm | Hm]; [injection Hm as <- <-|]);
      try contradiction.
    all: run_probes.
    all: first
           [ left; eexists; split; [reflexivity|]; split; [same_word|];
             etransitivity;
             [apply (field_from_base _ _ 0x1F03FF);
              [reflexivity | exact Hops | reflexivity]
             | reflexivity]
           | right; eexists; split; reflexivity ].
  - intros lo hi size rd rn code Hm Hsize Hrd Hrn.
    assert (Hops : within (32 * Idx rn + Idx rd) 0x3FF)
      by fields_of_operands.
    rewrite (TwoRegMisc_emitF_relocate lo size rd rn code),
      (TwoRegMisc_emitF_relocate hi size rd rn code) by assumption.
    cbv [tworeg_halves In] in Hm. split_listed Hsize.
    all: repeat (destruct Hm as [Hm | Hm]; [injection Hm as <- <-|]);
      try contradiction.
    all: run_probes.
    all: first
           [ left; eexists; split; [reflexivity|]; split; [same_word|];
             etransitivity;
             [apply (field_from_base _ _ 0x3FF);
              [reflexivity | exact Hops | reflexivity]
             | reflexivity]
           | right; eexists; split; reflexivity ].
Qed.

Lemma second_half_forms_witness :
  (exists w,
      ThreeDifferent.emit ThreeDifferent.UMULL i16Bit (VReg 0) (VReg 1)
        (VReg 2) []
      = Done tt ([] ++ [w])
      /\ ThreeDifferent.emit ThreeDifferent.UMULL2 i16Bit (VReg 0) (VReg 1)
           (VReg 2) []
         = Done tt ([] ++ [w + 2 ^ 30])
      /\ field w 30 1 = 0)
  \/ (exists msg,
         ThreeDifferent.emit ThreeDifferent.UMULL i16Bit (VReg 0) (VReg 1)
           (VReg 2) []
         = Abort msg []
         /\ ThreeDifferent.emit ThreeDifferent.UMULL2 i16Bit (VReg 0) (VReg 1)
              (VReg 2) []
            = Abort msg []).
Proof.
  apply (proj1 second_half_forms ThreeDifferent.UMULL ThreeDifferent.UMULL2
           i16Bit (VReg 0) (VReg 1) (VReg 2) []).
  - cbv [threediff_halves In]. tauto.
  - cbn; tauto.
  - cbn; lia.
  - cbn; lia.
  - cbn; lia.
Defined.

(** ** Immediate operands *)

(** The fields of a word are those of its sum of powers. *)
Ltac field_by_division :=
  rewrite field_div_mod by lia;
  repeat match goal with
         | |- context [2 ^ Zpos ?k] =>
             let v := eval vm_compute in (2 ^ Zpos k) in
             change (2 ^ Zpos k) with v
         | |- context [2 ^ 0] => change (2 ^ 0) with 1
         end;
  Z.div_mod_to_equations; lia.

(** X18: ext takes a byte index that lies within the register, 0 to 15 on
    the 128-bit and 0 to 7 on the 64-bit register type: the emitted word
    carries the index in bits 14 to 11, the register type in Q and the
    registers in their fields; an index from the width of the register on is
    refused and nothing is emitted. *)
Theorem ext_byte_index (T : RegKind) (rd rn rm : VRegister) (Index : Z)
    (code : list Z) :
  0 <= Idx rd < 32 -> 0 <= Idx rn < 32 -> 0 <= Idx rm < 32 -> 0 <= Index ->
  (8 * Index < RegisterBits T ->
   exists w,
     Extract.ext T rd rn rm Index code = Done tt (code ++ [w])
     /\ field w 11 4 = Index /\ field w 30 1 = Q_of T
     /\ field w 0 5 = Idx rd /\ field w 5 5 = Idx rn
     /\ field w 16 5 = Idx rm)
  /\ (RegisterBits T <= 8 * Index ->
      exists msg, Extract.ext T rd rn rm Index code = Abort msg code).
Proof.
  intros Hrd Hrn Hrm HIndex.
  destruct T; cbv [RegisterBits Q_of]; split; intros H.
  all: unfold Extract.ext, bind, LOGMAN_THROW_A_FMT.
  all: match goal with
       | |- context [?i <? ?n] => destruct (Z.ltb_spec i n); try lia
       end.
  all: try (eexists; reflexivity).
  all: rewrite ASIMDExtract_relocate by first [assumption | lia | closed_bound].
  all: run_probes.
  all: eexists; split; [reflexivity|].
  all: repeat split; field_by_division.
Qed.

Lemma ext_byte_index_witness :
  exists w,
    Extract.ext DRegister (VReg 0) (VReg 1) (VReg 2) 7 []
    = Done tt ([] ++ [w])
    /\ field w 11 4 = 7 /\ field w 30 1 = Q_of DRegister
    /\ field w 0 5 = Idx (VReg 0) /\ field w 5 5 = Idx (VReg 1)
    /\ field w 16 5 = Idx (VReg 2).
Proof.
  apply (proj1 (ext_byte_index DRegister (VReg 0) (VReg 1) (VReg 2) 7 []
                  ltac:(cbn; lia) ltac:(cbn; lia) ltac:(cbn; lia)
                  ltac:(lia))).
  vm_compute; reflexivity.
Defined.

(** X19: the sm3tt mnemonics take an index of 0 to 3, which the emitted
    word carries in bits 13 and 12; a larger index is refused and nothing is
    emitted. *)
Theorem sm3tt_index_checked (m : Crypto.ThreeRegImm) (rd rn rm : VRegister)
    (index : Z) (code : list Z) :
  0 <= Idx rd < 32 -> 0 <= Idx rn < 32 -> 0 <= Idx rm < 32 -> 0 <= index ->
  (index <= 3 ->
   exists w,
     Crypto.emit3i m rd rn rm index code = Done tt (code ++ [w])
     /\ field w 12 2 = index)
  /\ (3 < index ->
      exists msg, Crypto.emit3i m rd rn rm index code = Abort msg code).
Proof.
  intros Hrd Hrn Hrm Hindex. split; intros H.
  - destruct m; unfold_crypto.
    all: rewrite Crypto3RegImm_relocate
      by first [assumption | lia | closed_bound].
    all: run_probes.
    all: eexists; split; [reflexivity|]; field_by_division.
  - destruct m; unfold_crypto.
    all: unfold Crypto3RegImm, bind, LOGMAN_THROW_A_FMT.
    all: match goal with
         | |- context [?i <=? 3] => destruct (Z.leb_spec i 3); try lia
         end.
    all: eexists; reflexivity.
Qed.

Lemma sm3tt_index_checked_witness :
  exists msg,
    Crypto.emit3i Crypto.SM3TT2B (VReg 0) (VReg 1) (VReg 2) 4 []
    = Abort msg [].
Proof.
  apply (proj2 (sm3tt_index_checked Crypto.SM3TT2B (VReg 0) (VReg 1) (VReg 2)
                  4 [] ltac:(cbn; lia) ltac:(cbn; lia) ltac:(cbn; lia)
                  ltac:(lia))).
  lia.
Defined.

(** X20: tbl and tbx with one to four table registers: when the table
    registers follow each other (one register always does) the emitted word
    carries the number of table registers less one in bits 14 and 13, tbx in
    bit 12, the register type of the destination in Q, and of the table only
    its first register, in the rn field; a table of several registers that do
    not follow each other is refused and nothing is emitted. *)
Theorem table_lookup_word (AreVectorsSequential : list VRegister -> bool)
    (extend : bool) (T : RegKind) (rd rn : VRegister) (rest : list VRegister)
    (rm : VRegister) (code : list Z) :
  0 <= Idx rd < 32 -> 0 <= Idx rn < 32 -> 0 <= Idx rm < 32 ->
  (List.length rest < 4)%nat ->
  (rest = [] \/ AreVectorsSequential (rn :: rest) = true ->
   exists w,
     lookup AreVectorsSequential extend T rd (rn :: rest) rm code
     = Done tt (code ++ [w])
     /\ field w 13 2 = Z.of_nat (List.length rest)
     /\ field w 12 1 = (if extend then 1 else 0)
     /\ field w 30 1 = Q_of T
     /\ field w 0 5 = Idx rd /\ field w 5 5 = Idx rn
     /\ field w 16 5 = Idx rm)
  /\ (rest <> [] -> AreVectorsSequential (rn :: rest) = false ->
      exists msg,
        lookup AreVectorsSequential extend T rd (rn :: rest) rm code
        = Abort msg code).
Proof.
  intros Hrd Hrn Hrm Hlen.
  destruct rest as [|rn2 [|rn3 [|rn4 [|? ?]]]];
    try (cbn [List.length] in Hlen; lia); clear Hlen.
  all: split; [intros H | intros Hne H; try (now contradiction Hne)].
  all: try (destruct H as [H | H]; [discriminate H|]).
  all: destruct extend, T;
    cbv [lookup Table.tbl Table.tbx Table.tbl2 Table.tbx2 Table.tbl3
         Table.tbx3 Table.tbl4 Table.tbx4 Q_of List.length Z.of_nat
         Pos.of_succ_nat Pos.succ].
  all: try rewrite H.
  all: unfold bind, LOGMAN_THROW_A_FMT.
  all: try (eexists; reflexivity).
  all: rewrite ASIMDTable_relocate by first [assumption | closed_bound].
  all: run_probes.
  all: eexists; split; [reflexivity|].
  all: repeat split; field_by_division.
Qed.

Lemma table_lookup_word_witness :
  exists w,
    lookup (fun _ => true) true QRegister (VReg 0)
      (VReg 4 :: [VReg 5; VReg 6]) (VReg 1) []
    = Done tt ([] ++ [w])
    /\ field w 13 2 = Z.of_nat (List.length [VReg 5; VReg 6])
    /\ field w 12 1 = 1
    /\ field w 30 1 = Q_of QRegister
    /\ field w 0 5 = Idx (VReg 0) /\ field w 5 5 = Idx (VReg 4)
    /\ field w 16 5 = Idx (VReg 1).
Proof.
  apply (proj1 (table_lookup_word (fun _ => true) true QRegister (VReg 0)
                  (VReg 4) [VReg 5; VReg 6] (VReg 1) []
                  ltac:(cbn; lia) ltac:(cbn; lia) ltac:(cbn; lia)
                  ltac:(cbn; lia))).
  right. reflexivity.
Defined.

(** ** The move immediate of 8-bit, 16-bit and 32-bit elements *)

(** The test on the immediate lets the values below 256 through. *)
Lemma fits_8bit_below (Imm : Z) :
  0 <= Imm < 2 ^ 64 -> ModifiedImm.fits_8bit Imm = (Imm <? 256).
Proof.
  intros H. unfold ModifiedImm.fits_8bit.
  change (u64 (Z.lnot 0xFF)) with (Z.shiftl (Z.ones 56) 8).
  destruct (Z.ltb_spec Imm 256) as [Hlt | Hge].
  - apply Z.eqb_eq. apply Z.bits_inj'. intros k Hk.
    rewrite Z.land_spec, Z.bits_0.
    destruct (Z.ltb_spec k 8) as [Hk8 | Hk8].
    + rewrite Z.shiftl_spec by lia.
      rewrite (Z.testbit_neg_r _ (k - 8)) by lia.
      apply Bool.andb_false_r.
    + rewrite (Z.bits_above_log2 Imm k); [reflexivity | lia |].
      destruct (Z.eq_dec Imm 0) as [-> | Hne]; [simpl; lia|].
      apply Z.log2_lt_pow2; [lia|].
      assert (2 ^ 8 <= 2 ^ k) by (apply Z.pow_le_mono_r; lia).
      change (2 ^ 8) with 256 in *. lia.
  - apply Z.eqb_neq. intros E.
    assert (Hlo : 8 <= Z.log2 Imm)
      by (apply Z.log2_le_pow2; [lia | change (2 ^ 8) with 256; lia]).
    assert (Hhi : Z.log2 Imm < 64) by (apply Z.log2_lt_pow2; lia).
    pose proof (f_equal (fun x => Z.testbit x (Z.log2 Imm)) E) as B.
    cbv beta in B.
    rewrite Z.land_spec, Z.bits_0, Z.bit_log2, Z.shiftl_spec in B by lia.
    rewrite Z.ones_spec_low in B by lia. discriminate B.
Qed.

(** The mode and the operation bit of a modified-immediate word are read back
    as they were given. *)
Lemma ASIMDModifiedImm_cmode (T : RegKind) (op cmode o2 imm : Z)
    (rd : VRegister) (code : list Z) :
  op = 0 \/ op = 1 -> 0 <= cmode < 16 -> o2 = 0 \/ o2 = 1 ->
  0 <= Idx rd < 32 ->
  exists w,
    ASIMDModifiedImm T op cmode o2 imm rd code = Done tt (code ++ [w])
    /\ field w 12 4 = cmode /\ field w 29 1 = op /\ field w 0 5 = Idx rd.
Proof.
  intros Hop Hcmode Ho2 Hrd.
  unfold ASIMDModifiedImm, dc32. cbv zeta.
  eexists. split; [reflexivity|].
  pose proof (land1_bit (Z.shiftr imm 7)) as H7.
  pose proof (land1_bit (Z.shiftr imm 6)) as H6.
  pose proof (land1_bit (Z.shiftr imm 5)) as H5.
  pose proof (land1_bit (Z.shiftr imm 4)) as H4.
  pose proof (land1_bit (Z.shiftr imm 3)) as H3.
  pose proof (land1_bit (Z.shiftr imm 2)) as H2.
  pose proof (land1_bit (Z.shiftr imm 1)) as H1.
  pose proof (land1_bit (Z.shiftr imm 0)) as H0.
  generalize dependent (Z.land (Z.shiftr imm 7) 1).
  generalize dependent (Z.land (Z.shiftr imm 6) 1).
  generalize dependent (Z.land (Z.shiftr imm 5) 1).
  generalize dependent (Z.land (Z.shiftr imm 4) 1).
  generalize dependent (Z.land (Z.shiftr imm 3) 1).
  generalize dependent (Z.land (Z.shiftr imm 2) 1).
  generalize dependent (Z.land (Z.shiftr imm 1) 1).
  generalize dependent (Z.land (Z.shiftr imm 0) 1).
  intros b0 H0 b1 H1 b2 H2 b3 H3 b4 H4 b5 H5 b6 H6 b7 H7.
  unfold Encode_rd.
  change (u32 (Idx rd)) with (shl32 (Idx rd) 0).
  rewrite !field_lor.
  destruct T, Hop as [-> | ->], Ho2 as [-> | ->]; cbv [Qbit]; closed_fields.
  all: rewrite (field_above b7 18 12 4), (field_above b6 17 12 4),
         (field_above b5 16 12 4), (field_hit cmode 12 4),
         (field_below b4 9 1 12 4), (field_below b3 8 1 12 4),
         (field_below b2 7 1 12 4), (field_below b1 6 1 12 4),
         (field_below b0 5 1 12 4), (field_below (Idx rd) 0 5 12 4),
         (field_below b7 18 1 29 1), (field_below b6 17 1 29 1),
         (field_below b5 16 1 29 1), (field_below cmode 12 4 29 1),
         (field_below b4 9 1 29 1), (field_below b3 8 1 29 1),
         (field_below b2 7 1 29 1), (field_below b1 6 1 29 1),
         (field_below b0 5 1 29 1), (field_below (Idx rd) 0 5 29 1),
         (field_above b7 18 0 5), (field_above b6 17 0 5),
         (field_above b5 16 0 5), (field_above cmode 12 0 5),
         (field_above b4 9 0 5), (field_above b3 8 0 5),
         (field_above b2 7 0 5), (field_above b1 6 0 5),
         (field_above b0 5 0 5), (field_hit (Idx rd) 0 5)
       by bounds.
  all: rewrite ?Z.lor_0_r, ?Z.lor_0_l; repeat split; reflexivity.
Qed.

(** The fields of a modified-immediate word. *)
Lemma ASIMDModifiedImm_word (T : RegKind) (op cmode o2 imm : Z)
    (rd : VRegister) (code : list Z) :
  op = 0 \/ op = 1 -> 0 <= cmode < 16 -> o2 = 0 \/ o2 = 1 ->
  0 <= imm < 256 -> 0 <= Idx rd < 32 ->
  exists w,
    ASIMDModifiedImm T op cmode o2 imm rd code = Done tt (code ++ [w])
    /\ imm8_of_word w = imm
    /\ field w 12 4 = cmode /\ field w 29 1 = op /\ field w 0 5 = Idx rd.
Proof.
  intros Hop Hcmode Ho2 Himm Hrd.
  destruct (ASIMDModifiedImm_fields T op cmode o2 imm rd code Hop Hcmode Ho2
              Himm Hrd) as (w & Hw & Himm8).
  destruct (ASIMDModifiedImm_cmode T op cmode o2 imm rd code Hop Hcmode Ho2
              Hrd) as (w' & Hw' & Hfields).
  rewrite Hw in Hw'. injection Hw' as Hw'.
  apply app_inv_head in Hw'. injection Hw' as <-.
  exists w. auto.
Qed.

(** X21: movi on 8-bit, 16-bit and 32-bit elements takes an immediate below
    256 and a left shift that is a multiple of 8 below the element size: the
    emitted word carries the immediate in its immediate bits, the operation
    bit 0, and mode bits that stand for the element size and the shift; any
    other immediate or shift is refused and nothing is emitted. *)
Theorem movi_shifted_round_trip (T : RegKind) (size : SubRegSize)
    (rd : VRegister) (Imm Shift : Z) (code : list Z) :
  In size [i8Bit; i16Bit; i32Bit] ->
  0 <= Imm < 2 ^ 64 -> 0 <= Shift < 2 ^ 16 -> 0 <= Idx rd < 32 ->
  (Imm < 256 -> Shift mod 8 = 0 -> Shift < SizeInBits size ->
   exists w,
     ModifiedImm.movi T size rd Imm Shift code = Done tt (code ++ [w])
     /\ imm8_of_word w = Imm
     /\ movi_form (field w 12 4) = (size, Shift)
     /\ field w 29 1 = 0)
  /\ (256 <= Imm \/ Shift mod 8 <> 0 \/ SizeInBits size <= Shift ->
      exists msg, ModifiedImm.movi T size rd Imm Shift code = Abort msg code).
Proof.
  intros Hsize HImm HShift Hrd.
  cbv [In] in Hsize.
  destruct Hsize as [<- | [<- | [<- | []]]].
  all: split.
  all: try (intros Hsmall Hmod Hlt; fold_sizes;
    assert (Hc : Shift = 0 \/ Shift = 8 \/ Shift = 16 \/ Shift = 24)
      by (Z.div_mod_to_equations; lia);
    destruct Hc as [-> | [-> | [-> | ->]]]; try lia;
    unfold ModifiedImm.movi; rewrite fits_8bit_below by assumption;
    replace (Imm <? 256) with true by (symmetry; apply Z.ltb_lt; lia);
    run_guards;
    unfold u32; rewrite (Z.mod_small Imm) by (bounds);
    match goal with
    | |- exists w, ASIMDModifiedImm ?T ?op ?cmode ?o2 ?imm ?rd ?code = _ /\ _ =>
        destruct (ASIMDModifiedImm_word T op cmode o2 imm rd code)
          as (w & Hw & Himm8 & Hcmode & Hop & _);
        [left; reflexivity
        | vm_compute; split; [discriminate | reflexivity]
        | left; reflexivity | lia | assumption |];
        exists w; split; [exact Hw|]; split; [exact Himm8|];
        split; [rewrite Hcmode; vm_compute; reflexivity | exact Hop]
    end).
  all: intros Hbad; fold_sizes; unfold ModifiedImm.movi;
    rewrite fits_8bit_below by assumption.
  all: destruct (Z.eqb_spec Shift 0), (Z.eqb_spec Shift 8),
         (Z.eqb_spec Shift 16), (Z.eqb_spec Shift 24), (Z.ltb_spec Imm 256);
       try (exfalso; Z.div_mod_to_equations; lia).
  all: run_guards; eexists; reflexivity.
Qed.

Lemma movi_shifted_round_trip_witness :
  exists w,
    ModifiedImm.movi QRegister i32Bit (VReg 3) 0xAB 16 []
    = Done tt ([] ++ [w])
    /\ imm8_of_word w = 0xAB
    /\ movi_form (field w 12 4) = (i32Bit, 16)
    /\ field w 29 1 = 0.
Proof.
  apply (proj1 (movi_shifted_round_trip QRegister i32Bit (VReg 3) 0xAB 16 []
                  ltac:(cbn; tauto) ltac:(lia) ltac:(lia) ltac:(cbn; lia))).
  - lia.
  - reflexivity.
  - vm_compute; reflexivity.
Defined.

(** ** Load and store of a single structure *)

Lemma lor_below_8 (a b : Z) : 0 <= a < 8 -> 0 <= b < 2 -> 0 <= Z.lor a b < 8.
Proof.
  intros Ha Hb.
  assert (Ca : a = 0 \/ a = 1 \/ a = 2 \/ a = 3 \/ a = 4 \/ a = 5 \/ a = 6
               \/ a = 7) by lia.
  assert (Cb : b = 0 \/ b = 1) by lia.
  destruct Cb as [-> | ->];
    repeat (destruct Ca as [-> | Ca];
            [vm_compute; split; discriminate || reflexivity|]);
    subst a; vm_compute; split; discriminate || reflexivity.
Qed.

Section LoadStoreWords.

Variable Register : Type.
Variable Encode_rt : VRegister -> Z.
Variable Encode_rn : Register -> Z.
Variable Encode_rm : Register -> Z.

(** The bits Q, S and size of a load or store word, when the registers leave
    them clear. *)
Lemma ASIMDLoadStore_lane_fields (Op L R opcode S size : Z) (rt : VRegister)
    (rn rm : Register) (code : list Z) :
  0 <= L < 2 -> 0 <= R < 2 -> 0 <= opcode < 8 -> 0 <= S < 2 ->
  0 <= size < 4 ->
  field Op 12 1 = 0 -> field Op 10 2 = 0 ->
  lane_fields_clear (Encode_rt rt) -> lane_fields_clear (Encode_rn rn) ->
  lane_fields_clear (Encode_rm rm) ->
  exists w,
    LoadStore.ASIMDLoadStore Register Encode_rt Encode_rn Encode_rm
      Op L R opcode S size rt rn rm code = Done tt (code ++ [w])
    /\ field w 30 1 = field Op 30 1
    /\ field w 12 1 = S /\ field w 10 2 = size.
Proof.
  intros HL HR Hopcode HS Hsize HOp12 HOp10 (Ht30 & Ht12 & Ht10)
    (Hn30 & Hn12 & Hn10) (Hm30 & Hm12 & Hm10).
  unfold LoadStore.ASIMDLoadStore, dc32. cbv zeta.
  eexists. split; [reflexivity|].
  rewrite !field_lor.
  rewrite Ht30, Ht12, Ht10, Hn30, Hn12, Hn10, Hm30, Hm12, Hm10, HOp12, HOp10.
  rewrite (field_below L 22 1 30 1), (field_below R 21 1 30 1),
    (field_below opcode 13 3 30 1), (field_below S 12 1 30 1),
    (field_below size 10 2 30 1),
    (field_above L 22 12 1), (field_above R 21 12 1),
    (field_above opcode 13 12 1), (field_hit S 12 1),
    (field_below size 10 2 12 1),
    (field_above L 22 10 2), (field_above R 21 10 2),
    (field_above opcode 13 10 2), (field_above S 12 10 2),
    (field_hit size 10 2)
    by bounds.
  rewrite ?Z.lor_0_r, ?Z.lor_0_l. repeat split; reflexivity.
Qed.

(** X22: the load or store of one lane takes a lane of the element size, 0
    to [128 / size_in_bits - 1]: given an operation word, an opcode below 8, a
    count of 1 to 4 structures and register fields that leave Q, S and size
    clear, it emits one word from whose Q, S and size bits the lane is read
    back; a lane from [128 / size_in_bits] on is refused and nothing is
    emitted. *)
Theorem single_structure_lane_round_trip (size : SubRegSize) (Load : bool)
    (Count Op Opcode : Z) (rt : VRegister) (Index : Z) (rn rm : Register)
    (code : list Z) :
  In size ElementSizes -> 1 <= Count <= 4 -> 0 <= Opcode < 8 -> 0 <= Index ->
  lane_fields_clear Op -> lane_fields_clear (Encode_rt rt) ->
  lane_fields_clear (Encode_rn rn) -> lane_fields_clear (Encode_rm rm) ->
  (Index < 128 / SizeInBits size ->
   exists w,
     LoadStore.ASIMDSTLD_Index Register Encode_rt Encode_rn Encode_rm
       size Load Count Op Opcode rt Index rn rm code = Done tt (code ++ [w])
     /\ lane_of_word size w = Index)
  /\ (128 / SizeInBits size <= Index ->
      exists msg,
        LoadStore.ASIMDSTLD_Index Register Encode_rt Encode_rn Encode_rm
          size Load Count Op Opcode rt Index rn rm code = Abort msg code).
Proof.
  intros Hsize HCount HOpcode HIndex HOp Ht Hn Hm.
  destruct HOp as (HOp30 & HOp12 & HOp10).
  split_listed Hsize; fold_sizes.
  all: change (128 / 8) with 16; change (128 / 16) with 8;
    change (128 / 32) with 4; change (128 / 64) with 2.
  all: split; intros H.
  all: unfold LoadStore.ASIMDSTLD_Index, bind, LOGMAN_THROW_A_FMT.
  (* the index is out of range *)
  all: try (cbv [i8Bit i16Bit i32Bit i64Bit];
            match goal with
            | |- exists msg : string, _ => idtac
            end;
            repeat match goal with
                   | |- context [?i <? ?n] =>
                       destruct (Z.ltb_spec i n); try lia
                   end;
            cbn [Z.eqb Pos.eqb andb orb]; eexists; reflexivity).
  (* the index is a lane *)
  all: assert (Ci : Index = 0 \/ Index = 1 \/ Index = 2 \/ Index = 3
                    \/ Index = 4 \/ Index = 5 \/ Index = 6 \/ Index = 7
                    \/ Index = 8 \/ Index = 9 \/ Index = 10 \/ Index = 11
                    \/ Index = 12 \/ Index = 13 \/ Index = 14 \/ Index = 15)
         by lia.
  all: assert (Cc : Count = 1 \/ Count = 2 \/ Count = 3 \/ Count = 4) by lia.
  all: repeat (destruct Ci as [-> | Ci]; [|]); try subst Index; try lia.
  all: destruct Cc as [-> | [-> | [-> | ->]]].
  all: match goal with
       | |- context [if ?b then Done tt _ else _] => change b with true
       end; cbv beta iota zeta.
  all: match goal with
       | |- exists w,
           LoadStore.ASIMDLoadStore _ _ _ _ ?op ?L ?R ?opcode ?S0 ?sz ?vt ?xn
             ?xm ?c = _ /\ _ =>
           destruct (ASIMDLoadStore_lane_fields op L R opcode S0 sz vt xn xm c)
             as (w & Hw & H30 & H12 & H10);
           [destruct Load; closed_bound
           | closed_bound
           | first [apply lor_below_8; [assumption | closed_bound]]
           | closed_bound
           | closed_bound
           | rewrite field_lor, HOp12; reflexivity
           | rewrite field_lor, HOp10; reflexivity
           | assumption | assumption | assumption |];
           exists w; split; [exact Hw|];
           unfold lane_of_word; rewrite H30, H12, H10, field_lor, HOp30;
           reflexivity
       end.
Qed.

End LoadStoreWords.

Lemma single_structure_lane_round_trip_witness :
  exists w,
    LoadStore.ASIMDSTLD_Index VRegister Encode_rd Encode_rn Encode_rm
      i16Bit true 1 0x0D000000 (bin "010") (VReg 3) 5 (VReg 1) (VReg 2) []
    = Done tt ([] ++ [w])
    /\ lane_of_word i16Bit w = 5.
Proof.
  apply (proj1 (single_structure_lane_round_trip VRegister Encode_rd Encode_rn
                  Encode_rm i16Bit true 1 0x0D000000 (bin "010") (VReg 3) 5
                  (VReg 1) (VReg 2) []
                  ltac:(cbn; tauto) ltac:(lia)
                  ltac:(vm_compute; split; [discriminate | reflexivity])
                  ltac:(lia)
                  ltac:(vm_compute; auto) ltac:(vm_compute; auto)
                  ltac:(vm_compute; auto) ltac:(vm_compute; auto))).
  vm_compute; reflexivity.
Defined.

(** ** Copies of one lane *)

Section CopyLanes.

Variable ASIMDScalarCopy :
  Z -> Z -> Z -> Z -> VRegister -> VRegister -> Emit unit.
Variable XRegister WRegister Register : Type.
Variable ToVReg_X : XRegister -> VRegister.
Variable ToVReg_W : WRegister -> VRegister.
Variable ToVReg : Register -> VRegister.


End CopyLanes.

